(** * Checkout engine of the shop back end (main.go): model and properties

    The development follows the second, complete program text of main.go
    (the one with member ranks, points and the payment gateway):
    [getProductStock], [allocateStock], [calculateCouponDiscount],
    [calculateMemberRank], [getRankDiscountRate], [addPoints], [usePoints],
    [rollbackPoints], [updateUserPurchaseAmountAndRank] and
    [createOrderHandler].

    Conventions of the embedding.
    - A Go [int] is a [Z] in the range of [int64]; every [+], [-] and [*]
      of the source is written with its wrap-around ([add64], [sub64],
      [mul64]); [/] is truncated division ([Z.quot]).
    - A Go [float64] is a [spec_float] at precision 53 and exponent bound
      1024, with the operations of the IEEE 754 model of the Standard
      Library.
    - The package-level maps are the fields of one [Store]; a map of
      pointers ([map[string]*Stock]) is a map of records, and a write
      through the pointer is an update of the entry.
    - [range] over a Go map visits the entries in an order the language
      leaves open and which may differ from run to run.  The order is an
      input of the model: a [Runtime] supplies, for every map that is
      ranged over, a list of its entries, and [runtime_ok] says that the
      list is a permutation of the entries.
    - Locks are not modelled: one call runs alone. *)

From Stdlib Require Import ZArith Lia Bool.
From Stdlib Require Import Ascii.
From Stdlib Require Import Floats.SpecFloat.
From stdpp Require Import gmap strings list fin_maps pretty.

Open Scope Z_scope.

(** ** Go integers *)

Definition wrap64 (z : Z) : Z := (z + 2 ^ 63) mod 2 ^ 64 - 2 ^ 63.
Definition add64 (a b : Z) : Z := wrap64 (a + b).
Definition sub64 (a b : Z) : Z := wrap64 (a - b).
Definition mul64 (a b : Z) : Z := wrap64 (a * b).

(** The values an [int] can hold. *)
Definition int_ok (z : Z) : Prop := - 2 ^ 63 <= z < 2 ^ 63.

#[global] Instance int_ok_dec z : Decision (int_ok z).
Proof. unfold int_ok. apply _. Defined.

(** ** Go float64 *)

Definition float64 : Type := spec_float.

(** [float64(n)]: the nearest double, ties to even. *)
Definition float64_of_int (n : Z) : float64 := binary_normalize 53 1024 n 0 false.

Definition float64_mul (x y : float64) : float64 := SFmul 53 1024 x y.

(** [int(f)]: the fraction is dropped.  A value that does not fit has an
    implementation-dependent result; amd64 yields the least [int]. *)
Definition int_of_float64 (f : float64) : Z :=
  match f with
  | S754_zero _ => 0
  | S754_finite s m e =>
      let mag := if 0 <=? e then Z.pos m * 2 ^ e else Z.pos m / 2 ^ (- e) in
      let v := if s then - mag else mag in
      if (- 2 ^ 63 <=? v) && (v <? 2 ^ 63) then v else - 2 ^ 63
  | _ => - 2 ^ 63
  end.

(** The literals [0.05], [0.03] and [0.0] as doubles. *)
Definition float64_0_05 : float64 := S754_finite false 7205759403792794 (-57).
Definition float64_0_03 : float64 := S754_finite false 8646911284551352 (-58).
Definition float64_0_0 : float64 := S754_zero false.

(** ** Entities *)

Module Product.
Record t := mk { ID : Z; Name : string; Price : Z; Category : string }.
End Product.

Module Warehouse.
Record t := mk { ID : Z; Name : string }.
End Warehouse.

Module Stock.
Record t := mk { ProductID : Z; WarehouseID : Z; Quantity : Z }.
Definition setQuantity (s : t) (q : Z) : t :=
  mk (ProductID s) (WarehouseID s) q.
End Stock.

Module StockWarehouse.
Record t := mk { WarehouseName : string; Quantity : Z }.
End StockWarehouse.

Module User.
Record t := mk {
  ID : Z; Username : string; PasswordHash : string; IsAdmin : bool;
  Token : string; CurrentPoints : Z; TotalSpentAmount : Z; MemberRank : string }.
Definition setCurrentPoints (u : t) (p : Z) : t :=
  mk (ID u) (Username u) (PasswordHash u) (IsAdmin u) (Token u) p
     (TotalSpentAmount u) (MemberRank u).
Definition setSpentAndRank (u : t) (spent : Z) (rank : string) : t :=
  mk (ID u) (Username u) (PasswordHash u) (IsAdmin u) (Token u)
     (CurrentPoints u) spent rank.
End User.

Module OrderItem.
Record t := mk { ProductID : Z; Quantity : Z }.
End OrderItem.

Module Order.
Record t := mk {
  ID : Z; UserID : Z; Items : list OrderItem.t; TotalPrice : Z;
  ShippingFee : Z; DiscountAmount : Z; AppliedCoupon : string;
  Status : string; CreatedAt : Z; EarnedPoints : Z; UsedPoints : Z;
  RankDiscount : Z }.
Definition setStatus (o : t) (s : string) : t :=
  mk (ID o) (UserID o) (Items o) (TotalPrice o) (ShippingFee o)
     (DiscountAmount o) (AppliedCoupon o) s (CreatedAt o) (EarnedPoints o)
     (UsedPoints o) (RankDiscount o).
End Order.

Module Coupon.
Record t := mk { Code : string; Type_ : string; Amount : Z; Description : string }.
End Coupon.

Module PointHistory.
Record t := mk {
  ID : Z; UserID : Z; OrderID : Z; Type_ : string; Amount : Z;
  Balance : Z; CreatedAt : Z }.
End PointHistory.

Module PaymentResult.
Record t := mk { Success : bool; TransactionID : string; Message : string }.
End PaymentResult.

(** ** The data store *)

Record Store := mkStore {
  products : gmap Z Product.t;
  warehouses : gmap Z Warehouse.t;
  stocks : gmap string Stock.t;          (* key: "productID-warehouseID" *)
  users : gmap Z User.t;
  orders : gmap Z Order.t;
  coupons : gmap string Coupon.t;
  pointHistories : gmap Z PointHistory.t;
  nextOrderID : Z;
  nextPointHistoryID : Z }.

Definition setStocks (st : Store) (s : gmap string Stock.t) : Store :=
  mkStore (products st) (warehouses st) s (users st) (orders st) (coupons st)
          (pointHistories st) (nextOrderID st) (nextPointHistoryID st).

Definition setUsers (st : Store) (u : gmap Z User.t) : Store :=
  mkStore (products st) (warehouses st) (stocks st) u (orders st) (coupons st)
          (pointHistories st) (nextOrderID st) (nextPointHistoryID st).

(** [pointHistories[nextPointHistoryID] = history; nextPointHistoryID++]
    together with the write of the user it belongs to. *)
Definition recordPoints (st : Store) (userID : Z) (u : User.t) (h : PointHistory.t) : Store :=
  mkStore (products st) (warehouses st) (stocks st) (<[userID := u]> (users st))
          (orders st) (coupons st)
          (<[nextPointHistoryID st := h]> (pointHistories st))
          (nextOrderID st) (add64 (nextPointHistoryID st) 1).

(** [nextOrderID++; orders[order.ID] = order]. *)
Definition saveOrder (st : Store) (o : Order.t) : Store :=
  mkStore (products st) (warehouses st) (stocks st) (users st)
          (<[Order.ID o := o]> (orders st)) (coupons st)
          (pointHistories st) (add64 (nextOrderID st) 1) (nextPointHistoryID st).

(** ** What the program takes from outside *)

Record Runtime := mkRuntime {
  (* the order in which [range stocks] visits the entries *)
  range_stocks : gmap string Stock.t -> list (string * Stock.t);
  (* the order in which [range allocations] visits the entries *)
  range_allocations : gmap Z Z -> list (Z * Z);
  (* paymentGateway.ProcessPayment *)
  ProcessPayment : Z -> Z -> PaymentResult.t;
  (* time.Now(), by the position of the call in the request *)
  time_Now : nat -> Z }.

Definition runtime_ok (rt : Runtime) : Prop :=
  (forall m, range_stocks rt m ≡ₚ map_to_list m) /\
  (forall m, range_allocations rt m ≡ₚ map_to_list m).

(** [fmt.Sprintf("%d-%d", productID, warehouseID)] *)
Definition stockKey (productID warehouseID : Z) : string :=
  pretty productID +:+ "-" +:+ pretty warehouseID.

(** ** Stock helpers *)

(** [getProductStock], lines 1222-1242. *)
Definition getProductStock (rt : Runtime) (st : Store) (productID : Z)
  : Z * list StockWarehouse.t :=
  foldl (fun (acc : Z * list StockWarehouse.t) (kv : string * Stock.t) =>
           let stock := snd kv in
           if (Stock.ProductID stock =? productID) && (0 <? Stock.Quantity stock) then
             match warehouses st !! Stock.WarehouseID stock with
             | Some warehouse =>
                 (add64 (fst acc) (Stock.Quantity stock),
                  snd acc ++ [StockWarehouse.mk (Warehouse.Name warehouse)
                                                (Stock.Quantity stock)])
             | None => acc
             end
           else acc)
        (0, []) (range_stocks rt (stocks st)).

(** The first loop of [allocateStock]: the stock lines of the product that
    hold something, in the order of the range. *)
Definition availableStocks (rt : Runtime) (s : gmap string Stock.t) (productID : Z)
  : list Stock.t :=
  snd <$> filter (fun kv : string * Stock.t =>
                    Stock.ProductID (snd kv) = productID /\ 0 < Stock.Quantity (snd kv))
                 (range_stocks rt s).

(** The second loop: draw from the lines in turn; [break] once nothing
    remains to be drawn. *)
Fixpoint allocate_loop (avail : list Stock.t) (allocations : gmap Z Z) (remaining : Z)
  : gmap Z Z * Z :=
  match avail with
  | [] => (allocations, remaining)
  | stock :: rest =>
      if remaining <=? 0 then (allocations, remaining)
      else if remaining <=? Stock.Quantity stock then
        allocate_loop rest (<[Stock.WarehouseID stock := remaining]> allocations) 0
      else
        allocate_loop rest
          (<[Stock.WarehouseID stock := Stock.Quantity stock]> allocations)
          (sub64 remaining (Stock.Quantity stock))
  end.

(** One turn of the third loop: [stock.Quantity -= quantity] when the key
    exists. *)
Definition decrement (productID : Z) (wq : Z * Z) (s : gmap string Stock.t)
  : gmap string Stock.t :=
  let key := stockKey productID (fst wq) in
  match s !! key with
  | Some stock =>
      <[key := Stock.setQuantity stock (sub64 (Stock.Quantity stock) (snd wq))]> s
  | None => s
  end.

Definition commit (productID : Z) (order : list (Z * Z)) (s : gmap string Stock.t)
  : gmap string Stock.t :=
  foldl (fun acc wq => decrement productID wq acc) s order.

(** [allocateStock], lines 1245-1288.  The function reads and writes the
    global [stocks] only: it takes the map and returns, with the pair of
    the source, the map after the call.  The [nil] map is the empty map. *)
Definition allocateStock (rt : Runtime) (s : gmap string Stock.t)
    (productID requiredQuantity : Z) : bool * gmap Z Z * gmap string Stock.t :=
  let '(allocations, remaining) :=
    allocate_loop (availableStocks rt s productID) ∅ requiredQuantity in
  if remaining =? 0 then
    (true, allocations, commit productID (range_allocations rt allocations) s)
  else (false, ∅, s).

(** [calculateCouponDiscount], lines 1291-1312; [nil] is [None]. *)
Definition calculateCouponDiscount (coupon : option Coupon.t) (baseAmount : Z) : Z :=
  match coupon with
  | None => 0
  | Some c =>
      if String.eqb (Coupon.Type_ c) "fixed" then
        let discount := Coupon.Amount c in
        if baseAmount <? discount then baseAmount else discount
      else if String.eqb (Coupon.Type_ c) "percentage" then
        let discount := Z.quot (mul64 baseAmount (Coupon.Amount c)) 100 in
        if baseAmount <? discount then baseAmount else discount
      else 0
  end.

(** ** Member ranks and points *)

(** [calculateMemberRank], lines 1535-1543. *)
Definition calculateMemberRank (totalSpent : Z) : string :=
  if 100000 <=? totalSpent then "Gold"
  else if 50000 <=? totalSpent then "Silver"
  else "Normal".

(** [getRankDiscountRate], lines 1546-1555. *)
Definition getRankDiscountRate (rank : string) : float64 :=
  if String.eqb rank "Gold" then float64_0_05
  else if String.eqb rank "Silver" then float64_0_03
  else float64_0_0.

(** [updateUserPurchaseAmountAndRank], lines 1558-1567. *)
Definition updateUserPurchaseAmountAndRank (st : Store) (userID amount : Z) : Store :=
  match users st !! userID with
  | Some user =>
      let spent := add64 (User.TotalSpentAmount user) amount in
      setUsers st (<[userID := User.setSpentAndRank user spent (calculateMemberRank spent)]>
                     (users st))
  | None => st
  end.

(** [addPoints], lines 1570-1592. *)
Definition addPoints (now : Z) (st : Store) (userID orderID points : Z) : Store :=
  match users st !! userID with
  | Some user =>
      let balance := add64 (User.CurrentPoints user) points in
      recordPoints st userID (User.setCurrentPoints user balance)
        (PointHistory.mk (nextPointHistoryID st) userID orderID "earned" points balance now)
  | None => st
  end.

(** [usePoints], lines 1595-1621. *)
Definition usePoints (now : Z) (st : Store) (userID orderID points : Z) : bool * Store :=
  match users st !! userID with
  | Some user =>
      if points <=? User.CurrentPoints user then
        let balance := sub64 (User.CurrentPoints user) points in
        (true,
         recordPoints st userID (User.setCurrentPoints user balance)
           (PointHistory.mk (nextPointHistoryID st) userID orderID "used" points balance now))
      else (false, st)
  | None => (false, st)
  end.

(** [rollbackPoints], lines 1624-1646. *)
Definition rollbackPoints (now : Z) (st : Store) (userID orderID points : Z) : Store :=
  match users st !! userID with
  | Some user =>
      let balance := add64 (User.CurrentPoints user) points in
      recordPoints st userID (User.setCurrentPoints user balance)
        (PointHistory.mk (nextPointHistoryID st) userID orderID "rollback" points balance now)
  | None => st
  end.

(** ** The amount to pay: lines 2019-2054 of [createOrderHandler] *)

Record Pricing := mkPricing {
  rankDiscountAmount : Z;
  discountedSubtotal : Z;
  tax : Z;
  subtotalWithTax : Z;
  shippingFee : Z;
  couponDiscountAmount : Z;
  afterCouponAmount : Z;
  afterPointsAmount : Z;
  totalPrice : Z;
  earnedPoints : Z }.

Definition rankDiscount (subtotal : Z) (rank : string) : Z :=
  int_of_float64 (float64_mul (float64_of_int subtotal) (getRankDiscountRate rank)).

Definition shippingFeeFor (rank : string) (subtotalWithTax : Z) : Z :=
  if negb (String.eqb rank "Gold") then
    if subtotalWithTax <? 5000 then 500 else 0
  else 0.

Definition computePricing (subtotal : Z) (currentUserRank : string)
    (appliedCoupon : option Coupon.t) (usePointsReq : Z) : Pricing :=
  let rankDiscountAmount := rankDiscount subtotal currentUserRank in
  let discountedSubtotal := sub64 subtotal rankDiscountAmount in
  let tax := Z.quot discountedSubtotal 10 in
  let subtotalWithTax := add64 discountedSubtotal tax in
  let shippingFee := shippingFeeFor currentUserRank subtotalWithTax in
  let couponDiscountAmount := calculateCouponDiscount appliedCoupon subtotalWithTax in
  let afterCouponAmount := sub64 subtotalWithTax couponDiscountAmount in
  let afterPoints := sub64 (add64 afterCouponAmount shippingFee) usePointsReq in
  let afterPointsAmount := if afterPoints <? 0 then 0 else afterPoints in
  let totalPrice := afterPointsAmount in
  mkPricing rankDiscountAmount discountedSubtotal tax subtotalWithTax shippingFee
            couponDiscountAmount afterCouponAmount afterPointsAmount totalPrice
            (Z.quot totalPrice 100).

(** ** Requests and responses *)

Record OrderRequest := mkOrderRequest {
  Items : list OrderItem.t;
  CouponCode : string;
  UsePoints : Z }.

(** A request as the handler sees it.  [Auth] is the user the session token
    resolves to ([getAuthUser]): [registerHandler] and [loginHandler] put one
    and the same [*User] into [users], under its [ID], and into [sessions],
    so the session user is named by its key in [users].  [Body] is [None]
    when the JSON does not decode. *)
Record Request := mkRequest {
  Method : string;
  Auth : option Z;
  Body : option OrderRequest }.

Inductive ErrorMessage :=
  | MethodNotAllowed
  | Unauthorized
  | InvalidRequestBody
  | NoItemsInOrder
  | InvalidUsePointsValue
  | InsufficientPoints (available requested : Z)
  | InvalidCouponCode
  | InvalidQuantity (index : nat)
  | ProductNotFound (productID : Z)
  | InsufficientStock (name : string) (available requested : Z)
  | FailedToUsePoints
  | StockAllocationFailed
  | PaymentFailed (message : string).

Inductive Response :=
  | ErrorResponse (status : Z) (message : ErrorMessage)
  | Created (order : Order.t) (transactionID : string)
            (newTotalPoints : Z) (currentRank : string).

Definition statusCode (r : Response) : Z :=
  match r with
  | ErrorResponse status _ => status
  | Created _ _ _ _ => 201
  end.

(** 4xx *)
Definition clientError (r : Response) : Prop := 400 <= statusCode r < 500.

(** ** [createOrderHandler], lines 1924-2167 *)

(** The loop over the items, lines 1989-2016: quantity, product and total
    stock are checked, the subtotal is summed.  ([orderProducts] and the
    entries put into [stockAllocations] are never read and are left out.) *)
Fixpoint checkItems (rt : Runtime) (st : Store) (items : list OrderItem.t)
    (i : nat) (subtotal : Z) : Response + Z :=
  match items with
  | [] => inr subtotal
  | item :: rest =>
      if OrderItem.Quantity item <=? 0 then
        inl (ErrorResponse 400 (InvalidQuantity i))
      else
        match products st !! OrderItem.ProductID item with
        | None => inl (ErrorResponse 404 (ProductNotFound (OrderItem.ProductID item)))
        | Some product =>
            let totalStock := fst (getProductStock rt st (Product.ID product)) in
            if totalStock <? OrderItem.Quantity item then
              inl (ErrorResponse 400
                     (InsufficientStock (Product.Name product) totalStock
                                        (OrderItem.Quantity item)))
            else
              checkItems rt st rest (S i)
                (add64 subtotal (mul64 (Product.Price product) (OrderItem.Quantity item)))
        end
  end.

(** The loop over the items after a successful payment, lines 2087-2094:
    it stops at the first item that cannot be allocated. *)
Fixpoint allocateItems (rt : Runtime) (s : gmap string Stock.t)
    (items : list OrderItem.t) : bool * gmap string Stock.t :=
  match items with
  | [] => (true, s)
  | item :: rest =>
      let '(allocated, _, s') :=
        allocateStock rt s (OrderItem.ProductID item) (OrderItem.Quantity item) in
      if allocated then allocateItems rt s' rest else (false, s')
  end.

(** Lines 1969-1980. *)
Definition lookupCoupon (st : Store) (code : string) : Response + option Coupon.t :=
  if String.eqb code EmptyString then inr None
  else match coupons st !! code with
       | Some c => inr (Some c)
       | None => inl (ErrorResponse 400 InvalidCouponCode)
       end.

(** Lines 2019-2166: the amount is computed, the points are taken, the
    gateway is called, and the order is committed or compensated.  [user] is
    the session user as read before, [uid] its [ID]. *)
Definition settleOrder (rt : Runtime) (st : Store) (uid : Z) (user : User.t)
    (req : OrderRequest) (appliedCoupon : option Coupon.t) (subtotal : Z)
  : Response * Store :=
  let currentUserRank := User.MemberRank user in
  let p := computePricing subtotal currentUserRank appliedCoupon (UsePoints req) in
  let orderID := nextOrderID st in
  let '(pointsUsed, st1) :=
    if 0 <? UsePoints req then usePoints (time_Now rt 0) st uid orderID (UsePoints req)
    else (false, st) in
  if (0 <? UsePoints req) && negb pointsUsed then
    (ErrorResponse 500 FailedToUsePoints, st1)
  else
  let paymentResult := ProcessPayment rt (totalPrice p) orderID in
  let order :=
    Order.mk orderID uid (Items req) (totalPrice p) (shippingFee p)
             (couponDiscountAmount p) (CouponCode req) EmptyString (time_Now rt 1)
             (earnedPoints p) (UsePoints req) (rankDiscountAmount p) in
  if PaymentResult.Success paymentResult then
    let '(allAllocated, s2) := allocateItems rt (stocks st1) (Items req) in
    let st2 := setStocks st1 s2 in
    if negb allAllocated then
      let st3 := if pointsUsed
                 then rollbackPoints (time_Now rt 2) st2 uid orderID (UsePoints req)
                 else st2 in
      (ErrorResponse 409 StockAllocationFailed,
       saveOrder st3 (Order.setStatus order "payment_failed"))
    else
      let order := Order.setStatus order "completed" in
      let st3 := if 0 <? earnedPoints p
                 then addPoints (time_Now rt 2) st2 uid orderID (earnedPoints p)
                 else st2 in
      let st4 := updateUserPurchaseAmountAndRank st3 uid (totalPrice p) in
      (* users[user.ID] is the session user, which exists *)
      let updatedUser := default user (users st4 !! uid) in
      (Created order (PaymentResult.TransactionID paymentResult)
               (User.CurrentPoints updatedUser) (User.MemberRank updatedUser),
       saveOrder st4 order)
  else
    let st2 := if pointsUsed
               then rollbackPoints (time_Now rt 2) st1 uid orderID (UsePoints req)
               else st1 in
    (ErrorResponse 402 (PaymentFailed (PaymentResult.Message paymentResult)),
     saveOrder st2 (Order.setStatus order "payment_failed")).

(** Lines 1924-2017, then [settleOrder]. *)
Definition createOrderHandler (rt : Runtime) (st : Store) (r : Request)
  : Response * Store :=
  if negb (String.eqb (Method r) "POST") then (ErrorResponse 405 MethodNotAllowed, st)
  else
  match Auth r with
  | None => (ErrorResponse 401 Unauthorized, st)
  | Some uid =>
  match users st !! uid with
  | None => (ErrorResponse 401 Unauthorized, st)
  | Some user =>
  match Body r with
  | None => (ErrorResponse 400 InvalidRequestBody, st)
  | Some req =>
  if (length (Items req) =? 0)%nat then (ErrorResponse 400 NoItemsInOrder, st)
  else if UsePoints req <? 0 then (ErrorResponse 400 InvalidUsePointsValue, st)
  else
  let currentUserPoints := User.CurrentPoints user in
  if currentUserPoints <? UsePoints req then
    (ErrorResponse 400 (InsufficientPoints currentUserPoints (UsePoints req)), st)
  else
  match lookupCoupon st (CouponCode req) with
  | inl e => (e, st)
  | inr appliedCoupon =>
  match checkItems rt st (Items req) 0 0 with
  | inl e => (e, st)
  | inr subtotal => settleOrder rt st uid user req appliedCoupon subtotal
  end end end end end.

#[global] Arguments wrap64 : simpl never.
#[global] Arguments float64_of_int : simpl never.
#[global] Arguments float64_mul : simpl never.
#[global] Arguments int_of_float64 : simpl never.
#[global] Arguments rankDiscount : simpl never.
#[global] Arguments computePricing : simpl never.
#[global] Arguments shippingFeeFor : simpl never.
#[global] Arguments calculateCouponDiscount : simpl never.
#[global] Arguments settleOrder : simpl never.
#[global] Arguments allocateStock : simpl never.

(** ** Notions the properties are stated with *)

(** The representation invariant of [stocks]: an entry sits under the key
    made of its own product and warehouse ([init] and [createProductHandler]
    write no other entries), and its quantity is an [int]. *)
Definition stocks_wf (s : gmap string Stock.t) : Prop :=
  map_Forall (fun k x => k = stockKey (Stock.ProductID x) (Stock.WarehouseID x) /\
                         int_ok (Stock.Quantity x)) s.

#[global] Instance stocks_wf_dec s : Decision (stocks_wf s).
Proof. unfold stocks_wf. apply _. Defined.

Definition sumZ (l : list Z) : Z := foldr Z.add 0 l.

(** The stock lines of a product that hold something, and what they hold
    in total (an exact sum). *)
Definition stockLines (s : gmap string Stock.t) (productID : Z) : list Stock.t :=
  snd <$> filter (fun kv : string * Stock.t =>
                    Stock.ProductID (snd kv) = productID /\ 0 < Stock.Quantity (snd kv))
                 (map_to_list s).

Definition totalAvailable (s : gmap string Stock.t) (productID : Z) : Z :=
  sumZ (Stock.Quantity <$> stockLines s productID).

(** A request that passes every check of lines 1924-2017, so that the
    handler goes on to the payment: [coupon] is the coupon found and
    [subtotal] the sum of the lines. *)
Definition validated (rt : Runtime) (st : Store) (r : Request) (uid : Z)
    (user : User.t) (req : OrderRequest) (coupon : option Coupon.t) (subtotal : Z)
  : Prop :=
  Method r = "POST" /\ Auth r = Some uid /\ users st !! uid = Some user /\
  Body r = Some req /\ Items req <> [] /\
  0 <= UsePoints req <= User.CurrentPoints user /\
  lookupCoupon st (CouponCode req) = inr coupon /\
  checkItems rt st (Items req) 0 0 = inr subtotal.

(** The order record the handler builds for a request, lines 2070-2082. *)
Definition orderOf (rt : Runtime) (st : Store) (uid : Z) (req : OrderRequest)
    (p : Pricing) (status : string) : Order.t :=
  Order.mk (nextOrderID st) uid (Items req) (totalPrice p) (shippingFee p)
           (couponDiscountAmount p) (CouponCode req) status (time_Now rt 1)
           (earnedPoints p) (UsePoints req) (rankDiscountAmount p).

(** The tier table of the specification, in percent: top tier 5, mid tier
    3, base tier 0; and the tier discount in integer arithmetic, the floor
    of subtotal * rate. *)
Definition tierRatePercent (rank : string) : Z :=
  if String.eqb rank "Gold" then 5
  else if String.eqb rank "Silver" then 3
  else 0.

Definition rankDiscount_integer (subtotal : Z) (rank : string) : Z :=
  subtotal * tierRatePercent rank / 100.

(** The pipeline of [computePricing] with the tier discount in integer
    arithmetic and every other stage as in the source. *)
Definition computePricing_integer (subtotal : Z) (currentUserRank : string)
    (appliedCoupon : option Coupon.t) (usePointsReq : Z) : Pricing :=
  let rankDiscountAmount := rankDiscount_integer subtotal currentUserRank in
  let discountedSubtotal := sub64 subtotal rankDiscountAmount in
  let tax := Z.quot discountedSubtotal 10 in
  let subtotalWithTax := add64 discountedSubtotal tax in
  let shippingFee := shippingFeeFor currentUserRank subtotalWithTax in
  let couponDiscountAmount := calculateCouponDiscount appliedCoupon subtotalWithTax in
  let afterCouponAmount := sub64 subtotalWithTax couponDiscountAmount in
  let afterPoints := sub64 (add64 afterCouponAmount shippingFee) usePointsReq in
  let afterPointsAmount := if afterPoints <? 0 then 0 else afterPoints in
  let totalPrice := afterPointsAmount in
  mkPricing rankDiscountAmount discountedSubtotal tax subtotalWithTax shippingFee
            couponDiscountAmount afterCouponAmount afterPointsAmount totalPrice
            (Z.quot totalPrice 100).

(** The sum of price * quantity over the lines of a cart, as an exact
    integer. *)
Fixpoint cartTotal (st : Store) (items : list OrderItem.t) : Z :=
  match items with
  | [] => 0
  | item :: rest =>
      match products st !! OrderItem.ProductID item with
      | Some product => Product.Price product * OrderItem.Quantity item
      | None => 0
      end + cartTotal st rest
  end.

(** The quantity a plan draws in total. *)
Definition planTotal (plan : gmap Z Z) : Z := sumZ (snd <$> map_to_list plan).

(** ** Concrete stores and runtimes used by the examples *)

(** A runtime that ranges over a map in the order of [map_to_list], with a
    gateway that answers [ok] to every charge. *)
Definition runtimeWith (ok : bool) : Runtime :=
  mkRuntime map_to_list map_to_list
    (fun _ _ => if ok then PaymentResult.mk true "TXN" "Payment processed successfully"
                else PaymentResult.mk false EmptyString "Card declined")
    (fun n => Z.of_nat n).

(** The same, ranging in the opposite order. *)
Definition runtimeReversed (ok : bool) : Runtime :=
  mkRuntime (fun m => reverse (map_to_list m)) (fun m => reverse (map_to_list m))
    (ProcessPayment (runtimeWith ok)) (time_Now (runtimeWith ok)).

(** The coupons of [init]. *)
Definition couponFLAT1000 : Coupon.t :=
  Coupon.mk "FLAT1000" "fixed" 1000 "1000円割引クーポン".
Definition couponFLAT2000 : Coupon.t :=
  Coupon.mk "FLAT2000" "fixed" 2000 "2000円割引クーポン".

Definition initCoupons : gmap string Coupon.t :=
  <["SAVE10" := Coupon.mk "SAVE10" "percentage" 10 "10%割引クーポン"]>
  (<["SAVE20" := Coupon.mk "SAVE20" "percentage" 20 "20%割引クーポン"]>
  (<["FLAT1000" := couponFLAT1000]>
  (<["FLAT2000" := couponFLAT2000]> ∅))).

(** The warehouses of [init]. *)
Definition initWarehouses : gmap Z Warehouse.t :=
  <[1 := Warehouse.mk 1 "東京倉庫"]>
  (<[2 := Warehouse.mk 2 "大阪倉庫"]>
  (<[3 := Warehouse.mk 3 "福岡倉庫"]> ∅)).

(** The store that [init] builds; the hash of the administrator's password
    comes from bcrypt. *)
Definition initStore (adminPass : string) : Store :=
  mkStore
    (<[1 := Product.mk 1 "ノートPC" 120000 "電子機器"]>
     (<[2 := Product.mk 2 "マウス" 3000 "電子機器"]>
     (<[3 := Product.mk 3 "デスク" 25000 "家具"]>
     (<[4 := Product.mk 4 "チェア" 15000 "家具"]> ∅))))
    initWarehouses
    (<["1-1" := Stock.mk 1 1 5]> (<["1-2" := Stock.mk 1 2 3]> (<["1-3" := Stock.mk 1 3 2]>
     (<["2-1" := Stock.mk 2 1 20]> (<["2-2" := Stock.mk 2 2 20]> (<["2-3" := Stock.mk 2 3 10]>
     (<["3-1" := Stock.mk 3 1 2]> (<["3-2" := Stock.mk 3 2 2]> (<["3-3" := Stock.mk 3 3 1]>
     (<["4-1" := Stock.mk 4 1 3]> (<["4-2" := Stock.mk 4 2 3]> (<["4-3" := Stock.mk 4 3 2]>
      ∅))))))))))))
    (<[1 := User.mk 1 "admin" adminPass true EmptyString 0 0 "Normal"]> ∅)
    ∅ initCoupons ∅ 1 1.

(** The stock lines of [init]. *)
Definition initStocks : gmap string Stock.t := stocks (initStore EmptyString).

(** The empty coupon code: the request names no coupon. *)
Definition noCoupon : string := EmptyString.

(** A shop with a product at 1000 and one at 2000, product 1 held by three
    warehouses (5, 3 and 2 units), and a member of rank Normal with 300
    points. *)
Definition shop : Store :=
  mkStore
    (<[1 := Product.mk 1 "A" 1000 "test"]> (<[2 := Product.mk 2 "B" 2000 "test"]> ∅))
    initWarehouses
    (<["1-1" := Stock.mk 1 1 5]> (<["1-2" := Stock.mk 1 2 3]>
     (<["1-3" := Stock.mk 1 3 2]> (<["2-1" := Stock.mk 2 1 4]> ∅))))
    (<[7 := User.mk 7 "u" "h" false "t" 300 0 "Normal"]> ∅)
    ∅ initCoupons ∅ 1 1.

Definition cart : list OrderItem.t := [OrderItem.mk 1 2; OrderItem.mk 2 1].

(** Product 1 twice, 6 units each: each line alone is covered by the 10
    units in stock, both together are not. *)
Definition twice : list OrderItem.t := [OrderItem.mk 1 6; OrderItem.mk 1 6].

(** A shop whose one product costs 2^62, two units in stock. *)
Definition bigShop : Store :=
  mkStore (<[1 := Product.mk 1 "A" 4611686018427387904 "test"]> ∅) initWarehouses
          (<["1-1" := Stock.mk 1 1 2]> ∅)
          (<[7 := User.mk 7 "u" "h" false "t" 0 0 "Normal"]> ∅)
          ∅ initCoupons ∅ 1 1.

Definition orderRequest (items : list OrderItem.t) (code : string) (points : Z) : Request :=
  mkRequest "POST" (Some 7) (Some (mkOrderRequest items code points)).

(** No stock line is below zero. *)
Definition stocks_nonneg (s : gmap string Stock.t) : Prop :=
  map_Forall (fun _ x => 0 <= Stock.Quantity x) s.

#[global] Instance stocks_nonneg_dec s : Decision (stocks_nonneg s).
Proof. unfold stocks_nonneg. apply _. Defined.

(** What a stock line adds to the total of a product. *)
Definition lineQuantity (productID : Z) (x : Stock.t) : Z :=
  if decide (Stock.ProductID x = productID /\ 0 < Stock.Quantity x)
  then Stock.Quantity x else 0.

(** Every stock line names a warehouse that exists. *)
Definition warehouses_known (st : Store) : Prop :=
  map_Forall (fun _ x => is_Some (warehouses st !! Stock.WarehouseID x)) (stocks st).

#[global] Instance warehouses_known_dec st : Decision (warehouses_known st).
Proof. unfold warehouses_known. apply _. Defined.

(** A product sits under its own ID. *)
Definition products_wf (m : gmap Z Product.t) : Prop :=
  map_Forall (fun k p => Product.ID p = k) m.

#[global] Instance products_wf_dec m : Decision (products_wf m).
Proof. unfold products_wf. apply _. Defined.

(** What the points functions, [updateUserPurchaseAmountAndRank] and the
    allocation leave alone: the catalogue, the coupons and the order log. *)
Definition orders_kept (st st' : Store) : Prop :=
  products st' = products st /\ warehouses st' = warehouses st /\
  coupons st' = coupons st /\ orders st' = orders st /\
  nextOrderID st' = nextOrderID st.

(** Every point-history entry sits below the counter of the next ID. *)
Definition histories_fresh (st : Store) : Prop :=
  map_Forall (fun k _ => k < nextPointHistoryID st) (pointHistories st).

(** What one call of a points function does to the ledger of user [uid]:
    nothing at all, or one new entry under the next ID that records the
    balance the user is left with. *)
Definition ledger_step (st st' : Store) (uid : Z) : Prop :=
  st' = st \/
  exists h u',
    pointHistories st' = <[nextPointHistoryID st := h]> (pointHistories st) /\
    pointHistories st !! nextPointHistoryID st = None /\
    nextPointHistoryID st' = nextPointHistoryID st + 1 /\
    PointHistory.ID h = nextPointHistoryID st /\
    PointHistory.UserID h = uid /\
    users st' = <[uid := u']> (users st) /\
    PointHistory.Balance h = User.CurrentPoints u'.

(** ** Characters of a formatted number *)

Fixpoint all_chars (P : Ascii.ascii -> bool) (s : string) : bool :=
  match s with
  | EmptyString => true
  | String a s' => P a && all_chars P s'
  end.

Definition is_digit (a : Ascii.ascii) : bool :=
  (48 <=? Ascii.nat_of_ascii a)%nat && (Ascii.nat_of_ascii a <=? 57)%nat.

(** A character of [%d]: a digit or the sign. *)
Definition is_numeric (a : Ascii.ascii) : bool := is_digit a || Ascii.eqb a "-"%char.

(** ** The rest of the program state *)

Module Wishlist.
Record t := mk { UserID : Z; ProductID : Z }.
End Wishlist.

(** The package-level variables that [Store] leaves out.  The [*User] that
    [usersByName] and [sessions] hold is the object that [users] holds under
    its [ID] ([init] and [registerHandler] create it once and put the one
    pointer into the maps), so it is named by that [ID] and read through
    [users].  ([nextWarehouseID] is written by [init] and never read.) *)
Record Server := mkServer {
  store : Store;
  usersByName : gmap string Z;
  sessions : gmap string Z;
  wishlists : gmap string Wishlist.t;       (* key: "userID-productID" *)
  nextProductID : Z;
  nextUserID : Z;
  tokenCounter : Z }.

Definition setStore (sv : Server) (st : Store) : Server :=
  mkServer st (usersByName sv) (sessions sv) (wishlists sv)
           (nextProductID sv) (nextUserID sv) (tokenCounter sv).

Definition setSessions (sv : Server) (s : gmap string Z) : Server :=
  mkServer (store sv) (usersByName sv) s (wishlists sv)
           (nextProductID sv) (nextUserID sv) (tokenCounter sv).

Definition setWishlists (sv : Server) (w : gmap string Wishlist.t) : Server :=
  mkServer (store sv) (usersByName sv) (sessions sv) w
           (nextProductID sv) (nextUserID sv) (tokenCounter sv).

Definition setTokenCounter (sv : Server) (c : Z) : Server :=
  mkServer (store sv) (usersByName sv) (sessions sv) (wishlists sv)
           (nextProductID sv) (nextUserID sv) c.

Definition setProducts (st : Store) (p : gmap Z Product.t) : Store :=
  mkStore p (warehouses st) (stocks st) (users st) (orders st) (coupons st)
          (pointHistories st) (nextOrderID st) (nextPointHistoryID st).

(** What the handlers below take from outside, besides the [Runtime]: the
    order of the other ranges (the wishlists are ranged over twice in one
    call, the number tells the ranges apart), bcrypt and the clock. *)
Record Host := mkHost {
  range_orders : gmap Z Order.t -> list (Z * Order.t);
  range_products : gmap Z Product.t -> list (Z * Product.t);
  range_wishlists : nat -> gmap string Wishlist.t -> list (string * Wishlist.t);
  range_productQuantities : gmap Z Z -> list (Z * Z);
  range_warehouseStocks : gmap Z Z -> list (Z * Z);
  (* bcrypt.GenerateFromPassword; [None]: an error *)
  bcrypt_GenerateFromPassword : string -> option string;
  (* bcrypt.CompareHashAndPassword hash password; [true]: no error *)
  bcrypt_CompareHashAndPassword : string -> string -> bool;
  (* time.Now().UnixNano() *)
  time_UnixNano : Z }.

Definition host_ok (h : Host) : Prop :=
  (forall m, range_orders h m ≡ₚ map_to_list m) /\
  (forall m, range_products h m ≡ₚ map_to_list m) /\
  (forall n m, range_wishlists h n m ≡ₚ map_to_list m) /\
  (forall m, range_productQuantities h m ≡ₚ map_to_list m) /\
  (forall m, range_warehouseStocks h m ≡ₚ map_to_list m).

(** What a handler writes: [errorResponse] or [jsonResponse]. *)
Inductive Reply (A : Type) : Type :=
  | Failure (status : Z) (message : string)
  | Json (status : Z) (data : A).
#[global] Arguments Failure {A} status message.
#[global] Arguments Json {A} status data.

Definition replyStatus {A : Type} (r : Reply A) : Z :=
  match r with
  | Failure status _ => status
  | Json status _ => status
  end.

(** ** Sessions *)

(** [fmt.Sprintf("token_%d_%d_%d", ...)] *)
Definition tokenString (nano userID counter : Z) : string :=
  "token_" +:+ pretty nano +:+ "_" +:+ pretty userID +:+ "_" +:+ pretty counter.

(** [generateToken], lines 1192-1195. *)
Definition generateToken (h : Host) (sv : Server) : string * Server :=
  let counter := add64 (tokenCounter sv) 1 in
  (tokenString (time_UnixNano h) (nextUserID sv) counter, setTokenCounter sv counter).

(** [strings.TrimPrefix(s, prefix)]: [s] without the prefix when it starts
    with it, [s] otherwise. *)
Fixpoint cutPrefix (s prefix : string) : option string :=
  match prefix, s with
  | EmptyString, _ => Some s
  | String a prefix', String b s' =>
      if Ascii.eqb a b then cutPrefix s' prefix' else None
  | String _ _, EmptyString => None
  end.

Definition TrimPrefix (s prefix : string) : string := default s (cutPrefix s prefix).

(** [getAuthUser], lines 1197-1209; the argument is the [Authorization]
    header, the result names the session user. *)
Definition getAuthUser (sv : Server) (authorization : string) : option Z :=
  if String.eqb authorization EmptyString then None
  else sessions sv !! TrimPrefix authorization "Bearer ".

(** The session user as an object: [getAuthUser] followed by the read
    through the pointer. *)
Definition authUser (sv : Server) (authorization : string) : option User.t :=
  match getAuthUser sv authorization with
  | Some uid => users (store sv) !! uid
  | None => None
  end.

(** ** Wishlists *)

(** [fmt.Sprintf("%d-%d", userID, productID)] *)
Definition wishlistKey (userID productID : Z) : string :=
  pretty userID +:+ "-" +:+ pretty productID.

(** [isProductInWishlist], lines 1437-1443. *)
Definition isProductInWishlist (w : gmap string Wishlist.t) (userID productID : Z) : bool :=
  match w !! wishlistKey userID productID with
  | Some _ => true
  | None => false
  end.

(** [addToWishlist], lines 1445-1459. *)
Definition addToWishlist (w : gmap string Wishlist.t) (userID productID : Z)
  : bool * gmap string Wishlist.t :=
  let key := wishlistKey userID productID in
  match w !! key with
  | Some _ => (false, w)
  | None => (true, <[key := Wishlist.mk userID productID]> w)
  end.

(** [removeFromWishlist], lines 1461-1472. *)
Definition removeFromWishlist (w : gmap string Wishlist.t) (userID productID : Z)
  : bool * gmap string Wishlist.t :=
  let key := wishlistKey userID productID in
  match w !! key with
  | None => (false, w)
  | Some _ => (true, delete key w)
  end.

(** [getUserWishlistCategories], lines 1474-1490.  The [map[string]bool]
    only ever holds [true]: it is the set of its keys. *)
Definition getUserWishlistCategories (range : list (string * Wishlist.t))
    (products : gmap Z Product.t) (userID : Z) : gset string :=
  foldl (fun (categories : gset string) (kv : string * Wishlist.t) =>
           let wishlist := snd kv in
           if Wishlist.UserID wishlist =? userID then
             match products !! Wishlist.ProductID wishlist with
             | Some product => {[ Product.Category product ]} ∪ categories
             | None => categories
             end
           else categories)
        ∅ range.

Module RecommendedProduct.
Record t := mk { ID : Z; Name : string; Price : Z; Category : string }.
End RecommendedProduct.

(** The second loop of [getRecommendations], lines 1501-1507. *)
Definition userFavorites (range : list (string * Wishlist.t)) (userID : Z) : gset Z :=
  foldl (fun (favorites : gset Z) (kv : string * Wishlist.t) =>
           let wishlist := snd kv in
           if Wishlist.UserID wishlist =? userID
           then {[ Wishlist.ProductID wishlist ]} ∪ favorites
           else favorites)
        ∅ range.

(** The third loop, lines 1515-1529, with its [break]. *)
Fixpoint recommend (favoriteCategories : gset string) (favorites : gset Z)
    (range : list (Z * Product.t)) (recommendations : list RecommendedProduct.t)
  : list RecommendedProduct.t :=
  match range with
  | [] => recommendations
  | kv :: rest =>
      let product := snd kv in
      if bool_decide (Product.Category product ∈ favoriteCategories) &&
         negb (bool_decide (Product.ID product ∈ favorites)) then
        let recommendations :=
          recommendations ++ [RecommendedProduct.mk (Product.ID product) (Product.Name product)
                                (Product.Price product) (Product.Category product)] in
        if (3 <=? length recommendations)%nat then recommendations
        else recommend favoriteCategories favorites rest recommendations
      else recommend favoriteCategories favorites rest recommendations
  end.

(** [getRecommendations], lines 1492-1532. *)
Definition getRecommendations (h : Host) (products : gmap Z Product.t)
    (w : gmap string Wishlist.t) (userID : Z) : list RecommendedProduct.t :=
  let favoriteCategories :=
    getUserWishlistCategories (range_wishlists h 0 w) products userID in
  if (size favoriteCategories =? 0)%nat then []
  else
    recommend favoriteCategories (userFavorites (range_wishlists h 1 w) userID)
              (range_products h products) [].

(** ** The other handlers *)

(** [addToWishlistHandler], lines 2222-2267.  [pathID] is the product ID
    of the path: [None] when the path has fewer than three parts or the
    third is not a number. *)
Definition addToWishlistHandler (sv : Server) (method authorization : string)
    (pathID : option Z) : Reply Z * Server :=
  if negb (String.eqb method "POST") then (Failure 405 "Method not allowed", sv)
  else
  match authUser sv authorization with
  | None => (Failure 401 "Unauthorized", sv)
  | Some user =>
  match pathID with
  | None => (Failure 400 "Invalid product ID", sv)
  | Some productID =>
  match products (store sv) !! productID with
  | None => (Failure 404 "Product not found", sv)
  | Some _ =>
      let '(added, w) := addToWishlist (wishlists sv) (User.ID user) productID in
      if added then (Json 201 productID, setWishlists sv w)
      else (Failure 409 "Product already in wishlist", setWishlists sv w)
  end end end.

(** [removeFromWishlistHandler], lines 2270-2305. *)
Definition removeFromWishlistHandler (sv : Server) (method authorization : string)
    (pathID : option Z) : Reply Z * Server :=
  if negb (String.eqb method "DELETE") then (Failure 405 "Method not allowed", sv)
  else
  match authUser sv authorization with
  | None => (Failure 401 "Unauthorized", sv)
  | Some user =>
  match pathID with
  | None => (Failure 400 "Invalid product ID", sv)
  | Some productID =>
      let '(removed, w) := removeFromWishlist (wishlists sv) (User.ID user) productID in
      if removed then (Json 200 productID, setWishlists sv w)
      else (Failure 404 "Product not in wishlist", setWishlists sv w)
  end end.

(** [getRecommendationsHandler], lines 2308-2324. *)
Definition getRecommendationsHandler (h : Host) (sv : Server)
    (method authorization : string) : Reply (list RecommendedProduct.t) :=
  if negb (String.eqb method "GET") then Failure 405 "Method not allowed"
  else
  match authUser sv authorization with
  | None => Failure 401 "Unauthorized"
  | Some user =>
      Json 200 (getRecommendations h (products (store sv)) (wishlists sv) (User.ID user))
  end.

(** The loop of [getOrdersHandler], lines 2186-2191. *)
Definition userOrders (h : Host) (orders : gmap Z Order.t) (userID : Z) : list Order.t :=
  snd <$> filter (fun kv : Z * Order.t => Order.UserID (snd kv) = userID)
                 (range_orders h orders).

(** [getOrdersHandler], lines 2170-2194. *)
Definition getOrdersHandler (h : Host) (sv : Server) (method authorization : string)
  : Reply (list Order.t) :=
  if negb (String.eqb method "GET") then Failure 405 "Method not allowed"
  else
  match authUser sv authorization with
  | None => Failure 401 "Unauthorized"
  | Some user => Json 200 (userOrders h (orders (store sv)) (User.ID user))
  end.

(** [createOrderHandler] on the whole state: the request it sees has the
    session user of [getAuthUser]. *)
Definition placeOrder (rt : Runtime) (sv : Server) (method authorization : string)
    (body : option OrderRequest) : Response * Server :=
  let r := mkRequest method (getAuthUser sv authorization) body in
  (fst (createOrderHandler rt (store sv) r),
   setStore sv (snd (createOrderHandler rt (store sv) r))).

(** ** Notions for the properties of wishlists and orders *)

(** A wishlist entry sits under the key of its own user and product. *)
Definition wishlists_wf (w : gmap string Wishlist.t) : Prop :=
  map_Forall (fun k x => k = wishlistKey (Wishlist.UserID x) (Wishlist.ProductID x)) w.

#[global] Instance wishlists_wf_dec w : Decision (wishlists_wf w).
Proof. unfold wishlists_wf. apply _. Defined.

(** A user sits under its own ID. *)
Definition users_wf (m : gmap Z User.t) : Prop :=
  map_Forall (fun k u => User.ID u = k) m.

#[global] Instance users_wf_dec m : Decision (users_wf m).
Proof. unfold users_wf. apply _. Defined.

(** The entry of [RecommendedProduct] made of a product. *)
Definition recommended (product : Product.t) : RecommendedProduct.t :=
  RecommendedProduct.mk (Product.ID product) (Product.Name product)
                        (Product.Price product) (Product.Category product).

(** A product that may be recommended to a user: it shares its category
    with a product of the catalogue that the user has put on the wishlist,
    and it is not on the user's wishlist itself. *)
Definition eligible (products : gmap Z Product.t) (w : gmap string Wishlist.t)
    (userID : Z) (product : Product.t) : Prop :=
  Exists (fun x => Wishlist.UserID x = userID /\
                   Product.Category <$> products !! Wishlist.ProductID x
                   = Some (Product.Category product))
         (snd <$> map_to_list w) /\
  ~ Exists (fun x => Wishlist.UserID x = userID /\
                     Wishlist.ProductID x = Product.ID product)
           (snd <$> map_to_list w).

#[global] Instance eligible_dec products w userID product :
  Decision (eligible products w userID product).
Proof. unfold eligible. apply _. Defined.

(** ** Accounts *)

Module Credentials.
Record t := mk { Username : string; Password : string }.
End Credentials.

Definition setToken (u : User.t) (token : string) : User.t :=
  User.mk (User.ID u) (User.Username u) (User.PasswordHash u) (User.IsAdmin u) token
          (User.CurrentPoints u) (User.TotalSpentAmount u) (User.MemberRank u).

(** [registerHandler], lines 1819-1878.  The body is [None] when the JSON
    does not decode.  The last write, [user.Token = token], goes through the
    pointer that [users] holds. *)
Definition registerHandler (h : Host) (sv : Server) (method : string)
    (body : option Credentials.t) : Reply User.t * Server :=
  if negb (String.eqb method "POST") then (Failure 405 "Method not allowed", sv)
  else
  match body with
  | None => (Failure 400 "Invalid request body", sv)
  | Some req =>
  if String.eqb (Credentials.Username req) EmptyString ||
     String.eqb (Credentials.Password req) EmptyString
  then (Failure 400 "Username and password required", sv)
  else
  match usersByName sv !! Credentials.Username req with
  | Some _ => (Failure 409 "Username already exists", sv)
  | None =>
  match bcrypt_GenerateFromPassword h (Credentials.Password req) with
  | None => (Failure 500 "Failed to process password", sv)
  | Some hash =>
      let user := User.mk (nextUserID sv) (Credentials.Username req) hash false
                          EmptyString 0 0 "Normal" in
      let sv1 :=
        mkServer (setUsers (store sv) (<[User.ID user := user]> (users (store sv))))
                 (<[User.Username user := User.ID user]> (usersByName sv))
                 (sessions sv) (wishlists sv) (nextProductID sv)
                 (add64 (nextUserID sv) 1) (tokenCounter sv) in
      let '(token, sv2) := generateToken h sv1 in
      let sv3 := setSessions sv2 (<[token := User.ID user]> (sessions sv2)) in
      let user' := setToken user token in
      (Json 201 user',
       setStore sv3 (setUsers (store sv3) (<[User.ID user := user']> (users (store sv3)))))
  end end end.

(** [loginHandler], lines 1881-1921.  The answer is a copy of the user
    with the new token; the stored user keeps the token it had. *)
Definition loginHandler (h : Host) (sv : Server) (method : string)
    (body : option Credentials.t) : Reply User.t * Server :=
  if negb (String.eqb method "POST") then (Failure 405 "Method not allowed", sv)
  else
  match body with
  | None => (Failure 400 "Invalid request body", sv)
  | Some req =>
  match usersByName sv !! Credentials.Username req with
  | None => (Failure 401 "Invalid credentials", sv)
  | Some uid =>
  match users (store sv) !! uid with
  | None => (Failure 401 "Invalid credentials", sv)
  | Some user =>
  if negb (bcrypt_CompareHashAndPassword h (User.PasswordHash user)
                                         (Credentials.Password req))
  then (Failure 401 "Invalid credentials", sv)
  else
    let '(token, sv1) := generateToken h sv in
    (Json 200 (setToken user token),
     setSessions sv1 (<[token := uid]> (sessions sv1)))
  end end end.

Module UserInfoResponse.
Record t := mk {
  ID : Z; Username : string; IsAdmin : bool; Rank : string;
  TotalSpentAmount : Z; CurrentPoints : Z }.
End UserInfoResponse.

(** [getUserInfoHandler], lines 2327-2351. *)
Definition getUserInfoHandler (sv : Server) (method authorization : string)
  : Reply UserInfoResponse.t :=
  if negb (String.eqb method "GET") then Failure 405 "Method not allowed"
  else
  match authUser sv authorization with
  | None => Failure 401 "Unauthorized"
  | Some user =>
      Json 200 (UserInfoResponse.mk (User.ID user) (User.Username user) (User.IsAdmin user)
                  (User.MemberRank user) (User.TotalSpentAmount user)
                  (User.CurrentPoints user))
  end.

(** ** The catalogue *)

Module ProductRequest.
Record t := mk { Name : string; Price : Z; Category : string; InitialStock : Z }.
End ProductRequest.

Module ProductDetailResponse.
Record t := mk {
  ID : Z; Name : string; Price : Z; Category : string;
  TotalStock : Z; StockDetail : list StockWarehouse.t }.
End ProductDetailResponse.

(** [createProductHandler], lines 1745-1816. *)
Definition createProductHandler (rt : Runtime) (sv : Server) (method authorization : string)
    (body : option ProductRequest.t) : Reply ProductDetailResponse.t * Server :=
  if negb (String.eqb method "POST") then (Failure 405 "Method not allowed", sv)
  else
  match authUser sv authorization with
  | None => (Failure 401 "Unauthorized", sv)
  | Some user =>
  if negb (User.IsAdmin user) then (Failure 403 "Admin access required", sv)
  else
  match body with
  | None => (Failure 400 "Invalid request body", sv)
  | Some req =>
  if String.eqb (ProductRequest.Name req) EmptyString ||
     (ProductRequest.Price req <=? 0) ||
     (ProductRequest.InitialStock req <? 0) ||
     String.eqb (ProductRequest.Category req) EmptyString
  then (Failure 400 "Invalid product data", sv)
  else
    let product := Product.mk (nextProductID sv) (ProductRequest.Name req)
                     (ProductRequest.Price req) (ProductRequest.Category req) in
    let st1 := setProducts (store sv) (<[Product.ID product := product]> (products (store sv))) in
    let st2 :=
      if 0 <? ProductRequest.InitialStock req then
        setStocks st1 (<[stockKey (Product.ID product) 1 :=
                           Stock.mk (Product.ID product) 1 (ProductRequest.InitialStock req)]>
                         (stocks st1))
      else st1 in
    let '(totalStock, stockDetails) := getProductStock rt st2 (Product.ID product) in
    (Json 201 (ProductDetailResponse.mk (Product.ID product) (Product.Name product)
                 (Product.Price product) (Product.Category product) totalStock stockDetails),
     mkServer st2 (usersByName sv) (sessions sv) (wishlists sv)
              (add64 (nextProductID sv) 1) (nextUserID sv) (tokenCounter sv))
  end end.

Module ProductDetailResponseWithFavorite.
Record t := mk {
  ID : Z; Name : string; Price : Z; Category : string;
  TotalStock : Z; StockDetail : list StockWarehouse.t; IsFavorite : bool }.
End ProductDetailResponseWithFavorite.

(** The entry that [getProductsHandler] and [getProductHandler] make of a
    product, for the session user or for nobody. *)
Definition productDetail (rt : Runtime) (sv : Server) (user : option User.t)
    (p : Product.t) : ProductDetailResponseWithFavorite.t :=
  let '(totalStock, stockDetails) := getProductStock rt (store sv) (Product.ID p) in
  let isFavorite :=
    match user with
    | Some u => isProductInWishlist (wishlists sv) (User.ID u) (Product.ID p)
    | None => false
    end in
  ProductDetailResponseWithFavorite.mk (Product.ID p) (Product.Name p) (Product.Price p)
    (Product.Category p) totalStock stockDetails isFavorite.

(** [getProductsHandler], lines 1651-1690; [category] is the value of the
    query parameter, empty when there is none. *)
Definition getProductsHandler (rt : Runtime) (h : Host) (sv : Server)
    (method category authorization : string)
  : Reply (list ProductDetailResponseWithFavorite.t) :=
  if negb (String.eqb method "GET") then Failure 405 "Method not allowed"
  else
    let user := authUser sv authorization in
    Json 200
      (productDetail rt sv user <$>
         (snd <$> filter (fun kv : Z * Product.t =>
                            category = EmptyString \/ Product.Category (snd kv) = category)
                         (range_products h (products (store sv))))).

(** [getProductHandler], lines 1693-1742. *)
Definition getProductHandler (rt : Runtime) (sv : Server)
    (method authorization : string) (pathID : option Z)
  : Reply ProductDetailResponseWithFavorite.t :=
  if negb (String.eqb method "GET") then Failure 405 "Method not allowed"
  else
  match pathID with
  | None => Failure 400 "Invalid product ID"
  | Some id =>
  match products (store sv) !! id with
  | None => Failure 404 "Product not found"
  | Some product => Json 200 (productDetail rt sv (authUser sv authorization) product)
  end end.

(** The state that [init] builds, lines 1105-1187. *)
Definition initServer (adminPass : string) : Server :=
  mkServer (initStore adminPass) (<["admin" := 1]> ∅) ∅ ∅ 5 2 0.

(** A host that ranges in the order of [map_to_list], with a stand-in for
    bcrypt that keeps the password in the hash. *)
Definition exampleHost : Host :=
  mkHost map_to_list map_to_list (fun _ => map_to_list) map_to_list map_to_list
         (fun password => Some ("hash:" +:+ password))
         (fun hash password => String.eqb hash ("hash:" +:+ password))
         1700000000.

(** ** Notions for the properties of accounts and sessions *)

(** Every session token was made by [generateToken], with a counter that
    the token counter has reached. *)
Definition sessions_issued (sv : Server) : Prop :=
  map_Forall (fun t _ => exists n u c, t = tokenString n u c /\ c <= tokenCounter sv)
             (sessions sv).

(** bcrypt accepts a password against a hash it made of it. *)
Definition bcrypt_ok (h : Host) : Prop :=
  forall password hash,
    bcrypt_GenerateFromPassword h password = Some hash ->
    bcrypt_CompareHashAndPassword h hash password = true.

(** The state after the administrator of [init] has logged in with
    [exampleHost], and the header that carries the token of that login. *)
Definition adminServer : Server :=
  snd (loginHandler exampleHost (initServer "hash:admin123") "POST"
         (Some (Credentials.mk "admin" "admin123"))).

Definition adminAuthorization : string := "Bearer " +:+ tokenString 1700000000 2 1.

(** ** The sales report *)

Module SalesSummary.
Record t := mk { TotalRevenue : Z; TotalOrders : Z }.
End SalesSummary.

Module ProductRanking.
Record t := mk { ProductName : string; TotalQuantity : Z }.
End ProductRanking.

Module WarehouseInventoryStat.
Record t := mk { WarehouseName : string; TotalStock : Z }.
End WarehouseInventoryStat.

Module PromotionAnalysis.
Record t := mk { CouponUsageRate : float64 }.
End PromotionAnalysis.

Module SalesReportResponse.
Record t := mk {
  SalesSummary : SalesSummary.t;
  TopProducts : list ProductRanking.t;
  WarehouseInventory : list WarehouseInventoryStat.t;
  PromotionAnalysis : PromotionAnalysis.t }.
End SalesReportResponse.

(** The local type [productQty] of [generateSalesReport]. *)
Module productQty.
Record t := mk { ID : Z; Name : string; Quantity : Z }.
End productQty.

Definition float64_div (x y : float64) : float64 := SFdiv 53 1024 x y.

(** The variables of the first loop of [generateSalesReport]. *)
Record Tally := mkTally {
  totalRevenue : Z;
  completedOrders : Z;
  couponUsedOrders : Z;
  totalOrdersForCouponRate : Z;
  productQuantities : gmap Z Z }.

(** [m[key] += quantity] on a [map[int]int]: a missing key reads as 0. *)
Definition addQuantity (m : gmap Z Z) (key quantity : Z) : gmap Z Z :=
  <[key := add64 (default 0 (m !! key)) quantity]> m.

(** One turn of the loop over the orders, lines 1326-1345. *)
Definition tallyOrder (t : Tally) (order : Order.t) : Tally :=
  let counted := String.eqb (Order.Status order) "completed" ||
                 String.eqb (Order.Status order) "payment_failed" in
  let total := if counted then add64 (totalOrdersForCouponRate t) 1
               else totalOrdersForCouponRate t in
  let used := if counted && negb (String.eqb (Order.AppliedCoupon order) EmptyString)
              then add64 (couponUsedOrders t) 1 else couponUsedOrders t in
  if String.eqb (Order.Status order) "completed" then
    mkTally (add64 (totalRevenue t) (Order.TotalPrice order))
            (add64 (completedOrders t) 1) used total
            (foldl (fun m item =>
                      addQuantity m (OrderItem.ProductID item) (OrderItem.Quantity item))
                   (productQuantities t) (Order.Items order))
  else mkTally (totalRevenue t) (completedOrders t) used total (productQuantities t).

(** One turn of the inner loop of the two sorts, lines 1375-1379 and
    1416-1420: the entries at [i] and [j] are swapped when the one at [j]
    comes before the one at [i]. *)
Definition exchangeStep {A : Type} (before : A -> A -> bool) (i : nat) (l : list A)
    (j : nat) : list A :=
  match l !! j, l !! i with
  | Some y, Some x => if before y x then <[i := y]> (<[j := x]> l) else l
  | _, _ => l
  end.

(** The two nested loops: [for i := 0; i < len; i++] and
    [for j := i + 1; j < len; j++]. *)
Definition exchangeSort {A : Type} (before : A -> A -> bool) (l : list A) : list A :=
  foldl (fun l i => foldl (exchangeStep before i) l (seq (S i) (length l - S i)))
        l (seq 0 (length l)).

(** [generateSalesReport], lines 1315-1434. *)
Definition generateSalesReport (rt : Runtime) (h : Host) (st : Store)
  : SalesReportResponse.t :=
  let t := foldl tallyOrder (mkTally 0 0 0 0 ∅) (snd <$> range_orders h (orders st)) in
  let rankings :=
    foldl (fun (rankings : list productQty.t) (kv : Z * Z) =>
             match products st !! fst kv with
             | Some product =>
                 rankings ++ [productQty.mk (fst kv) (Product.Name product) (snd kv)]
             | None => rankings
             end)
          [] (range_productQuantities h (productQuantities t)) in
  let rankings :=
    exchangeSort (fun y x => productQty.Quantity x <? productQty.Quantity y) rankings in
  let topProducts :=
    (fun r => ProductRanking.mk (productQty.Name r) (productQty.Quantity r))
      <$> take 3 rankings in
  let warehouseStocks :=
    foldl (fun (m : gmap Z Z) (kv : string * Stock.t) =>
             let stock := snd kv in
             if 0 <? Stock.Quantity stock
             then addQuantity m (Stock.WarehouseID stock) (Stock.Quantity stock)
             else m)
          ∅ (range_stocks rt (stocks st)) in
  let warehouseInventory :=
    foldl (fun (inventory : list WarehouseInventoryStat.t) (kv : Z * Z) =>
             match warehouses st !! fst kv with
             | Some warehouse =>
                 inventory ++ [WarehouseInventoryStat.mk (Warehouse.Name warehouse) (snd kv)]
             | None => inventory
             end)
          [] (range_warehouseStocks h warehouseStocks) in
  let warehouseInventory :=
    exchangeSort (fun y x => String.ltb (WarehouseInventoryStat.WarehouseName y)
                                       (WarehouseInventoryStat.WarehouseName x))
                 warehouseInventory in
  let couponUsageRate :=
    if 0 <? totalOrdersForCouponRate t then
      float64_mul (float64_div (float64_of_int (couponUsedOrders t))
                               (float64_of_int (totalOrdersForCouponRate t)))
                  (float64_of_int 100)
    else float64_0_0 in
  SalesReportResponse.mk (SalesSummary.mk (totalRevenue t) (completedOrders t))
    topProducts warehouseInventory (PromotionAnalysis.mk couponUsageRate).

(** [getSalesReportHandler], lines 2197-2219. *)
Definition getSalesReportHandler (rt : Runtime) (h : Host) (sv : Server)
    (method authorization : string) : Reply SalesReportResponse.t :=
  if negb (String.eqb method "GET") then Failure 405 "Method not allowed"
  else
  match authUser sv authorization with
  | None => Failure 401 "Unauthorized"
  | Some user =>
      if negb (User.IsAdmin user) then Failure 403 "Admin access required"
      else Json 200 (generateSalesReport rt h (store sv))
  end.

(** ** Notions for the properties of the report *)

(** The pass of the inner loop over the entries behind position [i], read
    as a function: the entry that ends at [i], and the entries behind it. *)
Fixpoint sweep {A : Type} (before : A -> A -> bool) (x : A) (rest : list A) : A * list A :=
  match rest with
  | [] => (x, [])
  | y :: rest' =>
      if before y x then
        let '(m, r) := sweep before y rest' in (m, x :: r)
      else
        let '(m, r) := sweep before x rest' in (m, y :: r)
  end.

(** No later entry comes before an earlier one. *)
Definition ordered {A : Type} (before : A -> A -> bool) (l : list A) : Prop :=
  forall a b x y, (a < b)%nat -> l !! a = Some x -> l !! b = Some y -> before y x = false.

Definition completed (order : Order.t) : Prop := Order.Status order = "completed".

(** The orders of the store that count for the coupon usage rate. *)
Definition counted (order : Order.t) : Prop :=
  Order.Status order = "completed" \/ Order.Status order = "payment_failed".

(** The items of the completed orders, and the units sold of a product. *)
Definition soldItems (l : list Order.t) : list OrderItem.t :=
  l ≫= (fun order => if decide (completed order) then Order.Items order else []).

Definition unitsSold (items : list OrderItem.t) (productID : Z) : Z :=
  sumZ (OrderItem.Quantity <$>
          filter (fun item => OrderItem.ProductID item = productID) items).

(** What the stock lines of a warehouse hold. *)
Definition warehouseTotal (s : gmap string Stock.t) (warehouseID : Z) : Z :=
  sumZ (Stock.Quantity <$>
          filter (fun x => Stock.WarehouseID x = warehouseID /\ 0 < Stock.Quantity x)
                 (snd <$> map_to_list s)).

#[global] Instance completed_dec order : Decision (completed order).
Proof. unfold completed. apply _. Defined.

#[global] Instance counted_dec order : Decision (counted order).
Proof. unfold counted. apply _. Defined.

(** The orders that count for the coupon usage rate and name a coupon. *)
Definition couponUsed (order : Order.t) : Prop :=
  counted order /\ Order.AppliedCoupon order <> EmptyString.

#[global] Instance couponUsed_dec order : Decision (couponUsed order).
Proof. unfold couponUsed. apply _. Defined.

(** The variables of the first loop before the first turn. *)
Definition emptyTally : Tally := mkTally 0 0 0 0 ∅.

(** ** The router *)

(** [strings.HasPrefix] *)
Definition HasPrefix (s prefix : string) : bool :=
  match cutPrefix s prefix with
  | Some _ => true
  | None => false
  end.

(** A request as [mainHandler] and the handlers read it: the method, the
    path and the [Authorization] header; the [category] parameter of the
    query; the number that [strconv.Atoi] makes of the third part of the
    path, [None] when there is no such part or it is not a number; and the
    body as the JSON decoder gives it for each of the three request types,
    [None] when it does not decode. *)
Module HttpRequest.
Record t := mk {
  Method : string; Path : string; Authorization : string; category : string;
  pathID : option Z;
  credentials : option Credentials.t;
  productRequest : option ProductRequest.t;
  orderRequest : option OrderRequest }.
End HttpRequest.

(** The cases of the [switch] of [mainHandler], lines 2358-2385, in the
    order of the source. *)
Inductive Route :=
  | GetProducts | CreateProduct | GetProduct | Register | Login | CreateOrder
  | GetOrders | GetSalesReport | AddToWishlist | RemoveFromWishlist
  | GetRecommendations | GetUserInfo | NotFound.

Definition route (path method : string) : Route :=
  if String.eqb path "/products" && String.eqb method "GET" then GetProducts
  else if String.eqb path "/products" && String.eqb method "POST" then CreateProduct
  else if HasPrefix path "/products/" && String.eqb method "GET" then GetProduct
  else if String.eqb path "/register" && String.eqb method "POST" then Register
  else if String.eqb path "/login" && String.eqb method "POST" then Login
  else if String.eqb path "/orders" && String.eqb method "POST" then CreateOrder
  else if String.eqb path "/orders" && String.eqb method "GET" then GetOrders
  else if String.eqb path "/admin/reports/sales" && String.eqb method "GET"
       then GetSalesReport
  else if HasPrefix path "/wishlist/" && String.eqb method "POST" then AddToWishlist
  else if HasPrefix path "/wishlist/" && String.eqb method "DELETE"
       then RemoveFromWishlist
  else if String.eqb path "/users/me/recommendations" && String.eqb method "GET"
       then GetRecommendations
  else if String.eqb path "/users/me" && String.eqb method "GET" then GetUserInfo
  else NotFound.

(** The method that a case of the [switch] asks for. *)
Definition routeMethod (x : Route) : option string :=
  match x with
  | GetProducts | GetProduct | GetOrders | GetSalesReport | GetRecommendations
  | GetUserInfo => Some "GET"
  | CreateProduct | Register | Login | CreateOrder | AddToWishlist => Some "POST"
  | RemoveFromWishlist => Some "DELETE"
  | NotFound => None
  end.

(** The status codes that the handler of a case writes when it is called
    with the method of the case. *)
Definition routeStatuses (x : Route) : list Z :=
  match x with
  | GetProducts => [200]
  | CreateProduct => [201; 400; 401; 403]
  | GetProduct => [200; 400; 404]
  | Register => [201; 400; 409; 500]
  | Login => [200; 400; 401]
  | CreateOrder => [201; 400; 401; 402; 404; 409]
  | GetOrders => [200; 401]
  | GetSalesReport => [200; 401; 403]
  | AddToWishlist => [201; 400; 401; 404; 409]
  | RemoveFromWishlist => [200; 400; 401; 404]
  | GetRecommendations => [200; 401]
  | GetUserInfo => [200; 401]
  | NotFound => [404]
  end.

(** [mainHandler], lines 2354-2386, observed through the status code that
    is written and the state that is left. *)
Definition mainHandler (rt : Runtime) (h : Host) (sv : Server) (r : HttpRequest.t)
  : Z * Server :=
  let method := HttpRequest.Method r in
  let authorization := HttpRequest.Authorization r in
  match route (HttpRequest.Path r) method with
  | GetProducts =>
      (replyStatus (getProductsHandler rt h sv method (HttpRequest.category r)
                                       authorization), sv)
  | CreateProduct =>
      let '(reply, sv') :=
        createProductHandler rt sv method authorization (HttpRequest.productRequest r) in
      (replyStatus reply, sv')
  | GetProduct =>
      (replyStatus (getProductHandler rt sv method authorization (HttpRequest.pathID r)),
       sv)
  | Register =>
      let '(reply, sv') := registerHandler h sv method (HttpRequest.credentials r) in
      (replyStatus reply, sv')
  | Login =>
      let '(reply, sv') := loginHandler h sv method (HttpRequest.credentials r) in
      (replyStatus reply, sv')
  | CreateOrder =>
      let '(resp, sv') :=
        placeOrder rt sv method authorization (HttpRequest.orderRequest r) in
      (statusCode resp, sv')
  | GetOrders => (replyStatus (getOrdersHandler h sv method authorization), sv)
  | GetSalesReport => (replyStatus (getSalesReportHandler rt h sv method authorization), sv)
  | AddToWishlist =>
      let '(reply, sv') :=
        addToWishlistHandler sv method authorization (HttpRequest.pathID r) in
      (replyStatus reply, sv')
  | RemoveFromWishlist =>
      let '(reply, sv') :=
        removeFromWishlistHandler sv method authorization (HttpRequest.pathID r) in
      (replyStatus reply, sv')
  | GetRecommendations =>
      (replyStatus (getRecommendationsHandler h sv method authorization), sv)
  | GetUserInfo => (replyStatus (getUserInfoHandler sv method authorization), sv)
  | NotFound => (404, sv)
  end.

(** The server after a sequence of requests, each with what the program
    takes from outside while it is served. *)
Definition serve (sv : Server) (steps : list (Runtime * Host * HttpRequest.t)) : Server :=
  foldl (fun sv (step : Runtime * Host * HttpRequest.t) =>
           snd (mainHandler (fst (fst step)) (snd (fst step)) sv (snd step)))
        sv steps.

(** ** The invariant of the server *)

(** What stays the same of a user from [registerHandler] on. *)
Definition account (u : User.t) : Z * string * string * bool * string :=
  (User.ID u, User.Username u, User.PasswordHash u, User.IsAdmin u, User.Token u).

(** The state of a server that has served at most [n] requests. *)
Record server_ok (n : Z) (sv : Server) : Prop := mkServerOk {
  (* the stock lines *)
  ok_stocks_wf : stocks_wf (stocks (store sv));
  ok_stocks_nonneg : stocks_nonneg (stocks (store sv));
  ok_stocks_refer :
    map_Forall (fun _ x => is_Some (warehouses (store sv) !! Stock.WarehouseID x) /\
                           is_Some (products (store sv) !! Stock.ProductID x))
               (stocks (store sv));
  (* the catalogue *)
  ok_products_wf : products_wf (products (store sv));
  ok_products_below :
    map_Forall (fun id _ => 1 <= id < nextProductID sv) (products (store sv));
  ok_nextProductID : 1 <= nextProductID sv <= 5 + n;
  ok_warehouses : warehouses (store sv) = initWarehouses;
  ok_coupons : coupons (store sv) = initCoupons;
  (* the users and the two indexes *)
  ok_users_wf : users_wf (users (store sv));
  ok_users_below : map_Forall (fun id _ => 1 <= id < nextUserID sv) (users (store sv));
  ok_nextUserID : 2 <= nextUserID sv <= 2 + n;
  ok_users_indexed :
    map_Forall (fun id u => usersByName sv !! User.Username u = Some id)
               (users (store sv));
  ok_usersByName :
    map_Forall (fun name id => User.Username <$> users (store sv) !! id = Some name)
               (usersByName sv);
  ok_admin :
    map_Forall (fun id u => User.IsAdmin u = true -> id = 1) (users (store sv));
  ok_admin_account :
    (fun u => (User.Username u, User.IsAdmin u)) <$> users (store sv) !! 1
    = Some ("admin", true);
  (* the sessions *)
  ok_sessions : map_Forall (fun _ id => is_Some (users (store sv) !! id)) (sessions sv);
  ok_sessions_issued : sessions_issued sv;
  ok_tokenCounter : 0 <= tokenCounter sv <= n;
  (* the orders *)
  ok_orders :
    map_Forall (fun id o => Order.ID o = id /\ 1 <= id < nextOrderID (store sv) /\
                            is_Some (users (store sv) !! Order.UserID o) /\
                            Forall (fun item =>
                                      is_Some (products (store sv)
                                                 !! OrderItem.ProductID item))
                                   (Order.Items o))
               (orders (store sv));
  ok_nextOrderID : 1 <= nextOrderID (store sv) <= 1 + n;
  (* the wishlists *)
  ok_wishlists_wf : wishlists_wf (wishlists sv);
  ok_wishlists_refer :
    map_Forall (fun _ x => is_Some (users (store sv) !! Wishlist.UserID x) /\
                           is_Some (products (store sv) !! Wishlist.ProductID x))
               (wishlists sv) }.

(** The numbers of a request are [int]s, as the decoder and [strconv.Atoi]
    make them. *)
Definition request_ok (r : HttpRequest.t) : Prop :=
  (forall id, HttpRequest.pathID r = Some id -> int_ok id) /\
  (forall req, HttpRequest.productRequest r = Some req ->
     int_ok (ProductRequest.Price req) /\ int_ok (ProductRequest.InitialStock req)) /\
  (forall req, HttpRequest.orderRequest r = Some req ->
     int_ok (UsePoints req) /\
     Forall (fun item => int_ok (OrderItem.ProductID item) /\
                         int_ok (OrderItem.Quantity item)) (Items req)).

(** What a step of [serve] takes from outside is as the runtime makes it:
    the ranges over the stocks and the allocations visit every entry once,
    and the numbers of the request are [int]s.  (Nothing is asked of the
    [Host]: of bcrypt, the clock and the ranges of the pages that only
    read.) *)
Definition step_ok (step : Runtime * Host * HttpRequest.t) : Prop :=
  runtime_ok (fst (fst step)) /\ request_ok (snd step).

(** The stock lines of [s'] are lines of [s], but for their quantities. *)
Definition lines_kept (s s' : gmap string Stock.t) : Prop :=
  forall k x', s' !! k = Some x' ->
    exists x, s !! k = Some x /\ Stock.ProductID x' = Stock.ProductID x /\
              Stock.WarehouseID x' = Stock.WarehouseID x.

(** The users of [st'] are those of [st], but for points, spend and rank. *)
Definition accounts_kept (st st' : Store) : Prop :=
  forall id, account <$> users st' !! id = account <$> users st !! id.

(** A step that opens a session for the user of this name and password
    hash: a registration with the name and a password of which bcrypt made
    the hash, or a login with the name and a password that bcrypt accepts
    against the hash. *)
Definition opened (username hash : string) (step : Runtime * Host * HttpRequest.t)
  : Prop :=
  let h := snd (fst step) in
  let r := snd step in
  exists cred,
    HttpRequest.credentials r = Some cred /\ Credentials.Username cred = username /\
    ((route (HttpRequest.Path r) (HttpRequest.Method r) = Register /\
      bcrypt_GenerateFromPassword h (Credentials.Password cred) = Some hash) \/
     (route (HttpRequest.Path r) (HttpRequest.Method r) = Login /\
      bcrypt_CompareHashAndPassword h hash (Credentials.Password cred) = true)).

(** The stock lines of [s] are still lines of [s'], under the same keys
    and with the same product and warehouse. *)
Definition lines_stay (s s' : gmap string Stock.t) : Prop :=
  forall k x, s !! k = Some x ->
    exists x', s' !! k = Some x' /\ Stock.ProductID x' = Stock.ProductID x /\
               Stock.WarehouseID x' = Stock.WarehouseID x.

(** What there is in [sv] is still there in [sv']: products and orders as
    they were, users with their accounts, names, sessions and stock lines
    under their keys; and no counter has gone down. *)
Definition grown (sv sv' : Server) : Prop :=
  (forall id p, products (store sv) !! id = Some p ->
                products (store sv') !! id = Some p) /\
  (forall id o, orders (store sv) !! id = Some o -> orders (store sv') !! id = Some o) /\
  (forall id u, users (store sv) !! id = Some u ->
     exists u', users (store sv') !! id = Some u' /\ account u' = account u) /\
  (forall name id, usersByName sv !! name = Some id -> usersByName sv' !! name = Some id) /\
  (forall t id, sessions sv !! t = Some id -> sessions sv' !! t = Some id) /\
  lines_stay (stocks (store sv)) (stocks (store sv')) /\
  nextProductID sv <= nextProductID sv' /\ nextUserID sv <= nextUserID sv' /\
  nextOrderID (store sv) <= nextOrderID (store sv') /\
  tokenCounter sv <= tokenCounter sv'.

(** * Properties *)

(** ** Go integers *)

Lemma wrap64_id z : int_ok z -> wrap64 z = z.
Proof.
  unfold int_ok, wrap64. intros H.
  rewrite Z.mod_small by lia. lia.
Qed.

Lemma wrap64_ok z : int_ok (wrap64 z).
Proof.
  unfold int_ok, wrap64.
  pose proof (Z.mod_pos_bound (z + 2 ^ 63) (2 ^ 64) ltac:(lia)). lia.
Qed.

Lemma sub64_exact a b : int_ok (a - b) -> sub64 a b = a - b.
Proof. apply wrap64_id. Qed.

Lemma add64_exact a b : int_ok (a + b) -> add64 a b = a + b.
Proof. apply wrap64_id. Qed.

Lemma mul64_exact a b : int_ok (a * b) -> mul64 a b = a * b.
Proof. apply wrap64_id. Qed.

(** ** Sums *)

Lemma sumZ_cons a l : sumZ (a :: l) = a + sumZ l.
Proof. reflexivity. Qed.

Lemma sumZ_perm l1 l2 : l1 ≡ₚ l2 -> sumZ l1 = sumZ l2.
Proof. induction 1; simpl; lia. Qed.

Lemma planTotal_empty : planTotal ∅ = 0.
Proof. unfold planTotal. by rewrite map_to_list_empty. Qed.

Lemma planTotal_insert (plan : gmap Z Z) w a :
  plan !! w = None -> planTotal (<[w := a]> plan) = a + planTotal plan.
Proof.
  intros Hw. unfold planTotal.
  rewrite (sumZ_perm _ (snd <$> ((w, a) :: map_to_list plan))); [done|].
  apply fmap_Permutation. by apply map_to_list_insert.
Qed.

(** ** The stock key *)

Lemma stockKey_inj p w1 w2 : stockKey p w1 = stockKey p w2 -> w1 = w2.
Proof.
  unfold stockKey. intros H.
  apply (inj (String.app (pretty p))) in H.
  apply (inj (String.app "-")) in H.
  by apply (inj pretty) in H.
Qed.

(** ** [allocateStock] *)

Lemma sumZ_quantities_nonneg (l : list Stock.t) :
  Forall (fun x => 0 < Stock.Quantity x) l -> 0 <= sumZ (Stock.Quantity <$> l).
Proof.
  induction 1 as [|x l Hx _ IH]; [done|].
  rewrite fmap_cons. unfold sumZ in *. simpl. lia.
Qed.

(** The drawing loop: what remains is what the lines could not cover, the
    plan grows by what was covered, and every new entry draws from a line
    of its warehouse no more than the line holds. *)
Lemma allocate_loop_spec (avail : list Stock.t) :
  forall (al : gmap Z Z) rem,
    NoDup (Stock.WarehouseID <$> avail) ->
    Forall (fun x => 0 < Stock.Quantity x) avail ->
    Forall (fun x => al !! Stock.WarehouseID x = None) avail ->
    0 <= rem < 2 ^ 63 ->
    exists al' rem',
      allocate_loop avail al rem = (al', rem') /\
      rem' = Z.max 0 (rem - sumZ (Stock.Quantity <$> avail)) /\
      planTotal al' = planTotal al + (rem - rem') /\
      (forall w a, al' !! w = Some a ->
         al !! w = Some a \/
         exists x, x ∈ avail /\ Stock.WarehouseID x = w /\ 0 < a <= Stock.Quantity x).
Proof.
  induction avail as [|x rest IH]; intros al rem Hnd Hpos Hfresh Hrem.
  - exists al, rem. simpl. unfold sumZ. simpl. repeat split; [lia | lia | auto].
  - rewrite fmap_cons in Hnd. apply NoDup_cons in Hnd as [Hx Hnd'].
    apply Forall_cons in Hpos as [Hqx Hpos'].
    apply Forall_cons in Hfresh as [Hfx Hfresh'].
    rewrite fmap_cons, sumZ_cons. simpl.
    pose proof (sumZ_quantities_nonneg rest Hpos') as Hsum.
    assert (Hfresh1 : forall v, Forall
              (fun y => <[Stock.WarehouseID x := v]> al !! Stock.WarehouseID y = None) rest).
    { intros v. rewrite Forall_forall in Hfresh'. apply Forall_forall. intros y Hy. cbv beta.
      rewrite lookup_insert_ne; [by apply Hfresh'|].
      intros Heq. apply Hx. apply list_elem_of_fmap. eauto. }
    destruct (Z.leb_spec rem 0) as [Hz|Hz].
    { exists al, rem. repeat split; [lia | lia | auto]. }
    destruct (Z.leb_spec rem (Stock.Quantity x)) as [Hle|Hgt].
    + destruct (IH (<[Stock.WarehouseID x := rem]> al) 0 Hnd' Hpos' (Hfresh1 rem))
        as (al' & rem' & Heq & Hr & Ht & Hent); [lia|].
      exists al', rem'. rewrite Heq. split; [done|]. split; [lia|]. split.
      * rewrite Ht, planTotal_insert by done. lia.
      * intros w a Hw. destruct (Hent w a Hw) as [Hin|(y & Hy & Hwy & Ha)].
        -- apply lookup_insert_Some in Hin as [[<- <-]|[_ Hin]]; [|by left].
           right. exists x. split; [left|]. split; [done|lia].
        -- right. exists y. split; [by right|done].
    + assert (Hs : sub64 rem (Stock.Quantity x) = rem - Stock.Quantity x).
      { apply sub64_exact. unfold int_ok. lia. }
      rewrite Hs.
      destruct (IH (<[Stock.WarehouseID x := Stock.Quantity x]> al)
                   (rem - Stock.Quantity x) Hnd' Hpos' (Hfresh1 (Stock.Quantity x)))
        as (al' & rem' & Heq & Hr & Ht & Hent); [lia|].
      exists al', rem'. rewrite Heq. split; [done|]. split; [lia|]. split.
      * rewrite Ht, planTotal_insert by done. lia.
      * intros w a Hw. destruct (Hent w a Hw) as [Hin|(y & Hy & Hwy & Ha)].
        -- apply lookup_insert_Some in Hin as [[<- <-]|[_ Hin]]; [|by left].
           right. exists x. split; [left|]. split; [done|lia].
        -- right. exists y. split; [by right|done].
Qed.

Lemma stockLines_elem (s : gmap string Stock.t) p x :
  x ∈ stockLines s p <->
  exists k, s !! k = Some x /\ Stock.ProductID x = p /\ 0 < Stock.Quantity x.
Proof.
  unfold stockLines. rewrite list_elem_of_fmap. split.
  - intros ([k y] & -> & Hin). apply list_elem_of_filter in Hin as [[Hp Hq] Hin].
    apply elem_of_map_to_list in Hin. exists k. simpl in *. done.
  - intros (k & Hk & Hp & Hq). exists (k, x). split; [done|].
    apply list_elem_of_filter. split; [done|]. by apply elem_of_map_to_list.
Qed.

Lemma stockLines_NoDup (s : gmap string Stock.t) p :
  stocks_wf s -> NoDup (Stock.WarehouseID <$> stockLines s p).
Proof.
  intros Hwf. unfold stockLines. rewrite <- list_fmap_compose.
  apply NoDup_fmap_2_strong.
  - intros [k1 x1] [k2 x2] H1 H2 Hw. simpl in Hw.
    apply list_elem_of_filter in H1 as [[Hp1 _] H1].
    apply list_elem_of_filter in H2 as [[Hp2 _] H2].
    apply elem_of_map_to_list in H1, H2. simpl in *.
    destruct (Hwf _ _ H1) as [Hk1 _]. destruct (Hwf _ _ H2) as [Hk2 _].
    assert (k1 = k2) as -> by congruence.
    congruence.
  - apply NoDup_filter, NoDup_map_to_list.
Qed.

(** ** The commit loop *)

Lemma commit_other p (l : list (Z * Z)) :
  forall (s : gmap string Stock.t) k,
    (forall wq, wq ∈ l -> stockKey p (fst wq) <> k) ->
    commit p l s !! k = s !! k.
Proof.
  induction l as [|wq l IH]; intros s k Hk; [done|].
  unfold commit in *. simpl. rewrite IH.
  - unfold decrement. destruct (s !! stockKey p (fst wq)); [|done].
    apply lookup_insert_ne. apply Hk. left.
  - intros wq' Hin. apply Hk. by right.
Qed.

Lemma commit_hit p (l : list (Z * Z)) :
  forall (s : gmap string Stock.t) w a x,
    NoDup (fst <$> l) -> (w, a) ∈ l ->
    s !! stockKey p w = Some x ->
    commit p l s !! stockKey p w
    = Some (Stock.setQuantity x (sub64 (Stock.Quantity x) a)).
Proof.
  induction l as [|wq l IH]; intros s w a x Hnd Hin Hs; [by inversion Hin|].
  simpl in Hnd. inversion Hnd as [|? ? Hhd Hnd']; subst.
  apply elem_of_cons in Hin as [<-|Hin].
  - change (commit p ((w, a) :: l) s) with (commit p l (decrement p (w, a) s)).
    rewrite commit_other.
    + unfold decrement. simpl. rewrite Hs. apply lookup_insert_eq.
    + intros wq' Hin' Heq. apply stockKey_inj in Heq. apply Hhd.
      simpl. rewrite <- Heq. apply list_elem_of_fmap. eauto.
  - change (commit p (wq :: l) s) with (commit p l (decrement p wq s)).
    apply IH; [done..|].
    unfold decrement. destruct (s !! stockKey p (fst wq)); [|done].
    rewrite lookup_insert_ne; [done|].
    intros Heq. apply stockKey_inj in Heq. apply Hhd. rewrite Heq.
    apply list_elem_of_fmap. exists (w, a). done.
Qed.

(** ** One run of [allocateStock] *)

Section Allocation.
(** One run, with its order of the ranges. *)
Context (rt : Runtime) (Hrt : runtime_ok rt).

Lemma availableStocks_perm (s : gmap string Stock.t) p :
  availableStocks rt s p ≡ₚ stockLines s p.
Proof.
  destruct Hrt as [Hr _]. unfold availableStocks, stockLines. by rewrite (Hr s).
Qed.

Lemma range_allocations_elem (plan : gmap Z Z) w a :
  (w, a) ∈ range_allocations rt plan <-> plan !! w = Some a.
Proof.
  destruct Hrt as [_ Hr]. rewrite (Hr plan). apply elem_of_map_to_list.
Qed.

Lemma range_allocations_NoDup (plan : gmap Z Z) :
  NoDup (fst <$> range_allocations rt plan).
Proof.
  destruct Hrt as [_ Hr]. rewrite (Hr plan). apply NoDup_fst_map_to_list.
Qed.

(** What the drawing loop of [allocateStock] returns, in terms of the
    stock of the product. *)
Lemma allocateStock_plan (s : gmap string Stock.t) p q :
  stocks_wf s -> 0 < q -> int_ok q ->
  exists plan rem,
    allocate_loop (availableStocks rt s p) ∅ q = (plan, rem) /\
    rem = Z.max 0 (q - totalAvailable s p) /\
    planTotal plan = q - rem /\
    (forall w a, plan !! w = Some a ->
       exists x, s !! stockKey p w = Some x /\
         Stock.ProductID x = p /\ Stock.WarehouseID x = w /\
         0 < a <= Stock.Quantity x /\ int_ok (Stock.Quantity x)).
Proof.
  intros Hwf Hq Hqok.
  pose proof (availableStocks_perm s p) as Hperm.
  destruct (allocate_loop_spec (availableStocks rt s p) ∅ q)
    as (plan & rem & Heq & Hrem & Htot & Hent).
  - rewrite Hperm. by apply stockLines_NoDup.
  - apply Forall_forall. intros x Hx. rewrite Hperm in Hx.
    apply stockLines_elem in Hx as (k & _ & _ & Hpos). done.
  - apply Forall_forall. intros x _. apply lookup_empty.
  - unfold int_ok in Hqok. lia.
  - exists plan, rem. split; [done|]. split.
    { rewrite Hrem. unfold totalAvailable.
      by rewrite (sumZ_perm _ _ (fmap_Permutation Stock.Quantity _ _ Hperm)). }
    split.
    { rewrite Htot, planTotal_empty. lia. }
    intros w a Hw. destruct (Hent w a Hw) as [Hin|(x & Hx & Hxw & Ha)].
    { by rewrite lookup_empty in Hin. }
    rewrite Hperm in Hx. apply stockLines_elem in Hx as (k & Hk & Hp & _).
    destruct (Hwf k x Hk) as [Hkey Hok].
    exists x. rewrite Hp, Hxw in Hkey. subst k. done.
Qed.

(** C1.  For a required quantity q > 0, [allocateStock] fails exactly when
    the stock lines of the product hold less than q in total, and then
    returns no plan and leaves [stocks] as it was; otherwise it returns a
    plan whose quantities sum to q, every planned warehouse had a line of
    the product, that line is lowered by exactly the planned amount and
    stays >= 0, and every other stock line is as before. *)
Theorem allocateStock_all_or_nothing (s : gmap string Stock.t) p q :
  stocks_wf s -> 0 < q -> int_ok q ->
  exists ok plan s',
    allocateStock rt s p q = (ok, plan, s') /\
    (ok = false <-> totalAvailable s p < q) /\
    (ok = false -> plan = ∅ /\ s' = s) /\
    (ok = true ->
       planTotal plan = q /\
       (forall w a, plan !! w = Some a ->
          exists x, s !! stockKey p w = Some x /\
            Stock.ProductID x = p /\ Stock.WarehouseID x = w /\
            0 < a /\ 0 <= Stock.Quantity x - a /\
            s' !! stockKey p w = Some (Stock.mk p w (Stock.Quantity x - a))) /\
       (forall k, (forall w, is_Some (plan !! w) -> k <> stockKey p w) ->
          s' !! k = s !! k)).
Proof.
  intros Hwf Hq Hqok.
  destruct (allocateStock_plan s p q Hwf Hq Hqok)
    as (plan & rem & Heq & Hrem & Htot & Hent).
  unfold allocateStock. rewrite Heq.
  destruct (Z.eqb_spec rem 0) as [Hz|Hnz].
  - eexists true, plan, _. split; [reflexivity|].
    split; [split; [discriminate|lia]|]. split; [discriminate|].
    intros _. split; [lia|]. split.
    + intros w a Hw. destruct (Hent w a Hw) as (x & Hx & Hp & Hxw & Ha & Hok).
      exists x. repeat (split; [done || lia|]).
      erewrite commit_hit; [| apply range_allocations_NoDup
                            | by apply range_allocations_elem | done].
      unfold Stock.setQuantity. rewrite Hp, Hxw, sub64_exact; [done|].
      unfold int_ok in *. lia.
    + intros k Hk. apply commit_other. intros [w a] Hin Heqk.
      apply range_allocations_elem in Hin.
      apply (Hk w); [by exists a|done].
  - exists false, ∅, s. split; [done|].
    split; [split; [lia|done]|]. split; [done|discriminate].
Qed.

(** ** The invariant of [stocks] and the total of [getProductStock] *)

(** [allocateStock] keeps the representation invariant of [stocks]. *)
Lemma allocateStock_wf (s : gmap string Stock.t) p q :
  stocks_wf s -> 0 < q -> int_ok q ->
  stocks_wf (snd (allocateStock rt s p q)).
Proof.
  intros Hwf Hq Hqok.
  destruct (allocateStock_plan s p q Hwf Hq Hqok)
    as (plan & rem & Heq & Hrem & Htot & Hent).
  unfold allocateStock. rewrite Heq.
  destruct (rem =? 0); [|done]. cbn [snd].
  intros k x Hk.
  destruct (decide (k ∈ (fun wq : Z * Z => stockKey p (fst wq)) <$> range_allocations rt plan))
    as [Hin|Hnin].
  - apply list_elem_of_fmap in Hin as ([w a] & -> & Hin). cbn [fst] in Hk.
    pose proof Hin as Hin'. apply range_allocations_elem in Hin'.
    destruct (Hent w a Hin') as (y & Hy & Hp & Hw & Ha & Hok).
    rewrite (commit_hit p _ s w a y (range_allocations_NoDup plan) Hin Hy) in Hk.
    injection Hk as <-. unfold Stock.setQuantity. cbn. rewrite Hp, Hw.
    split; [done|]. rewrite sub64_exact; unfold int_ok in *; lia.
  - rewrite commit_other in Hk; [by apply Hwf|].
    intros wq Hwq Heqk. apply Hnin. apply list_elem_of_fmap. eauto.
Qed.

(** The sum of [getProductStock], when every stock line names a warehouse
    that exists and the total is an [int], is the total of the lines. *)
Lemma getProductStock_fold (st : Store) p (l : list (string * Stock.t)) :
  forall acc,
    (forall kv, kv ∈ l -> is_Some (warehouses st !! Stock.WarehouseID (snd kv))) ->
    0 <= fst acc ->
    fst acc + sumZ (Stock.Quantity <$>
                      (snd <$> filter (fun kv : string * Stock.t =>
                                         Stock.ProductID (snd kv) = p /\
                                         0 < Stock.Quantity (snd kv)) l)) < 2 ^ 63 ->
    fst (foldl (fun (acc : Z * list StockWarehouse.t) (kv : string * Stock.t) =>
                  let stock := snd kv in
                  if (Stock.ProductID stock =? p) && (0 <? Stock.Quantity stock) then
                    match warehouses st !! Stock.WarehouseID stock with
                    | Some warehouse =>
                        (add64 (fst acc) (Stock.Quantity stock),
                         snd acc ++ [StockWarehouse.mk (Warehouse.Name warehouse)
                                                       (Stock.Quantity stock)])
                    | None => acc
                    end
                  else acc) acc l)
    = fst acc + sumZ (Stock.Quantity <$>
                        (snd <$> filter (fun kv : string * Stock.t =>
                                           Stock.ProductID (snd kv) = p /\
                                           0 < Stock.Quantity (snd kv)) l)).
Proof.
  induction l as [|[k x] l IH]; intros acc Hwh Hacc Hsum.
  - simpl. unfold sumZ. simpl. lia.
  - assert (Hrest : 0 <= sumZ (Stock.Quantity <$>
                      (snd <$> filter (fun kv : string * Stock.t =>
                                         Stock.ProductID (snd kv) = p /\
                                         0 < Stock.Quantity (snd kv)) l))).
    { apply sumZ_quantities_nonneg. apply Forall_forall. intros y Hy.
      apply list_elem_of_fmap in Hy as ([k' y'] & -> & Hy).
      apply list_elem_of_filter in Hy as [[_ Hpos] _]. done. }
    cbn [foldl snd].
    destruct (Z.eqb_spec (Stock.ProductID x) p) as [Hp|Hp];
      destruct (Z.ltb_spec 0 (Stock.Quantity x)) as [Hpos|Hpos]; cbn [andb].
    2,3,4: rewrite filter_cons_False in * by (cbn; lia);
           apply IH; [intros kv Hin; apply Hwh; by right|done|done].
    rewrite filter_cons_True in * by (cbn; lia).
    rewrite !fmap_cons, sumZ_cons in *. cbn [snd] in *.
    destruct (Hwh (k, x) ltac:(left)) as [wh Hw]. cbn [snd] in Hw. rewrite Hw.
    rewrite IH.
    + cbn [fst]. rewrite add64_exact by (unfold int_ok; lia). lia.
    + intros kv Hin. apply Hwh. by right.
    + cbn [fst]. rewrite add64_exact by (unfold int_ok; lia). lia.
    + cbn [fst]. rewrite add64_exact by (unfold int_ok; lia). lia.
Qed.

Lemma getProductStock_total st p :
  (forall k x, stocks st !! k = Some x -> is_Some (warehouses st !! Stock.WarehouseID x)) ->
  totalAvailable (stocks st) p < 2 ^ 63 ->
  fst (getProductStock rt st p) = totalAvailable (stocks st) p.
Proof.
  intros Hwh Htot. unfold getProductStock.
  pose proof (availableStocks_perm (stocks st) p) as Hperm.
  unfold availableStocks in Hperm.
  pose proof (sumZ_perm _ _ (fmap_Permutation Stock.Quantity _ _ Hperm)) as Hsum.
  fold (totalAvailable (stocks st) p) in Hsum.
  rewrite getProductStock_fold.
  - cbn [fst]. lia.
  - intros [k x] Hin. destruct Hrt as [Hr _]. rewrite (Hr (stocks st)) in Hin.
    apply elem_of_map_to_list in Hin. by eapply Hwh.
  - cbn [fst]. lia.
  - cbn [fst]. lia.
Qed.

End Allocation.

(** ** The example runtimes and the example shop *)

Lemma runtimeWith_ok b : runtime_ok (runtimeWith b).
Proof. split; intros m; reflexivity. Qed.

Lemma runtimeReversed_ok b : runtime_ok (runtimeReversed b).
Proof. split; intros m; apply reverse_Permutation. Qed.

Lemma shop_stocks_wf : stocks_wf (stocks shop).
Proof. apply (bool_decide_unpack _). vm_compute. exact I. Qed.

(** The stock lines of [init] satisfy the representation invariant. *)
Lemma initStore_stocks_wf adminPass : stocks_wf (stocks (initStore adminPass)).
Proof. apply (bool_decide_unpack _). vm_compute. exact I. Qed.

Lemma initStocks_wf : stocks_wf initStocks.
Proof. apply initStore_stocks_wf. Qed.

Lemma allocateStock_all_or_nothing_witness :
  exists ok plan s',
    allocateStock (runtimeWith true) initStocks 1 4 = (ok, plan, s') /\
    (ok = false <-> totalAvailable initStocks 1 < 4) /\
    (ok = false -> plan = ∅ /\ s' = initStocks).
Proof.
  destruct (allocateStock_all_or_nothing (runtimeWith true) (runtimeWith_ok true)
              initStocks 1 4)
    as (ok & plan & s' & H1 & H2 & H3 & _).
  - apply initStocks_wf.
  - lia.
  - unfold int_ok. lia.
  - exists ok, plan, s'. auto.
Defined.

(** ** Order of the range and the plan *)

(** The plan is not a function of the stock and the request alone: in the
    store of [init], product 1 lies in three warehouses, and a run that
    ranges over [stocks] in one order and a run that ranges in the opposite
    order return different plans for 4 units. *)
Lemma allocateStock_order_dependent :
  ~ (forall rt1 rt2 (s : gmap string Stock.t) p q,
       runtime_ok rt1 -> runtime_ok rt2 -> stocks_wf s -> 0 < q -> int_ok q ->
       snd (fst (allocateStock rt1 s p q)) = snd (fst (allocateStock rt2 s p q))).
Proof.
  intros H.
  specialize (H (runtimeWith true) (runtimeReversed true) initStocks 1 4
                (runtimeWith_ok true) (runtimeReversed_ok true) initStocks_wf).
  assert (H' := H ltac:(lia) ltac:(unfold int_ok; lia)).
  apply (f_equal (fun m : gmap Z Z => m !! 3)) in H'.
  vm_compute in H'. discriminate.
Qed.

(** C7, as the code has it.  Two runs of [allocateStock] from the same
    stock, each with its own order of the ranges, agree on success or
    failure and draw the same total; whenever the two runs range over
    [stocks] in the same order, their plans are equal.  A run succeeds
    exactly when the product holds q in total, and its plan draws q on
    success and nothing on failure.  Which warehouses are drawn from
    follows the order of the range, and with different orders the plans
    can differ. *)
Theorem allocateStock_outcome_determined rt1 rt2 (s : gmap string Stock.t) p q :
  runtime_ok rt1 -> runtime_ok rt2 -> stocks_wf s -> 0 < q -> int_ok q ->
  fst (fst (allocateStock rt1 s p q)) = fst (fst (allocateStock rt2 s p q)) /\
  planTotal (snd (fst (allocateStock rt1 s p q)))
  = planTotal (snd (fst (allocateStock rt2 s p q))) /\
  (range_stocks rt1 s = range_stocks rt2 s ->
   snd (fst (allocateStock rt1 s p q)) = snd (fst (allocateStock rt2 s p q))) /\
  (fst (fst (allocateStock rt1 s p q)) = true <-> q <= totalAvailable s p) /\
  planTotal (snd (fst (allocateStock rt1 s p q)))
  = (if fst (fst (allocateStock rt1 s p q)) then q else 0).
Proof.
  intros Hrt1 Hrt2 Hwf Hq Hqok.
  destruct (allocateStock_plan rt1 Hrt1 s p q Hwf Hq Hqok)
    as (plan1 & rem1 & Heq1 & Hrem1 & Htot1 & _).
  destruct (allocateStock_plan rt2 Hrt2 s p q Hwf Hq Hqok)
    as (plan2 & rem2 & Heq2 & Hrem2 & Htot2 & _).
  assert (Hrem : rem1 = rem2) by congruence.
  split; [|split; [|split; [|split]]].
  - unfold allocateStock. rewrite Heq1, Heq2, Hrem. by destruct (rem2 =? 0).
  - unfold allocateStock. rewrite Heq1, Heq2, Hrem.
    destruct (rem2 =? 0); simpl; [lia|done].
  - intros Hsame. unfold allocateStock, availableStocks in *.
    rewrite Hsame in Heq1. rewrite Heq1 in Heq2. injection Heq2 as -> ->.
    rewrite Hsame, Heq1. by destruct (rem2 =? 0).
  - unfold allocateStock. rewrite Heq1.
    destruct (Z.eqb_spec rem1 0) as [H0|H0]; cbn [fst]; split; try done; lia.
  - unfold allocateStock. rewrite Heq1.
    destruct (Z.eqb_spec rem1 0) as [H0|H0]; cbn [fst snd]; [lia|].
    apply planTotal_empty.
Qed.

Lemma allocateStock_outcome_determined_witness :
  fst (fst (allocateStock (runtimeWith true) initStocks 1 4))
  = fst (fst (allocateStock (runtimeReversed true) initStocks 1 4)) /\
  planTotal (snd (fst (allocateStock (runtimeWith true) initStocks 1 4)))
  = planTotal (snd (fst (allocateStock (runtimeReversed true) initStocks 1 4))).
Proof.
  destruct (allocateStock_outcome_determined
              (runtimeWith true) (runtimeReversed true) initStocks 1 4)
    as (H1 & H2 & _).
  - apply runtimeWith_ok.
  - apply runtimeReversed_ok.
  - apply initStocks_wf.
  - lia.
  - unfold int_ok. lia.
  - auto.
Defined.

(** ** Points *)

Lemma wrap64_add_l x y : wrap64 (wrap64 x + y) = wrap64 (x + y).
Proof.
  unfold wrap64. f_equal.
  replace ((x + 2 ^ 63) mod 2 ^ 64 - 2 ^ 63 + y + 2 ^ 63)
    with ((x + 2 ^ 63) mod 2 ^ 64 + y) by lia.
  rewrite Zplus_mod_idemp_l. f_equal. lia.
Qed.

(** Taking points and giving them back leaves the balance. *)
Lemma add64_sub64_cancel b a : int_ok b -> add64 (sub64 b a) a = b.
Proof.
  intros Hb. unfold add64, sub64. rewrite wrap64_add_l.
  replace (b - a + a) with b by lia. by apply wrap64_id.
Qed.

Lemma setCurrentPoints_same u : User.setCurrentPoints u (User.CurrentPoints u) = u.
Proof. by destruct u. Qed.

Lemma setCurrentPoints_twice u p1 p2 :
  User.setCurrentPoints (User.setCurrentPoints u p1) p2 = User.setCurrentPoints u p2.
Proof. reflexivity. Qed.

(** C8.  For an existing user with balance b and an amount a >= 0,
    [usePoints] returns true exactly when b >= a.  When it does, the user
    stored under the same ID has the balance b - a and every other field
    as before, no other user is touched, and one history entry of type
    "used", with the amount a and the balance b - a, is added under a new
    ID; when it does not, the store (balances and history) is as before. *)
Theorem usePoints_spec now st uid oid a u :
  users st !! uid = Some u ->
  0 <= a ->
  int_ok (User.CurrentPoints u) ->
  pointHistories st !! nextPointHistoryID st = None ->
  let b := User.CurrentPoints u in
  let st' := snd (usePoints now st uid oid a) in
  (fst (usePoints now st uid oid a) = true <-> a <= b) /\
  (a <= b ->
     users st' = <[uid := User.setCurrentPoints u (b - a)]> (users st) /\
     (exists u',
        users st' !! uid = Some u' /\
        User.CurrentPoints u' = b - a /\
        User.ID u' = User.ID u /\
        User.Username u' = User.Username u /\
        User.PasswordHash u' = User.PasswordHash u /\
        User.IsAdmin u' = User.IsAdmin u /\
        User.Token u' = User.Token u /\
        User.TotalSpentAmount u' = User.TotalSpentAmount u /\
        User.MemberRank u' = User.MemberRank u) /\
     (forall k, k <> uid -> users st' !! k = users st !! k) /\
     pointHistories st'
     = <[nextPointHistoryID st :=
           PointHistory.mk (nextPointHistoryID st) uid oid "used" a (b - a) now]>
         (pointHistories st) /\
     (exists h,
        pointHistories st' !! nextPointHistoryID st = Some h /\
        PointHistory.UserID h = uid /\
        PointHistory.OrderID h = oid /\
        PointHistory.Type_ h = "used" /\
        PointHistory.Amount h = a /\
        PointHistory.Balance h = b - a) /\
     (forall k, k <> nextPointHistoryID st ->
        pointHistories st' !! k = pointHistories st !! k) /\
     size (pointHistories st') = S (size (pointHistories st)) /\
     stocks st' = stocks st /\ orders st' = orders st) /\
  (b < a ->
     st' = st /\
     users st' !! uid = Some u /\
     pointHistories st' = pointHistories st).
Proof.
  intros Hu Ha Hb Hfresh b st'. subst b st'. unfold usePoints. rewrite Hu.
  destruct (Z.leb_spec a (User.CurrentPoints u)) as [Hle|Hlt]; simpl.
  - rewrite sub64_exact by (unfold int_ok in *; lia).
    split; [done|]. split; [|lia]. intros _.
    split; [done|]. split.
    { eexists. split; [apply lookup_insert_eq|]. by destruct u. }
    split; [by intros k Hk; apply lookup_insert_ne|].
    split; [done|]. split.
    { eexists. split; [apply lookup_insert_eq|]. done. }
    split; [by intros k Hk; apply lookup_insert_ne|].
    split; [by apply map_size_insert_None|done].
  - split; [split; [discriminate|lia]|]. split; [lia|done].
Qed.

Lemma usePoints_spec_witness :
  (fst (usePoints 0 shop 7 1 100) = true <-> 100 <= 300) /\
  (exists u',
     users (snd (usePoints 0 shop 7 1 100)) !! 7 = Some u' /\
     User.CurrentPoints u' = 200) /\
  (exists h,
     pointHistories (snd (usePoints 0 shop 7 1 100)) !! 1 = Some h /\
     PointHistory.Type_ h = "used" /\
     PointHistory.Amount h = 100 /\
     PointHistory.Balance h = 200).
Proof.
  destruct (usePoints_spec 0 shop 7 1 100 (User.mk 7 "u" "h" false "t" 300 0 "Normal"))
    as (Hret & Hyes & _).
  - reflexivity.
  - lia.
  - unfold int_ok. simpl. lia.
  - reflexivity.
  - destruct Hyes as (_ & (u' & Hu' & Hbal & _) & _ & _ & (h & Hh & _ & _ & Ht & Ha & Hb) & _).
    { simpl. lia. }
    split; [exact Hret|]. split.
    + exists u'. split; [exact Hu'|exact Hbal].
    + exists h. split; [exact Hh|]. split; [exact Ht|]. split; [exact Ha|exact Hb].
Defined.

(** ** The handler *)

Lemma createOrderHandler_validated rt st r uid user req coupon subtotal :
  validated rt st r uid user req coupon subtotal ->
  createOrderHandler rt st r = settleOrder rt st uid user req coupon subtotal.
Proof.
  intros (Hm & Ha & Hu & Hb & Hi & Hp & Hc & Hs).
  unfold createOrderHandler. rewrite Hm, Ha, Hu, Hb, Hc, Hs. simpl.
  destruct (Items req) as [|i l]; [done|]. simpl.
  destruct (Z.ltb_spec (UsePoints req) 0); [lia|].
  destruct (Z.ltb_spec (User.CurrentPoints user) (UsePoints req)); [lia|]. done.
Qed.

(** The points taken before the payment, and what giving them back to a
    store with these users does. *)
Lemma usePoints_taken now st uid oid a u :
  users st !! uid = Some u -> a <= User.CurrentPoints u ->
  exists st1,
    usePoints now st uid oid a = (true, st1) /\
    users st1 = <[uid := User.setCurrentPoints u (sub64 (User.CurrentPoints u) a)]> (users st) /\
    stocks st1 = stocks st /\ orders st1 = orders st /\
    nextOrderID st1 = nextOrderID st.
Proof.
  intros Hu Ha. unfold usePoints. rewrite Hu.
  destruct (Z.leb_spec a (User.CurrentPoints u)); [|lia].
  eexists. split; [reflexivity|]. done.
Qed.

Lemma rollbackPoints_restores now st st1 uid oid a u :
  users st !! uid = Some u -> int_ok (User.CurrentPoints u) ->
  users st1 = <[uid := User.setCurrentPoints u (sub64 (User.CurrentPoints u) a)]> (users st) ->
  users (rollbackPoints now st1 uid oid a) = users st /\
  stocks (rollbackPoints now st1 uid oid a) = stocks st1 /\
  orders (rollbackPoints now st1 uid oid a) = orders st1 /\
  nextOrderID (rollbackPoints now st1 uid oid a) = nextOrderID st1.
Proof.
  intros Hu Hok H1. unfold rollbackPoints. rewrite H1, lookup_insert_eq. simpl.
  rewrite H1, insert_insert_eq. simpl.
  rewrite add64_sub64_cancel by done.
  rewrite setCurrentPoints_twice, setCurrentPoints_same. by rewrite insert_id.
Qed.

(** C3.  When the gateway declines the payment of a checkout, the handler
    answers 402 and ends with the stock lines as they were, the users (and
    so the point balance of the buyer, whose points had been taken before
    the payment) as they were, and an order saved under the new order ID
    with status "payment_failed" and the computed total, shipping fee,
    coupon discount, rank discount, used points and earned points. *)
Theorem payment_failure_compensated rt st r uid user req coupon subtotal :
  validated rt st r uid user req coupon subtotal ->
  int_ok (User.CurrentPoints user) ->
  let p := computePricing subtotal (User.MemberRank user) coupon (UsePoints req) in
  PaymentResult.Success (ProcessPayment rt (totalPrice p) (nextOrderID st)) = false ->
  let resp := fst (createOrderHandler rt st r) in
  let st' := snd (createOrderHandler rt st r) in
  statusCode resp = 402 /\
  stocks st' = stocks st /\
  users st' = users st /\
  orders st' !! nextOrderID st = Some (orderOf rt st uid req p "payment_failed").
Proof.
  intros Hv Hok p Hpay resp st'. subst resp st'.
  rewrite (createOrderHandler_validated _ _ _ _ _ _ _ _ Hv).
  destruct Hv as (_ & _ & Hu & _ & _ & Hp & _ & _).
  unfold settleOrder. fold p. clearbody p.
  destruct (Z.ltb_spec 0 (UsePoints req)) as [Hpos|Hzero].
  - destruct (usePoints_taken (time_Now rt 0) st uid (nextOrderID st) (UsePoints req) user)
      as (st1 & Huse & Hus1 & Hst1 & Hor1 & Hid1); [done|lia|].
    rewrite Huse. simpl. rewrite Hpay. simpl.
    destruct (rollbackPoints_restores (time_Now rt 2) st st1 uid (nextOrderID st)
                (UsePoints req) user Hu Hok Hus1) as (Hus2 & Hst2 & Hor2 & Hid2).
    rewrite Hus2, Hst2, Hst1. repeat split. apply lookup_insert_eq.
  - simpl. rewrite Hpay. simpl. repeat split. apply lookup_insert_eq.
Qed.

Lemma payment_failure_compensated_witness :
  statusCode (fst (createOrderHandler (runtimeWith false) shop (orderRequest cart "FLAT1000" 100))) = 402 /\
  stocks (snd (createOrderHandler (runtimeWith false) shop (orderRequest cart "FLAT1000" 100)))
  = stocks shop /\
  users (snd (createOrderHandler (runtimeWith false) shop (orderRequest cart "FLAT1000" 100)))
  = users shop.
Proof.
  destruct (payment_failure_compensated (runtimeWith false) shop
              (orderRequest cart "FLAT1000" 100) 7
              (User.mk 7 "u" "h" false "t" 300 0 "Normal")
              (mkOrderRequest cart "FLAT1000" 100)
              (Some couponFLAT1000) 4000)
    as (H1 & H2 & H3 & _).
  - unfold validated. repeat split; try reflexivity; try discriminate; simpl; lia.
  - unfold int_ok. simpl. lia.
  - reflexivity.
  - auto.
Defined.

(** ** Rejected requests *)

(** An early return of the handler: a 4xx answer and the store untouched. *)
Ltac rejected := split; [unfold clientError; simpl; lia | done].

Lemma checkItems_error rt st items :
  forall i subtotal e,
    checkItems rt st items i subtotal = inl e -> clientError e.
Proof.
  induction items as [|item rest IH]; intros i subtotal e; simpl; [discriminate|].
  destruct (OrderItem.Quantity item <=? 0).
  { intros [= <-]. unfold clientError. simpl. lia. }
  destruct (products st !! OrderItem.ProductID item) as [product|].
  2:{ intros [= <-]. unfold clientError. simpl. lia. }
  destruct (_ <? _).
  { intros [= <-]. unfold clientError. simpl. lia. }
  apply IH.
Qed.

Lemma checkItems_rejects rt st items :
  Exists (fun it => OrderItem.Quantity it <= 0 \/
                    products st !! OrderItem.ProductID it = None) items ->
  forall i subtotal, exists e, checkItems rt st items i subtotal = inl e.
Proof.
  induction 1 as [item rest Hbad|item rest Hbad IH]; intros i subtotal; simpl.
  - destruct (Z.leb_spec (OrderItem.Quantity item) 0); [eauto|].
    destruct Hbad as [Hq|Hp]; [lia|]. rewrite Hp. eauto.
  - destruct (OrderItem.Quantity item <=? 0); [eauto|].
    destruct (products st !! OrderItem.ProductID item); [|eauto].
    destruct (_ <? _); [eauto|]. apply IH.
Qed.

Lemma lookupCoupon_error st code e :
  lookupCoupon st code = inl e -> e = ErrorResponse 400 InvalidCouponCode.
Proof.
  unfold lookupCoupon. destruct (String.eqb code EmptyString); [discriminate|].
  destruct (coupons st !! code); [discriminate|]. by intros [= <-].
Qed.

Lemma lookupCoupon_unknown st code :
  code <> EmptyString -> coupons st !! code = None ->
  lookupCoupon st code = inl (ErrorResponse 400 InvalidCouponCode).
Proof.
  intros Hne Hnone. unfold lookupCoupon.
  destruct (String.eqb_spec code EmptyString); [done|]. by rewrite Hnone.
Qed.

(** C6.  A checkout of a signed-in user with an empty cart, a quantity
    <= 0, a product that does not exist, a coupon code that does not exist,
    or more points than the user has, is answered with a 4xx status, and
    the store (orders, stock lines, point balances and all the rest) is as
    before. *)
Theorem rejected_checkout_changes_nothing rt st r uid user req :
  Auth r = Some uid -> users st !! uid = Some user -> Body r = Some req ->
  (Items req = [] \/
   Exists (fun it => OrderItem.Quantity it <= 0) (Items req) \/
   Exists (fun it => products st !! OrderItem.ProductID it = None) (Items req) \/
   (CouponCode req <> EmptyString /\ coupons st !! CouponCode req = None) \/
   User.CurrentPoints user < UsePoints req) ->
  clientError (fst (createOrderHandler rt st r)) /\
  snd (createOrderHandler rt st r) = st.
Proof.
  intros Ha Hu Hb Hbad. unfold createOrderHandler.
  destruct (negb _); [rejected|].
  rewrite Ha, Hu, Hb.
  destruct (Nat.eqb_spec (length (Items req)) 0) as [Hlen|Hlen]; [rejected|].
  destruct (UsePoints req <? 0); [rejected|].
  destruct (Z.ltb_spec (User.CurrentPoints user) (UsePoints req)) as [Hpts|Hpts];
    [rejected|].
  destruct (lookupCoupon st (CouponCode req)) as [e|coupon] eqn:Hc.
  { apply lookupCoupon_error in Hc as ->. rejected. }
  destruct (checkItems rt st (Items req) 0 0) as [e|subtotal] eqn:Hs.
  { split; [by eapply checkItems_error|done]. }
  exfalso. destruct Hbad as [Hnil|[Hq|[Hp|[[Hne Hnone]|Hlt]]]].
  - rewrite Hnil in Hlen. done.
  - destruct (checkItems_rejects rt st (Items req)) with (i := 0%nat) (subtotal := 0)
      as [e He]; [|congruence].
    eapply Exists_impl; [exact Hq|]. auto.
  - destruct (checkItems_rejects rt st (Items req)) with (i := 0%nat) (subtotal := 0)
      as [e He]; [|congruence].
    eapply Exists_impl; [exact Hp|]. auto.
  - rewrite lookupCoupon_unknown in Hc by done. discriminate.
  - lia.
Qed.

Lemma rejected_checkout_changes_nothing_witness :
  clientError (fst (createOrderHandler (runtimeWith true) shop (orderRequest cart noCoupon 301))) /\
  snd (createOrderHandler (runtimeWith true) shop (orderRequest cart noCoupon 301)) = shop.
Proof.
  apply (rejected_checkout_changes_nothing (runtimeWith true) shop
           (orderRequest cart noCoupon 301) 7
           (User.mk 7 "u" "h" false "t" 300 0 "Normal")
           (mkOrderRequest cart noCoupon 301)).
  - reflexivity.
  - reflexivity.
  - reflexivity.
  - right. right. right. right. simpl. lia.
Defined.

(** ** Allocation failing after the payment *)

Lemma allocateStock_failure rt (s : gmap string Stock.t) p q :
  fst (fst (allocateStock rt s p q)) = false ->
  allocateStock rt s p q = (false, ∅, s).
Proof.
  unfold allocateStock. destruct (allocate_loop _ _ _) as [al rem].
  by destruct (rem =? 0).
Qed.

Lemma allocateItems_app rt pre :
  forall (s sk : gmap string Stock.t) rest,
    allocateItems rt s pre = (true, sk) ->
    allocateItems rt s (pre ++ rest) = allocateItems rt sk rest.
Proof.
  induction pre as [|item pre IH]; intros s sk rest; simpl.
  - by intros [= ->].
  - destruct (allocateStock rt s _ _) as [[ok plan] s'].
    destruct ok; [apply IH|discriminate].
Qed.

(** C10.  In a checkout whose payment succeeded, when [allocateStock]
    succeeds for the first items [pre] of the cart and fails for the next
    one, the handler answers 409 and saves the order with status
    "payment_failed", the users are as before the checkout (points taken
    are given back), and [stocks] is left as the allocations for [pre] made
    it: nothing is put back. *)
Theorem allocation_failure_keeps_earlier_draws
    rt st r uid user req coupon subtotal pre item post sk :
  validated rt st r uid user req coupon subtotal ->
  int_ok (User.CurrentPoints user) ->
  let p := computePricing subtotal (User.MemberRank user) coupon (UsePoints req) in
  PaymentResult.Success (ProcessPayment rt (totalPrice p) (nextOrderID st)) = true ->
  Items req = pre ++ item :: post ->
  allocateItems rt (stocks st) pre = (true, sk) ->
  fst (fst (allocateStock rt sk (OrderItem.ProductID item) (OrderItem.Quantity item)))
  = false ->
  let resp := fst (createOrderHandler rt st r) in
  let st' := snd (createOrderHandler rt st r) in
  statusCode resp = 409 /\
  stocks st' = sk /\
  users st' = users st /\
  orders st' !! nextOrderID st = Some (orderOf rt st uid req p "payment_failed").
Proof.
  intros Hv Hok p Hpay Hitems Hpre Hfail resp st'. subst resp st'.
  rewrite (createOrderHandler_validated _ _ _ _ _ _ _ _ Hv).
  destruct Hv as (_ & _ & Hu & _ & _ & Hp & _ & _).
  assert (Hall : allocateItems rt (stocks st) (Items req) = (false, sk)).
  { rewrite Hitems, (allocateItems_app _ _ _ _ _ Hpre). simpl.
    by rewrite (allocateStock_failure _ _ _ _ Hfail). }
  unfold settleOrder. fold p. clearbody p.
  destruct (Z.ltb_spec 0 (UsePoints req)) as [Hpos|Hzero].
  - destruct (usePoints_taken (time_Now rt 0) st uid (nextOrderID st) (UsePoints req) user)
      as (st1 & Huse & Hus1 & Hst1 & Hor1 & Hid1); [done|lia|].
    rewrite Huse. simpl. rewrite Hpay, Hst1, Hall. simpl.
    destruct (rollbackPoints_restores (time_Now rt 2) st (setStocks st1 sk) uid
                (nextOrderID st) (UsePoints req) user Hu Hok Hus1)
      as (Hus2 & Hst2 & Hor2 & Hid2).
    rewrite Hus2, Hst2. repeat split. apply lookup_insert_eq.
  - simpl. rewrite Hpay, Hall. simpl. repeat split. apply lookup_insert_eq.
Qed.

Lemma allocation_failure_keeps_earlier_draws_witness :
  statusCode (fst (createOrderHandler (runtimeWith true) shop (orderRequest twice noCoupon 100)))
  = 409 /\
  totalAvailable
    (stocks (snd (createOrderHandler (runtimeWith true) shop (orderRequest twice noCoupon 100)))) 1
  = 4 /\
  totalAvailable (stocks shop) 1 = 10.
Proof.
  destruct (allocation_failure_keeps_earlier_draws (runtimeWith true) shop
              (orderRequest twice noCoupon 100) 7
              (User.mk 7 "u" "h" false "t" 300 0 "Normal")
              (mkOrderRequest twice noCoupon 100) None 12000
              [OrderItem.mk 1 6] (OrderItem.mk 1 6) []
              (snd (allocateItems (runtimeWith true) (stocks shop) [OrderItem.mk 1 6])))
    as (H1 & H2 & _).
  - unfold validated. repeat split; try reflexivity; try discriminate; simpl; lia.
  - unfold int_ok. simpl. lia.
  - reflexivity.
  - reflexivity.
  - vm_compute. reflexivity.
  - vm_compute. reflexivity.
  - split; [exact H1|]. rewrite H2. split; vm_compute; reflexivity.
Defined.

(** ** The amount to pay *)

(** C2.  The cart {1000 x 2, 2000 x 1} of a member of rank Normal, with no
    coupon and no points: subtotal 4000, tax 400, 4400 with tax, shipping
    fee 500 and 4900 to pay; with the coupon FLAT1000 the discount is 1000,
    taken from the 4400, and 3900 is to pay.  The handler saves and returns
    orders with these amounts. *)
Theorem pricing_example :
  checkItems (runtimeWith true) shop cart 0 0 = inr 4000 /\
  computePricing 4000 "Normal" None 0
  = mkPricing 0 4000 400 4400 500 0 4400 4900 4900 49 /\
  lookupCoupon shop "FLAT1000" = inr (Some couponFLAT1000) /\
  computePricing 4000 "Normal" (Some couponFLAT1000) 0
  = mkPricing 0 4000 400 4400 500 1000 3400 3900 3900 39 /\
  fst (createOrderHandler (runtimeWith true) shop (orderRequest cart noCoupon 0))
  = Created (Order.mk 1 7 cart 4900 500 0 noCoupon "completed" 1 49 0 0)
            "TXN" 349 "Normal" /\
  fst (createOrderHandler (runtimeWith true) shop (orderRequest cart "FLAT1000" 0))
  = Created (Order.mk 1 7 cart 3900 500 1000 "FLAT1000" "completed" 1 39 0 0)
            "TXN" 339 "Normal".
Proof. repeat split; vm_compute; reflexivity. Qed.

Lemma calculateCouponDiscount_le coupon base :
  0 <= base -> calculateCouponDiscount coupon base <= base.
Proof.
  intros Hb. unfold calculateCouponDiscount.
  destruct coupon as [c|]; [|done].
  destruct (String.eqb _ "fixed").
  { destruct (Z.ltb_spec base (Coupon.Amount c)); lia. }
  destruct (String.eqb _ "percentage"); [|done].
  destruct (Z.ltb_spec base (Z.quot (mul64 base (Coupon.Amount c)) 100)); lia.
Qed.

Lemma shippingFeeFor_cases rank swt :
  (shippingFeeFor rank swt = 0) \/ (shippingFeeFor rank swt = 500 /\ swt < 5000).
Proof.
  unfold shippingFeeFor. destruct (negb _); [|by left].
  destruct (Z.ltb_spec swt 5000); [by right|by left].
Qed.

(** C9.  The coupon discount is at most the amount it is applied to, for
    a fixed and for a percentage coupon alike.  In the pipeline it is
    computed on the amount with tax; the shipping fee is the fee of the
    same order without coupon, and it is added after the discount: with a
    discount that is not negative and no points used, the amount to pay is
    the amount with tax less the discount, plus the whole fee. *)
Theorem coupon_capped_shipping_untouched coupon base subtotal rank pts :
  0 <= base ->
  let p := computePricing subtotal rank coupon pts in
  let p0 := computePricing subtotal rank None pts in
  let q := computePricing subtotal rank coupon 0 in
  calculateCouponDiscount coupon base <= base /\
  couponDiscountAmount p = calculateCouponDiscount coupon (subtotalWithTax p0) /\
  shippingFee p = shippingFee p0 /\
  (0 <= subtotalWithTax q -> 0 <= couponDiscountAmount q ->
   totalPrice q = subtotalWithTax q - couponDiscountAmount q + shippingFee p0 /\
   shippingFee p0 <= totalPrice q).
Proof.
  intros Hb p p0 q. split; [by apply calculateCouponDiscount_le|].
  split; [done|]. split; [done|].
  subst p p0 q. unfold computePricing.
  cbn [totalPrice subtotalWithTax couponDiscountAmount shippingFee].
  set (swt := add64 _ _).
  intros Hswt Hd.
  pose proof (calculateCouponDiscount_le coupon swt Hswt) as Hle.
  pose proof (wrap64_ok (sub64 subtotal (rankDiscount subtotal rank)
                         + Z.quot (sub64 subtotal (rankDiscount subtotal rank)) 10)) as Hok.
  fold (add64 (sub64 subtotal (rankDiscount subtotal rank))
              (Z.quot (sub64 subtotal (rankDiscount subtotal rank)) 10)) in Hok.
  fold swt in Hok. unfold int_ok in Hok.
  set (d := calculateCouponDiscount coupon swt) in *.
  rewrite (sub64_exact swt d) by (unfold int_ok; lia).
  destruct (shippingFeeFor_cases rank swt) as [Hf|[Hf Hlt]]; rewrite Hf.
  - rewrite add64_exact by (unfold int_ok; lia).
    rewrite sub64_exact by (unfold int_ok; lia).
    destruct (Z.ltb_spec (swt - d + 0 - 0) 0); lia.
  - rewrite add64_exact by (unfold int_ok; lia).
    rewrite sub64_exact by (unfold int_ok; lia).
    destruct (Z.ltb_spec (swt - d + 500 - 0) 0); lia.
Qed.

Lemma coupon_capped_shipping_untouched_witness :
  calculateCouponDiscount (Some couponFLAT2000) 1100 <= 1100.
Proof.
  destruct (coupon_capped_shipping_untouched
           (Some couponFLAT2000) 1100 1000 "Normal" 0)
    as [H _].
  - lia.
  - exact H.
Defined.

(** ** Rounding of [float64]: the tier discount *)

(** [iter_pos] of the float model is plain iteration. *)
Lemma iter_pos_nat {A : Type} (f : A -> A) (p : positive) :
  forall x, SpecFloat.iter_pos f p x = Nat.iter (Pos.to_nat p) f x.
Proof.
  induction p as [p IH|p IH|]; intros x; cbn [SpecFloat.iter_pos].
  - rewrite !IH, Pos2Nat.inj_xI.
    replace (S (2 * Pos.to_nat p)) with (Pos.to_nat p + S (Pos.to_nat p))%nat by lia.
    rewrite Nat.iter_add. f_equal. by rewrite Nat.iter_succ_r.
  - rewrite !IH, Pos2Nat.inj_xO.
    replace (2 * Pos.to_nat p)%nat with (Pos.to_nat p + Pos.to_nat p)%nat by lia.
    by rewrite Nat.iter_add.
  - reflexivity.
Qed.

Lemma digits2_pos_bounds (p : positive) :
  2 ^ (Z.pos (digits2_pos p) - 1) <= Z.pos p < 2 ^ Z.pos (digits2_pos p).
Proof.
  induction p as [p IH|p IH|]; simpl digits2_pos.
  - rewrite Pos2Z.inj_succ.
    replace (Z.succ (Z.pos (digits2_pos p)) - 1) with (Z.succ (Z.pos (digits2_pos p) - 1)) by lia.
    rewrite !Z.pow_succ_r by lia. lia.
  - rewrite Pos2Z.inj_succ.
    replace (Z.succ (Z.pos (digits2_pos p)) - 1) with (Z.succ (Z.pos (digits2_pos p) - 1)) by lia.
    rewrite !Z.pow_succ_r by lia. lia.
  - simpl. lia.
Qed.

Lemma digits2_pos_unique (p : positive) (d : Z) :
  2 ^ (d - 1) <= Z.pos p < 2 ^ d -> Z.pos (digits2_pos p) = d.
Proof.
  intros [Hlo Hhi]. pose proof (digits2_pos_bounds p) as [Hlo' Hhi'].
  assert (0 < d).
  { destruct (Z.lt_trichotomy d 0) as [Hd|[Hd|Hd]]; [|subst; simpl in Hhi; lia|done].
    rewrite Z.pow_neg_r in Hhi by done. lia. }
  destruct (Z.lt_trichotomy (Z.pos (digits2_pos p)) d) as [Hlt|[Heq|Hgt]]; [|done|].
  - assert (2 ^ Z.pos (digits2_pos p) <= 2 ^ (d - 1)) by (apply Z.pow_le_mono_r; lia). lia.
  - assert (2 ^ d <= 2 ^ (Z.pos (digits2_pos p) - 1)) by (apply Z.pow_le_mono_r; lia). lia.
Qed.

Lemma odd_mod2 (a : Z) : Z.odd a = (a mod 2 =? 1).
Proof.
  rewrite <- Z.bit0_odd. pose proof (Z.bit0_mod a) as H.
  destruct (Z.testbit a 0); simpl in H; destruct (Z.eqb_spec (a mod 2) 1); lia || done.
Qed.

Lemma shr_1_spec (m : Z) (r s : bool) :
  0 <= m ->
  shr_1 (Build_shr_record m r s) = Build_shr_record (m / 2) (Z.odd m) (r || s).
Proof.
  intros Hm. rewrite <- Z.div2_div.
  destruct m as [|p|p]; [done| |lia]. by destruct p.
Qed.

Lemma shr_iter (m : Z) (k : nat) :
  0 <= m ->
  Nat.iter (S k) shr_1 (Build_shr_record m false false)
  = Build_shr_record (m / 2 ^ Z.of_nat (S k))
                     (Z.odd (m / 2 ^ Z.of_nat k))
                     (negb (m mod 2 ^ Z.of_nat k =? 0)).
Proof.
  intros Hm. induction k as [|k IH].
  - change (Nat.iter 1 shr_1 ?x) with (shr_1 x). rewrite shr_1_spec by done.
    change (2 ^ Z.of_nat 1) with 2. change (2 ^ Z.of_nat 0) with 1.
    rewrite Z.div_1_r, Z.mod_1_r. done.
  - change (Nat.iter (S (S k)) shr_1 ?x) with (shr_1 (Nat.iter (S k) shr_1 x)).
    rewrite IH.
    assert (Hp : 0 < 2 ^ Z.of_nat k) by (apply Z.pow_pos_nonneg; lia).
    rewrite shr_1_spec by (apply Z.div_pos; [done|apply Z.pow_pos_nonneg; lia]).
    f_equal.
    + rewrite Z.div_div by lia. f_equal.
      rewrite (Nat2Z.inj_succ (S k)), Z.pow_succ_r by lia. lia.
    + rewrite (Nat2Z.inj_succ k), Z.pow_succ_r by lia.
      rewrite (Z.mul_comm 2), Z.rem_mul_r by lia.
      pose proof (Z.mod_pos_bound m (2 ^ Z.of_nat k) Hp).
      pose proof (Z.mod_pos_bound (m / 2 ^ Z.of_nat k) 2 ltac:(lia)).
      rewrite odd_mod2.
      destruct (Z.eqb_spec ((m / 2 ^ Z.of_nat k) mod 2) 1);
        destruct (Z.eqb_spec (m mod 2 ^ Z.of_nat k) 0);
        destruct (Z.eqb_spec (m mod 2 ^ Z.of_nat k + 2 ^ Z.of_nat k * ((m / 2 ^ Z.of_nat k) mod 2)) 0);
        simpl; try done; nia.
Qed.

Lemma rne_shr_bounds (m : Z) (k : nat) :
  0 <= m ->
  let rec := Nat.iter (S k) shr_1 (Build_shr_record m false false) in
  let m2 := round_nearest_even (shr_m rec) (loc_of_shr_record rec) in
  m / 2 ^ Z.of_nat (S k) <= m2 <= m / 2 ^ Z.of_nat (S k) + 1 /\
  2 * m2 * 2 ^ Z.of_nat (S k) - 2 ^ Z.of_nat (S k) <= 2 * m
    <= 2 * m2 * 2 ^ Z.of_nat (S k) + 2 ^ Z.of_nat (S k).
Proof.
  intros Hm rec m2. subst rec m2. rewrite shr_iter by done.
  assert (HX : 0 < 2 ^ Z.of_nat k) by (apply Z.pow_pos_nonneg; lia).
  assert (Hpow : 2 ^ Z.of_nat (S k) = 2 * 2 ^ Z.of_nat k).
  { rewrite Nat2Z.inj_succ, Z.pow_succ_r by lia. done. }
  rewrite Hpow.
  set (X := 2 ^ Z.of_nat k) in *.
  pose proof (Z.div_mod m X ltac:(lia)) as Hdm.
  pose proof (Z.mod_pos_bound m X HX) as Hlow.
  assert (Hq : m / (2 * X) = (m / X) / 2).
  { rewrite (Z.mul_comm 2), Z.div_div by lia. done. }
  rewrite Hq.
  pose proof (Z.div_mod (m / X) 2 ltac:(lia)) as HY.
  pose proof (Z.mod_pos_bound (m / X) 2 ltac:(lia)) as HYb.
  rewrite odd_mod2.
  set (Y := m / X) in *. set (low := m mod X) in *. set (q := Y / 2) in *.
  cbn [shr_m loc_of_shr_record].
  destruct (Z.eqb_spec (Y mod 2) 1) as [Hb|Hb];
    destruct (Z.eqb_spec low 0) as [Hl|Hl]; cbn [negb round_nearest_even].
  - destruct (Z.even q); nia.
  - nia.
  - nia.
  - nia.
Qed.

(** A mantissa of exactly 53 bits is kept as it is. *)
Lemma binary_round_aux_exact (sx : bool) (p : positive) (e : Z) :
  Z.pos (digits2_pos p) = 53 -> -1074 <= e <= 971 ->
  binary_round_aux 53 1024 sx (Z.pos p) e loc_Exact = S754_finite sx p e.
Proof.
  intros Hd He. unfold binary_round_aux, shr_fexp.
  cbn [Zdigits2 shr_record_of_loc]. rewrite Hd.
  replace (fexp 53 1024 (53 + e) - e) with 0 by (unfold fexp, emin; lia).
  cbn [shr shr_m loc_of_shr_record round_nearest_even Zdigits2 shr_record_of_loc].
  rewrite Hd.
  replace (fexp 53 1024 (53 + e) - e) with 0 by (unfold fexp, emin; lia).
  cbn [shr shr_m]. destruct (Z.leb_spec e (1024 - 53)); [done|lia].
Qed.

(** A longer mantissa is shifted right by the extra bits and rounded to
    nearest, ties to even; a carry out of the 53 bits shifts once more. *)
Lemma binary_round_aux_normal (sx : bool) (p : positive) (e : Z) (k : nat) :
  Z.pos (digits2_pos p) = 53 + Z.of_nat (S k) ->
  -1074 <= e + Z.of_nat (S k) -> e + Z.of_nat (S k) + 1 <= 971 ->
  exists m3 e3 m2,
    binary_round_aux 53 1024 sx (Z.pos p) e loc_Exact = S754_finite sx m3 e3 /\
    2 ^ 52 <= Z.pos m3 < 2 ^ 53 /\
    ((e3 = e + Z.of_nat (S k) /\ Z.pos m3 = m2) \/
     (e3 = e + Z.of_nat (S k) + 1 /\ 2 * Z.pos m3 = m2)) /\
    2 * m2 * 2 ^ Z.of_nat (S k) - 2 ^ Z.of_nat (S k) <= 2 * Z.pos p
      <= 2 * m2 * 2 ^ Z.of_nat (S k) + 2 ^ Z.of_nat (S k).
Proof.
  intros Hd Hlo Hhi.
  pose proof (digits2_pos_bounds p) as Hp. rewrite Hd in Hp.
  pose proof (rne_shr_bounds (Z.pos p) k ltac:(lia)) as [Hm2 Hbound].
  unfold binary_round_aux, shr_fexp at 1.
  cbn [Zdigits2 shr_record_of_loc]. rewrite Hd.
  replace (fexp 53 1024 (53 + Z.of_nat (S k) + e) - e) with (Z.of_nat (S k))
    by (unfold fexp, emin; lia).
  change (Z.of_nat (S k)) with (Z.pos (Pos.of_succ_nat k)) at 1.
  cbn [shr]. rewrite iter_pos_nat, SuccNat2Pos.id_succ.
  change (Z.pos (Pos.of_succ_nat k)) with (Z.of_nat (S k)).
  set (rec := Nat.iter (S k) shr_1 _) in *.
  set (m2 := round_nearest_even (shr_m rec) (loc_of_shr_record rec)) in *.
  assert (HX : 0 < 2 ^ Z.of_nat (S k)) by (apply Z.pow_pos_nonneg; lia).
  assert (Hq : 2 ^ 52 <= Z.pos p / 2 ^ Z.of_nat (S k) < 2 ^ 53).
  { replace (53 + Z.of_nat (S k) - 1) with (52 + Z.of_nat (S k)) in Hp by lia.
    rewrite !Z.pow_add_r in Hp by lia.
    split.
    - apply Z.div_le_lower_bound; lia.
    - apply Z.div_lt_upper_bound; lia. }
  assert (Hm2r : 2 ^ 52 <= m2 <= 2 ^ 53) by lia.
  destruct m2 as [|p2|p2] eqn:Hp2; [lia| |lia].
  change (2 ^ 53) with 9007199254740992 in *.
  change (2 ^ 52) with 4503599627370496 in *.
  destruct (Z.eq_dec (Z.pos p2) 9007199254740992) as [Hcarry|Hnc].
  - injection Hcarry as ->.
    exists (4503599627370496)%positive, (e + Z.of_nat (S k) + 1), 9007199254740992.
    split.
    + unfold shr_fexp. cbn [Zdigits2 shr_record_of_loc].
      change (Z.pos (digits2_pos 9007199254740992)) with 54.
      replace (fexp 53 1024 (54 + (e + Z.of_nat (S k))) - (e + Z.of_nat (S k))) with 1
        by (unfold fexp, emin; lia).
      cbn [shr SpecFloat.iter_pos shr_1 shr_m].
      destruct (Z.leb_spec (e + Z.of_nat (S k) + 1) (1024 - 53)); [done|lia].
    + split; [lia|]. split; [right; split; [done|reflexivity]|]. lia.
  - exists p2, (e + Z.of_nat (S k)), (Z.pos p2).
    split.
    + assert (Hd2 : Z.pos (digits2_pos p2) = 53).
      { apply digits2_pos_unique. change (2 ^ (53 - 1)) with 4503599627370496.
        change (2 ^ 53) with 9007199254740992. lia. }
      unfold shr_fexp. cbn [Zdigits2 shr_record_of_loc]. rewrite Hd2.
      replace (fexp 53 1024 (53 + (e + Z.of_nat (S k))) - (e + Z.of_nat (S k))) with 0
        by (unfold fexp, emin; lia).
      cbn [shr shr_m].
      destruct (Z.leb_spec (e + Z.of_nat (S k)) (1024 - 53)); [done|lia].
    + split; [lia|]. split; [left; done|lia].
Qed.

Lemma iter_xO_pow (p d : positive) : Z.pos (Pos.iter xO p d) = Z.pos p * 2 ^ Z.pos d.
Proof.
  induction d as [|d IH] using Pos.peano_ind.
  - simpl. lia.
  - rewrite Pos.iter_succ, Pos2Z.inj_xO, IH, Pos2Z.inj_succ, Z.pow_succ_r by lia. lia.
Qed.

(** [float64(s)] is exact below 2^53: the mantissa is s shifted to 53 bits. *)
Lemma float64_of_int_exact (s : Z) :
  0 < s < 2 ^ 53 ->
  exists (M : positive) (d : Z),
    float64_of_int s = S754_finite false M (d - 53) /\
    1 <= d <= 53 /\ 2 ^ (d - 1) <= s < 2 ^ d /\
    Z.pos M = s * 2 ^ (53 - d) /\ 2 ^ 52 <= Z.pos M < 2 ^ 53.
Proof.
  intros Hs. destruct s as [|ps|ps]; [lia| |lia].
  pose proof (digits2_pos_bounds ps) as Hb.
  remember (Z.pos (digits2_pos ps)) as d eqn:Hdd.
  assert (Hd : 1 <= d <= 53).
  { split; [lia|].
    destruct (Z.le_gt_cases d 53) as [|Hgt]; [done|].
    assert (2 ^ 53 <= 2 ^ (d - 1)) by (apply Z.pow_le_mono_r; lia). lia. }
  unfold float64_of_int, binary_normalize, binary_round.
  rewrite <- Hdd. replace (fexp 53 1024 (d + 0)) with (d - 53) by (unfold fexp, emin; lia).
  unfold shl_align.
  destruct (d - 53 - 0) as [|k|k] eqn:Hk; [|lia|].
  - assert (d = 53) as Hd53 by lia.
    exists ps, d. rewrite binary_round_aux_exact by lia.
    rewrite Hd53 in *. change (53 - 53) with 0. rewrite Z.mul_1_r.
    change (53 - 1) with 52 in Hb. done.
  - assert (Hkd : Z.pos k = 53 - d) by lia.
    assert (HM : Z.pos (Pos.iter xO ps k) = Z.pos ps * 2 ^ (53 - d)).
    { rewrite iter_xO_pow, Hkd. done. }
    assert (HMb : 2 ^ 52 <= Z.pos (Pos.iter xO ps k) < 2 ^ 53).
    { rewrite HM.
      assert (E52 : 2 ^ 52 = 2 ^ (d - 1) * 2 ^ (53 - d)).
      { rewrite <- Z.pow_add_r by lia. f_equal. lia. }
      assert (E53 : 2 ^ 53 = 2 ^ d * 2 ^ (53 - d)).
      { rewrite <- Z.pow_add_r by lia. f_equal. lia. }
      rewrite E52, E53.
      assert (0 < 2 ^ (53 - d)) by (apply Z.pow_pos_nonneg; lia). nia. }
    exists (Pos.iter xO ps k), d.
    rewrite binary_round_aux_exact.
    + done.
    + apply digits2_pos_unique. change (53 - 1) with 52. done.
    + lia.
Qed.

(** [int(float64(s) * c)] for a double c = C * 2^-E with a 53-bit mantissa:
    the product of the mantissas, rounded to nearest at the 53rd bit, and
    then cut at the binary point. *)
Lemma int_of_scaled (s : Z) (C : positive) (E : Z) :
  0 < s < 2 ^ 52 -> 2 ^ 52 <= Z.pos C < 2 ^ 53 -> 57 <= E <= 58 ->
  exists M T m2 W N,
    int_of_float64 (float64_mul (float64_of_int s) (S754_finite false C (- E))) = m2 / W /\
    M = s * T /\ 2 <= T /\ 2 ^ 52 <= M < 2 ^ 53 /\
    (N = 2 ^ 52 \/ N = 2 ^ 53) /\ N * 2 ^ 52 <= M * Z.pos C < N * 2 ^ 53 /\
    0 < W /\ W * N = T * 2 ^ E /\
    2 * m2 * N - N <= 2 * (M * Z.pos C) <= 2 * m2 * N + N.
Proof.
  intros Hs HC HE.
  destruct (float64_of_int_exact s ltac:(change (2 ^ 52) with 4503599627370496 in Hs;
                                         change (2 ^ 53) with 9007199254740992; lia))
    as (M & d & Hf & Hd & Hsd & HM & HMb).
  assert (Hd52 : d <= 52).
  { destruct (Z.le_gt_cases d 52) as [|Hgt]; [done|].
    assert (2 ^ 52 <= 2 ^ (d - 1)) by (apply Z.pow_le_mono_r; lia). lia. }
  set (T := 2 ^ (53 - d)) in *.
  assert (HT : 2 <= T).
  { change 2 with (2 ^ 1) at 1. apply Z.pow_le_mono_r; lia. }
  rewrite Hf. unfold float64_mul, SFmul. cbn [xorb].
  set (P := (M * C)%positive).
  assert (HP : Z.pos P = Z.pos M * Z.pos C) by (subst P; lia).
  assert (HPb : 2 ^ 104 <= Z.pos P < 2 ^ 106).
  { change (2 ^ 104) with (2 ^ 52 * 2 ^ 52). change (2 ^ 106) with (2 ^ 53 * 2 ^ 53).
    rewrite HP. nia. }
  assert (Hcase : exists k : nat, (k = 51%nat \/ k = 52%nat) /\
             2 ^ (52 + Z.of_nat (S k)) <= Z.pos P < 2 ^ (53 + Z.of_nat (S k))).
  { destruct (Z.lt_ge_cases (Z.pos P) (2 ^ 105)).
    - exists 51%nat. split; [by left|].
      change (2 ^ (52 + Z.of_nat 52)) with (2 ^ 104).
      change (2 ^ (53 + Z.of_nat 52)) with (2 ^ 105). lia.
    - exists 52%nat. split; [by right|].
      change (2 ^ (52 + Z.of_nat 53)) with (2 ^ 105).
      change (2 ^ (53 + Z.of_nat 53)) with (2 ^ 106). lia. }
  destruct Hcase as (k & Hk & HPk).
  assert (Hkb : 52 <= Z.of_nat (S k) <= 53) by (destruct Hk; subst k; lia).
  destruct (binary_round_aux_normal false P (d - 53 + - E) k)
    as (m3 & e3 & m2 & Hr & _ & He3 & Hbound).
  { apply digits2_pos_unique.
    replace (53 + Z.of_nat (S k) - 1) with (52 + Z.of_nat (S k)) by lia. done. }
  { lia. }
  { lia. }
  rewrite Hr. unfold int_of_float64.
  set (L := 53 + E - d - Z.of_nat (S k)).
  assert (HL : 4 <= L) by (subst L; lia).
  assert (HW : 0 < 2 ^ L) by (apply Z.pow_pos_nonneg; lia).
  assert (Hm2 : 0 <= m2 <= 2 ^ 54).
  { assert (0 < 2 ^ Z.of_nat (S k)) by (apply Z.pow_pos_nonneg; lia).
    split; [nia|].
    assert (2 ^ 106 = 2 ^ (106 - Z.of_nat (S k)) * 2 ^ Z.of_nat (S k)) as E106.
    { rewrite <- Z.pow_add_r by lia. f_equal. lia. }
    assert (2 ^ (106 - Z.of_nat (S k)) <= 2 ^ 54) by (apply Z.pow_le_mono_r; lia).
    nia. }
  assert (Hmag : (if 0 <=? e3 then Z.pos m3 * 2 ^ e3 else Z.pos m3 / 2 ^ (- e3)) = m2 / 2 ^ L).
  { destruct (Z.leb_spec 0 e3) as [Hp|Hn]; [lia|].
    destruct He3 as [[-> <-]|[-> <-]].
    - f_equal. f_equal. subst L. lia.
    - replace (2 ^ L) with (2 * 2 ^ (L - 1)).
      + rewrite Z.div_mul_cancel_l by lia. f_equal. f_equal. subst L. lia.
      + rewrite <- Z.pow_succ_r by lia. f_equal. lia. }
  rewrite Hmag.
  assert (Hdiv : 0 <= m2 / 2 ^ L <= m2).
  { split; [apply Z.div_pos; lia|]. apply Z.div_le_upper_bound; nia. }
  change (2 ^ 54) with 18014398509481984 in Hm2.
  destruct (Z.leb_spec (- 2 ^ 63) (m2 / 2 ^ L)); [|lia].
  destruct (Z.ltb_spec (m2 / 2 ^ L) (2 ^ 63)); [|lia]. cbn [andb].
  exists (Z.pos M), T, m2, (2 ^ L), (2 ^ Z.of_nat (S k)).
  split; [done|]. split; [done|]. split; [done|]. split; [done|].
  split; [destruct Hk; subst k; [left|right]; reflexivity|].
  split.
  { rewrite <- HP. rewrite <- !Z.pow_add_r by lia.
    replace (Z.of_nat (S k) + 52) with (52 + Z.of_nat (S k)) by lia.
    replace (Z.of_nat (S k) + 53) with (53 + Z.of_nat (S k)) by lia. done. }
  split; [done|]. split.
  { subst T L. rewrite <- !Z.pow_add_r by lia. f_equal. lia. }
  rewrite <- HP. done.
Qed.


Lemma div_between (a b q : Z) : 0 < b -> q * b <= a < (q + 1) * b -> a / b = q.
Proof.
  intros Hb H. symmetry. apply (Z.div_unique_pos a b q (a - q * b)); lia.
Qed.

Lemma scaled_0_05 (s : Z) :
  0 <= s < 2 ^ 52 ->
  int_of_float64 (float64_mul (float64_of_int s) float64_0_05) = s * 5 / 100.
Proof.
  intros Hs. destruct (Z.eq_dec s 0) as [->|Hnz]; [reflexivity|].
  destruct (int_of_scaled s 7205759403792794 57)
    as (M & T & m2 & W & N & Hr & HM & HT & HMb & HN & HP & HW & HWN & Hb);
    [lia|change (2 ^ 52) with 4503599627370496; change (2 ^ 53) with 9007199254740992; lia
    |lia|].
  change (- (57)) with (-57) in Hr. fold float64_0_05 in Hr. rewrite Hr.
  set (k := s * 5 / 100).
  assert (Hk : 20 * k <= s <= 20 * k + 19).
  { pose proof (Z.div_mod (s * 5) 100 ltac:(lia)).
    pose proof (Z.mod_pos_bound (s * 5) 100 ltac:(lia)). fold k in H. lia. }
  assert (HKT : 20 * (k * T) <= M <= 20 * (k * T) + 19 * T) by nia.
  apply div_between; [done|].
  change (2 ^ 52) with 4503599627370496 in *.
  change (2 ^ 53) with 9007199254740992 in *.
  change (2 ^ 57) with 144115188075855872 in *.
  replace ((k + 1) * W) with (k * W + W) by lia.
  destruct HN as [-> | ->].
  - assert (W = 32 * T) as -> by lia.
    replace (k * (32 * T)) with (32 * (k * T)) by lia.
    generalize dependent (k * T). intros KT HKT. lia.
  - assert (W = 16 * T) as -> by lia.
    replace (k * (16 * T)) with (16 * (k * T)) by lia.
    generalize dependent (k * T). intros KT HKT. lia.
Qed.

Lemma scaled_0_03 (s : Z) :
  0 <= s < 2 ^ 52 ->
  int_of_float64 (float64_mul (float64_of_int s) float64_0_03) = s * 3 / 100.
Proof.
  intros Hs. destruct (Z.eq_dec s 0) as [->|Hnz]; [reflexivity|].
  destruct (int_of_scaled s 8646911284551352 58)
    as (M & T & m2 & W & N & Hr & HM & HT & HMb & HN & HP & HW & HWN & Hb);
    [lia|change (2 ^ 52) with 4503599627370496; change (2 ^ 53) with 9007199254740992; lia
    |lia|].
  change (- (58)) with (-58) in Hr. fold float64_0_03 in Hr. rewrite Hr.
  set (k := s * 3 / 100).
  assert (Hk : 100 * k <= 3 * s <= 100 * k + 99).
  { pose proof (Z.div_mod (s * 3) 100 ltac:(lia)).
    pose proof (Z.mod_pos_bound (s * 3) 100 ltac:(lia)). fold k in H. lia. }
  assert (HKT : 100 * (k * T) <= 3 * M <= 100 * (k * T) + 99 * T) by nia.
  apply div_between; [done|].
  change (2 ^ 52) with 4503599627370496 in *.
  change (2 ^ 53) with 9007199254740992 in *.
  change (2 ^ 58) with 288230376151711744 in *.
  replace ((k + 1) * W) with (k * W + W) by lia.
  destruct HN as [-> | ->].
  - assert (W = 64 * T) as -> by lia.
    replace (k * (64 * T)) with (64 * (k * T)) by lia.
    generalize dependent (k * T). intros KT HKT. lia.
  - assert (W = 32 * T) as -> by lia.
    replace (k * (32 * T)) with (32 * (k * T)) by lia.
    generalize dependent (k * T). intros KT HKT. lia.
Qed.

Lemma scaled_0_0 (s : Z) :
  0 <= s < 2 ^ 52 ->
  int_of_float64 (float64_mul (float64_of_int s) float64_0_0) = 0.
Proof.
  intros Hs. destruct (Z.eq_dec s 0) as [->|Hnz]; [reflexivity|].
  destruct (float64_of_int_exact s) as (M & d & Hf & _);
    [change (2 ^ 52) with 4503599627370496 in Hs;
     change (2 ^ 53) with 9007199254740992; lia|].
  rewrite Hf. reflexivity.
Qed.

Lemma rankDiscount_integer_eq (s : Z) (rank : string) :
  0 <= s < 2 ^ 52 -> rankDiscount s rank = rankDiscount_integer s rank.
Proof.
  intros Hs. unfold rankDiscount, rankDiscount_integer, getRankDiscountRate, tierRatePercent.
  destruct (String.eqb rank "Gold"); [by apply scaled_0_05|].
  destruct (String.eqb rank "Silver"); [by apply scaled_0_03|].
  rewrite Z.mul_0_r. by apply scaled_0_0.
Qed.

(** Two subtotals whose 5% and 3% are whole numbers, and what the code
    computes for them. *)
Lemma rankDiscount_gold_above :
  rankDiscount 90074587073372600 "Gold" = 4503729353668631 /\
  rankDiscount_integer 90074587073372600 "Gold" = 4503729353668630 /\
  90074587073372600 * 5 = 4503729353668630 * 100.
Proof. repeat split; vm_compute; reflexivity. Qed.

Lemma rankDiscount_silver_below :
  rankDiscount 36029772811748900 "Silver" = 1080893184352466 /\
  rankDiscount_integer 36029772811748900 "Silver" = 1080893184352467 /\
  36029772811748900 * 3 = 1080893184352467 * 100.
Proof. repeat split; vm_compute; reflexivity. Qed.

(** The tier discount of the code is not the floor of subtotal * rate for
    every subtotal: 36029772811748900 at the mid tier. *)
Lemma rankDiscount_not_exact :
  ~ (forall s rank, 0 <= s -> int_ok s ->
       rankDiscount s rank = rankDiscount_integer s rank).
Proof.
  intros H.
  specialize (H 36029772811748900 "Silver" ltac:(lia) ltac:(unfold int_ok; lia)).
  vm_compute in H. discriminate.
Qed.

(** C4, as the code has it.  The tier discount is computed in [float64],
    as [int(float64(subtotal) * rate)]; for every subtotal from 0 to
    2^52 - 1 the result is the floor of subtotal * rate with the rates 5%,
    3% and 0% of the table, and the whole pipeline computes what the
    pipeline in integer arithmetic computes. *)
Theorem pricing_integer_below_2_52 (s : Z) (rank : string)
    (coupon : option Coupon.t) (pts : Z) :
  0 <= s < 2 ^ 52 ->
  rankDiscount s rank = s * tierRatePercent rank / 100 /\
  computePricing s rank coupon pts = computePricing_integer s rank coupon pts.
Proof.
  intros Hs. split; [by apply rankDiscount_integer_eq|].
  unfold computePricing, computePricing_integer.
  by rewrite rankDiscount_integer_eq.
Qed.

Lemma pricing_integer_below_2_52_witness :
  rankDiscount 4000 "Gold" = 4000 * tierRatePercent "Gold" / 100 /\
  computePricing 4000 "Gold" None 0 = computePricing_integer 4000 "Gold" None 0.
Proof.
  apply (pricing_integer_below_2_52 4000 "Gold" None 0).
  change (2 ^ 52) with 4503599627370496. lia.
Defined.

(** ** The tier discount never exceeds the subtotal *)

(** [float64(s)] for any positive [int]: a 53-bit mantissa, and a value of
    at most 2 s. *)
Lemma float64_of_int_bounds (s : Z) :
  0 < s < 2 ^ 63 ->
  exists (M : positive) (e : Z),
    float64_of_int s = S754_finite false M e /\
    2 ^ 52 <= Z.pos M < 2 ^ 53 /\ -52 <= e <= 11 /\
    Z.pos M * 2 ^ (e + 52) <= 2 * s * 2 ^ 52.
Proof.
  intros Hs. destruct (Z.lt_ge_cases s (2 ^ 53)) as [Hsmall|Hbig].
  - destruct (float64_of_int_exact s ltac:(lia)) as (M & d & Hf & Hd & Hsd & HM & HMb).
    exists M, (d - 53). split; [done|]. split; [done|]. split; [lia|].
    rewrite HM. replace (d - 53 + 52) with (d - 1) by lia.
    assert (2 ^ (53 - d) * 2 ^ (d - 1) = 2 ^ 52) as E52.
    { rewrite <- Z.pow_add_r by lia. f_equal. lia. }
    assert (0 <= s * 2 ^ 52) by lia. nia.
  - destruct s as [|ps|ps]; [lia| |lia].
    pose proof (digits2_pos_bounds ps) as Hb.
    remember (Z.pos (digits2_pos ps)) as d eqn:Hdd.
    assert (Hd : 54 <= d <= 63).
    { split.
      - destruct (Z.le_gt_cases 54 d) as [|Hlt]; [done|].
        assert (2 ^ d <= 2 ^ 53) by (apply Z.pow_le_mono_r; lia). lia.
      - destruct (Z.le_gt_cases d 63) as [|Hgt]; [done|].
        assert (2 ^ 63 <= 2 ^ (d - 1)) by (apply Z.pow_le_mono_r; lia). lia. }
    unfold float64_of_int, binary_normalize, binary_round.
    rewrite <- Hdd.
    replace (fexp 53 1024 (d + 0)) with (d - 53) by (unfold fexp, emin; lia).
    unfold shl_align.
    destruct (d - 53 - 0) as [|n0|n0] eqn:Hn0; [lia| |lia].
    destruct (binary_round_aux_normal false ps 0 (Z.to_nat (d - 54)))
      as (m3 & e3 & m2 & Hr & Hm3 & He3 & Hbound).
    { rewrite <- Hdd. lia. }
    { lia. }
    { lia. }
    replace (Z.of_nat (S (Z.to_nat (d - 54)))) with (d - 53) in * by lia.
    exists m3, e3. split; [done|]. split; [done|]. split; [lia|].
    assert (HN : 0 < 2 ^ (d - 53)) by (apply Z.pow_pos_nonneg; lia).
    assert (HNs : 2 ^ (d - 53) <= Z.pos ps).
    { assert (2 ^ (d - 53) <= 2 ^ (d - 1)) by (apply Z.pow_le_mono_r; lia). lia. }
    assert (Hval : Z.pos m3 * 2 ^ (e3 + 52) = m2 * 2 ^ (d - 53) * 2 ^ 52).
    { destruct He3 as [[-> <-]|[-> <-]].
      - rewrite Z.add_0_l, Z.pow_add_r by lia. lia.
      - replace (0 + (d - 53) + 1 + 52) with (Z.succ (d - 53 + 52)) by lia.
        rewrite Z.pow_succ_r, Z.pow_add_r by lia. lia. }
    rewrite Hval. nia.
Qed.

(** [int(float64(s) * c)] for a double c = C * 2^-E below 1/16 is between
    0 and s, for every positive [int] s. *)
Lemma int_of_scaled_le (s : Z) (C : positive) (E : Z) :
  0 < s < 2 ^ 63 -> 2 ^ 52 <= Z.pos C < 2 ^ 53 -> 57 <= E <= 58 ->
  0 <= int_of_float64 (float64_mul (float64_of_int s) (S754_finite false C (- E))) <= s.
Proof.
  intros Hs HC HE.
  destruct (float64_of_int_bounds s Hs) as (M & e & Hf & HMb & He & HMY).
  rewrite Hf. unfold float64_mul, SFmul. cbn [xorb].
  set (P := (M * C)%positive).
  assert (HP : Z.pos P = Z.pos M * Z.pos C) by (subst P; lia).
  assert (HPb : 2 ^ 104 <= Z.pos P < 2 ^ 106).
  { change (2 ^ 104) with (2 ^ 52 * 2 ^ 52). change (2 ^ 106) with (2 ^ 53 * 2 ^ 53).
    rewrite HP. nia. }
  assert (Hcase : exists k : nat, (k = 51%nat \/ k = 52%nat) /\
             2 ^ (52 + Z.of_nat (S k)) <= Z.pos P < 2 ^ (53 + Z.of_nat (S k))).
  { destruct (Z.lt_ge_cases (Z.pos P) (2 ^ 105)).
    - exists 51%nat. split; [by left|].
      change (2 ^ (52 + Z.of_nat 52)) with (2 ^ 104).
      change (2 ^ (53 + Z.of_nat 52)) with (2 ^ 105). lia.
    - exists 52%nat. split; [by right|].
      change (2 ^ (52 + Z.of_nat 53)) with (2 ^ 105).
      change (2 ^ (53 + Z.of_nat 53)) with (2 ^ 106). lia. }
  destruct Hcase as (k & Hk & HPk).
  assert (Hkb : 52 <= Z.of_nat (S k) <= 53) by (destruct Hk; subst k; lia).
  destruct (binary_round_aux_normal false P (e + - E) k)
    as (m3 & e3 & m2 & Hr & Hm3 & He3 & Hbound).
  { apply digits2_pos_unique.
    replace (53 + Z.of_nat (S k) - 1) with (52 + Z.of_nat (S k)) by lia. done. }
  { lia. }
  { lia. }
  rewrite Hr. unfold int_of_float64.
  set (n := Z.of_nat (S k)) in *.
  set (mag := if 0 <=? e3 then Z.pos m3 * 2 ^ e3 else Z.pos m3 / 2 ^ (- e3)).
  assert (He3b : e + - E + n <= e3 <= e + - E + n + 1) by (destruct He3 as [[-> _]|[-> _]]; lia).
  (* the powers of two involved *)
  set (A := 2 ^ (52 - e3)).
  set (B := 2 ^ (e3 - (e + - E + n))).
  set (N := 2 ^ n) in *.
  set (Y := 2 ^ (e + 52)) in *.
  assert (HA : 0 < A) by (apply Z.pow_pos_nonneg; lia).
  assert (HB : 0 < B) by (apply Z.pow_pos_nonneg; lia).
  assert (HN : 0 < N) by (apply Z.pow_pos_nonneg; lia).
  assert (HY : 0 < Y) by (apply Z.pow_pos_nonneg; lia).
  assert (Hprod : A * B * N * Y = 2 ^ 104 * 2 ^ E).
  { subst A B N Y. rewrite <- !Z.pow_add_r by lia. f_equal. lia. }
  assert (Hmag : 0 <= mag /\ mag * A <= Z.pos m3 * 2 ^ 52).
  { subst mag A. destruct (Z.leb_spec 0 e3) as [Hpos|Hneg].
    - split; [apply Z.mul_nonneg_nonneg; [lia|apply Z.pow_nonneg; lia]|].
      rewrite <- Z.mul_assoc, <- Z.pow_add_r by lia.
      replace (e3 + (52 - e3)) with 52 by lia. lia.
    - assert (0 < 2 ^ (- e3)) by (apply Z.pow_pos_nonneg; lia).
      split; [apply Z.div_pos; lia|].
      replace (52 - e3) with (- e3 + 52) by lia.
      rewrite Z.pow_add_r by lia.
      pose proof (Z.mul_div_le (Z.pos m3) (2 ^ (- e3)) ltac:(lia)).
      assert (0 < 2 ^ 52) by lia. nia. }
  destruct Hmag as [Hmag0 HmagA].
  assert (Hm3B : Z.pos m3 * B = m2).
  { subst B. destruct He3 as [[-> <-]|[-> <-]].
    - replace (e + - E + n - (e + - E + n)) with 0 by lia. simpl. lia.
    - replace (e + - E + n + 1 - (e + - E + n)) with 1 by lia. simpl. lia. }
  assert (HNP : N * 2 ^ 52 <= Z.pos P).
  { subst N n. rewrite <- Z.pow_add_r by lia.
    replace (Z.of_nat (S k) + 52) with (52 + Z.of_nat (S k)) by lia. lia. }
  assert (S1 : mag * A * B <= m2 * 2 ^ 52).
  { rewrite <- Hm3B. apply Z.le_trans with (Z.pos m3 * 2 ^ 52 * B); [|lia].
    apply Z.mul_le_mono_nonneg_r; lia. }
  assert (S2 : mag * A * B * N <= 2 * Z.pos P * 2 ^ 52).
  { apply Z.le_trans with (m2 * 2 ^ 52 * N).
    - apply Z.mul_le_mono_nonneg_r; lia.
    - assert (0 < 2 ^ 52) by lia. nia. }
  assert (S3 : mag * A * B * N * Y <= 2 * Z.pos P * 2 ^ 52 * Y).
  { apply Z.mul_le_mono_nonneg_r; lia. }
  assert (S4 : 2 * Z.pos P * 2 ^ 52 * Y <= 4 * Z.pos C * s * (2 ^ 52 * 2 ^ 52)).
  { rewrite HP.
    replace (2 * (Z.pos M * Z.pos C) * 2 ^ 52 * Y)
      with (2 * Z.pos C * 2 ^ 52 * (Z.pos M * Y)) by lia.
    replace (4 * Z.pos C * s * (2 ^ 52 * 2 ^ 52))
      with (2 * Z.pos C * 2 ^ 52 * (2 * s * 2 ^ 52)) by lia.
    apply Z.mul_le_mono_nonneg_l; [lia|done]. }
  assert (Hle : mag <= s).
  { destruct (Z.le_gt_cases mag s) as [|Hgt]; [done|exfalso].
    assert (HE57 : 2 ^ 57 <= 2 ^ E) by (apply Z.pow_le_mono_r; lia).
    assert (S5 : (s + 1) * (2 ^ 104 * 2 ^ E) <= mag * (A * B * N * Y)).
    { rewrite Hprod. apply Z.mul_le_mono_nonneg_r; lia. }
    replace (mag * (A * B * N * Y)) with (mag * A * B * N * Y) in S5 by lia.
    change (2 ^ 104) with (2 ^ 52 * 2 ^ 52) in S5.
    change (2 ^ 53) with 9007199254740992 in HC.
    change (2 ^ 57) with 144115188075855872 in HE57.
    set (Q := 2 ^ 52 * 2 ^ 52) in *.
    assert (0 < Q) by (subst Q; lia).
    assert (4 * Z.pos C * s * Q < (s + 1) * (Q * 2 ^ E)); [|lia].
    replace (4 * Z.pos C * s * Q) with (Q * (4 * Z.pos C * s)) by lia.
    replace ((s + 1) * (Q * 2 ^ E)) with (Q * ((s + 1) * 2 ^ E)) by lia.
    apply Z.mul_lt_mono_pos_l; [done|]. nia. }
  destruct (Z.leb_spec (- 2 ^ 63) mag); [|lia].
  destruct (Z.ltb_spec mag (2 ^ 63)); [|lia]. cbn [andb]. lia.
Qed.

Lemma rankDiscount_bounds (s : Z) (rank : string) :
  0 <= s < 2 ^ 63 -> 0 <= rankDiscount s rank <= s.
Proof.
  intros Hs. unfold rankDiscount, getRankDiscountRate.
  destruct (Z.eq_dec s 0) as [->|Hnz].
  { destruct (String.eqb rank "Gold"); [vm_compute; split; discriminate|].
    destruct (String.eqb rank "Silver"); vm_compute; split; discriminate. }
  destruct (String.eqb rank "Gold").
  { apply (int_of_scaled_le s 7205759403792794 57); [lia| |lia].
    change (2 ^ 52) with 4503599627370496. change (2 ^ 53) with 9007199254740992. lia. }
  destruct (String.eqb rank "Silver").
  { apply (int_of_scaled_le s 8646911284551352 58); [lia| |lia].
    change (2 ^ 52) with 4503599627370496. change (2 ^ 53) with 9007199254740992. lia. }
  destruct (float64_of_int_bounds s ltac:(lia)) as (M & e & Hf & _).
  rewrite Hf.
  change (int_of_float64 (float64_mul (S754_finite false M e) float64_0_0)) with 0. lia.
Qed.

(** ** No amount below zero *)

Lemma checkItems_quantities rt st items :
  forall i acc subtotal,
    checkItems rt st items i acc = inr subtotal ->
    Forall (fun it => 0 < OrderItem.Quantity it) items.
Proof.
  induction items as [|item rest IH]; intros i acc subtotal; simpl; [constructor|].
  destruct (Z.leb_spec (OrderItem.Quantity item) 0) as [|Hq]; [discriminate|].
  destruct (products st !! OrderItem.ProductID item); [|discriminate].
  destruct (_ <? _); [discriminate|].
  intros Hc. constructor; [done|]. by eapply IH.
Qed.

Lemma cartTotal_nonneg st items :
  Forall (fun it => 0 < OrderItem.Quantity it) items ->
  (forall item product, item ∈ items ->
     products st !! OrderItem.ProductID item = Some product ->
     0 <= Product.Price product) ->
  0 <= cartTotal st items.
Proof.
  induction 1 as [|item rest Hq _ IH]; intros Hprice; simpl; [lia|].
  assert (0 <= cartTotal st rest).
  { apply IH. intros item' product' Hin. apply Hprice. by right. }
  destruct (products st !! OrderItem.ProductID item) as [product|] eqn:Hp; [|lia].
  assert (0 <= Product.Price product) by (apply (Hprice item product); [left|done]).
  nia.
Qed.

(** Without overflow the subtotal of [checkItems] is the exact sum. *)
Lemma checkItems_subtotal rt st items :
  forall i acc subtotal,
    checkItems rt st items i acc = inr subtotal ->
    (forall item product, item ∈ items ->
       products st !! OrderItem.ProductID item = Some product ->
       0 <= Product.Price product) ->
    0 <= acc -> acc + cartTotal st items < 2 ^ 63 ->
    subtotal = acc + cartTotal st items /\ 0 <= cartTotal st items.
Proof.
  induction items as [|item rest IH]; intros i acc subtotal Hc Hprice Hacc Hsum.
  - simpl in *. injection Hc as <-. lia.
  - pose proof (cartTotal_nonneg st _ (checkItems_quantities _ _ _ _ _ _ Hc) Hprice) as Hnn.
    simpl in Hc, Hsum, Hnn.
    destruct (Z.leb_spec (OrderItem.Quantity item) 0) as [|Hq]; [discriminate|].
    destruct (products st !! OrderItem.ProductID item) as [product|] eqn:Hp;
      [|discriminate].
    destruct (_ <? _); [discriminate|].
    assert (Hpr : 0 <= Product.Price product).
    { apply (Hprice item product); [left|done]. }
    assert (Hrest : 0 <= cartTotal st rest).
    { apply cartTotal_nonneg.
      - by eapply checkItems_quantities.
      - intros item' product' Hin. apply Hprice. by right. }
    rewrite mul64_exact in Hc by (unfold int_ok; nia).
    rewrite add64_exact in Hc by (unfold int_ok; nia).
    destruct (IH _ _ _ Hc) as [Hs Hr].
    + intros item' product' Hin. apply Hprice. by right.
    + nia.
    + lia.
    + simpl. rewrite Hp. split; [lia|nia].
Qed.

Lemma calculateCouponDiscount_lower coupon base :
  (forall c, coupon = Some c -> - 2 ^ 61 <= Coupon.Amount c) ->
  0 <= base -> - 2 ^ 61 <= calculateCouponDiscount coupon base.
Proof.
  intros Hc Hb. unfold calculateCouponDiscount.
  destruct coupon as [c|]; [|lia]. specialize (Hc c eq_refl).
  destruct (String.eqb _ "fixed").
  { destruct (Z.ltb_spec base (Coupon.Amount c)); lia. }
  destruct (String.eqb _ "percentage"); [|lia].
  pose proof (wrap64_ok (base * Coupon.Amount c)) as Hw.
  fold (mul64 base (Coupon.Amount c)) in Hw. unfold int_ok in Hw.
  destruct (Z.ltb_spec base (Z.quot (mul64 base (Coupon.Amount c)) 100)); [lia|].
  Z.to_euclidean_division_equations. lia.
Qed.

(** The pipeline below the overflow: no stage yields an amount below 0,
    and points beyond what remains bring the amount to pay to 0. *)
Lemma computePricing_nonneg (s : Z) (rank : string) (coupon : option Coupon.t) (pts : Z) :
  0 <= s < 2 ^ 62 ->
  (forall c, coupon = Some c -> - 2 ^ 61 <= Coupon.Amount c) ->
  int_ok pts ->
  let p := computePricing s rank coupon pts in
  0 <= discountedSubtotal p /\ 0 <= subtotalWithTax p /\
  0 <= afterCouponAmount p /\ 0 <= afterPointsAmount p /\ 0 <= totalPrice p /\
  (afterCouponAmount p + shippingFee p < pts -> totalPrice p = 0).
Proof.
  intros Hs Hc Hpts p. subst p. unfold computePricing.
  cbn [discountedSubtotal subtotalWithTax afterCouponAmount afterPointsAmount
       totalPrice shippingFee].
  change (2 ^ 62) with 4611686018427387904 in Hs.
  pose proof (rankDiscount_bounds s rank
                ltac:(change (2 ^ 63) with 9223372036854775808; lia)) as Hrd.
  set (rd := rankDiscount s rank) in *.
  rewrite (sub64_exact s rd) by (unfold int_ok; lia).
  set (ds := s - rd) in *.
  assert (Htax : 0 <= Z.quot ds 10 <= ds).
  { subst ds. Z.to_euclidean_division_equations. lia. }
  assert (Htax' : 10 * Z.quot ds 10 <= ds).
  { subst ds. Z.to_euclidean_division_equations. lia. }
  set (tx := Z.quot ds 10) in *.
  rewrite (add64_exact ds tx) by (unfold int_ok; lia).
  set (swt := ds + tx) in *.
  pose proof (calculateCouponDiscount_le coupon swt ltac:(lia)) as Hle.
  pose proof (calculateCouponDiscount_lower coupon swt Hc ltac:(lia)) as Hlo.
  set (cd := calculateCouponDiscount coupon swt) in *.
  change (2 ^ 61) with 2305843009213693952 in Hlo.
  rewrite (sub64_exact swt cd) by (unfold int_ok; lia).
  assert (Hfee : shippingFeeFor rank swt = 0 \/ shippingFeeFor rank swt = 500).
  { destruct (shippingFeeFor_cases rank swt) as [|[]]; auto. }
  set (fee := shippingFeeFor rank swt) in *.
  rewrite (add64_exact (swt - cd) fee) by (unfold int_ok; lia).
  split; [lia|]. split; [lia|]. split; [lia|].
  destruct (Z.ltb_spec (sub64 (swt - cd + fee) pts) 0) as [Hneg|Hpos].
  - repeat split; lia.
  - split; [lia|]. split; [lia|]. intros Hbig.
    rewrite sub64_exact in Hpos by (unfold int_ok in *; lia). lia.
Qed.

Lemma bigShop_prices item product :
  products bigShop !! OrderItem.ProductID item = Some product ->
  0 <= Product.Price product.
Proof.
  unfold bigShop. cbn [products]. intros H.
  apply lookup_insert_Some in H as [[_ <-]|[_ H]]; [simpl; lia|].
  by rewrite lookup_empty in H.
Qed.

(** A cart with prices >= 0 and quantities > 0 that passes the checks and
    whose subtotal after the tier discount is below 0: two units at 2^62,
    whose product wraps to -2^63. *)
Lemma pricing_overflow_negative :
  ~ (forall rt st items subtotal rank coupon pts,
       checkItems rt st items 0 0 = inr subtotal ->
       (forall item product, item ∈ items ->
          products st !! OrderItem.ProductID item = Some product ->
          0 <= Product.Price product) ->
       0 <= discountedSubtotal (computePricing subtotal rank coupon pts)).
Proof.
  intros H.
  specialize (H (runtimeWith true) bigShop [OrderItem.mk 1 2]
                (- 9223372036854775808) "Normal" None 0).
  assert (H' : 0 <= discountedSubtotal
                      (computePricing (- 9223372036854775808) "Normal" None 0)).
  { apply H; [vm_compute; reflexivity|].
    intros item product _. apply bigShop_prices. }
  vm_compute in H'. by apply H'.
Qed.

(** C5, as the code has it.  For a cart that passes the checks of the
    handler (so every quantity is > 0), with prices >= 0 and an exact total
    below 2^62, for every rank, every coupon whose amount is not below
    -2^61 and every requested points amount: the subtotal is the exact
    total, and the subtotal after the tier discount, the amount with tax,
    the amount after the coupon, the amount after the points and the amount
    to pay are all >= 0; points beyond what remains give an amount to pay
    of exactly 0. *)
Theorem pricing_amounts_nonneg rt st items subtotal rank coupon pts :
  checkItems rt st items 0 0 = inr subtotal ->
  (forall item product, item ∈ items ->
     products st !! OrderItem.ProductID item = Some product ->
     0 <= Product.Price product) ->
  cartTotal st items < 2 ^ 62 ->
  (forall c, coupon = Some c -> - 2 ^ 61 <= Coupon.Amount c) ->
  int_ok pts ->
  let p := computePricing subtotal rank coupon pts in
  subtotal = cartTotal st items /\ 0 <= subtotal /\
  0 <= discountedSubtotal p /\ 0 <= subtotalWithTax p /\
  0 <= afterCouponAmount p /\ 0 <= afterPointsAmount p /\ 0 <= totalPrice p /\
  (afterCouponAmount p + shippingFee p < pts -> totalPrice p = 0).
Proof.
  intros Hc Hprice Htotal Hcoupon Hpts p.
  destruct (checkItems_subtotal rt st items 0 0 subtotal Hc Hprice) as [Hs Hnn].
  - lia.
  - change (2 ^ 62) with 4611686018427387904 in Htotal.
    change (2 ^ 63) with 9223372036854775808. lia.
  - split; [lia|]. split; [lia|].
    apply computePricing_nonneg; [lia|done|done].
Qed.

Lemma pricing_amounts_nonneg_witness :
  let p := computePricing 4000 "Gold" (initCoupons !! "FLAT2000") 9000 in
  4000 = cartTotal shop cart /\ 0 <= 4000 /\
  0 <= discountedSubtotal p /\ 0 <= subtotalWithTax p /\
  0 <= afterCouponAmount p /\ 0 <= afterPointsAmount p /\ 0 <= totalPrice p /\
  (afterCouponAmount p + shippingFee p < 9000 -> totalPrice p = 0).
Proof.
  apply (pricing_amounts_nonneg (runtimeWith true) shop cart 4000 "Gold"
           (initCoupons !! "FLAT2000") 9000).
  - vm_compute. reflexivity.
  - intros item product _ H. unfold shop in H. cbn [products] in H.
    apply lookup_insert_Some in H as [[_ <-]|[_ H]]; [simpl; lia|].
    apply lookup_insert_Some in H as [[_ <-]|[_ H]]; [simpl; lia|].
    by rewrite lookup_empty in H.
  - vm_compute. reflexivity.
  - intros c H. vm_compute in H. injection H as <-. simpl. lia.
  - unfold int_ok. lia.
Defined.

(** * Further properties *)

Lemma totalAvailable_lines (l : list (string * Stock.t)) p :
  sumZ (Stock.Quantity <$>
          (snd <$> filter (fun kv : string * Stock.t =>
                             Stock.ProductID (snd kv) = p /\ 0 < Stock.Quantity (snd kv)) l))
  = sumZ ((fun kv : string * Stock.t => lineQuantity p (snd kv)) <$> l).
Proof.
  induction l as [|[k x] l IH]; [done|].
  rewrite fmap_cons, sumZ_cons. unfold lineQuantity at 1. cbn [snd].
  destruct (decide (Stock.ProductID x = p /\ 0 < Stock.Quantity x)) as [H|H].
  - rewrite filter_cons_True by done. rewrite !fmap_cons, sumZ_cons. cbn [snd]. lia.
  - rewrite filter_cons_False by done. lia.
Qed.

Lemma totalAvailable_sum (s : gmap string Stock.t) p :
  totalAvailable s p
  = sumZ ((fun kv : string * Stock.t => lineQuantity p (snd kv)) <$> map_to_list s).
Proof. apply totalAvailable_lines. Qed.

(** Replacing one stock line changes the total of a product by what the
    line adds to it. *)
Lemma totalAvailable_insert (s : gmap string Stock.t) k x x' p :
  s !! k = Some x ->
  totalAvailable (<[k := x']> s) p
  = totalAvailable s p - lineQuantity p x + lineQuantity p x'.
Proof.
  intros Hk. rewrite !totalAvailable_sum.
  rewrite <- (insert_delete_eq s k x').
  rewrite (sumZ_perm _ _ (fmap_Permutation _ _ _
             (map_to_list_insert (delete k s) k x' (lookup_delete_eq s k)))).
  rewrite <- (sumZ_perm _ _ (fmap_Permutation _ _ _ (map_to_list_delete s k x Hk))).
  rewrite !fmap_cons, !sumZ_cons. cbn [snd]. lia.
Qed.

Lemma totalAvailable_new (s : gmap string Stock.t) k x p :
  s !! k = None ->
  totalAvailable (<[k := x]> s) p = totalAvailable s p + lineQuantity p x.
Proof.
  intros Hk. rewrite !totalAvailable_sum.
  rewrite (sumZ_perm _ _ (fmap_Permutation _ _ _ (map_to_list_insert s k x Hk))).
  rewrite fmap_cons, sumZ_cons. cbn [snd]. lia.
Qed.

(** The commit loop lowers the total of the product by what the plan
    draws and leaves the total of every other product. *)
Lemma commit_total p (l : list (Z * Z)) :
  forall (s : gmap string Stock.t),
    NoDup (fst <$> l) ->
    (forall w a, (w, a) ∈ l ->
       exists x, s !! stockKey p w = Some x /\ Stock.ProductID x = p /\
                 0 < a <= Stock.Quantity x /\ int_ok (Stock.Quantity x)) ->
    totalAvailable (commit p l s) p = totalAvailable s p - sumZ (snd <$> l) /\
    (forall p', p' <> p -> totalAvailable (commit p l s) p' = totalAvailable s p').
Proof.
  induction l as [|[w a] l IH]; intros s Hnd Hent.
  - unfold commit. simpl. unfold sumZ. simpl. split; [lia|done].
  - rewrite fmap_cons in Hnd. apply NoDup_cons in Hnd as [Hw Hnd].
    destruct (Hent w a ltac:(left)) as (x & Hx & Hp & Ha & Hok).
    change (commit p ((w, a) :: l) s) with (commit p l (decrement p (w, a) s)).
    assert (Hdec : decrement p (w, a) s
                   = <[stockKey p w := Stock.setQuantity x (Stock.Quantity x - a)]> s).
    { unfold decrement. cbn [fst snd]. rewrite Hx.
      by rewrite sub64_exact by (unfold int_ok in *; lia). }
    rewrite Hdec.
    destruct (IH (<[stockKey p w := Stock.setQuantity x (Stock.Quantity x - a)]> s) Hnd)
      as [IH1 IH2].
    { intros w' a' Hin. destruct (Hent w' a' ltac:(by right)) as (x' & Hx' & Hrest).
      exists x'. split; [|done]. rewrite lookup_insert_ne; [done|].
      intros Heq. apply stockKey_inj in Heq. subst w'. apply Hw.
      apply list_elem_of_fmap. by exists (w, a'). }
    rewrite fmap_cons, sumZ_cons. cbn [snd]. split.
    + rewrite IH1, (totalAvailable_insert s _ x) by done.
      unfold lineQuantity, Stock.setQuantity. cbn.
      repeat case_decide; lia.
    + intros p' Hp'. rewrite IH2, (totalAvailable_insert s _ x) by done.
      unfold lineQuantity, Stock.setQuantity. cbn.
      repeat case_decide; lia.
Qed.

Section Stock.
Context (rt : Runtime) (Hrt : runtime_ok rt).

Lemma allocateStock_total (s : gmap string Stock.t) p q :
  stocks_wf s -> 0 < q -> int_ok q ->
  let '(ok, plan, s') := allocateStock rt s p q in
  (ok = negb (totalAvailable s p <? q)) /\
  totalAvailable s' p = totalAvailable s p - (if ok then q else 0) /\
  (forall p', p' <> p -> totalAvailable s' p' = totalAvailable s p') /\
  planTotal plan = (if ok then q else 0).
Proof.
  intros Hwf Hq Hqok.
  destruct (allocateStock_plan rt Hrt s p q Hwf Hq Hqok)
    as (plan & rem & Heq & Hrem & Htot & Hent).
  unfold allocateStock. rewrite Heq.
  destruct (Z.eqb_spec rem 0) as [Hz|Hnz].
  - destruct (commit_total p (range_allocations rt plan) s) as [H1 H2].
    + by apply range_allocations_NoDup.
    + intros w a Hin. apply (range_allocations_elem rt Hrt) in Hin.
      destruct (Hent w a Hin) as (x & Hx & Hp & _ & Ha & Hok). by exists x.
    + assert (Hsum : sumZ (snd <$> range_allocations rt plan) = planTotal plan).
      { unfold planTotal. apply sumZ_perm, fmap_Permutation. by destruct Hrt as [_ Hr]. }
      rewrite Hsum in H1.
      destruct (Z.ltb_spec (totalAvailable s p) q); [lia|].
      split; [done|]. split; [lia|]. split; [done|lia].
  - destruct (Z.ltb_spec (totalAvailable s p) q); [|lia].
    split; [done|]. split; [lia|]. split; [done|]. by rewrite planTotal_empty.
Qed.

Lemma allocateStock_nonneg (s : gmap string Stock.t) p q :
  stocks_wf s -> stocks_nonneg s -> 0 < q -> int_ok q ->
  stocks_nonneg (snd (allocateStock rt s p q)).
Proof.
  intros Hwf Hnn Hq Hqok.
  destruct (allocateStock_plan rt Hrt s p q Hwf Hq Hqok)
    as (plan & rem & Heq & Hrem & Htot & Hent).
  unfold allocateStock. rewrite Heq.
  destruct (rem =? 0); [|done]. cbn [snd].
  intros k x Hk.
  destruct (decide (k ∈ (fun wq : Z * Z => stockKey p (fst wq)) <$> range_allocations rt plan))
    as [Hin|Hnin].
  - apply list_elem_of_fmap in Hin as ([w a] & -> & Hin). cbn [fst] in Hk.
    pose proof Hin as Hin'. apply (range_allocations_elem rt Hrt) in Hin'.
    destruct (Hent w a Hin') as (y & Hy & Hp & Hw & Ha & Hok).
    rewrite (commit_hit p _ s w a y (range_allocations_NoDup rt Hrt plan) Hin Hy) in Hk.
    injection Hk as <-. unfold Stock.setQuantity. cbn.
    rewrite sub64_exact; unfold int_ok in *; lia.
  - rewrite commit_other in Hk; [by eapply Hnn|].
    intros wq Hwq Heqk. apply Hnin. apply list_elem_of_fmap. eauto.
Qed.

End Stock.

Lemma orders_kept_refl st : orders_kept st st.
Proof. by repeat split. Qed.

Lemma orders_kept_trans st1 st2 st3 :
  orders_kept st1 st2 -> orders_kept st2 st3 -> orders_kept st1 st3.
Proof. unfold orders_kept. intuition congruence. Qed.

Lemma usePoints_kept now st uid oid a :
  orders_kept st (snd (usePoints now st uid oid a)) /\
  stocks (snd (usePoints now st uid oid a)) = stocks st.
Proof.
  unfold usePoints. destruct (users st !! uid); [|by repeat split].
  destruct (_ <=? _); by repeat split.
Qed.

Lemma addPoints_kept now st uid oid a :
  orders_kept st (addPoints now st uid oid a) /\
  stocks (addPoints now st uid oid a) = stocks st.
Proof. unfold addPoints. destruct (users st !! uid); by repeat split. Qed.

Lemma rollbackPoints_kept now st uid oid a :
  orders_kept st (rollbackPoints now st uid oid a) /\
  stocks (rollbackPoints now st uid oid a) = stocks st.
Proof. unfold rollbackPoints. destruct (users st !! uid); by repeat split. Qed.

Lemma updateUserPurchaseAmountAndRank_kept st uid a :
  orders_kept st (updateUserPurchaseAmountAndRank st uid a) /\
  stocks (updateUserPurchaseAmountAndRank st uid a) = stocks st /\
  pointHistories (updateUserPurchaseAmountAndRank st uid a) = pointHistories st /\
  nextPointHistoryID (updateUserPurchaseAmountAndRank st uid a) = nextPointHistoryID st.
Proof.
  unfold updateUserPurchaseAmountAndRank. destruct (users st !! uid); by repeat split.
Qed.

Lemma setStocks_kept st s : orders_kept st (setStocks st s).
Proof. by repeat split. Qed.

(** The total of [getProductStock] is an [int]. *)
Lemma getProductStock_int_ok rt st p : int_ok (fst (getProductStock rt st p)).
Proof.
  unfold getProductStock.
  assert (H0 : int_ok (fst ((0, []) : Z * list StockWarehouse.t))).
  { unfold int_ok. simpl. lia. }
  revert H0. generalize ((0, []) : Z * list StockWarehouse.t).
  induction (range_stocks rt (stocks st)) as [|kv l IH]; intros acc Hacc; [done|].
  cbn [foldl]. apply IH.
  destruct (_ && _); [|done].
  destruct (warehouses st !! _); [|done]. cbn [fst]. apply wrap64_ok.
Qed.

(** What [checkItems] has established of every line when it lets a cart
    pass. *)
Lemma checkItems_covered rt st items :
  forall i acc subtotal,
    checkItems rt st items i acc = inr subtotal ->
    Forall (fun it => 0 < OrderItem.Quantity it /\ int_ok (OrderItem.Quantity it) /\
              exists product, products st !! OrderItem.ProductID it = Some product /\
                OrderItem.Quantity it <= fst (getProductStock rt st (Product.ID product)))
           items.
Proof.
  induction items as [|item rest IH]; intros i acc subtotal; simpl; [constructor|].
  destruct (Z.leb_spec (OrderItem.Quantity item) 0) as [|Hq]; [discriminate|].
  destruct (products st !! OrderItem.ProductID item) as [product|] eqn:Hp; [|discriminate].
  destruct (Z.ltb_spec (fst (getProductStock rt st (Product.ID product)))
                       (OrderItem.Quantity item)) as [|Hle]; [discriminate|].
  intros Hc. constructor; [|by eapply IH].
  pose proof (getProductStock_int_ok rt st (Product.ID product)) as Hok.
  split; [done|]. split; [unfold int_ok in *; lia|]. exists product. done.
Qed.

Section Checkout.
Context (rt : Runtime) (Hrt : runtime_ok rt).

(** A quantity that the total of [getProductStock] covers is covered by
    the stock lines. *)
Lemma getProductStock_covers st p q :
  warehouses_known st -> q <= fst (getProductStock rt st p) ->
  q <= totalAvailable (stocks st) p.
Proof.
  intros Hwh Hq.
  destruct (Z.lt_ge_cases (totalAvailable (stocks st) p) (2 ^ 63)) as [Hlt|Hge].
  - rewrite (getProductStock_total rt Hrt st p) in Hq; [done| |done].
    intros k x Hk. by apply (Hwh k x).
  - pose proof (getProductStock_int_ok rt st p) as Hok. unfold int_ok in Hok. lia.
Qed.

Lemma allocateItems_invariant (items : list OrderItem.t) :
  forall s : gmap string Stock.t,
    stocks_wf s -> stocks_nonneg s ->
    Forall (fun it => 0 < OrderItem.Quantity it /\ int_ok (OrderItem.Quantity it)) items ->
    stocks_wf (snd (allocateItems rt s items)) /\
    stocks_nonneg (snd (allocateItems rt s items)).
Proof.
  induction items as [|item rest IH]; intros s Hwf Hnn Hq; [done|].
  apply Forall_cons in Hq as [[Hpos Hok] Hq]. cbn [allocateItems].
  pose proof (allocateStock_wf rt Hrt s (OrderItem.ProductID item) _ Hwf Hpos Hok) as Hwf1.
  pose proof (allocateStock_nonneg rt Hrt s (OrderItem.ProductID item) _ Hwf Hnn Hpos Hok)
    as Hnn1.
  destruct (allocateStock rt s _ _) as [[ok plan] s1]. cbn [snd] in *.
  destruct ok; [by apply IH|done].
Qed.

(** Distinct products, each covered by its stock lines: every allocation
    succeeds, and each product is lowered by its line of the cart. *)
Lemma allocateItems_distinct (items : list OrderItem.t) :
  forall s : gmap string Stock.t,
    stocks_wf s ->
    NoDup (OrderItem.ProductID <$> items) ->
    Forall (fun it => 0 < OrderItem.Quantity it /\ int_ok (OrderItem.Quantity it) /\
              OrderItem.Quantity it <= totalAvailable s (OrderItem.ProductID it)) items ->
    fst (allocateItems rt s items) = true /\
    (forall it, it ∈ items ->
       totalAvailable (snd (allocateItems rt s items)) (OrderItem.ProductID it)
       = totalAvailable s (OrderItem.ProductID it) - OrderItem.Quantity it) /\
    (forall p, p ∉ OrderItem.ProductID <$> items ->
       totalAvailable (snd (allocateItems rt s items)) p = totalAvailable s p).
Proof.
  induction items as [|item rest IH]; intros s Hwf Hnd Hq.
  { split; [done|]. split; [|done]. intros it Hin. by inversion Hin. }
  rewrite fmap_cons in Hnd. apply NoDup_cons in Hnd as [Hhd Hnd].
  apply Forall_cons in Hq as [(Hpos & Hok & Hcov) Hq]. cbn [allocateItems].
  pose proof (allocateStock_wf rt Hrt s (OrderItem.ProductID item) _ Hwf Hpos Hok) as Hwf1.
  pose proof (allocateStock_total rt Hrt s (OrderItem.ProductID item) _ Hwf Hpos Hok) as Htot.
  destruct (allocateStock rt s _ _) as [[ok plan] s1]. cbn [snd] in *.
  destruct Htot as (Hokv & Hsame & Hothers & _).
  destruct (Z.ltb_spec (totalAvailable s (OrderItem.ProductID item))
                       (OrderItem.Quantity item)); [lia|].
  cbn in Hokv. subst ok.
  destruct (IH s1 Hwf1 Hnd) as (IH1 & IH2 & IH3).
  { rewrite Forall_forall in Hq. apply Forall_forall. intros it Hin.
    destruct (Hq it Hin) as (? & ? & ?). split; [done|]. split; [done|].
    rewrite Hothers; [done|]. intros Heq. apply Hhd. rewrite <- Heq.
    apply list_elem_of_fmap. eauto. }
  split; [done|]. split.
  - intros it Hin. apply elem_of_cons in Hin as [->|Hin].
    + rewrite IH3 by done. lia.
    + rewrite IH2 by done. rewrite Hothers; [done|].
      intros Heq. apply Hhd. rewrite <- Heq. apply list_elem_of_fmap. eauto.
  - intros p Hp. rewrite fmap_cons in Hp. apply not_elem_of_cons in Hp as [Hne Hp].
    rewrite IH3 by done. by apply Hothers.
Qed.

End Checkout.

Lemma saveOrder_kept st x o :
  orders_kept st x -> Order.ID o = nextOrderID st ->
  orders (saveOrder x o) = <[nextOrderID st := o]> (orders st) /\
  nextOrderID (saveOrder x o) = add64 (nextOrderID st) 1 /\
  products (saveOrder x o) = products st /\
  warehouses (saveOrder x o) = warehouses st /\
  coupons (saveOrder x o) = coupons st /\
  stocks (saveOrder x o) = stocks x /\
  users (saveOrder x o) = users x /\
  pointHistories (saveOrder x o) = pointHistories x /\
  nextPointHistoryID (saveOrder x o) = nextPointHistoryID x.
Proof.
  intros (Hp & Hw & Hc & Ho & Hn) Hid. unfold saveOrder. cbn.
  rewrite Hp, Hw, Hc, Ho, Hn, Hid. done.
Qed.

(** The state after the points of the request have been taken. *)
Lemma pointsTaken rt st uid user (req : OrderRequest) :
  users st !! uid = Some user ->
  0 <= UsePoints req <= User.CurrentPoints user ->
  exists st1,
    (if 0 <? UsePoints req
     then usePoints (time_Now rt 0) st uid (nextOrderID st) (UsePoints req)
     else (false, st)) = (0 <? UsePoints req, st1) /\
    orders_kept st st1 /\ stocks st1 = stocks st /\
    users st1 = (if 0 <? UsePoints req
                 then <[uid := User.setCurrentPoints user
                                 (sub64 (User.CurrentPoints user) (UsePoints req))]> (users st)
                 else users st).
Proof.
  intros Hu Hpts. destruct (Z.ltb_spec 0 (UsePoints req)) as [Hpos|Hzero].
  - destruct (usePoints_taken (time_Now rt 0) st uid (nextOrderID st) (UsePoints req) user)
      as (st1 & Huse & Hus1 & _); [done|lia|].
    pose proof (usePoints_kept (time_Now rt 0) st uid (nextOrderID st) (UsePoints req))
      as [Hk Hs].
    rewrite Huse in Hk, Hs |- *. by exists st1.
  - exists st. split; [done|]. split; [apply orders_kept_refl|done].
Qed.

(** The functions a checkout calls after the checks keep the catalogue and
    the order log. *)
Ltac kept :=
  repeat match goal with
         | |- orders_kept ?a ?a => apply orders_kept_refl
         | |- orders_kept _ (updateUserPurchaseAmountAndRank _ _ _) =>
             eapply orders_kept_trans; [|apply updateUserPurchaseAmountAndRank_kept]
         | |- orders_kept _ (if ?b then _ else _) => destruct b
         | |- orders_kept _ (addPoints _ _ _ _ _) =>
             eapply orders_kept_trans; [|apply addPoints_kept]
         | |- orders_kept _ (rollbackPoints _ _ _ _ _) =>
             eapply orders_kept_trans; [|apply rollbackPoints_kept]
         | |- orders_kept _ (setStocks _ _) =>
             eapply orders_kept_trans; [|apply setStocks_kept]
         | |- orders_kept _ _ => assumption
         end.

(** How a validated checkout ends: the status, the stock lines, the order
    that is saved and the counters, by the answer of the gateway and the
    outcome of the allocation. *)
Lemma settleOrder_run rt st uid user req coupon subtotal :
  users st !! uid = Some user ->
  0 <= UsePoints req <= User.CurrentPoints user ->
  let p := computePricing subtotal (User.MemberRank user) coupon (UsePoints req) in
  let paid := PaymentResult.Success (ProcessPayment rt (totalPrice p) (nextOrderID st)) in
  let alloc := allocateItems rt (stocks st) (Items req) in
  let resp := fst (settleOrder rt st uid user req coupon subtotal) in
  let st' := snd (settleOrder rt st uid user req coupon subtotal) in
  statusCode resp = (if paid then if fst alloc then 201 else 409 else 402) /\
  stocks st' = (if paid then snd alloc else stocks st) /\
  orders st'
  = <[nextOrderID st :=
        orderOf rt st uid req p
          (if paid && fst alloc then "completed" else "payment_failed")]> (orders st) /\
  nextOrderID st' = add64 (nextOrderID st) 1 /\
  products st' = products st /\ warehouses st' = warehouses st /\
  coupons st' = coupons st.
Proof.
  intros Hu Hpts p paid alloc resp st'. subst resp st' alloc.
  unfold settleOrder. fold p. fold paid. clearbody p.
  destruct (pointsTaken rt st uid user req Hu Hpts) as (st1 & -> & Hk1 & Hs1 & Hu1).
  rewrite Hs1. destruct (0 <? UsePoints req) eqn:Hpos; cbn [andb negb];
    (destruct paid; cbn [andb];
     [destruct (allocateItems rt (stocks st) (Items req)) as [all s2];
      destruct all; cbn [negb fst snd]|]).
  all: match goal with
       | |- context [saveOrder ?x ?o] =>
           destruct (saveOrder_kept st x o) as (Ho & Hn & Hp & Hw & Hc & Hs & _);
           [ kept | reflexivity
           | cbn [fst snd]; rewrite Ho, Hn, Hp, Hw, Hc, Hs ]
       end.
  all: try (destruct (0 <? earnedPoints p)).
  all: rewrite ?(proj1 (proj2 (updateUserPurchaseAmountAndRank_kept _ _ _))),
         ?(proj2 (addPoints_kept _ _ _ _ _)), ?(proj2 (rollbackPoints_kept _ _ _ _ _)),
         ?Hs1.
  all: repeat split; reflexivity.
Qed.

(** Membership in a list of status codes. *)
Ltac listed := rewrite ?elem_of_cons, ?elem_of_nil in *; lia.

Lemma checkItems_status rt st items :
  forall i subtotal e,
    checkItems rt st items i subtotal = inl e -> statusCode e = 400 \/ statusCode e = 404.
Proof.
  induction items as [|item rest IH]; intros i subtotal e; simpl; [discriminate|].
  destruct (OrderItem.Quantity item <=? 0).
  { intros [= <-]. by left. }
  destruct (products st !! OrderItem.ProductID item) as [product|].
  2:{ intros [= <-]. by right. }
  destruct (_ <? _).
  { intros [= <-]. by left. }
  apply IH.
Qed.

(** A request is turned away by one of the checks, with the store
    untouched, or it is validated. *)
Lemma createOrderHandler_run rt st r :
  (snd (createOrderHandler rt st r) = st /\
   statusCode (fst (createOrderHandler rt st r)) ∈ [400; 401; 404; 405]) \/
  exists uid user req coupon subtotal, validated rt st r uid user req coupon subtotal.
Proof.
  unfold createOrderHandler.
  destruct (String.eqb_spec (Method r) "POST") as [Hm|Hm]; cbn [negb];
    [|left; split; [done|cbn; listed]].
  destruct (Auth r) as [uid|] eqn:Ha; [|left; split; [done|cbn; listed]].
  destruct (users st !! uid) as [user|] eqn:Hu; [|left; split; [done|cbn; listed]].
  destruct (Body r) as [req|] eqn:Hb; [|left; split; [done|cbn; listed]].
  destruct (Nat.eqb_spec (length (Items req)) 0) as [Hlen|Hlen];
    [left; split; [done|cbn; listed]|].
  destruct (Z.ltb_spec (UsePoints req) 0); [left; split; [done|cbn; listed]|].
  destruct (Z.ltb_spec (User.CurrentPoints user) (UsePoints req));
    [left; split; [done|cbn; listed]|].
  destruct (lookupCoupon st (CouponCode req)) as [e|coupon] eqn:Hc.
  { apply lookupCoupon_error in Hc as ->. left; split; [done|cbn; listed]. }
  destruct (checkItems rt st (Items req) 0 0) as [e|subtotal] eqn:Hs.
  { left. split; [done|]. cbn [fst].
    destruct (checkItems_status _ _ _ _ _ _ Hs) as [-> | ->]; listed. }
  right. exists uid, user, req, coupon, subtotal. unfold validated.
  repeat split; try done; try lia. by destruct (Items req).
Qed.

(** X3.  Whatever the request, [createOrderHandler] either answers 400, 401,
    404 or 405 and leaves the store as it was, or answers 201, 402 or 409
    and saves exactly one order, under the next order ID, with status
    "completed" for 201 and "payment_failed" for 402 and 409; the order
    counter then goes up by one and every earlier order is kept.  It never
    answers 500, and it never touches products, warehouses or coupons. *)
Theorem createOrderHandler_outcomes rt st r :
  let resp := fst (createOrderHandler rt st r) in
  let st' := snd (createOrderHandler rt st r) in
  (statusCode resp ∈ [400; 401; 404; 405] /\ st' = st) \/
  (statusCode resp ∈ [201; 402; 409] /\
   exists o,
     orders st' = <[nextOrderID st := o]> (orders st) /\
     Order.ID o = nextOrderID st /\
     Order.Status o = (if statusCode resp =? 201 then "completed" else "payment_failed") /\
     nextOrderID st' = add64 (nextOrderID st) 1 /\
     products st' = products st /\ warehouses st' = warehouses st /\
     coupons st' = coupons st).
Proof.
  intros resp st'. subst resp st'.
  destruct (createOrderHandler_run rt st r)
    as [[Hst Hcode]|(uid & user & req & coupon & subtotal & Hv)]; [by left|].
  right. rewrite (createOrderHandler_validated _ _ _ _ _ _ _ _ Hv).
  destruct Hv as (_ & _ & Hu & _ & _ & Hp & _ & _).
  destruct (settleOrder_run rt st uid user req coupon subtotal Hu Hp)
    as (Hcode & _ & Ho & Hn & Hpr & Hw & Hc).
  rewrite Hcode, Ho, Hn, Hpr, Hw, Hc. clear Hcode Ho Hn Hpr Hw Hc Hu Hp.
  destruct (PaymentResult.Success _); [destruct (fst (allocateItems _ _ _))|];
    (split; [listed|]); eexists; (split; [reflexivity|]); done.
Qed.

(** X4.  No request makes a stock line negative or moves it to another
    key: [createOrderHandler] keeps the invariant of [stocks] and leaves
    every quantity >= 0. *)
Theorem createOrderHandler_keeps_stocks rt st r :
  runtime_ok rt -> stocks_wf (stocks st) -> stocks_nonneg (stocks st) ->
  stocks_wf (stocks (snd (createOrderHandler rt st r))) /\
  stocks_nonneg (stocks (snd (createOrderHandler rt st r))).
Proof.
  intros Hrt Hwf Hnn.
  destruct (createOrderHandler_run rt st r)
    as [[-> _]|(uid & user & req & coupon & subtotal & Hv)]; [done|].
  rewrite (createOrderHandler_validated _ _ _ _ _ _ _ _ Hv).
  destruct Hv as (_ & _ & Hu & _ & _ & Hp & _ & Hitems).
  destruct (settleOrder_run rt st uid user req coupon subtotal Hu Hp)
    as (_ & -> & _).
  destruct (PaymentResult.Success _); [|done].
  apply (allocateItems_invariant rt Hrt); [done..|].
  eapply Forall_impl; [exact (checkItems_covered _ _ _ _ _ _ Hitems)|].
  intros it (? & ? & _). done.
Qed.

Lemma createOrderHandler_keeps_stocks_witness :
  stocks_wf (stocks (snd (createOrderHandler (runtimeWith true) shop
                            (orderRequest cart noCoupon 100)))) /\
  stocks_nonneg (stocks (snd (createOrderHandler (runtimeWith true) shop
                                (orderRequest cart noCoupon 100)))).
Proof.
  apply (createOrderHandler_keeps_stocks (runtimeWith true) shop
           (orderRequest cart noCoupon 100)).
  - apply runtimeWith_ok.
  - apply shop_stocks_wf.
  - apply (bool_decide_unpack _). vm_compute. exact I.
Defined.

(** X5.  A validated checkout whose lines name distinct products and whose
    payment succeeds is answered 201, and the stock of every product of
    the cart goes down by exactly the quantity ordered; the stock of every
    other product is as before. *)
Theorem checkout_draws_the_cart rt st r uid user req coupon subtotal :
  runtime_ok rt -> stocks_wf (stocks st) -> warehouses_known st ->
  products_wf (products st) ->
  validated rt st r uid user req coupon subtotal ->
  NoDup (OrderItem.ProductID <$> Items req) ->
  let p := computePricing subtotal (User.MemberRank user) coupon (UsePoints req) in
  PaymentResult.Success (ProcessPayment rt (totalPrice p) (nextOrderID st)) = true ->
  let resp := fst (createOrderHandler rt st r) in
  let st' := snd (createOrderHandler rt st r) in
  statusCode resp = 201 /\
  (forall it, it ∈ Items req ->
     totalAvailable (stocks st') (OrderItem.ProductID it)
     = totalAvailable (stocks st) (OrderItem.ProductID it) - OrderItem.Quantity it) /\
  (forall q, q ∉ OrderItem.ProductID <$> Items req ->
     totalAvailable (stocks st') q = totalAvailable (stocks st) q).
Proof.
  intros Hrt Hwf Hwh Hpw Hv Hnd p Hpay resp st'. subst resp st'.
  rewrite (createOrderHandler_validated _ _ _ _ _ _ _ _ Hv).
  destruct Hv as (_ & _ & Hu & _ & _ & Hp & _ & Hitems).
  destruct (settleOrder_run rt st uid user req coupon subtotal Hu Hp)
    as (Hcode & Hs & _).
  fold p in Hcode, Hs. rewrite Hpay in Hcode, Hs. rewrite Hcode, Hs.
  destruct (allocateItems_distinct rt Hrt (Items req) (stocks st) Hwf Hnd)
    as (Hall & Hin & Hout).
  { eapply Forall_impl; [exact (checkItems_covered _ _ _ _ _ _ Hitems)|].
    intros it (? & ? & product & Hprod & Hcov). split; [done|]. split; [done|].
    rewrite <- (Hpw _ _ Hprod). by apply (getProductStock_covers rt Hrt). }
  rewrite Hall. done.
Qed.

Lemma checkout_draws_the_cart_witness :
  statusCode (fst (createOrderHandler (runtimeWith true) shop (orderRequest cart noCoupon 100)))
  = 201 /\
  totalAvailable
    (stocks (snd (createOrderHandler (runtimeWith true) shop (orderRequest cart noCoupon 100)))) 1
  = totalAvailable (stocks shop) 1 - 2.
Proof.
  destruct (checkout_draws_the_cart (runtimeWith true) shop
              (orderRequest cart noCoupon 100) 7
              (User.mk 7 "u" "h" false "t" 300 0 "Normal")
              (mkOrderRequest cart noCoupon 100) None 4000)
    as (H1 & H2 & _).
  - apply runtimeWith_ok.
  - apply shop_stocks_wf.
  - apply (bool_decide_unpack _). vm_compute. exact I.
  - apply (bool_decide_unpack _). vm_compute. exact I.
  - unfold validated. repeat split; try reflexivity; try discriminate; simpl; lia.
  - apply (bool_decide_unpack _). vm_compute. exact I.
  - reflexivity.
  - split; [exact H1|]. apply (H2 (OrderItem.mk 1 2)). left.
Defined.

Lemma addPoints_users now st uid oid a u :
  users st !! uid = Some u ->
  users (addPoints now st uid oid a)
  = <[uid := User.setCurrentPoints u (add64 (User.CurrentPoints u) a)]> (users st).
Proof. intros Hu. unfold addPoints. by rewrite Hu. Qed.

Lemma updateUserPurchaseAmountAndRank_users st uid a u :
  users st !! uid = Some u ->
  users (updateUserPurchaseAmountAndRank st uid a)
  = <[uid := User.setSpentAndRank u (add64 (User.TotalSpentAmount u) a)
               (calculateMemberRank (add64 (User.TotalSpentAmount u) a))]> (users st).
Proof. intros Hu. unfold updateUserPurchaseAmountAndRank. by rewrite Hu. Qed.

Lemma earnedPoints_spec subtotal rank coupon pts :
  let p := computePricing subtotal rank coupon pts in
  earnedPoints p = Z.quot (totalPrice p) 100 /\ 0 <= totalPrice p /\ 0 <= earnedPoints p.
Proof.
  unfold computePricing. cbn [earnedPoints totalPrice].
  match goal with
  | |- context [if ?x <? 0 then 0 else _] => generalize x
  end.
  intros x. split; [reflexivity|].
  destruct (Z.ltb_spec x 0); (split; [lia|apply Z.quot_pos; lia]).
Qed.

Lemma saveOrder_users st o : users (saveOrder st o) = users st.
Proof. reflexivity. Qed.

(** The users after the points earned are added and the amount paid is
    recorded, from the users after the points used were taken. *)
Lemma settled_users st st1 s2 uid user b1 earned total now oid :
  users st1 = <[uid := User.setCurrentPoints user b1]> (users st) ->
  int_ok b1 -> 0 <= earned ->
  users (updateUserPurchaseAmountAndRank
           (if 0 <? earned then addPoints now (setStocks st1 s2) uid oid earned
            else setStocks st1 s2) uid total)
  = <[uid := User.setSpentAndRank (User.setCurrentPoints user (add64 b1 earned))
               (add64 (User.TotalSpentAmount user) total)
               (calculateMemberRank (add64 (User.TotalSpentAmount user) total))]> (users st).
Proof.
  intros Hu1 Hb1 Hearned.
  assert (Hu3 : users (if 0 <? earned then addPoints now (setStocks st1 s2) uid oid earned
                       else setStocks st1 s2)
                = <[uid := User.setCurrentPoints user (add64 b1 earned)]> (users st)).
  { destruct (Z.ltb_spec 0 earned).
    - rewrite (addPoints_users _ _ _ _ _ (User.setCurrentPoints user b1)).
      + cbn [users setStocks]. rewrite Hu1, insert_insert_eq. done.
      + cbn [users setStocks]. rewrite Hu1. apply lookup_insert_eq.
    - cbn [users setStocks]. rewrite Hu1.
      replace earned with 0 by lia.
      unfold add64. rewrite Z.add_0_r. by rewrite wrap64_id. }
  rewrite (updateUserPurchaseAmountAndRank_users _ uid _
             (User.setCurrentPoints user (add64 b1 earned)))
    by (rewrite Hu3; apply lookup_insert_eq).
  rewrite Hu3, insert_insert_eq. reflexivity.
Qed.

(** X6.  A validated checkout that is paid and allocated: the answer is 201
    with the completed order; the buyer ends with the old balance, less the
    points used, plus the points earned (one per 100 of the amount paid),
    the amount paid is added to the buyer's total spend, and the rank is
    the rank of the new total.  No other user changes. *)
Theorem checkout_success_account rt st r uid user req coupon subtotal :
  validated rt st r uid user req coupon subtotal ->
  int_ok (User.CurrentPoints user) ->
  let p := computePricing subtotal (User.MemberRank user) coupon (UsePoints req) in
  let payment := ProcessPayment rt (totalPrice p) (nextOrderID st) in
  PaymentResult.Success payment = true ->
  fst (allocateItems rt (stocks st) (Items req)) = true ->
  let points' := add64 (sub64 (User.CurrentPoints user) (UsePoints req)) (earnedPoints p) in
  let spent' := add64 (User.TotalSpentAmount user) (totalPrice p) in
  let user' := User.setSpentAndRank (User.setCurrentPoints user points')
                 spent' (calculateMemberRank spent') in
  fst (createOrderHandler rt st r)
  = Created (orderOf rt st uid req p "completed") (PaymentResult.TransactionID payment)
            points' (calculateMemberRank spent') /\
  users (snd (createOrderHandler rt st r)) = <[uid := user']> (users st) /\
  earnedPoints p = Z.quot (totalPrice p) 100.
Proof.
  intros Hv Hok p payment Hpay Hall points' spent' user'.
  rewrite (createOrderHandler_validated _ _ _ _ _ _ _ _ Hv).
  destruct Hv as (_ & _ & Hu & _ & _ & Hpts & _ & _).
  assert (Hearned : 0 <= earnedPoints p) by apply earnedPoints_spec.
  assert (Hquot : earnedPoints p = Z.quot (totalPrice p) 100) by apply earnedPoints_spec.
  subst points' spent' user'.
  unfold settleOrder. fold p. fold payment.
  clearbody p. clearbody payment.
  destruct (pointsTaken rt st uid user req Hu Hpts) as (st1 & -> & _ & Hs1 & Hu1).
  assert (Hu1' : users st1 = <[uid := User.setCurrentPoints user
                    (sub64 (User.CurrentPoints user) (UsePoints req))]> (users st)).
  { rewrite Hu1. destruct (Z.ltb_spec 0 (UsePoints req)); [done|].
    replace (UsePoints req) with 0 by lia.
    rewrite sub64_exact by (unfold int_ok in *; lia).
    rewrite Z.sub_0_r, setCurrentPoints_same. by rewrite insert_id. }
  rewrite Hpay, Hs1.
  destruct (allocateItems rt (stocks st) (Items req)) as [all s2]. cbn [fst] in Hall.
  subst all.
  assert (H0 : (0 <? UsePoints req) && negb (0 <? UsePoints req) = false)
    by (by destruct (0 <? UsePoints req)).
  rewrite H0. cbn [negb fst snd].
  pose proof (settled_users st st1 s2 uid user _ _ (totalPrice p) (time_Now rt 2)
                (nextOrderID st) Hu1' (wrap64_ok _) Hearned) as Hfin.
  rewrite saveOrder_users, Hfin, lookup_insert_eq.
  split; [|done]. reflexivity.
Qed.

Lemma checkout_success_account_witness :
  statusCode (fst (createOrderHandler (runtimeWith true) shop (orderRequest cart noCoupon 100)))
  = 201 /\
  users (snd (createOrderHandler (runtimeWith true) shop (orderRequest cart noCoupon 100)))
  = <[7 := User.mk 7 "u" "h" false "t" 248 4800 "Normal"]> (users shop).
Proof.
  destruct (checkout_success_account (runtimeWith true) shop
              (orderRequest cart noCoupon 100) 7
              (User.mk 7 "u" "h" false "t" 300 0 "Normal")
              (mkOrderRequest cart noCoupon 100) None 4000)
    as (H1 & H2 & _).
  - unfold validated. repeat split; try reflexivity; try discriminate; simpl; lia.
  - unfold int_ok. simpl. lia.
  - reflexivity.
  - vm_compute. reflexivity.
  - rewrite H1, H2. split; [reflexivity|]. vm_compute. reflexivity.
Defined.

Lemma recordPoints_ledger st uid u h :
  histories_fresh st -> nextPointHistoryID st + 1 < 2 ^ 63 -> 0 <= nextPointHistoryID st ->
  PointHistory.ID h = nextPointHistoryID st -> PointHistory.UserID h = uid ->
  PointHistory.Balance h = User.CurrentPoints u ->
  ledger_step st (recordPoints st uid u h) uid /\
  histories_fresh (recordPoints st uid u h).
Proof.
  intros Hf Hn H0 Hid Huid Hbal.
  assert (Hnone : pointHistories st !! nextPointHistoryID st = None).
  { destruct (pointHistories st !! nextPointHistoryID st) eqn:E; [|done].
    apply Hf in E. lia. }
  assert (Hnext : add64 (nextPointHistoryID st) 1 = nextPointHistoryID st + 1).
  { apply add64_exact. unfold int_ok. lia. }
  split.
  - right. exists h, u. unfold recordPoints. cbn. rewrite Hnext. done.
  - unfold histories_fresh, recordPoints. cbn. rewrite Hnext.
    apply map_Forall_insert_2; [lia|].
    eapply map_Forall_impl; [exact Hf|]. cbn. intros. lia.
Qed.

(** X7.  The point history is an append-only ledger.  Each of [addPoints],
    [usePoints] and [rollbackPoints] either leaves the store as it was or
    adds exactly one entry, under the next ID, for the user concerned, with
    the balance that user is left with; no existing entry changes, and
    every entry stays below the counter. *)
Theorem points_ledger_append_only now st uid oid a st' :
  histories_fresh st -> 0 <= nextPointHistoryID st -> nextPointHistoryID st + 1 < 2 ^ 63 ->
  st' = addPoints now st uid oid a \/
  st' = snd (usePoints now st uid oid a) \/
  st' = rollbackPoints now st uid oid a ->
  ledger_step st st' uid /\ histories_fresh st' /\
  (forall k h, pointHistories st !! k = Some h -> pointHistories st' !! k = Some h).
Proof.
  intros Hf H0 Hn Hcall.
  assert (Hstep : ledger_step st st' uid /\ histories_fresh st').
  { destruct Hcall as [->|[->| ->]].
    - unfold addPoints. destruct (users st !! uid); [|split; [by left|done]].
      by apply recordPoints_ledger.
    - unfold usePoints. destruct (users st !! uid); [|split; [by left|done]].
      destruct (_ <=? _); [|split; [by left|done]].
      by apply recordPoints_ledger.
    - unfold rollbackPoints. destruct (users st !! uid); [|split; [by left|done]].
      by apply recordPoints_ledger. }
  destruct Hstep as [Hstep Hfresh]. split; [done|]. split; [done|].
  intros k h Hk. destruct Hstep as [->|(h' & u' & -> & Hnone & _)]; [done|].
  rewrite lookup_insert_ne; [done|]. intros <-. congruence.
Qed.

Lemma points_ledger_append_only_witness :
  ledger_step shop (snd (usePoints 0 shop 7 1 100)) 7 /\
  histories_fresh (snd (usePoints 0 shop 7 1 100)).
Proof.
  destruct (points_ledger_append_only 0 shop 7 1 100 (snd (usePoints 0 shop 7 1 100)))
    as (H1 & H2 & _).
  - intros k h Hk. unfold shop in Hk. cbn [pointHistories] in Hk.
    by rewrite lookup_empty in Hk.
  - simpl. lia.
  - simpl. lia.
  - right. left. reflexivity.
  - done.
Defined.

Lemma wrap64_add_r x y : wrap64 (x + wrap64 y) = wrap64 (x + y).
Proof. rewrite Z.add_comm, wrap64_add_l. f_equal. lia. Qed.

Lemma add64_assoc a b c : add64 (add64 a b) c = add64 a (add64 b c).
Proof.
  unfold add64. rewrite wrap64_add_l, wrap64_add_r. f_equal. lia.
Qed.

(** X8.  [updateUserPurchaseAmountAndRank] accumulates: recording a and then
    b is recording a + b (as [int]s), and after a call the rank of the user
    is the rank of the new total spend, with the point balance untouched;
    a user that does not exist leaves the store as it was. *)
Theorem updateUserPurchaseAmountAndRank_accumulates st uid a b :
  updateUserPurchaseAmountAndRank (updateUserPurchaseAmountAndRank st uid a) uid b
  = updateUserPurchaseAmountAndRank st uid (add64 a b) /\
  match users st !! uid with
  | Some u =>
      exists u', users (updateUserPurchaseAmountAndRank st uid a) !! uid = Some u' /\
        User.TotalSpentAmount u' = add64 (User.TotalSpentAmount u) a /\
        User.MemberRank u' = calculateMemberRank (User.TotalSpentAmount u') /\
        User.CurrentPoints u' = User.CurrentPoints u
  | None => updateUserPurchaseAmountAndRank st uid a = st
  end.
Proof.
  destruct (users st !! uid) as [u|] eqn:Hu.
  2:{ unfold updateUserPurchaseAmountAndRank. rewrite !Hu. done. }
  split.
  - unfold updateUserPurchaseAmountAndRank at 2. rewrite Hu.
    unfold updateUserPurchaseAmountAndRank. cbn [users setUsers].
    rewrite Hu, lookup_insert_eq. unfold setUsers. cbn.
    rewrite insert_insert_eq, add64_assoc. reflexivity.
  - eexists. rewrite (updateUserPurchaseAmountAndRank_users st uid a u Hu).
    rewrite lookup_insert_eq. split; [reflexivity|]. done.
Qed.

Lemma calculateMemberRank_cases t :
  (calculateMemberRank t = "Gold" /\ 100000 <= t) \/
  (calculateMemberRank t = "Silver" /\ 50000 <= t < 100000) \/
  (calculateMemberRank t = "Normal" /\ t < 50000).
Proof.
  unfold calculateMemberRank.
  destruct (Z.leb_spec 100000 t); [by left|].
  destruct (Z.leb_spec 50000 t); [right; left|right; right]; split; (done || lia).
Qed.

(** The first stages of [computePricing] for a subtotal below 2^52, as
    exact integers: the rank discount, the discounted subtotal, the
    tax-inclusive amount and the shipping fee; and the final charge of a
    checkout without coupon and points. *)
Lemma computePricing_stages s rank coupon points :
  0 <= s < 2 ^ 52 ->
  let disc := s * tierRatePercent rank / 100 in
  let swt := (s - disc) + (s - disc) / 10 in
  0 <= disc <= s /\
  rankDiscountAmount (computePricing s rank coupon points) = disc /\
  discountedSubtotal (computePricing s rank coupon points) = s - disc /\
  subtotalWithTax (computePricing s rank coupon points) = swt /\
  shippingFee (computePricing s rank coupon points) = shippingFeeFor rank swt /\
  (coupon = None -> points = 0 ->
   totalPrice (computePricing s rank coupon points) = swt + shippingFeeFor rank swt).
Proof.
  intros Hs disc swt.
  assert (Hrate : 0 <= tierRatePercent rank <= 5).
  { unfold tierRatePercent. destruct (String.eqb rank "Gold"); [lia|].
    destruct (String.eqb rank "Silver"); lia. }
  assert (Hdisc : 0 <= disc <= s).
  { subst disc. split; [apply Z.div_pos; nia|].
    apply Z.div_le_upper_bound; nia. }
  assert (H52 : 2 ^ 52 = 4503599627370496) by reflexivity.
  assert (Hd : sub64 s disc = s - disc) by (apply sub64_exact; unfold int_ok; lia).
  assert (Hq : Z.quot (s - disc) 10 = (s - disc) / 10) by (apply Z.quot_div_nonneg; lia).
  assert (Hq10 : 0 <= (s - disc) / 10 <= s - disc).
  { split; [apply Z.div_pos; lia|]. apply Z.div_le_upper_bound; lia. }
  assert (Hswt : add64 (s - disc) ((s - disc) / 10) = swt)
    by (apply add64_exact; unfold int_ok; lia).
  assert (Hfee : 0 <= shippingFeeFor rank swt <= 500).
  { unfold shippingFeeFor. destruct (negb _); [destruct (swt <? 5000)|]; lia. }
  unfold computePricing.
  cbn [rankDiscountAmount discountedSubtotal subtotalWithTax shippingFee totalPrice].
  rewrite (rankDiscount_integer_eq s rank Hs). unfold rankDiscount_integer. fold disc.
  rewrite Hd, Hq, Hswt.
  split; [done|]. split; [done|]. split; [done|]. split; [done|]. split; [done|].
  intros -> ->. unfold calculateCouponDiscount.
  rewrite (sub64_exact swt 0) by (unfold int_ok; lia). rewrite Z.sub_0_r.
  rewrite add64_exact by (unfold int_ok; lia).
  rewrite sub64_exact by (unfold int_ok; lia). rewrite Z.sub_0_r.
  destruct (Z.ltb_spec (swt + shippingFeeFor rank swt) 0); [lia|done].
Qed.

(** X9.  A higher rank lowers the price of the goods, not always the
    charge.  For total spends a <= b and one subtotal s (0 <= s < 2^52),
    the pipeline of [createOrderHandler] gives the rank of b at least the
    rank discount of the rank of a, and at most its discounted subtotal
    and its tax-inclusive amount; a Gold member pays no shipping fee; and
    without coupon and points the rank of b is charged at most 500 more
    than the rank of a.  It can be charged more: the shipping fee is
    decided on the amount after the rank discount, so the final charge is
    not monotone in the rank. *)
Theorem rank_discount_monotone_charge_not a b s coupon points :
  a <= b -> 0 <= s < 2 ^ 52 ->
  let pa := computePricing s (calculateMemberRank a) coupon points in
  let pb := computePricing s (calculateMemberRank b) coupon points in
  rankDiscountAmount pa <= rankDiscountAmount pb /\
  discountedSubtotal pb <= discountedSubtotal pa /\
  subtotalWithTax pb <= subtotalWithTax pa /\
  (100000 <= b -> shippingFee pb = 0) /\
  (coupon = None -> points = 0 -> totalPrice pb <= totalPrice pa + 500) /\
  ~ (forall a' b' s',
       a' <= b' -> 0 <= s' < 2 ^ 52 ->
       totalPrice (computePricing s' (calculateMemberRank b') None 0)
       <= totalPrice (computePricing s' (calculateMemberRank a') None 0)).
Proof.
  intros Hab Hs pa pb. subst pa pb.
  destruct (computePricing_stages s (calculateMemberRank a) coupon points Hs)
    as (Hda & -> & -> & -> & _ & Hta).
  destruct (computePricing_stages s (calculateMemberRank b) coupon points Hs)
    as (Hdb & -> & -> & -> & -> & Htb).
  set (da := s * tierRatePercent (calculateMemberRank a) / 100) in *.
  set (db := s * tierRatePercent (calculateMemberRank b) / 100) in *.
  assert (Hrate : tierRatePercent (calculateMemberRank a)
                  <= tierRatePercent (calculateMemberRank b)).
  { destruct (calculateMemberRank_cases a) as [[-> ?]|[[-> ?]|[-> ?]]];
      destruct (calculateMemberRank_cases b) as [[-> ?]|[[-> ?]|[-> ?]]];
      cbn; lia. }
  assert (Hdisc : da <= db) by (apply Z.div_le_mono; nia).
  assert (Htax : (s - db) / 10 <= (s - da) / 10) by (apply Z.div_le_mono; lia).
  split; [done|]. split; [lia|]. split; [lia|]. split; [|split].
  - intros Hgold. unfold shippingFeeFor.
    destruct (calculateMemberRank_cases b) as [[-> ?]|[[-> ?]|[-> ?]]]; [done|lia|lia].
  - intros Hc Hp. rewrite (Hta Hc Hp), (Htb Hc Hp).
    assert (Hfa : 0 <= shippingFeeFor (calculateMemberRank a) (s - da + (s - da) / 10)).
    { unfold shippingFeeFor. destruct (negb _); [destruct (_ <? 5000)|]; lia. }
    assert (Hfb : shippingFeeFor (calculateMemberRank b) (s - db + (s - db) / 10) <= 500).
    { unfold shippingFeeFor. destruct (negb _); [destruct (_ <? 5000)|]; lia. }
    lia.
  - intros H. specialize (H 0 60000 4546 ltac:(lia) ltac:(lia)).
    vm_compute in H. by apply H.
Qed.

Lemma rank_discount_monotone_charge_not_witness :
  rankDiscountAmount (computePricing 4546 (calculateMemberRank 0) None 0)
  <= rankDiscountAmount (computePricing 4546 (calculateMemberRank 60000) None 0) /\
  totalPrice (computePricing 4546 (calculateMemberRank 0) None 0) = 5000 /\
  shippingFee (computePricing 4546 (calculateMemberRank 0) None 0) = 0 /\
  totalPrice (computePricing 4546 (calculateMemberRank 60000) None 0) = 5351 /\
  shippingFee (computePricing 4546 (calculateMemberRank 60000) None 0) = 500.
Proof.
  destruct (rank_discount_monotone_charge_not 0 60000 4546 None 0) as (H & _).
  - lia.
  - lia.
  - split; [exact H|]. vm_compute. repeat split.
Defined.

(** X2.  [allocateStock] conserves stock: after a successful call the
    product holds exactly q less in total, after a failed call what it
    held; the total of every other product is as before, and the plan
    returned draws q (nothing on failure). *)
Theorem allocateStock_conserves rt (s : gmap string Stock.t) p q :
  runtime_ok rt -> stocks_wf s -> 0 < q -> int_ok q ->
  let ok := fst (fst (allocateStock rt s p q)) in
  let plan := snd (fst (allocateStock rt s p q)) in
  let s' := snd (allocateStock rt s p q) in
  totalAvailable s' p = totalAvailable s p - (if ok then q else 0) /\
  (forall p', p' <> p -> totalAvailable s' p' = totalAvailable s p') /\
  planTotal plan = (if ok then q else 0).
Proof.
  intros Hrt Hwf Hq Hok.
  pose proof (allocateStock_total rt Hrt s p q Hwf Hq Hok) as H.
  destruct (allocateStock rt s p q) as [[ok plan] s']. cbn [fst snd].
  destruct H as (_ & H1 & H2 & H3). done.
Qed.

Lemma allocateStock_conserves_witness :
  totalAvailable (snd (allocateStock (runtimeWith true) initStocks 1 4)) 1
  = totalAvailable initStocks 1 - 4.
Proof.
  destruct (allocateStock_conserves (runtimeWith true) initStocks 1 4) as (H & _).
  - apply runtimeWith_ok.
  - apply initStocks_wf.
  - lia.
  - unfold int_ok. lia.
  - exact H.
Defined.

Lemma getProductStock_lines (st : Store) p (l : list (string * Stock.t)) :
  forall acc,
    (forall kv, kv ∈ l -> is_Some (warehouses st !! Stock.WarehouseID (snd kv))) ->
    StockWarehouse.Quantity <$>
      snd (foldl (fun (acc : Z * list StockWarehouse.t) (kv : string * Stock.t) =>
                  let stock := snd kv in
                  if (Stock.ProductID stock =? p) && (0 <? Stock.Quantity stock) then
                    match warehouses st !! Stock.WarehouseID stock with
                    | Some warehouse =>
                        (add64 (fst acc) (Stock.Quantity stock),
                         snd acc ++ [StockWarehouse.mk (Warehouse.Name warehouse)
                                                       (Stock.Quantity stock)])
                    | None => acc
                    end
                  else acc) acc l)
    = (StockWarehouse.Quantity <$> snd acc) ++
      (Stock.Quantity <$>
         (snd <$> filter (fun kv : string * Stock.t =>
                            Stock.ProductID (snd kv) = p /\
                            0 < Stock.Quantity (snd kv)) l)).
Proof.
  induction l as [|[k x] l IH]; intros acc Hwh.
  - cbn. by rewrite app_nil_r.
  - cbn [foldl snd].
    destruct (Z.eqb_spec (Stock.ProductID x) p) as [Hp|Hp];
      destruct (Z.ltb_spec 0 (Stock.Quantity x)) as [Hpos|Hpos]; cbn [andb].
    2,3,4: rewrite filter_cons_False by (cbn; lia);
           apply IH; intros kv Hin; apply Hwh; by right.
    rewrite filter_cons_True by (cbn; lia).
    destruct (Hwh (k, x) ltac:(left)) as [wh Hw]. cbn [snd] in Hw. rewrite Hw.
    rewrite IH by (intros kv Hin; apply Hwh; by right).
    cbn [snd]. rewrite fmap_app, !fmap_cons. cbn. by rewrite <- app_assoc.
Qed.

(** X1.  [getProductStock], when every stock line names a warehouse that
    exists and the lines of the product hold less than 2^63 in total:
    the total returned is the exact total of the lines, the breakdown has
    one entry per line that holds something, with its quantity, and the
    quantities of the breakdown add up to the total.  A product without
    such lines gives 0 and an empty breakdown. *)
Theorem getProductStock_breakdown rt st p :
  runtime_ok rt -> warehouses_known st -> totalAvailable (stocks st) p < 2 ^ 63 ->
  let total := fst (getProductStock rt st p) in
  let lines := snd (getProductStock rt st p) in
  total = totalAvailable (stocks st) p /\
  StockWarehouse.Quantity <$> lines ≡ₚ Stock.Quantity <$> stockLines (stocks st) p /\
  sumZ (StockWarehouse.Quantity <$> lines) = total /\
  (stockLines (stocks st) p = [] -> total = 0 /\ lines = []).
Proof.
  intros Hrt Hwh Htot total lines.
  assert (Htotal : total = totalAvailable (stocks st) p).
  { subst total. apply (getProductStock_total rt Hrt); [|done].
    intros k x Hk. by apply (Hwh k x). }
  assert (Hlines : StockWarehouse.Quantity <$> lines
                   ≡ₚ Stock.Quantity <$> stockLines (stocks st) p).
  { subst lines. unfold getProductStock. rewrite getProductStock_lines.
    - cbn [snd fmap list_fmap app].
      apply fmap_Permutation. apply (availableStocks_perm rt Hrt).
    - intros [k x] Hin. destruct Hrt as [Hr _]. rewrite (Hr (stocks st)) in Hin.
      apply elem_of_map_to_list in Hin. by apply (Hwh k x). }
  split; [done|]. split; [done|]. split.
  - rewrite (sumZ_perm _ _ Hlines). by rewrite Htotal.
  - intros Hnil. rewrite Htotal. unfold totalAvailable. rewrite Hnil. split; [done|].
    rewrite Hnil in Hlines. apply Permutation_nil_r in Hlines.
    by apply fmap_nil_inv in Hlines.
Qed.

Lemma getProductStock_breakdown_witness :
  fst (getProductStock (runtimeWith true) shop 1) = totalAvailable (stocks shop) 1.
Proof.
  destruct (getProductStock_breakdown (runtimeWith true) shop 1) as (H & _).
  - apply runtimeWith_ok.
  - apply (bool_decide_unpack _). vm_compute. exact I.
  - vm_compute. reflexivity.
  - exact H.
Defined.

Lemma pretty_N_char_digit x : is_digit (pretty_N_char x) = true.
Proof. unfold pretty_N_char. by repeat case_match. Qed.

Lemma pretty_N_go_digits x :
  forall s, all_chars is_digit s = true -> s <> EmptyString \/ (0 < x)%N ->
    all_chars is_digit (pretty_N_go x s) = true /\ pretty_N_go x s <> EmptyString.
Proof.
  induction (N.lt_wf_0 x) as [x _ IH]; intros s Hs Hne.
  assert (x = 0 \/ 0 < x)%N as [->|Hx] by lia.
  - rewrite pretty_N_go_0. destruct Hne; [done|lia].
  - rewrite pretty_N_go_step by done. apply IH.
    + by apply N.div_lt.
    + cbn. by rewrite pretty_N_char_digit, Hs.
    + by left.
Qed.

Lemma pretty_N_digits (n : N) :
  all_chars is_digit (pretty n) = true /\ pretty n <> EmptyString.
Proof.
  unfold pretty, pretty_N. case_decide as Hn; [done|].
  apply pretty_N_go_digits; [done|]. right. lia.
Qed.

Lemma all_chars_impl (P Q : Ascii.ascii -> bool) s :
  (forall a, P a = true -> Q a = true) -> all_chars P s = true -> all_chars Q s = true.
Proof.
  intros HPQ. induction s as [|a s IH]; [done|]. cbn.
  intros [Ha Hs]%andb_true_iff. by rewrite (HPQ a Ha), IH.
Qed.

Lemma pretty_Z_numeric (z : Z) :
  all_chars is_numeric (pretty z) = true /\ pretty z <> EmptyString.
Proof.
  assert (Hd : forall a, is_digit a = true -> is_numeric a = true).
  { intros a Ha. unfold is_numeric. by rewrite Ha. }
  destruct z as [|p|p]; [done| |].
  - destruct (pretty_N_digits (N.pos p)) as [H1 H2]. split; [|done].
    by apply (all_chars_impl is_digit).
  - destruct (pretty_N_digits (N.pos p)) as [H1 H2]. split; [|done].
    change (pretty (Z.neg p)) with (String "-" (pretty (N.pos p))). cbn.
    by apply (all_chars_impl is_digit).
Qed.

(** Two texts cut at the first separator. *)
Lemma split_at_separator (P : Ascii.ascii -> bool) (c : Ascii.ascii) (a a' b b' : string) :
  P c = false -> all_chars P a = true -> all_chars P a' = true ->
  a +:+ String c b = a' +:+ String c b' -> a = a' /\ b = b'.
Proof.
  intros Hc. revert a'. induction a as [|x a IH]; intros [|x' a'] Ha Ha'; cbn.
  - by intros [= ->].
  - intros [= <- _]. cbn in Ha'. by rewrite Hc in Ha'.
  - intros [= -> _]. cbn in Ha. by rewrite Hc in Ha.
  - intros [= -> Heq]. cbn in Ha, Ha'.
    apply andb_true_iff in Ha as [_ Ha]. apply andb_true_iff in Ha' as [_ Ha'].
    destruct (IH a' Ha Ha' Heq) as [-> ->]. done.
Qed.

(** [%d-%d] determines both numbers. *)
Lemma format_pair_inj (p w p' w' : Z) :
  pretty p +:+ "-" +:+ pretty w = pretty p' +:+ "-" +:+ pretty w' -> p = p' /\ w = w'.
Proof.
  assert (Hnat : forall (n n' : N) (b b' : string),
            pretty n +:+ String "-" b = pretty n' +:+ String "-" b' -> n = n' /\ b = b').
  { intros n n' b b' H.
    destruct (pretty_N_digits n) as [Hn _]. destruct (pretty_N_digits n') as [Hn' _].
    destruct (split_at_separator is_digit "-"%char _ _ _ _ eq_refl Hn Hn' H) as [Heq ->].
    split; [|done]. by apply (inj pretty). }
  assert (Hfirst : forall (n : N) b, exists a s, pretty n +:+ b = String a s /\ is_digit a = true).
  { intros n b. destruct (pretty_N_digits n) as [Hn Hne].
    destruct (pretty n) as [|a s]; [done|]. exists a, (s +:+ b). split; [done|].
    cbn in Hn. by apply andb_true_iff in Hn as [Ha _]. }
  assert (Hz : forall z : Z, (0 <= z -> pretty z = pretty (Z.to_N z)) /\
                             (z < 0 -> pretty z = String "-" (pretty (Z.to_N (- z))))).
  { intros [|q|q]; split; intros; try lia; reflexivity. }
  intros H.
  destruct (Z.lt_ge_cases p 0) as [Hp|Hp]; destruct (Z.lt_ge_cases p' 0) as [Hp'|Hp'].
  - rewrite (proj2 (Hz p) Hp), (proj2 (Hz p') Hp') in H. cbn in H.
    injection H as H. apply Hnat in H as [Hn H]. apply (inj pretty) in H. split; lia.
  - rewrite (proj2 (Hz p) Hp), (proj1 (Hz p') ltac:(lia)) in H. cbn in H.
    destruct (Hfirst (Z.to_N p') ("-" +:+ pretty w')) as (a & s & Hs & Ha).
    rewrite Hs in H. injection H as <- _. done.
  - rewrite (proj1 (Hz p) ltac:(lia)), (proj2 (Hz p') Hp') in H. cbn in H.
    destruct (Hfirst (Z.to_N p) ("-" +:+ pretty w)) as (a & s & Hs & Ha).
    rewrite Hs in H. injection H as -> _. done.
  - rewrite (proj1 (Hz p) ltac:(lia)), (proj1 (Hz p') ltac:(lia)) in H.
    apply Hnat in H as [Hn H]. apply (inj pretty) in H. split; lia.
Qed.

(** X10.  The stock key determines the product and the warehouse: two
    different pairs never share a key. *)
Theorem stockKey_determines_pair p w p' w' :
  stockKey p w = stockKey p' w' <-> p = p' /\ w = w'.
Proof.
  split; [apply format_pair_inj|]. by intros [-> ->].
Qed.

Lemma exampleHost_ok : host_ok exampleHost.
Proof. repeat split; intros; reflexivity. Qed.

(** ** Wishlists *)

Lemma wishlistKey_inj u p u' p' :
  wishlistKey u p = wishlistKey u' p' -> u = u' /\ p = p'.
Proof. apply format_pair_inj. Qed.

Lemma isProductInWishlist_lookup (w : gmap string Wishlist.t) u p :
  isProductInWishlist w u p = true <-> is_Some (w !! wishlistKey u p).
Proof.
  unfold isProductInWishlist. destruct (w !! wishlistKey u p); split; done.
Qed.

(** X11.  The wishlist is a set of (user, product) pairs.  [addToWishlist]
    returns true exactly when the pair was not there and leaves it there;
    [removeFromWishlist] returns true exactly when the pair was there and
    leaves it out; neither changes the answer of [isProductInWishlist] for
    any other pair, whoever the user; and removing a pair that was just
    added gives back the wishlists as they were. *)
Theorem wishlist_add_remove (w : gmap string Wishlist.t) u p :
  let added := addToWishlist w u p in
  let removed := removeFromWishlist w u p in
  fst added = negb (isProductInWishlist w u p) /\
  isProductInWishlist (snd added) u p = true /\
  fst removed = isProductInWishlist w u p /\
  isProductInWishlist (snd removed) u p = false /\
  (forall u' p', (u', p') <> (u, p) ->
     isProductInWishlist (snd added) u' p' = isProductInWishlist w u' p' /\
     isProductInWishlist (snd removed) u' p' = isProductInWishlist w u' p') /\
  (isProductInWishlist w u p = false -> snd (removeFromWishlist (snd added) u p) = w).
Proof.
  intros added removed. subst added removed.
  assert (Hother : forall u' p', (u', p') <> (u, p) -> wishlistKey u p <> wishlistKey u' p').
  { intros u' p' Hne Heq. apply wishlistKey_inj in Heq as [-> ->]. done. }
  unfold addToWishlist, removeFromWishlist, isProductInWishlist.
  destruct (w !! wishlistKey u p) as [x|] eqn:Hk; cbn [fst snd negb].
  - rewrite Hk, lookup_delete_eq.
    split; [done|]. split; [done|]. split; [done|]. split; [done|]. split; [|done].
    intros u' p' Hne. split; [done|]. by rewrite lookup_delete_ne by auto.
  - rewrite Hk, !lookup_insert_eq. cbn [snd].
    split; [done|]. split; [done|]. split; [done|]. split; [done|]. split.
    + intros u' p' Hne. split; [|done]. by rewrite lookup_insert_ne by auto.
    + intros _. by rewrite delete_insert_eq, delete_id.
Qed.

Lemma addToWishlist_wf (w : gmap string Wishlist.t) u p :
  wishlists_wf w -> wishlists_wf (snd (addToWishlist w u p)).
Proof.
  intros Hwf. unfold addToWishlist. destruct (w !! wishlistKey u p); [done|].
  cbn [snd]. by apply map_Forall_insert_2.
Qed.

Lemma removeFromWishlist_wf (w : gmap string Wishlist.t) u p :
  wishlists_wf w -> wishlists_wf (snd (removeFromWishlist w u p)).
Proof.
  intros Hwf. unfold removeFromWishlist. destruct (w !! wishlistKey u p); [|done].
  cbn [snd]. by apply map_Forall_delete.
Qed.

(** Under the invariant, [isProductInWishlist] tells whether some entry
    names the user and the product. *)
Lemma isProductInWishlist_entry (w : gmap string Wishlist.t) u p :
  wishlists_wf w ->
  isProductInWishlist w u p = true <->
  exists x, x ∈ (snd <$> map_to_list w) /\ Wishlist.UserID x = u /\ Wishlist.ProductID x = p.
Proof.
  intros Hwf. rewrite isProductInWishlist_lookup. split.
  - intros [x Hx]. exists x. pose proof (Hwf _ _ Hx) as Hkey.
    apply wishlistKey_inj in Hkey as [-> ->]. split; [|done].
    apply list_elem_of_fmap. exists (wishlistKey (Wishlist.UserID x) (Wishlist.ProductID x), x).
    split; [done|]. by apply elem_of_map_to_list.
  - intros (x & Hin & <- & <-). apply list_elem_of_fmap in Hin as ([k y] & -> & Hin).
    apply elem_of_map_to_list in Hin. cbn [snd]. rewrite <- (Hwf _ _ Hin). eauto.
Qed.

(** ** Recommendations *)

Lemma filter_none {A : Type} (P : A -> Prop) `{forall x, Decision (P x)} (l : list A) :
  Forall (fun x => ~ P x) l -> filter P l = [].
Proof.
  induction 1 as [|x l Hx _ IH]; [done|]. by rewrite filter_cons_False.
Qed.

Lemma getUserWishlistCategories_fold (range : list (string * Wishlist.t))
    (products : gmap Z Product.t) u c :
  forall acc : gset string,
    c ∈ foldl (fun (categories : gset string) (kv : string * Wishlist.t) =>
                 let wishlist := snd kv in
                 if Wishlist.UserID wishlist =? u then
                   match products !! Wishlist.ProductID wishlist with
                   | Some product => {[ Product.Category product ]} ∪ categories
                   | None => categories
                   end
                 else categories) acc range <->
    c ∈ acc \/
    exists x favorite, x ∈ (snd <$> range) /\ Wishlist.UserID x = u /\
      products !! Wishlist.ProductID x = Some favorite /\ Product.Category favorite = c.
Proof.
  induction range as [|[k x] range IH]; intros acc.
  - cbn. split; [by left|]. intros [?|(x & f & Hin & _)]; [done|]. by inversion Hin.
  - cbn [foldl snd]. rewrite IH. rewrite fmap_cons. cbn [snd]. split.
    + intros [Hacc|(y & f & Hin & Hy)].
      * destruct (Z.eqb_spec (Wishlist.UserID x) u) as [Hu|Hu]; [|by left].
        destruct (products !! Wishlist.ProductID x) as [f|] eqn:Hp; [|by left].
        apply elem_of_union in Hacc as [Hc|Hacc]; [|by left].
        apply elem_of_singleton in Hc. right. exists x, f. split; [left|done].
      * right. exists y, f. split; [by right|done].
    + intros [Hacc|(y & f & Hin & Hu & Hp & Hc)].
      * left. destruct (Wishlist.UserID x =? u); [|done].
        destruct (products !! Wishlist.ProductID x); [|done].
        apply elem_of_union. by right.
      * apply elem_of_cons in Hin as [->|Hin].
        -- left. rewrite <- Hu, Z.eqb_refl, Hp.
           apply elem_of_union. left. by apply elem_of_singleton.
        -- right. exists y, f. done.
Qed.

Lemma getUserWishlistCategories_spec (range : list (string * Wishlist.t))
    (products : gmap Z Product.t) u c :
  c ∈ getUserWishlistCategories range products u <->
  exists x favorite, x ∈ (snd <$> range) /\ Wishlist.UserID x = u /\
    products !! Wishlist.ProductID x = Some favorite /\ Product.Category favorite = c.
Proof.
  unfold getUserWishlistCategories. rewrite getUserWishlistCategories_fold.
  split; [|by right]. intros [Hc|Hc]; [|done]. by apply not_elem_of_empty in Hc.
Qed.

Lemma userFavorites_fold (range : list (string * Wishlist.t)) u q :
  forall acc : gset Z,
    q ∈ foldl (fun (favorites : gset Z) (kv : string * Wishlist.t) =>
                 let wishlist := snd kv in
                 if Wishlist.UserID wishlist =? u
                 then {[ Wishlist.ProductID wishlist ]} ∪ favorites
                 else favorites) acc range <->
    q ∈ acc \/
    exists x, x ∈ (snd <$> range) /\ Wishlist.UserID x = u /\ Wishlist.ProductID x = q.
Proof.
  induction range as [|[k x] range IH]; intros acc.
  - cbn. split; [by left|]. intros [?|(x & Hin & _)]; [done|]. by inversion Hin.
  - cbn [foldl snd]. rewrite IH. rewrite fmap_cons. cbn [snd]. split.
    + intros [Hacc|(y & Hin & Hy)].
      * destruct (Z.eqb_spec (Wishlist.UserID x) u) as [Hu|Hu]; [|by left].
        apply elem_of_union in Hacc as [Hc|Hacc]; [|by left].
        apply elem_of_singleton in Hc. right. exists x. split; [left|done].
      * right. exists y. split; [by right|done].
    + intros [Hacc|(y & Hin & Hu & Hq)].
      * left. destruct (Wishlist.UserID x =? u); [|done].
        apply elem_of_union. by right.
      * apply elem_of_cons in Hin as [->|Hin].
        -- left. rewrite <- Hu, Z.eqb_refl.
           apply elem_of_union. left. by apply elem_of_singleton.
        -- right. exists y. done.
Qed.

Lemma userFavorites_spec (range : list (string * Wishlist.t)) u q :
  q ∈ userFavorites range u <->
  exists x, x ∈ (snd <$> range) /\ Wishlist.UserID x = u /\ Wishlist.ProductID x = q.
Proof.
  unfold userFavorites. rewrite userFavorites_fold.
  split; [|by right]. intros [Hc|Hc]; [|done]. by apply not_elem_of_empty in Hc.
Qed.

(** The loop of [getRecommendations] takes the products that pass its
    test, in the order of the range, until it has three. *)
Lemma recommend_take (fc : gset string) (fav : gset Z) (range : list (Z * Product.t)) :
  forall acc, (length acc < 3)%nat ->
    recommend fc fav range acc
    = acc ++ take (3 - length acc)
               (recommended <$>
                  (snd <$> filter (fun kv : Z * Product.t =>
                                     Product.Category (snd kv) ∈ fc /\
                                     Product.ID (snd kv) ∉ fav) range)).
Proof.
  induction range as [|[k product] range IH]; intros acc Hacc.
  - cbn. by rewrite take_nil, app_nil_r.
  - cbn [recommend snd].
    destruct (decide (Product.Category product ∈ fc)) as [Hc|Hc];
      destruct (decide (Product.ID product ∈ fav)) as [Hf|Hf].
    + rewrite (bool_decide_eq_true_2 _ Hc), (bool_decide_eq_true_2 _ Hf). cbn [negb andb].
      rewrite filter_cons_False by (cbn; tauto). by apply IH.
    + rewrite (bool_decide_eq_true_2 _ Hc), (bool_decide_eq_false_2 _ Hf). cbn [negb andb].
      rewrite filter_cons_True by (cbn; tauto). rewrite !fmap_cons. cbn [snd].
      fold (recommended product). rewrite length_app. cbn [length].
      destruct (Nat.leb_spec 3 (length acc + 1)) as [Hfull|Hmore].
      * replace (3 - length acc)%nat with 1%nat by lia. cbn. by rewrite take_0.
      * rewrite IH by (rewrite length_app; cbn; lia).
        rewrite length_app. cbn [length].
        replace (3 - length acc)%nat with (S (3 - (length acc + 1)))%nat by lia.
        cbn [take]. by rewrite <- app_assoc.
    + rewrite (bool_decide_eq_false_2 _ Hc). cbn [andb].
      rewrite filter_cons_False by (cbn; tauto). by apply IH.
    + rewrite (bool_decide_eq_false_2 _ Hc). cbn [andb].
      rewrite filter_cons_False by (cbn; tauto). by apply IH.
Qed.

Lemma eligible_iff (products : gmap Z Product.t) (w : gmap string Wishlist.t) u product :
  eligible products w u product <->
  (exists x favorite, x ∈ (snd <$> map_to_list w) /\ Wishlist.UserID x = u /\
     products !! Wishlist.ProductID x = Some favorite /\
     Product.Category favorite = Product.Category product) /\
  ~ (exists x, x ∈ (snd <$> map_to_list w) /\ Wishlist.UserID x = u /\
       Wishlist.ProductID x = Product.ID product).
Proof.
  unfold eligible. rewrite !Exists_exists. split.
  - intros [(x & Hin & Hu & Hc) Hnot]. split.
    + destruct (products !! Wishlist.ProductID x) as [f|] eqn:Hp; [|done].
      injection Hc as Hc. exists x, f. done.
    + intros (y & Hy). apply Hnot. exists y. done.
  - intros [(x & f & Hin & Hu & Hp & Hc) Hnot]. split.
    + exists x. split; [done|]. split; [done|]. by rewrite Hp, <- Hc.
    + intros (y & Hy). apply Hnot. exists y. done.
Qed.

Section Recommendations.
Context (h : Host) (Hh : host_ok h).

Lemma range_wishlists_elem n (w : gmap string Wishlist.t) x :
  x ∈ (snd <$> range_wishlists h n w) <-> x ∈ (snd <$> map_to_list w).
Proof. destruct Hh as (_ & _ & Hw & _). by rewrite (Hw n w). Qed.

(** What [getRecommendations] returns: the first three, in the order of
    the range over the products, of the products that are eligible. *)
Lemma getRecommendations_take (products : gmap Z Product.t)
    (w : gmap string Wishlist.t) u :
  exists l, l ≡ₚ snd <$> map_to_list products /\
    getRecommendations h products w u
    = take 3 (recommended <$> filter (eligible products w u) l).
Proof.
  exists (snd <$> range_products h products). split.
  { destruct Hh as (_ & Hp & _). by rewrite (Hp products). }
  unfold getRecommendations.
  set (fc := getUserWishlistCategories (range_wishlists h 0 w) products u).
  set (fav := userFavorites (range_wishlists h 1 w) u).
  assert (Hfc : forall c, c ∈ fc <->
            exists x favorite, x ∈ (snd <$> map_to_list w) /\ Wishlist.UserID x = u /\
              products !! Wishlist.ProductID x = Some favorite /\
              Product.Category favorite = c).
  { intros c. subst fc. rewrite getUserWishlistCategories_spec.
    split; intros (x & f & Hin & Hrest); exists x, f;
      (split; [by apply (range_wishlists_elem 0)|done]). }
  assert (Hfav : forall q, q ∈ fav <->
            exists x, x ∈ (snd <$> map_to_list w) /\ Wishlist.UserID x = u /\
              Wishlist.ProductID x = q).
  { intros q. subst fav. rewrite userFavorites_spec.
    split; intros (x & Hin & Hrest); exists x;
      (split; [by apply (range_wishlists_elem 1)|done]). }
  assert (Hfilter : forall l : list (Z * Product.t),
            snd <$> filter (fun kv : Z * Product.t =>
                              Product.Category (snd kv) ∈ fc /\ Product.ID (snd kv) ∉ fav) l
            = filter (eligible products w u) (snd <$> l)).
  { induction l as [|[k product] l IH]; [done|]. rewrite fmap_cons. cbn [snd].
    destruct (decide (eligible products w u product)) as [He|He].
    - rewrite (filter_cons_True (eligible products w u)) by done.
      rewrite filter_cons_True.
      + rewrite fmap_cons. cbn [snd]. by rewrite IH.
      + cbn [snd]. apply eligible_iff in He as [H1 H2].
        split; [by apply Hfc|]. by rewrite Hfav.
    - rewrite (filter_cons_False (eligible products w u)) by done.
      rewrite filter_cons_False; [done|].
      cbn [snd]. intros [H1 H2]. apply He. apply eligible_iff.
      split; [by apply Hfc|]. by rewrite <- Hfav. }
  destruct (Nat.eqb_spec (size fc) 0) as [Hempty|Hne].
  - apply size_empty_inv in Hempty.
    rewrite <- Hfilter. rewrite filter_none; [done|].
    apply Forall_forall. intros [k product] _ [Hc _]. cbn [snd] in Hc.
    apply Hempty in Hc. by apply not_elem_of_empty in Hc.
  - rewrite recommend_take by (cbn; lia). cbn [app length]. by rewrite Hfilter.
Qed.

End Recommendations.

(** X12.  [getRecommendations] returns, for every order of the map ranges,
    the first three (in the order of the range over the products) of the
    eligible products: those that are not on the user's wishlist and share
    their category with a product that is.  So it never returns more than
    three products, never a product of the user's wishlist, never a
    product of a category the user has not shown interest in; it returns
    nothing for a user without wishlist entries; and when it returns fewer
    than three, it returns every eligible product. *)
Theorem getRecommendations_eligible h (products : gmap Z Product.t)
    (w : gmap string Wishlist.t) u :
  host_ok h -> wishlists_wf w ->
  let recs := getRecommendations h products w u in
  (length recs <= 3)%nat /\
  (forall r, r ∈ recs ->
     exists k product, products !! k = Some product /\ r = recommended product /\
       eligible products w u product /\
       isProductInWishlist w u (RecommendedProduct.ID r) = false) /\
  ((forall p, isProductInWishlist w u p = false) -> recs = []) /\
  ((length recs < 3)%nat ->
     forall k product, products !! k = Some product -> eligible products w u product ->
       recommended product ∈ recs).
Proof.
  intros Hh Hwf recs. subst recs.
  destruct (getRecommendations_take h Hh products w u) as (l & Hl & ->).
  split; [|split; [|split]].
  - rewrite length_take. lia.
  - intros r Hr. apply elem_of_take in Hr as (i & Hr & _).
    apply list_elem_of_lookup_2 in Hr.
    apply list_elem_of_fmap in Hr as (product & -> & Hr).
    apply list_elem_of_filter in Hr as [He Hr]. rewrite Hl in Hr.
    apply list_elem_of_fmap in Hr as ([k product'] & -> & Hr).
    apply elem_of_map_to_list in Hr. cbn [snd] in *.
    exists k, product'. split; [done|]. split; [done|]. split; [done|].
    destruct (isProductInWishlist w u (RecommendedProduct.ID (recommended product')))
      eqn:Hin; [|done].
    apply (isProductInWishlist_entry w u _ Hwf) in Hin.
    apply eligible_iff in He as [_ He]. by destruct He.
  - intros Hnone.
    rewrite filter_none; [done|].
    apply Forall_forall. intros product _ [(x & f & Hx & Hu & _) _]%eligible_iff.
    specialize (Hnone (Wishlist.ProductID x)).
    assert (isProductInWishlist w u (Wishlist.ProductID x) = true); [|congruence].
    apply (isProductInWishlist_entry w u _ Hwf). eauto.
  - intros Hlen k product Hk He.
    rewrite take_ge.
    + apply list_elem_of_fmap. exists product. split; [done|].
      apply list_elem_of_filter. split; [done|]. rewrite Hl.
      apply list_elem_of_fmap. exists (k, product). split; [done|].
      by apply elem_of_map_to_list.
    + rewrite length_take in Hlen. lia.
Qed.

Lemma getRecommendations_eligible_witness :
  (length (getRecommendations exampleHost (products (initStore EmptyString))
             (<[wishlistKey 7 1 := Wishlist.mk 7 1]> ∅) 7) <= 3)%nat.
Proof.
  destruct (getRecommendations_eligible exampleHost (products (initStore EmptyString))
              (<[wishlistKey 7 1 := Wishlist.mk 7 1]> ∅) 7) as [H _].
  - apply exampleHost_ok.
  - apply map_Forall_insert_2; [reflexivity|apply map_Forall_empty].
  - exact H.
Defined.

(** ** The order list of a user *)

Lemma userOrders_perm h (m : gmap Z Order.t) uid :
  host_ok h ->
  userOrders h m uid
  ≡ₚ snd <$> filter (fun kv : Z * Order.t => Order.UserID (snd kv) = uid) (map_to_list m).
Proof. intros (Ho & _). unfold userOrders. by rewrite (Ho m). Qed.

Lemma userOrders_elem h (m : gmap Z Order.t) uid o :
  host_ok h ->
  o ∈ userOrders h m uid <-> exists k, m !! k = Some o /\ Order.UserID o = uid.
Proof.
  intros Hh. rewrite (userOrders_perm h m uid Hh), list_elem_of_fmap. split.
  - intros ([k o'] & -> & Hin). apply list_elem_of_filter in Hin as [Hu Hin].
    apply elem_of_map_to_list in Hin. by exists k.
  - intros (k & Hk & Hu). exists (k, o). split; [done|].
    apply list_elem_of_filter. split; [done|]. by apply elem_of_map_to_list.
Qed.

(** X13.  [getOrdersHandler] answers 405 to a method other than GET, 401
    without a session, and otherwise 200 with exactly the orders whose user
    is the session user, each order once: no order of another user is ever
    shown, and none of the user's own is left out. *)
Theorem getOrdersHandler_own_orders h sv method authorization :
  host_ok h ->
  match getOrdersHandler h sv method authorization with
  | Json status l =>
      status = 200 /\ method = "GET" /\
      exists user, authUser sv authorization = Some user /\
        l ≡ₚ snd <$> filter (fun kv : Z * Order.t => Order.UserID (snd kv) = User.ID user)
                            (map_to_list (orders (store sv))) /\
        (forall o, o ∈ l <->
           exists k, orders (store sv) !! k = Some o /\ Order.UserID o = User.ID user)
  | Failure status _ =>
      (status = 405 /\ method <> "GET") \/
      (status = 401 /\ method = "GET" /\ authUser sv authorization = None)
  end.
Proof.
  intros Hh. unfold getOrdersHandler.
  destruct (String.eqb_spec method "GET") as [Hm|Hm]; cbn [negb]; [|by left].
  destruct (authUser sv authorization) as [user|]; [|by right].
  split; [done|]. split; [done|]. exists user. split; [done|]. split.
  - by apply userOrders_perm.
  - intros o. by apply userOrders_elem.
Qed.

Lemma getOrdersHandler_own_orders_witness :
  match getOrdersHandler exampleHost (initServer EmptyString) "GET" EmptyString with
  | Json status l => status = 200
  | Failure status _ => status = 401
  end.
Proof.
  pose proof (getOrdersHandler_own_orders exampleHost (initServer EmptyString) "GET"
                EmptyString exampleHost_ok) as H.
  destruct (getOrdersHandler exampleHost (initServer EmptyString) "GET" EmptyString).
  - destruct H as [[_ Hm]|[H _]]; [done|exact H].
  - destruct H as [H _]. exact H.
Defined.

(** X14.  An order that [createOrderHandler] saves (answers 201, 402 and
    409) is listed for the buyer and for nobody else: when the next order
    ID is unused, the order list of the buyer grows by exactly the new
    order, the list of every other user is as before; with any other
    answer every list is as before. *)
Theorem placed_order_is_listed rt h st r uid :
  host_ok h -> Auth r = Some uid ->
  orders st !! nextOrderID st = None ->
  let resp := fst (createOrderHandler rt st r) in
  let st' := snd (createOrderHandler rt st r) in
  (statusCode resp ∈ [201; 402; 409] ->
   exists o, orders st' !! nextOrderID st = Some o /\ Order.UserID o = uid /\
     userOrders h (orders st') uid ≡ₚ o :: userOrders h (orders st) uid /\
     (forall uid', uid' <> uid ->
        userOrders h (orders st') uid' ≡ₚ userOrders h (orders st) uid')) /\
  (statusCode resp ∉ [201; 402; 409] ->
   forall uid', userOrders h (orders st') uid' ≡ₚ userOrders h (orders st) uid').
Proof.
  intros Hh Hauth Hfresh resp st'. subst resp st'.
  destruct (createOrderHandler_run rt st r)
    as [[Hst Hcode]|(uid' & user & req & coupon & subtotal & Hv)].
  { rewrite Hst. split; [|done]. intros Hc. exfalso. listed. }
  rewrite (createOrderHandler_validated _ _ _ _ _ _ _ _ Hv).
  destruct Hv as (_ & Ha & Hu & _ & _ & Hp & _ & _).
  assert (uid' = uid) as -> by congruence.
  destruct (settleOrder_run rt st uid user req coupon subtotal Hu Hp)
    as (Hcode & _ & Ho & _).
  set (o := orderOf rt st uid req _ _) in Ho.
  assert (Hlist : forall u, userOrders h (orders (snd (settleOrder rt st uid user req coupon subtotal))) u
            ≡ₚ (if decide (Order.UserID o = u) then [o] else []) ++ userOrders h (orders st) u).
  { intros u. rewrite !(userOrders_perm h _ u Hh), Ho.
    rewrite (map_to_list_insert _ _ _ Hfresh).
    destruct (decide (Order.UserID o = u)) as [Hou|Hou].
    - by rewrite filter_cons_True by done.
    - by rewrite filter_cons_False by done. }
  split.
  - intros _. exists o. split; [by rewrite Ho, lookup_insert_eq|]. split; [done|]. split.
    + rewrite Hlist. by rewrite decide_True by done.
    + intros u Hne. rewrite Hlist. by rewrite decide_False by done.
  - intros Hc. exfalso. apply Hc. rewrite Hcode.
    clear Hc. destruct (PaymentResult.Success _); [destruct (fst (allocateItems _ _ _))|]; listed.
Qed.

Lemma placed_order_is_listed_witness :
  length (userOrders exampleHost
            (orders (snd (createOrderHandler (runtimeWith true) shop
                            (orderRequest cart noCoupon 100)))) 7) = 1%nat.
Proof.
  destruct (placed_order_is_listed (runtimeWith true) exampleHost shop
              (orderRequest cart noCoupon 100) 7 exampleHost_ok eq_refl eq_refl)
    as [H _].
  destruct H as (o & _ & _ & Hperm & _).
  - replace (statusCode _) with 201 by (vm_compute; reflexivity). listed.
  - rewrite Hperm. reflexivity.
Defined.

(** ** Sessions *)

Lemma cutPrefix_app (prefix t : string) : cutPrefix (prefix +:+ t) prefix = Some t.
Proof.
  induction prefix as [|a prefix IH]; [by destruct t|].
  change (String a prefix +:+ t) with (String a (prefix +:+ t)).
  cbn [cutPrefix]. by rewrite Ascii.eqb_refl.
Qed.

Lemma TrimPrefix_app (prefix t : string) : TrimPrefix (prefix +:+ t) prefix = t.
Proof. unfold TrimPrefix. by rewrite cutPrefix_app. Qed.

(** The header [Bearer <token>] resolves the token. *)
Lemma getAuthUser_bearer sv token :
  getAuthUser sv ("Bearer " +:+ token) = sessions sv !! token.
Proof. unfold getAuthUser. by rewrite TrimPrefix_app. Qed.

(** [token_%d_%d_%d] determines the three numbers. *)
Lemma tokenString_inj n u c n' u' c' :
  tokenString n u c = tokenString n' u' c' -> n = n' /\ u = u' /\ c = c'.
Proof.
  unfold tokenString. intros H.
  apply (inj (String.app "token_")) in H.
  destruct (pretty_Z_numeric n) as [Hn _]. destruct (pretty_Z_numeric n') as [Hn' _].
  destruct (pretty_Z_numeric u) as [Hu _]. destruct (pretty_Z_numeric u') as [Hu' _].
  apply (split_at_separator is_numeric "_"%char _ _ _ _ eq_refl Hn Hn') in H as [H1 H].
  apply (split_at_separator is_numeric "_"%char _ _ _ _ eq_refl Hu Hu') in H as [H2 H].
  apply (inj pretty) in H1, H2, H. done.
Qed.

(** The token that [generateToken] makes next is not a session yet. *)
Lemma next_token_fresh h sv :
  sessions_issued sv -> int_ok (tokenCounter sv + 1) ->
  sessions sv !! fst (generateToken h sv) = None.
Proof.
  intros Hiss Hok. unfold generateToken. cbn [fst].
  rewrite add64_exact by done.
  destruct (sessions sv !! _) as [uid|] eqn:E; [|done].
  destruct (Hiss _ _ E) as (n & u & c & Heq & Hc).
  apply tokenString_inj in Heq as (_ & _ & <-). lia.
Qed.

Lemma next_token_issued h sv uid :
  sessions_issued sv -> int_ok (tokenCounter sv + 1) ->
  sessions_issued (setSessions (snd (generateToken h sv))
                     (<[fst (generateToken h sv) := uid]> (sessions sv))).
Proof.
  intros Hiss Hok. unfold sessions_issued, generateToken. cbn.
  rewrite add64_exact by done.
  apply map_Forall_insert_2.
  - eexists _, _, _. split; [reflexivity|lia].
  - eapply map_Forall_impl; [exact Hiss|]. cbn.
    intros t _ (n & u & c & -> & Hc). exists n, u, c. split; [done|lia].
Qed.

(** What [loginHandler] answers and what it leaves, case by case. *)
Lemma loginHandler_run h sv method body :
  sessions_issued sv -> int_ok (tokenCounter sv + 1) ->
  let reply := fst (loginHandler h sv method body) in
  let sv' := snd (loginHandler h sv method body) in
  store sv' = store sv /\ usersByName sv' = usersByName sv /\
  (forall t uid, sessions sv !! t = Some uid -> sessions sv' !! t = Some uid) /\
  sessions_issued sv' /\
  match reply with
  | Json status user' =>
      status = 200 /\
      exists req uid user token,
        body = Some req /\
        usersByName sv !! Credentials.Username req = Some uid /\
        users (store sv) !! uid = Some user /\
        bcrypt_CompareHashAndPassword h (User.PasswordHash user)
                                      (Credentials.Password req) = true /\
        user' = setToken user token /\
        sessions sv !! token = None /\
        sessions sv' = <[token := uid]> (sessions sv) /\
        getAuthUser sv' ("Bearer " +:+ token) = Some uid
  | Failure status _ => status ∈ [400; 401; 405] /\ sv' = sv
  end.
Proof.
  intros Hiss Hok reply sv'. subst reply sv'. unfold loginHandler.
  destruct (negb (String.eqb method "POST")).
  { cbn [fst snd]. repeat (split; [done|]). split; [listed|done]. }
  destruct body as [req|].
  2:{ cbn [fst snd]. repeat (split; [done|]). split; [listed|done]. }
  destruct (usersByName sv !! Credentials.Username req) as [uid|] eqn:Hname.
  2:{ cbn [fst snd]. repeat (split; [done|]). split; [listed|done]. }
  destruct (users (store sv) !! uid) as [user|] eqn:Huser.
  2:{ cbn [fst snd]. repeat (split; [done|]). split; [listed|done]. }
  destruct (bcrypt_CompareHashAndPassword h _ _) eqn:Hpw; cbn [negb].
  2:{ cbn [fst snd]. repeat (split; [done|]). split; [listed|done]. }
  pose proof (next_token_fresh h sv Hiss Hok) as Hfresh.
  pose proof (next_token_issued h sv uid Hiss Hok) as Hiss'.
  destruct (generateToken h sv) as [token sv1] eqn:Hgen. cbn [fst snd] in *.
  assert (Hsv1 : sv1 = setTokenCounter sv (add64 (tokenCounter sv) 1)).
  { unfold generateToken in Hgen. by injection Hgen as _ <-. }
  assert (Hs1 : sessions sv1 = sessions sv) by (by rewrite Hsv1).
  rewrite Hs1 in *.
  split; [by rewrite Hsv1|]. split; [by rewrite Hsv1|]. split.
  { intros t uid0 Ht. cbn. rewrite lookup_insert_ne; [done|]. intros <-. congruence. }
  split; [done|]. split; [done|].
  exists req, uid, user, token. repeat (split; [done|]).
  rewrite getAuthUser_bearer. cbn. apply lookup_insert_eq.
Qed.

(** A login is answered with a user only when the method is POST. *)
Lemma loginHandler_method h sv method body status user' :
  fst (loginHandler h sv method body) = Json status user' -> method = "POST".
Proof.
  unfold loginHandler. destruct (String.eqb_spec method "POST") as [Hm|Hm]; [done|].
  cbn [negb fst]. discriminate.
Qed.

(** X15.  [loginHandler] answers 200 only to a POST that names a known user
    with a password that bcrypt accepts against the stored hash; the token
    it returns is new, and a request that carries it is resolved to that
    user.  Every other request gets 400, 401 or 405 and changes nothing.
    A login never changes an account and never removes or redirects an
    existing session. *)
Theorem loginHandler_session h sv method body :
  sessions_issued sv -> int_ok (tokenCounter sv + 1) ->
  let reply := fst (loginHandler h sv method body) in
  let sv' := snd (loginHandler h sv method body) in
  store sv' = store sv /\ usersByName sv' = usersByName sv /\
  (forall t uid, sessions sv !! t = Some uid -> sessions sv' !! t = Some uid) /\
  sessions_issued sv' /\
  match reply with
  | Json status user' =>
      status = 200 /\ method = "POST" /\
      exists req uid user token,
        body = Some req /\
        usersByName sv !! Credentials.Username req = Some uid /\
        users (store sv) !! uid = Some user /\
        bcrypt_CompareHashAndPassword h (User.PasswordHash user)
                                      (Credentials.Password req) = true /\
        user' = setToken user token /\
        sessions sv !! token = None /\
        sessions sv' = <[token := uid]> (sessions sv) /\
        getAuthUser sv' ("Bearer " +:+ token) = Some uid
  | Failure status _ => status ∈ [400; 401; 405] /\ sv' = sv
  end.
Proof.
  intros Hiss Hok reply sv'.
  destruct (loginHandler_run h sv method body Hiss Hok) as (H1 & H2 & H3 & H4 & H5).
  fold reply in H5. fold sv' in H1, H2, H3, H4, H5.
  repeat (split; [done|]).
  pose proof (loginHandler_method h sv method body) as Hm. fold reply in Hm.
  destruct reply as [status msg|status user']; [done|].
  destruct H5 as [Hst Hrest]. split; [done|]. split; [by eapply Hm|done].
Qed.

Lemma loginHandler_session_witness :
  store (snd (loginHandler exampleHost (initServer "hash:admin123") "POST"
                (Some (Credentials.mk "admin" "admin123"))))
  = store (initServer "hash:admin123").
Proof.
  destruct (loginHandler_session exampleHost (initServer "hash:admin123") "POST"
              (Some (Credentials.mk "admin" "admin123"))) as (H & _).
  - intros t uid Ht. cbn in Ht. by rewrite lookup_empty in Ht.
  - unfold int_ok. cbn. lia.
  - exact H.
Defined.

(** What [registerHandler] answers and what it leaves, case by case. *)
Lemma registerHandler_run h sv method body :
  sessions_issued sv -> int_ok (tokenCounter sv + 1) ->
  users (store sv) !! nextUserID sv = None ->
  let reply := fst (registerHandler h sv method body) in
  let sv' := snd (registerHandler h sv method body) in
  (forall uid u, users (store sv) !! uid = Some u -> users (store sv') !! uid = Some u) /\
  (forall t uid, sessions sv !! t = Some uid -> sessions sv' !! t = Some uid) /\
  sessions_issued sv' /\
  products (store sv') = products (store sv) /\ stocks (store sv') = stocks (store sv) /\
  orders (store sv') = orders (store sv) /\ wishlists sv' = wishlists sv /\
  match reply with
  | Json status user' =>
      status = 201 /\
      exists req hash token,
        body = Some req /\
        Credentials.Username req <> EmptyString /\
        Credentials.Password req <> EmptyString /\
        usersByName sv !! Credentials.Username req = None /\
        bcrypt_GenerateFromPassword h (Credentials.Password req) = Some hash /\
        user' = User.mk (nextUserID sv) (Credentials.Username req) hash false token
                        0 0 "Normal" /\
        users (store sv') = <[nextUserID sv := user']> (users (store sv)) /\
        usersByName sv' = <[Credentials.Username req := nextUserID sv]> (usersByName sv) /\
        sessions sv !! token = None /\
        sessions sv' = <[token := nextUserID sv]> (sessions sv) /\
        authUser sv' ("Bearer " +:+ token) = Some user'
  | Failure status _ => status ∈ [400; 405; 409; 500] /\ sv' = sv
  end.
Proof.
  intros Hiss Hok Hid reply sv'. subst reply sv'. unfold registerHandler.
  destruct (negb (String.eqb method "POST")).
  { cbn [fst snd]. repeat (split; [done|]). split; [listed|done]. }
  destruct body as [req|].
  2:{ cbn [fst snd]. repeat (split; [done|]). split; [listed|done]. }
  destruct (String.eqb_spec (Credentials.Username req) EmptyString) as [Hn|Hn]; cbn [orb].
  { cbn [fst snd]. repeat (split; [done|]). split; [listed|done]. }
  destruct (String.eqb_spec (Credentials.Password req) EmptyString) as [Hp|Hp].
  { cbn [fst snd]. repeat (split; [done|]). split; [listed|done]. }
  destruct (usersByName sv !! Credentials.Username req) as [uid|] eqn:Hname.
  { cbn [fst snd]. repeat (split; [done|]). split; [listed|done]. }
  destruct (bcrypt_GenerateFromPassword h (Credentials.Password req)) as [hash|] eqn:Hhash.
  2:{ cbn [fst snd]. repeat (split; [done|]). split; [listed|done]. }
  set (user := User.mk (nextUserID sv) (Credentials.Username req) hash false
                       EmptyString 0 0 "Normal").
  set (sv1 := mkServer _ _ _ _ _ _ _).
  assert (Hiss1 : sessions_issued sv1) by exact Hiss.
  assert (Hok1 : int_ok (tokenCounter sv1 + 1)) by exact Hok.
  pose proof (next_token_fresh h sv1 Hiss1 Hok1) as Hfresh.
  pose proof (next_token_issued h sv1 (User.ID user) Hiss1 Hok1) as Hiss'.
  destruct (generateToken h sv1) as [token sv2] eqn:Hgen. cbn [fst snd] in *.
  assert (Hsv2 : sv2 = setTokenCounter sv1 (add64 (tokenCounter sv1) 1)).
  { unfold generateToken in Hgen. by injection Hgen as _ <-. }
  subst sv2. cbn in Hfresh, Hiss' |- *.
  split.
  { intros uid0 u Hu. rewrite insert_insert_eq, lookup_insert_ne; [done|].
    intros <-. congruence. }
  split.
  { intros t uid0 Ht. rewrite lookup_insert_ne; [done|]. intros <-. congruence. }
  split; [exact Hiss'|]. repeat (split; [done|]).
  exists req, hash, token. repeat (split; [done|]).
  split; [by rewrite insert_insert_eq|]. repeat (split; [done|]).
  unfold authUser. rewrite getAuthUser_bearer. cbn.
  rewrite lookup_insert_eq. apply lookup_insert_eq.
Qed.

(** A registration is answered with a user only when the method is POST. *)
Lemma registerHandler_method h sv method body status user' :
  fst (registerHandler h sv method body) = Json status user' -> method = "POST".
Proof.
  unfold registerHandler. destruct (String.eqb_spec method "POST") as [Hm|Hm]; [done|].
  cbn [negb fst]. discriminate.
Qed.

(** X16.  [registerHandler] answers 201 only to a POST with a user name that
    is not taken, a password that is not empty and a hash from bcrypt; it
    then stores, under the next user ID, a user who is no administrator,
    has no points, has spent nothing and has the rank Normal, and the token
    it returns is new and resolves to that user.  Every other request gets
    400, 405, 409 or 500 and changes nothing.  Registering never changes
    another user, the catalogue, the stock or the orders, and never
    removes or redirects an existing session. *)
Theorem registerHandler_account h sv method body :
  sessions_issued sv -> int_ok (tokenCounter sv + 1) ->
  users (store sv) !! nextUserID sv = None ->
  let reply := fst (registerHandler h sv method body) in
  let sv' := snd (registerHandler h sv method body) in
  (forall uid u, users (store sv) !! uid = Some u -> users (store sv') !! uid = Some u) /\
  (forall t uid, sessions sv !! t = Some uid -> sessions sv' !! t = Some uid) /\
  sessions_issued sv' /\
  products (store sv') = products (store sv) /\ stocks (store sv') = stocks (store sv) /\
  orders (store sv') = orders (store sv) /\ wishlists sv' = wishlists sv /\
  match reply with
  | Json status user' =>
      status = 201 /\ method = "POST" /\
      exists req hash token,
        body = Some req /\
        Credentials.Username req <> EmptyString /\
        Credentials.Password req <> EmptyString /\
        usersByName sv !! Credentials.Username req = None /\
        bcrypt_GenerateFromPassword h (Credentials.Password req) = Some hash /\
        user' = User.mk (nextUserID sv) (Credentials.Username req) hash false token
                        0 0 "Normal" /\
        users (store sv') = <[nextUserID sv := user']> (users (store sv)) /\
        usersByName sv' = <[Credentials.Username req := nextUserID sv]> (usersByName sv) /\
        sessions sv !! token = None /\
        sessions sv' = <[token := nextUserID sv]> (sessions sv) /\
        authUser sv' ("Bearer " +:+ token) = Some user'
  | Failure status _ => status ∈ [400; 405; 409; 500] /\ sv' = sv
  end.
Proof.
  intros Hiss Hok Hid reply sv'.
  destruct (registerHandler_run h sv method body Hiss Hok Hid)
    as (H1 & H2 & H3 & H4 & H5 & H6 & H7 & H8).
  fold reply in H8. fold sv' in H1, H2, H3, H4, H5, H6, H7, H8.
  repeat (split; [done|]).
  pose proof (registerHandler_method h sv method body) as Hm. fold reply in Hm.
  destruct reply as [status msg|status user']; [done|].
  destruct H8 as [Hst Hrest]. split; [done|]. split; [by eapply Hm|done].
Qed.

Lemma registerHandler_account_witness :
  products (store (snd (registerHandler exampleHost (initServer EmptyString) "POST"
                          (Some (Credentials.mk "alice" "secret")))))
  = products (initStore EmptyString).
Proof.
  destruct (registerHandler_account exampleHost (initServer EmptyString) "POST"
              (Some (Credentials.mk "alice" "secret"))) as (_ & _ & _ & H & _).
  - intros t uid Ht. cbn in Ht. by rewrite lookup_empty in Ht.
  - unfold int_ok. cbn. lia.
  - reflexivity.
  - exact H.
Defined.

(** X17.  Registration and login fit together: after a registration that
    was answered 201, a login with the same credentials (bcrypt accepting
    the password against the hash it made) is answered 200 with a token
    that resolves to the new user, and a second registration of the same
    user name is answered 409 and changes nothing. *)
Theorem register_then_login h h' sv req user' sv' :
  sessions_issued sv -> int_ok (tokenCounter sv + 2) -> 0 <= tokenCounter sv ->
  users (store sv) !! nextUserID sv = None ->
  registerHandler h sv "POST" (Some req) = (Json 201 user', sv') ->
  bcrypt_CompareHashAndPassword h' (User.PasswordHash user') (Credentials.Password req)
  = true ->
  (exists token,
     fst (loginHandler h' sv' "POST" (Some req)) = Json 200 (setToken user' token) /\
     getAuthUser (snd (loginHandler h' sv' "POST" (Some req))) ("Bearer " +:+ token)
     = Some (User.ID user')) /\
  registerHandler h' sv' "POST" (Some req) = (Failure 409 "Username already exists", sv').
Proof.
  intros Hiss Hok H0 Hid Hreg Hpw.
  assert (Hok1 : int_ok (tokenCounter sv + 1)) by (unfold int_ok in *; lia).
  pose proof (registerHandler_run h sv "POST" (Some req) Hiss Hok1 Hid) as Hacc.
  rewrite Hreg in Hacc. cbn [fst snd] in Hacc.
  destruct Hacc as (_ & _ & Hiss' & _ & _ & _ & _ & _ &
                    req' & hash & token & [= <-] & Hn & Hp & Hfree & Hhash & Huser' &
                    Hus & Hbn & _ & _ & _).
  assert (Hcount : tokenCounter sv' = tokenCounter sv + 1).
  { unfold registerHandler in Hreg. cbn [negb String.eqb] in Hreg.
    destruct (String.eqb_spec (Credentials.Username req) EmptyString); [done|].
    destruct (String.eqb_spec (Credentials.Password req) EmptyString); [done|].
    cbn [orb] in Hreg. rewrite Hfree, Hhash in Hreg.
    injection Hreg as _ <-. cbn. by rewrite add64_exact. }
  assert (Hok' : int_ok (tokenCounter sv' + 1)).
  { rewrite Hcount. unfold int_ok in *. lia. }
  assert (Hname : usersByName sv' !! Credentials.Username req = Some (nextUserID sv)).
  { rewrite Hbn. apply lookup_insert_eq. }
  assert (Huser : users (store sv') !! nextUserID sv = Some user').
  { rewrite Hus. apply lookup_insert_eq. }
  split.
  - pose proof (loginHandler_run h' sv' "POST" (Some req) Hiss' Hok') as Hlog.
    cbv zeta in Hlog. destruct Hlog as (_ & _ & _ & _ & Hlog).
    unfold loginHandler in Hlog |- *. cbn [negb String.eqb] in Hlog |- *.
    rewrite Hname, Huser, Hpw in Hlog |- *. cbn [negb] in Hlog |- *.
    destruct (generateToken h' sv') as [token' sv1]. cbn [fst snd] in Hlog |- *.
    destruct Hlog as (_ & req2 & uid2 & user2 & token2 & [= <-] & Hn2 & Hu2 & _ & Hset &
                      _ & _ & Hauth).
    exists token'. split; [done|].
    assert (token2 = token') as ->.
    { unfold setToken in Hset. by injection Hset. }
    rewrite Hauth. rewrite Hname in Hn2. injection Hn2 as <-. by rewrite Huser'.
  - unfold registerHandler. cbn [negb String.eqb].
    destruct (String.eqb_spec (Credentials.Username req) EmptyString); [done|].
    destruct (String.eqb_spec (Credentials.Password req) EmptyString); [done|].
    cbn [orb]. by rewrite Hname.
Qed.

Lemma register_then_login_witness :
  registerHandler exampleHost
    (snd (registerHandler exampleHost (initServer EmptyString) "POST"
            (Some (Credentials.mk "alice" "secret"))))
    "POST" (Some (Credentials.mk "alice" "secret"))
  = (Failure 409 "Username already exists",
     snd (registerHandler exampleHost (initServer EmptyString) "POST"
            (Some (Credentials.mk "alice" "secret")))).
Proof.
  destruct (register_then_login exampleHost exampleHost (initServer EmptyString)
              (Credentials.mk "alice" "secret")
              (User.mk 2 "alice" "hash:secret" false (tokenString 1700000000 3 1)
                       0 0 "Normal")
              (snd (registerHandler exampleHost (initServer EmptyString) "POST"
                      (Some (Credentials.mk "alice" "secret")))))
    as [_ H].
  - intros t uid Ht. cbn in Ht. by rewrite lookup_empty in Ht.
  - unfold int_ok. cbn. lia.
  - cbn. lia.
  - reflexivity.
  - vm_compute. reflexivity.
  - vm_compute. reflexivity.
  - exact H.
Defined.

(** ** The catalogue *)

(** The store after [createProductHandler] has put a product and its
    initial stock. *)
Lemma createProductHandler_run rt sv method authorization body :
  (exists status message,
     createProductHandler rt sv method authorization body = (Failure status message, sv) /\
     status ∈ [400; 401; 403; 405]) \/
  (exists user req,
     method = "POST" /\ authUser sv authorization = Some user /\ User.IsAdmin user = true /\
     body = Some req /\
     ProductRequest.Name req <> EmptyString /\ 0 < ProductRequest.Price req /\
     0 <= ProductRequest.InitialStock req /\ ProductRequest.Category req <> EmptyString /\
     let new := nextProductID sv in
     let product := Product.mk new (ProductRequest.Name req) (ProductRequest.Price req)
                      (ProductRequest.Category req) in
     let s2 := if 0 <? ProductRequest.InitialStock req
               then <[stockKey new 1 := Stock.mk new 1 (ProductRequest.InitialStock req)]>
                      (stocks (store sv))
               else stocks (store sv) in
     let st2 := setStocks (setProducts (store sv) (<[new := product]> (products (store sv))))
                          s2 in
     createProductHandler rt sv method authorization body
     = (Json 201 (ProductDetailResponse.mk new (ProductRequest.Name req)
                    (ProductRequest.Price req) (ProductRequest.Category req)
                    (fst (getProductStock rt st2 new)) (snd (getProductStock rt st2 new))),
        mkServer st2 (usersByName sv) (sessions sv) (wishlists sv)
                 (add64 new 1) (nextUserID sv) (tokenCounter sv))).
Proof.
  unfold createProductHandler.
  destruct (String.eqb_spec method "POST") as [Hm|Hm]; cbn [negb].
  2:{ left. eexists _, _. split; [reflexivity|listed]. }
  destruct (authUser sv authorization) as [user|] eqn:Hauth.
  2:{ left. eexists _, _. split; [reflexivity|listed]. }
  destruct (User.IsAdmin user) eqn:Hadmin; cbn [negb].
  2:{ left. eexists _, _. split; [reflexivity|listed]. }
  destruct body as [req|].
  2:{ left. eexists _, _. split; [reflexivity|listed]. }
  destruct (String.eqb_spec (ProductRequest.Name req) EmptyString) as [Hn|Hn]; cbn [orb].
  { left. eexists _, _. split; [reflexivity|listed]. }
  destruct (Z.leb_spec (ProductRequest.Price req) 0) as [Hp|Hp]; cbn [orb].
  { left. eexists _, _. split; [reflexivity|listed]. }
  destruct (Z.ltb_spec (ProductRequest.InitialStock req) 0) as [Hi|Hi]; cbn [orb].
  { left. eexists _, _. split; [reflexivity|listed]. }
  destruct (String.eqb_spec (ProductRequest.Category req) EmptyString) as [Hc|Hc].
  { left. eexists _, _. split; [reflexivity|listed]. }
  right. exists user, req. repeat (split; [done|]). cbv zeta.
  cbn [Product.ID Product.Name Product.Price Product.Category].
  destruct (0 <? ProductRequest.InitialStock req);
    by destruct (getProductStock rt _ _).
Qed.

(** X18.  Only an administrator changes the catalogue.  [createProductHandler]
    answers 201 only to a POST of a session whose user is an administrator,
    with a name and a category that are not empty, a price > 0 and an
    initial stock >= 0; it then puts the product under the next product ID
    and raises the counter.  Every other request gets 400, 401, 403 or 405
    and changes nothing.  Users, orders, sessions and wishlists are never
    changed, and no existing product is changed unless it sits under the
    next product ID. *)
Theorem createProductHandler_admin_only rt sv method authorization body :
  let reply := fst (createProductHandler rt sv method authorization body) in
  let sv' := snd (createProductHandler rt sv method authorization body) in
  users (store sv') = users (store sv) /\ orders (store sv') = orders (store sv) /\
  sessions sv' = sessions sv /\ wishlists sv' = wishlists sv /\
  (forall k, k <> nextProductID sv ->
     products (store sv') !! k = products (store sv) !! k) /\
  match reply with
  | Json status resp =>
      status = 201 /\ method = "POST" /\
      ProductDetailResponse.ID resp = nextProductID sv /\
      nextProductID sv' = add64 (nextProductID sv) 1 /\
      exists user req,
        authUser sv authorization = Some user /\ User.IsAdmin user = true /\
        body = Some req /\
        ProductRequest.Name req <> EmptyString /\ 0 < ProductRequest.Price req /\
        0 <= ProductRequest.InitialStock req /\
        ProductRequest.Category req <> EmptyString /\
        products (store sv') !! nextProductID sv
        = Some (Product.mk (nextProductID sv) (ProductRequest.Name req)
                           (ProductRequest.Price req) (ProductRequest.Category req))
  | Failure status _ => status ∈ [400; 401; 403; 405] /\ sv' = sv
  end.
Proof.
  intros reply sv'. subst reply sv'.
  destruct (createProductHandler_run rt sv method authorization body)
    as [(status & message & -> & Hst)|(user & req & Hm & Ha & Hadm & Hb & Hn & Hp & Hi & Hc & H)].
  { cbn [fst snd]. repeat (split; [done|]). done. }
  cbv zeta in H. rewrite H. cbn [fst snd store sessions wishlists nextProductID].
  split; [done|]. split; [done|]. split; [done|]. split; [done|]. split.
  { intros k Hk. cbn. by rewrite lookup_insert_ne. }
  split; [done|]. split; [done|]. split; [done|]. split; [done|].
  exists user, req. repeat (split; [done|]). cbn. apply lookup_insert_eq.
Qed.

Lemma stockLines_none (s : gmap string Stock.t) p :
  (forall k x, s !! k = Some x -> Stock.ProductID x <> p) -> stockLines s p = [].
Proof.
  intros Hno. unfold stockLines. rewrite filter_none; [done|].
  apply Forall_forall. intros [k x] Hin [Hp _]. apply elem_of_map_to_list in Hin.
  by apply (Hno k x).
Qed.

Lemma lineQuantity_nonneg p x : 0 <= lineQuantity p x.
Proof. unfold lineQuantity. case_decide; lia. Qed.

(** The quantities of the breakdown of [getProductStock] are those of the
    stock lines of the product. *)
Lemma getProductStock_quantities rt st p :
  runtime_ok rt -> warehouses_known st ->
  StockWarehouse.Quantity <$> snd (getProductStock rt st p)
  ≡ₚ Stock.Quantity <$> stockLines (stocks st) p.
Proof.
  intros Hrt Hwh. unfold getProductStock. rewrite getProductStock_lines.
  - cbn [snd fmap list_fmap app].
    apply fmap_Permutation. apply (availableStocks_perm rt Hrt).
  - intros [k x] Hin. destruct Hrt as [Hr _]. rewrite (Hr (stocks st)) in Hin.
    apply elem_of_map_to_list in Hin. by apply (Hwh k x).
Qed.

(** X19.  A product that an administrator creates is in stock as asked.
    When no stock line names the next product ID yet and warehouse 1
    exists, a [createProductHandler] answered 201 reports the initial stock
    as the total stock, with a breakdown of one entry of that quantity
    (none for an initial stock of 0); afterwards the stock lines of the new
    product hold exactly the initial stock, the stock of every other
    product is as before, and the invariants of the stocks and of the
    products still hold. *)
Theorem createProductHandler_stock rt sv method authorization body status resp sv' :
  runtime_ok rt ->
  stocks_wf (stocks (store sv)) -> stocks_nonneg (stocks (store sv)) ->
  products_wf (products (store sv)) -> warehouses_known (store sv) ->
  is_Some (warehouses (store sv) !! 1) ->
  (forall k x, stocks (store sv) !! k = Some x -> Stock.ProductID x <> nextProductID sv) ->
  (forall req, body = Some req -> int_ok (ProductRequest.InitialStock req)) ->
  createProductHandler rt sv method authorization body = (Json status resp, sv') ->
  exists req, body = Some req /\
    ProductDetailResponse.TotalStock resp = ProductRequest.InitialStock req /\
    StockWarehouse.Quantity <$> ProductDetailResponse.StockDetail resp
    = (if 0 <? ProductRequest.InitialStock req then [ProductRequest.InitialStock req] else []) /\
    totalAvailable (stocks (store sv')) (nextProductID sv) = ProductRequest.InitialStock req /\
    (forall p, p <> nextProductID sv ->
       totalAvailable (stocks (store sv')) p = totalAvailable (stocks (store sv)) p) /\
    stocks_wf (stocks (store sv')) /\ stocks_nonneg (stocks (store sv')) /\
    products_wf (products (store sv')) /\ warehouses_known (store sv').
Proof.
  intros Hrt Hwf Hnn Hpw Hwh Hw1 Hnew Hint Hrun.
  destruct (createProductHandler_run rt sv method authorization body)
    as [(status' & message & Hfail & _)|(user & req & _ & _ & _ & Hb & _ & _ & Hi & _ & H)].
  { rewrite Hfail in Hrun. discriminate. }
  cbv zeta in H. rewrite H in Hrun. clear H.
  set (new := nextProductID sv) in *.
  set (init := ProductRequest.InitialStock req) in *.
  set (line := Stock.mk new 1 init) in *.
  set (s2 := if 0 <? init then <[stockKey new 1 := line]> (stocks (store sv))
             else stocks (store sv)) in *.
  set (st2 := setStocks _ s2) in *.
  specialize (Hint req Hb). fold init in Hint.
  assert (Hkey : stocks (store sv) !! stockKey new 1 = None).
  { destruct (stocks (store sv) !! stockKey new 1) as [x|] eqn:E; [|done].
    destruct (Hwf _ _ E) as [Hk _]. apply format_pair_inj in Hk as [Hk _].
    exfalso. by apply (Hnew _ _ E). }
  assert (Hold : totalAvailable (stocks (store sv)) new = 0).
  { unfold totalAvailable. by rewrite (stockLines_none _ _ Hnew). }
  assert (Htot : totalAvailable s2 new = init /\
                 forall p, p <> new -> totalAvailable s2 p = totalAvailable (stocks (store sv)) p).
  { subst s2. destruct (Z.ltb_spec 0 init) as [Hpos|Hzero].
    - split.
      + rewrite (totalAvailable_new _ _ _ _ Hkey), Hold. unfold lineQuantity. cbn.
        rewrite decide_True by (split; [done|lia]). lia.
      + intros p Hp. rewrite (totalAvailable_new _ _ _ _ Hkey). unfold lineQuantity. cbn.
        rewrite decide_False by (intros [? _]; congruence). lia.
    - split; [lia|done]. }
  assert (Hwf2 : stocks_wf s2).
  { subst s2. destruct (0 <? init); [|done]. by apply map_Forall_insert_2. }
  assert (Hnn2 : stocks_nonneg s2).
  { subst s2. destruct (Z.ltb_spec 0 init); [|done].
    apply map_Forall_insert_2; [cbn; lia|done]. }
  assert (Hwh2 : warehouses_known st2).
  { unfold warehouses_known. subst st2 s2. cbn [stocks setStocks warehouses setProducts].
    destruct (0 <? init); [|done]. by apply map_Forall_insert_2. }
  assert (Hlines : stockLines s2 new = if 0 <? init then [line] else []).
  { subst s2. destruct (Z.ltb_spec 0 init) as [Hpos|Hzero].
    - assert (Hp : stockLines (<[stockKey new 1 := line]> (stocks (store sv))) new
                   ≡ₚ [line]).
      { unfold stockLines. rewrite (map_to_list_insert _ _ _ Hkey).
        rewrite filter_cons_True by (cbn; lia). rewrite fmap_cons. cbn [snd].
        fold (stockLines (stocks (store sv)) new). by rewrite (stockLines_none _ _ Hnew). }
      by apply Permutation_singleton_r in Hp.
    - by apply stockLines_none. }
  injection Hrun as <- <- <-. exists req. split; [done|].
  cbn [ProductDetailResponse.TotalStock ProductDetailResponse.StockDetail store stocks
       setStocks products setProducts].
  destruct Htot as [Htot Hothers].
  split.
  { rewrite (getProductStock_total rt Hrt st2 new).
    - exact Htot.
    - intros k x Hk. by apply (Hwh2 k x).
    - change (stocks st2) with s2. rewrite Htot. unfold int_ok in Hint. lia. }
  split.
  { pose proof (getProductStock_quantities rt st2 new Hrt Hwh2) as Hq.
    change (stocks st2) with s2 in Hq. rewrite Hlines in Hq.
    fold init. destruct (0 <? init).
    - change (Stock.Quantity <$> [line]) with [init] in Hq.
      by apply Permutation_singleton_r in Hq.
    - change (Stock.Quantity <$> []) with (@nil Z) in Hq.
      by apply Permutation_nil_r in Hq. }
  split; [exact Htot|]. split; [exact Hothers|].
  split; [exact Hwf2|]. split; [exact Hnn2|]. split; [|exact Hwh2].
  by apply map_Forall_insert_2.
Qed.

Lemma createProductHandler_stock_witness :
  exists req,
    Some (ProductRequest.mk "ランプ" 4000 "家具" 7) = Some req /\
    ProductDetailResponse.TotalStock
      (ProductDetailResponse.mk 5 "ランプ" 4000 "家具" 7 [StockWarehouse.mk "東京倉庫" 7])
    = ProductRequest.InitialStock req.
Proof.
  destruct (createProductHandler_stock (runtimeWith true) adminServer "POST"
              adminAuthorization (Some (ProductRequest.mk "ランプ" 4000 "家具" 7)) 201
              (ProductDetailResponse.mk 5 "ランプ" 4000 "家具" 7 [StockWarehouse.mk "東京倉庫" 7])
              (snd (createProductHandler (runtimeWith true) adminServer "POST"
                      adminAuthorization (Some (ProductRequest.mk "ランプ" 4000 "家具" 7)))))
    as (req & Hreq & Htotal & _).
  - apply runtimeWith_ok.
  - apply (bool_decide_unpack _). vm_compute. exact I.
  - apply (bool_decide_unpack _). vm_compute. exact I.
  - apply (bool_decide_unpack _). vm_compute. exact I.
  - apply (bool_decide_unpack _). vm_compute. exact I.
  - eexists. vm_compute. reflexivity.
  - assert (H : map_Forall (fun _ x => Stock.ProductID x <> 5) (stocks (store adminServer))).
    { apply (bool_decide_unpack _). vm_compute. exact I. }
    intros k x Hk. exact (H k x Hk).
  - intros req [= <-]. unfold int_ok. cbn. lia.
  - vm_compute. reflexivity.
  - exists req. split; [exact Hreq|exact Htotal].
Defined.

(** ** The sort of [generateSalesReport] *)

Section ExchangeSort.
Context {A : Type} (before : A -> A -> bool).
Context (before_asym : forall x y, before x y = true -> before y x = false).
Context (before_trans : forall x y z, before x y = true -> before y z = true ->
                                      before x z = true).

(** The pass leaves in front an entry that no entry behind it comes
    before, and keeps the entries. *)
Lemma sweep_spec (rest : list A) :
  forall x,
    fst (sweep before x rest) :: snd (sweep before x rest) ≡ₚ x :: rest /\
    Forall (fun y => before y (fst (sweep before x rest)) = false)
           (snd (sweep before x rest)) /\
    (fst (sweep before x rest) = x \/ before (fst (sweep before x rest)) x = true) /\
    length (snd (sweep before x rest)) = length rest.
Proof.
  induction rest as [|y rest IH]; intros x.
  - cbn. split; [done|]. split; [constructor|]. split; [by left|done].
  - cbn [sweep]. destruct (before y x) eqn:Hyx.
    + destruct (IH y) as (Hp & Hall & Hm & Hlen).
      destruct (sweep before y rest) as [m r]. cbn [fst snd] in *.
      assert (Hmx : before m x = true).
      { destruct Hm as [->|Hm]; [done|]. by apply (before_trans m y x). }
      split; [|split; [|split]].
      * etrans; [apply Permutation_swap|]. by apply Permutation_skip.
      * constructor; [by apply before_asym|done].
      * by right.
      * cbn. by rewrite Hlen.
    + destruct (IH x) as (Hp & Hall & Hm & Hlen).
      destruct (sweep before x rest) as [m r]. cbn [fst snd] in *.
      split; [|split; [|split]].
      * etrans; [apply Permutation_swap|].
        etrans; [apply Permutation_skip, Hp|]. apply Permutation_swap.
      * constructor; [|done]. destruct Hm as [->|Hm]; [done|].
        destruct (before y m) eqn:Hym; [|done].
        by rewrite (before_trans y m x Hym Hm) in Hyx.
      * done.
      * cbn. by rewrite Hlen.
Qed.

Lemma swap_entries (pre done todo : list A) (x y : A) :
  <[length pre := y]>
    (<[(S (length pre) + length done)%nat := x]> (pre ++ x :: done ++ y :: todo))
  = pre ++ y :: done ++ x :: todo.
Proof.
  rewrite (insert_app_r_alt pre _ (S (length pre) + length done)) by lia.
  replace (S (length pre) + length done - length pre)%nat with (S (length done)) by lia.
  change (<[S (length done) := x]> (x :: done ++ y :: todo))
    with (x :: <[length done := x]> (done ++ y :: todo)).
  rewrite (insert_app_r_alt done _ (length done)) by lia. rewrite Nat.sub_diag.
  change (<[0%nat := x]> (y :: todo)) with (x :: todo).
  rewrite (insert_app_r_alt pre _ (length pre)) by lia. rewrite Nat.sub_diag. done.
Qed.

(** The inner loop on the list is the pass. *)
Lemma inner_loop_sweep (todo : list A) :
  forall (pre done : list A) (x : A),
    foldl (exchangeStep before (length pre)) (pre ++ x :: done ++ todo)
          (seq (S (length pre) + length done) (length todo))
    = pre ++ fst (sweep before x todo) :: done ++ snd (sweep before x todo).
Proof.
  induction todo as [|y todo IH]; intros pre done x.
  - done.
  - cbn [length seq foldl].
    assert (Hi : (pre ++ x :: done ++ y :: todo) !! length pre = Some x).
    { by apply list_lookup_middle. }
    assert (Hj : (pre ++ x :: done ++ y :: todo) !! (S (length pre) + length done)%nat
                 = Some y).
    { rewrite lookup_app_r by lia.
      replace (S (length pre) + length done - length pre)%nat with (S (length done)) by lia.
      change ((x :: done ++ y :: todo) !! S (length done))
        with ((done ++ y :: todo) !! length done).
      by apply list_lookup_middle. }
    unfold exchangeStep at 2. rewrite Hi, Hj. cbn [sweep].
    destruct (before y x) eqn:Hyx.
    + rewrite swap_entries.
      replace (pre ++ y :: done ++ x :: todo) with (pre ++ y :: (done ++ [x]) ++ todo)
        by (by rewrite <- app_assoc).
      replace (S (S (length pre) + length done)) with (S (length pre) + length (done ++ [x]))%nat
        by (rewrite length_app; cbn; lia).
      rewrite IH. destruct (sweep before y todo) as [m r]. cbn [fst snd].
      by rewrite <- app_assoc.
    + replace (pre ++ x :: done ++ y :: todo) with (pre ++ x :: (done ++ [y]) ++ todo)
        by (by rewrite <- app_assoc).
      replace (S (S (length pre) + length done)) with (S (length pre) + length (done ++ [y]))%nat
        by (rewrite length_app; cbn; lia).
      rewrite IH. destruct (sweep before x todo) as [m r]. cbn [fst snd].
      by rewrite <- app_assoc.
Qed.

Lemma ordered_cons (m : A) (s : list A) :
  Forall (fun y => before y m = false) s -> ordered before s -> ordered before (m :: s).
Proof.
  intros Hall Hs a b x y Hab Ha Hb.
  destruct b as [|b]; [lia|]. cbn in Hb.
  destruct a as [|a].
  - injection Ha as <-. rewrite Forall_forall in Hall. apply Hall.
    by eapply list_elem_of_lookup_2.
  - cbn in Ha. apply (Hs a b); [lia|done..].
Qed.

(** The outer loop from position [length pre] on. *)
Lemma outer_loop_sorts (n : nat) :
  forall (pre rest : list A),
    length rest = n ->
    exists s,
      foldl (fun l i => foldl (exchangeStep before i) l (seq (S i) (length l - S i)))
            (pre ++ rest) (seq (length pre) n)
      = pre ++ s /\ s ≡ₚ rest /\ ordered before s.
Proof.
  induction n as [|n IH]; intros pre rest Hlen.
  - destruct rest; [|done]. exists []. split; [done|]. split; [done|].
    intros a b x y _ Ha. by rewrite lookup_nil in Ha.
  - destruct rest as [|x rest]; [done|]. cbn in Hlen. injection Hlen as Hlen.
    cbn [seq foldl].
    replace (length (pre ++ x :: rest) - S (length pre))%nat with (length rest)
      by (rewrite length_app; cbn; lia).
    pose proof (inner_loop_sweep rest pre [] x) as Hinner.
    cbn [app length] in Hinner. rewrite Nat.add_0_r in Hinner. rewrite Hinner.
    destruct (sweep_spec rest x) as (Hp & Hall & _ & Hlen').
    destruct (sweep before x rest) as [m r]. cbn [fst snd] in *.
    destruct (IH (pre ++ [m]) r) as (s & Hs & Hperm & Hord); [lia|].
    rewrite length_app in Hs. cbn [length] in Hs.
    replace (length pre + 1)%nat with (S (length pre)) in Hs by lia.
    rewrite <- app_assoc in Hs. cbn [app] in Hs. rewrite Hs.
    exists (m :: s). split; [by rewrite <- app_assoc|]. split.
    + by rewrite Hperm, Hp.
    + apply ordered_cons; [|done]. by rewrite Hperm.
Qed.

Lemma exchangeSort_spec (l : list A) :
  exchangeSort before l ≡ₚ l /\ ordered before (exchangeSort before l).
Proof.
  destruct (outer_loop_sorts (length l) [] l eq_refl) as (s & Hs & Hperm & Hord).
  unfold exchangeSort. cbn [app length] in Hs. rewrite Hs. done.
Qed.

(** X20.  The hand-written sort of [generateSalesReport] (for i, for j > i,
    swap when the entry at j comes before the entry at i) sorts, for every
    strict order "comes before": the result has the entries of the input,
    each as often as the input, it is as long as the input, no later entry
    of the result comes before an earlier one, and so no entry at all
    comes before the first. *)
Theorem exchangeSort_sorts (l : list A) :
  exchangeSort before l ≡ₚ l /\
  length (exchangeSort before l) = length l /\
  ordered before (exchangeSort before l) /\
  (forall m, head (exchangeSort before l) = Some m ->
     forall y, y ∈ l -> before y m = false).
Proof.
  destruct (exchangeSort_spec l) as [Hperm Hord].
  split; [done|]. split; [by rewrite Hperm|]. split; [done|].
  intros m Hm y Hy. rewrite <- Hperm in Hy.
  apply list_elem_of_lookup_1 in Hy as [b Hb].
  rewrite head_lookup in Hm.
  destruct b as [|b].
  - assert (y = m) as -> by congruence.
    destruct (before m m) eqn:E; [|done]. by rewrite (before_asym m m E) in E.
  - by apply (Hord 0%nat (S b) m y); [lia|..].
Qed.

End ExchangeSort.

Lemma exchangeSort_sorts_witness :
  exchangeSort (fun y x : Z => x <? y) [3; 1; 2] ≡ₚ [3; 1; 2] /\
  length (exchangeSort (fun y x : Z => x <? y) [3; 1; 2]) = length [3; 1; 2] /\
  ordered (fun y x : Z => x <? y) (exchangeSort (fun y x : Z => x <? y) [3; 1; 2]) /\
  (forall m, head (exchangeSort (fun y x : Z => x <? y) [3; 1; 2]) = Some m ->
     forall y, y ∈ [3; 1; 2] -> (m <? y) = false).
Proof.
  apply (exchangeSort_sorts (fun y x : Z => x <? y)).
  - intros x y H. apply Z.ltb_lt in H. apply Z.ltb_ge. lia.
  - intros x y z H1 H2. apply Z.ltb_lt in H1, H2. apply Z.ltb_lt. lia.
Defined.

(** ** The sales report *)

Lemma foldl_add64 (xs : list Z) :
  forall a, int_ok a -> foldl add64 a xs = wrap64 (a + sumZ xs).
Proof.
  induction xs as [|x xs IH]; intros a Ha; cbn [foldl].
  - unfold sumZ. cbn. rewrite Z.add_0_r. by rewrite wrap64_id.
  - rewrite IH by apply wrap64_ok. rewrite sumZ_cons. unfold add64.
    rewrite wrap64_add_l. f_equal. lia.
Qed.

Lemma sumZ_ones {B : Type} (l : list B) : sumZ ((fun _ => 1) <$> l) = Z.of_nat (length l).
Proof. induction l as [|x l IH]; [done|]. rewrite fmap_cons, sumZ_cons. cbn [length]. lia. Qed.

Lemma int_ok_0 : int_ok 0.
Proof. unfold int_ok. lia. Qed.

(** What the loop over the orders has in its variables at the end. *)
Lemma tally_fold (l : list Order.t) :
  forall t,
    totalRevenue (foldl tallyOrder t l)
    = foldl add64 (totalRevenue t) (Order.TotalPrice <$> filter completed l) /\
    completedOrders (foldl tallyOrder t l)
    = foldl add64 (completedOrders t) ((fun _ => 1) <$> filter completed l) /\
    totalOrdersForCouponRate (foldl tallyOrder t l)
    = foldl add64 (totalOrdersForCouponRate t) ((fun _ => 1) <$> filter counted l) /\
    couponUsedOrders (foldl tallyOrder t l)
    = foldl add64 (couponUsedOrders t) ((fun _ => 1) <$> filter couponUsed l) /\
    productQuantities (foldl tallyOrder t l)
    = foldl (fun m item =>
               addQuantity m (OrderItem.ProductID item) (OrderItem.Quantity item))
            (productQuantities t) (soldItems l).
Proof.
  induction l as [|o l IH]; intros t; [done|].
  cbn [foldl]. destruct (IH (tallyOrder t o)) as (H1 & H2 & H3 & H4 & H5).
  rewrite H1, H2, H3, H4, H5. clear IH H1 H2 H3 H4 H5.
  unfold soldItems. rewrite bind_cons, foldl_app. fold (soldItems l).
  unfold tallyOrder.
  destruct (String.eqb_spec (Order.Status o) "completed") as [Hc|Hc].
  - assert (Hcompleted : completed o) by done.
    assert (Hcounted : counted o) by (by left).
    rewrite (filter_cons_True completed) by done.
    rewrite (filter_cons_True counted) by done.
    rewrite (decide_True _ _ Hcompleted). cbn [orb andb].
    destruct (String.eqb_spec (Order.AppliedCoupon o) EmptyString) as [Ha|Ha]; cbn [negb].
    + rewrite (filter_cons_False couponUsed) by (by intros [_ ?]). done.
    + rewrite (filter_cons_True couponUsed) by done. done.
  - assert (Hcompleted : ~ completed o) by done.
    rewrite (filter_cons_False completed) by done.
    rewrite (decide_False _ _ Hcompleted). cbn [orb foldl].
    destruct (String.eqb_spec (Order.Status o) "payment_failed") as [Hf|Hf].
    + assert (Hcounted : counted o) by (by right).
      rewrite (filter_cons_True counted) by done.
      destruct (String.eqb_spec (Order.AppliedCoupon o) EmptyString) as [Ha|Ha];
        cbn [negb andb].
      * rewrite (filter_cons_False couponUsed) by (by intros [_ ?]). done.
      * rewrite (filter_cons_True couponUsed) by done. done.
    + assert (Hcounted : ~ counted o) by (by intros [?|?]).
      rewrite (filter_cons_False counted) by done.
      rewrite (filter_cons_False couponUsed) by (by intros [? _]). done.
Qed.

Section Report.
Context (rt : Runtime) (h : Host) (Hh : host_ok h) (st : Store).

Lemma range_orders_perm : snd <$> range_orders h (orders st) ≡ₚ snd <$> map_to_list (orders st).
Proof. destruct Hh as (Ho & _). by rewrite (Ho (orders st)). Qed.

Lemma count_wrapped (P : Order.t -> Prop) `{forall o, Decision (P o)} :
  foldl add64 0 ((fun _ => 1) <$> filter P (snd <$> range_orders h (orders st)))
  = wrap64 (Z.of_nat (length (filter P (snd <$> map_to_list (orders st))))).
Proof.
  rewrite foldl_add64 by apply int_ok_0. rewrite sumZ_ones, Z.add_0_l.
  by rewrite range_orders_perm.
Qed.

(** X21.  The summary of the sales report counts the completed orders and
    nothing else: the number of orders is the number of orders with status
    "completed", the revenue is the sum of their totals (as [int]s), orders
    with status "payment_failed" add nothing to either; and the coupon
    usage rate is 0 when no order is completed or failed, and otherwise is
    computed from the number of such orders that name a coupon and the
    number of such orders.  None of this depends on the order of the
    range over the orders. *)
Theorem salesReport_summary :
  let all := snd <$> map_to_list (orders st) in
  let report := generateSalesReport rt h st in
  let used := wrap64 (Z.of_nat (length (filter couponUsed all))) in
  let total := wrap64 (Z.of_nat (length (filter counted all))) in
  SalesSummary.TotalOrders (SalesReportResponse.SalesSummary report)
  = wrap64 (Z.of_nat (length (filter completed all))) /\
  SalesSummary.TotalRevenue (SalesReportResponse.SalesSummary report)
  = wrap64 (sumZ (Order.TotalPrice <$> filter completed all)) /\
  PromotionAnalysis.CouponUsageRate (SalesReportResponse.PromotionAnalysis report)
  = (if 0 <? total
     then float64_mul (float64_div (float64_of_int used) (float64_of_int total))
                      (float64_of_int 100)
     else float64_0_0) /\
  (filter counted all = [] ->
   PromotionAnalysis.CouponUsageRate (SalesReportResponse.PromotionAnalysis report)
   = float64_0_0).
Proof.
  intros all report used total.
  destruct (tally_fold (snd <$> range_orders h (orders st)) emptyTally)
    as (Hrev & Hdone & Htotal & Hused & _).
  cbn [totalRevenue completedOrders totalOrdersForCouponRate couponUsedOrders emptyTally]
    in Hrev, Hdone, Htotal, Hused.
  rewrite (count_wrapped completed) in Hdone.
  rewrite (count_wrapped counted) in Htotal.
  rewrite (count_wrapped couponUsed) in Hused.
  rewrite foldl_add64 in Hrev by apply int_ok_0. rewrite Z.add_0_l in Hrev.
  rewrite (sumZ_perm _ (Order.TotalPrice <$> filter completed all)) in Hrev
    by (by rewrite range_orders_perm).
  subst report. unfold generateSalesReport.
  cbn [SalesReportResponse.SalesSummary SalesSummary.TotalOrders SalesSummary.TotalRevenue
       SalesReportResponse.PromotionAnalysis PromotionAnalysis.CouponUsageRate].
  fold emptyTally. rewrite Hrev, Hdone, Htotal, Hused.
  split; [done|]. split; [done|]. split; [done|].
  intros Hnone. subst total all. rewrite Hnone in *. reflexivity.
Qed.

End Report.

Lemma salesReport_summary_witness :
  SalesSummary.TotalOrders
    (SalesReportResponse.SalesSummary
       (generateSalesReport (runtimeWith true) exampleHost
          (snd (createOrderHandler (runtimeWith true) shop (orderRequest cart noCoupon 100)))))
  = 1.
Proof.
  destruct (salesReport_summary (runtimeWith true) exampleHost exampleHost_ok
              (snd (createOrderHandler (runtimeWith true) shop
                      (orderRequest cart noCoupon 100)))) as (H & _).
  rewrite H. vm_compute. reflexivity.
Defined.

(** ** The rankings of the sales report *)

(** A [map[int]int] that is filled by [+=]: a key is there when a summand
    names it, and holds the sum of the summands that name it. *)
Lemma addQuantity_fold {B : Type} (key qty : B -> Z) (l : list B) :
  forall (m : gmap Z Z) k,
    foldl (fun m x => addQuantity m (key x) (qty x)) m l !! k
    = if decide (k ∈ key <$> l)
      then Some (foldl add64 (default 0 (m !! k))
                       (qty <$> filter (fun x => key x = k) l))
      else m !! k.
Proof.
  induction l as [|x l IH]; intros m k.
  - cbn. rewrite decide_False; [done|]. apply not_elem_of_nil.
  - cbn [foldl]. rewrite IH. rewrite fmap_cons.
    destruct (decide (key x = k)) as [Hk|Hk].
    + rewrite (decide_True (P := k ∈ key x :: (key <$> l))) by (rewrite Hk; left).
      rewrite filter_cons_True by done. rewrite fmap_cons. cbn [foldl].
      unfold addQuantity at 1 2. rewrite Hk, lookup_insert_eq. cbn [default].
      destruct (decide (k ∈ key <$> l)) as [Hin|Hin]; [done|].
      rewrite filter_none; [done|].
      apply Forall_forall. intros y Hy Hyk. apply Hin. rewrite <- Hyk.
      apply list_elem_of_fmap. eauto.
    + rewrite filter_cons_False by done.
      unfold addQuantity at 1 2. rewrite lookup_insert_ne by done.
      destruct (decide (k ∈ key <$> l)) as [Hin|Hin].
      * rewrite decide_True by (by right). done.
      * rewrite decide_False; [done|]. intros Hc. apply elem_of_cons in Hc as [Hc|Hc]; auto.
Qed.

(** A list that is filled by [append] in a loop with a test. *)
Lemma foldl_append_omap {B C D : Type} (g : B -> option C) (c : B -> C -> D) (l : list B) :
  forall acc : list D,
    foldl (fun (acc : list D) (x : B) =>
             match g x with
             | Some y => acc ++ [c x y]
             | None => acc
             end) acc l
    = acc ++ omap (fun x => c x <$> g x) l.
Proof.
  induction l as [|x l IH]; intros acc.
  - cbn. by rewrite app_nil_r.
  - cbn [foldl omap list_omap]. rewrite IH. destruct (g x) as [y|]; [|done].
    cbn. by rewrite <- app_assoc.
Qed.

Lemma unitsSold_perm (l1 l2 : list OrderItem.t) k :
  l1 ≡ₚ l2 -> unitsSold l1 k = unitsSold l2 k.
Proof. intros Hp. unfold unitsSold. apply sumZ_perm. by rewrite Hp. Qed.

Section Rankings.
Context (rt : Runtime) (h : Host) (Hh : host_ok h) (st : Store).

(** The units sold that the first loop has counted, product by product. *)
Lemma productQuantities_sold k :
  let items := soldItems (snd <$> map_to_list (orders st)) in
  productQuantities (foldl tallyOrder emptyTally (snd <$> range_orders h (orders st))) !! k
  = if decide (k ∈ OrderItem.ProductID <$> items)
    then Some (wrap64 (unitsSold items k)) else None.
Proof.
  intros items.
  destruct (tally_fold (snd <$> range_orders h (orders st)) emptyTally)
    as (_ & _ & _ & _ & ->).
  cbn [productQuantities emptyTally].
  rewrite (addQuantity_fold OrderItem.ProductID OrderItem.Quantity).
  rewrite lookup_empty. cbn [default].
  assert (Hperm : soldItems (snd <$> range_orders h (orders st)) ≡ₚ items).
  { unfold items, soldItems. by rewrite (range_orders_perm h Hh st). }
  destruct (decide (k ∈ OrderItem.ProductID <$> items)) as [Hin|Hin].
  - rewrite decide_True by (by rewrite Hperm).
    rewrite foldl_add64 by apply int_ok_0. rewrite Z.add_0_l.
    fold (unitsSold (soldItems (snd <$> range_orders h (orders st))) k).
    by rewrite (unitsSold_perm _ _ k Hperm).
  - rewrite decide_False; [done|]. by rewrite Hperm.
Qed.

(** X22.  The top products of the sales report are the first three of a
    ranking of the products sold: the ranking has one entry for each
    product of the catalogue that an item of a completed order names, with
    the name of the product and the units sold in completed orders (as an
    [int]), and its quantities never go up.  Orders that are not completed
    and products that are not in the catalogue do not appear. *)
Theorem salesReport_topProducts :
  let items := soldItems (snd <$> map_to_list (orders st)) in
  let top := SalesReportResponse.TopProducts (generateSalesReport rt h st) in
  exists ranked : list productQty.t,
    top = (fun r => ProductRanking.mk (productQty.Name r) (productQty.Quantity r))
            <$> take 3 ranked /\
    (forall r, r ∈ ranked <->
       exists product,
         products st !! productQty.ID r = Some product /\
         productQty.ID r ∈ OrderItem.ProductID <$> items /\
         productQty.Name r = Product.Name product /\
         productQty.Quantity r = wrap64 (unitsSold items (productQty.ID r))) /\
    NoDup (productQty.ID <$> ranked) /\
    (forall a b x y, (a < b)%nat -> ranked !! a = Some x -> ranked !! b = Some y ->
       productQty.Quantity y <= productQty.Quantity x) /\
    (length top <= 3)%nat.
Proof.
  intros items top. subst top. unfold generateSalesReport.
  cbn [SalesReportResponse.TopProducts]. fold emptyTally.
  set (pq := productQuantities _).
  assert (Hpq : forall k, pq !! k = if decide (k ∈ OrderItem.ProductID <$> items)
                                    then Some (wrap64 (unitsSold items k)) else None)
    by apply productQuantities_sold.
  rewrite (foldl_append_omap (fun kv : Z * Z => products st !! fst kv)
             (fun kv product => productQty.mk (fst kv) (Product.Name product) (snd kv))).
  cbn [app].
  set (f := fun kv : Z * Z =>
              (fun product => productQty.mk (fst kv) (Product.Name product) (snd kv))
                <$> products st !! fst kv).
  set (before := fun y x : productQty.t => productQty.Quantity x <? productQty.Quantity y).
  destruct (exchangeSort_spec before) with (l := omap f (range_productQuantities h pq))
    as [Hperm Hord].
  { intros x y H. unfold before in *. apply Z.ltb_lt in H. apply Z.ltb_ge. lia. }
  { intros x y z H1 H2. unfold before in *. apply Z.ltb_lt in H1, H2. apply Z.ltb_lt. lia. }
  assert (Hrange : range_productQuantities h pq ≡ₚ map_to_list pq).
  { destruct Hh as (_ & _ & _ & Hq & _). apply Hq. }
  assert (Hperm' : exchangeSort before (omap f (range_productQuantities h pq))
                   ≡ₚ omap f (map_to_list pq)).
  { etrans; [exact Hperm|]. by apply omap_Permutation. }
  clear Hperm. rename Hperm' into Hperm.
  exists (exchangeSort before (omap f (range_productQuantities h pq))).
  split; [done|]. split; [|split; [|split]].
  - intros r. rewrite Hperm, list_elem_of_omap. split.
    + intros ([k q] & Hin & Hf). apply elem_of_map_to_list in Hin.
      unfold f in Hf. cbn [fst snd] in Hf.
      destruct (products st !! k) as [product|] eqn:Hp; [|done].
      injection Hf as <-. cbn [productQty.ID productQty.Name productQty.Quantity].
      exists product. rewrite Hpq in Hin.
      destruct (decide (k ∈ OrderItem.ProductID <$> items)); [|done].
      injection Hin as <-. done.
    + intros (product & Hp & Hin & Hn & Hq). destruct r as [k n q]. cbn in *.
      exists (k, q). split.
      * apply elem_of_map_to_list. rewrite Hpq, decide_True by done. by rewrite Hq.
      * unfold f. cbn [fst snd]. rewrite Hp. cbn. by rewrite Hn.
  - rewrite Hperm.
    assert (Hkeys : forall l : list (Z * Z),
              NoDup (fst <$> l) ->
              NoDup (productQty.ID <$> omap f l) /\
              forall k, k ∈ productQty.ID <$> omap f l -> k ∈ fst <$> l).
    { induction l as [|[k q] l IH]; intros Hnd.
      - split; [constructor|]. intros k Hk. by apply elem_of_nil in Hk.
      - rewrite fmap_cons in Hnd. apply NoDup_cons in Hnd as [Hk Hnd].
        destruct (IH Hnd) as [IH1 IH2]. cbn [omap list_omap].
        destruct (f (k, q)) as [y|] eqn:Hf.
        + assert (Hy : productQty.ID y = k).
          { unfold f in Hf. cbn [fst snd] in Hf.
            destruct (products st !! k); [|done]. by injection Hf as <-. }
          rewrite fmap_cons, Hy. split.
          * apply NoDup_cons. split; [|done]. intros Hc. apply Hk. by apply IH2.
          * intros k' Hk'. rewrite fmap_cons.
            apply elem_of_cons in Hk' as [->|Hk']; [left|right; by apply IH2].
        + split; [done|]. intros k' Hk'. rewrite fmap_cons. right. by apply IH2. }
    apply Hkeys, NoDup_fst_map_to_list.
  - intros a b x y Hab Ha Hb. specialize (Hord a b x y Hab Ha Hb).
    unfold before in Hord. apply Z.ltb_ge in Hord. lia.
  - rewrite length_fmap, length_take. lia.
Qed.

End Rankings.

Lemma salesReport_topProducts_witness :
  (length (SalesReportResponse.TopProducts
             (generateSalesReport (runtimeWith true) exampleHost
                (snd (createOrderHandler (runtimeWith true) shop
                        (orderRequest cart noCoupon 100))))) <= 3)%nat.
Proof.
  destruct (salesReport_topProducts (runtimeWith true) exampleHost exampleHost_ok
              (snd (createOrderHandler (runtimeWith true) shop
                      (orderRequest cart noCoupon 100))))
    as (ranked & _ & _ & _ & _ & H).
  exact H.
Defined.

(** ** The warehouse inventory of the sales report *)

(** Go compares strings byte by byte; [<] on strings is a strict order. *)
Lemma string_compare_trans (a : string) :
  forall b c, String.compare a b = Lt -> String.compare b c = Lt -> String.compare a c = Lt.
Proof.
  induction a as [|x a IH]; intros [|y b] [|z c]; cbn [String.compare]; try done.
  destruct (Ascii.compare x y) eqn:Exy; [| |done].
  - apply Ascii.compare_eq_iff in Exy as ->.
    destruct (Ascii.compare y z); [apply IH|done|done].
  - destruct (Ascii.compare y z) eqn:Eyz; [| |done].
    + apply Ascii.compare_eq_iff in Eyz as <-. by rewrite Exy.
    + intros _ _. unfold Ascii.compare in *.
      apply N.compare_lt_iff in Exy. apply N.compare_lt_iff in Eyz.
      pose proof (N.lt_trans _ _ _ Exy Eyz) as H.
      apply N.compare_lt_iff in H. by rewrite H.
Qed.

Lemma string_ltb_asym (a b : string) : String.ltb a b = true -> String.ltb b a = false.
Proof.
  unfold String.ltb. rewrite (String.compare_antisym b a).
  destruct (String.compare a b); cbn; congruence.
Qed.

Lemma string_ltb_trans (a b c : string) :
  String.ltb a b = true -> String.ltb b c = true -> String.ltb a c = true.
Proof.
  unfold String.ltb. intros Hab Hbc.
  rewrite (string_compare_trans a b c); [done|..].
  - by destruct (String.compare a b).
  - by destruct (String.compare b c).
Qed.

(** A loop whose body is guarded by a test. *)
Lemma foldl_guarded {A B : Type} (c : B -> bool) (f : A -> B -> A) (l : list B) :
  forall a, foldl (fun a x => if c x then f a x else a) a l
            = foldl f a (filter (fun x => c x = true) l).
Proof.
  induction l as [|x l IH]; intros a; [done|]. cbn [foldl]. rewrite IH.
  destruct (c x) eqn:Hc.
  - by rewrite filter_cons_True.
  - rewrite filter_cons_False; [done|]. congruence.
Qed.

Lemma filter_iff {A : Type} (P Q : A -> Prop) `{!forall x, Decision (P x)}
    `{!forall x, Decision (Q x)} (l : list A) :
  (forall x, P x <-> Q x) -> filter P l = filter Q l.
Proof.
  intros Hiff. induction l as [|x l IH]; [done|].
  destruct (decide (P x)) as [Hp|Hp].
  - rewrite !filter_cons_True by (done || by apply Hiff). by rewrite IH.
  - rewrite !filter_cons_False by (done || by rewrite <- Hiff). done.
Qed.

Lemma permutation_fmap_inv {A B : Type} (g : A -> B) (l : list A) (l' : list B) :
  l' ≡ₚ g <$> l -> exists l0, l' = g <$> l0 /\ l0 ≡ₚ l.
Proof.
  intros H. destruct (Permutation_map_inv g l H) as (l0 & -> & H0).
  exists l0. split; [done|]. by symmetry.
Qed.

Section Inventory.
Context (rt : Runtime) (Hrt : runtime_ok rt) (h : Host) (Hh : host_ok h) (st : Store).

(** What the second loop of the report has counted, warehouse by
    warehouse. *)
Lemma warehouseStocks_held k :
  let lines := filter (fun x : Stock.t => 0 < Stock.Quantity x) (snd <$> map_to_list (stocks st)) in
  foldl (fun (m : gmap Z Z) (kv : string * Stock.t) =>
           let stock := snd kv in
           if 0 <? Stock.Quantity stock
           then addQuantity m (Stock.WarehouseID stock) (Stock.Quantity stock)
           else m)
        ∅ (range_stocks rt (stocks st)) !! k
  = if decide (k ∈ Stock.WarehouseID <$> lines)
    then Some (wrap64 (warehouseTotal (stocks st) k)) else None.
Proof.
  intros lines.
  transitivity
    (foldl (fun (m : gmap Z Z) (stock : Stock.t) =>
              addQuantity m (Stock.WarehouseID stock) (Stock.Quantity stock))
           ∅ (filter (fun stock => (0 <? Stock.Quantity stock) = true)
                     (snd <$> range_stocks rt (stocks st))) !! k).
  { f_equal.
    rewrite <- (foldl_guarded (fun stock => 0 <? Stock.Quantity stock)
                  (fun (m : gmap Z Z) stock =>
                     addQuantity m (Stock.WarehouseID stock) (Stock.Quantity stock))).
    by rewrite foldl_fmap. }
  rewrite (filter_iff _ (fun x : Stock.t => 0 < Stock.Quantity x))
    by (intros x; apply Z.ltb_lt).
  rewrite (addQuantity_fold Stock.WarehouseID Stock.Quantity).
  rewrite lookup_empty. cbn [default].
  assert (Hperm : filter (fun x : Stock.t => 0 < Stock.Quantity x)
                         (snd <$> range_stocks rt (stocks st)) ≡ₚ lines).
  { unfold lines. destruct Hrt as [Hs _]. by rewrite Hs. }
  destruct (decide (k ∈ Stock.WarehouseID <$> lines)) as [Hin|Hin].
  - rewrite decide_True by (by rewrite Hperm).
    rewrite foldl_add64 by apply int_ok_0. rewrite Z.add_0_l.
    unfold warehouseTotal. do 2 f_equal. apply sumZ_perm.
    rewrite Hperm. unfold lines. by rewrite list_filter_filter.
  - rewrite decide_False; [done|]. by rewrite Hperm.
Qed.

(** X23.  The warehouse inventory of the sales report has one row for each
    warehouse of the store that holds a stock line with a positive
    quantity: the row carries the name of the warehouse and the sum of the
    positive quantities of its stock lines (as an [int]); the rows are in
    the order of the names, byte by byte.  Stock lines of a warehouse that
    the store does not know are left out. *)
Theorem salesReport_warehouseInventory :
  let lines := filter (fun x : Stock.t => 0 < Stock.Quantity x) (snd <$> map_to_list (stocks st)) in
  let inventory := SalesReportResponse.WarehouseInventory (generateSalesReport rt h st) in
  exists ids : list Z,
    NoDup ids /\
    (forall id, id ∈ ids <->
       is_Some (warehouses st !! id) /\ id ∈ Stock.WarehouseID <$> lines) /\
    Forall2 (fun id row =>
               exists warehouse,
                 warehouses st !! id = Some warehouse /\
                 row = WarehouseInventoryStat.mk (Warehouse.Name warehouse)
                         (wrap64 (warehouseTotal (stocks st) id)))
            ids inventory /\
    (forall a b x y, (a < b)%nat -> inventory !! a = Some x -> inventory !! b = Some y ->
       String.ltb (WarehouseInventoryStat.WarehouseName y)
                  (WarehouseInventoryStat.WarehouseName x) = false).
Proof.
  intros lines inventory. subst inventory. unfold generateSalesReport.
  cbn [SalesReportResponse.WarehouseInventory].
  set (ws := foldl _ ∅ (range_stocks rt (stocks st))).
  assert (Hws : forall k, ws !! k = if decide (k ∈ Stock.WarehouseID <$> lines)
                                    then Some (wrap64 (warehouseTotal (stocks st) k))
                                    else None)
    by apply warehouseStocks_held.
  clearbody ws.
  rewrite (foldl_append_omap (fun kv : Z * Z => warehouses st !! fst kv)
             (fun kv warehouse =>
                WarehouseInventoryStat.mk (Warehouse.Name warehouse) (snd kv))).
  cbn [app].
  set (f := fun kv : Z * Z =>
              (fun warehouse => WarehouseInventoryStat.mk (Warehouse.Name warehouse) (snd kv))
                <$> warehouses st !! fst kv).
  set (before := fun y x : WarehouseInventoryStat.t =>
                   String.ltb (WarehouseInventoryStat.WarehouseName y)
                              (WarehouseInventoryStat.WarehouseName x)).
  destruct (exchangeSort_spec before) with (l := omap f (range_warehouseStocks h ws))
    as [Hperm Hord].
  { intros x y. apply string_ltb_asym. }
  { intros x y z. apply string_ltb_trans. }
  set (sorted := exchangeSort before _) in *. clearbody sorted.
  set (F := fun kv : Z * Z => (fun row => (fst kv, row)) <$> f kv).
  assert (Hsnd : forall l : list (Z * Z), omap f l = snd <$> omap F l).
  { induction l as [|kv l IH]; [done|]. cbn [omap list_omap]. unfold F at 1.
    destruct (f kv); cbn; by rewrite IH. }
  assert (Hrange : range_warehouseStocks h ws ≡ₚ map_to_list ws).
  { destruct Hh as (_ & _ & _ & _ & Hw). apply Hw. }
  assert (Hperm' : sorted ≡ₚ snd <$> omap F (map_to_list ws)).
  { rewrite <- Hsnd. etrans; [exact Hperm|]. by apply omap_Permutation. }
  apply permutation_fmap_inv in Hperm' as (rows & -> & Hrows).
  assert (Hrow : forall id row, (id, row) ∈ rows <->
            exists warehouse,
              warehouses st !! id = Some warehouse /\
              id ∈ Stock.WarehouseID <$> lines /\
              row = WarehouseInventoryStat.mk (Warehouse.Name warehouse)
                      (wrap64 (warehouseTotal (stocks st) id))).
  { intros id row. rewrite Hrows, list_elem_of_omap. split.
    - intros ([k q] & Hin & HF). apply elem_of_map_to_list in Hin.
      unfold F, f in HF. cbn [fst snd] in HF.
      destruct (warehouses st !! k) as [warehouse|] eqn:Hw; [|done].
      cbn in HF. injection HF as <- <-. exists warehouse.
      rewrite Hws in Hin. destruct (decide (k ∈ Stock.WarehouseID <$> lines)); [|done].
      injection Hin as <-. done.
    - intros (warehouse & Hw & Hin & ->).
      exists (id, wrap64 (warehouseTotal (stocks st) id)). split.
      + apply elem_of_map_to_list. by rewrite Hws, decide_True.
      + unfold F, f. cbn [fst snd]. by rewrite Hw. }
  exists (fst <$> rows). split; [|split; [|split]].
  - rewrite Hrows.
    assert (Hkeys : forall l : list (Z * Z),
              NoDup (fst <$> l) ->
              NoDup (fst <$> omap F l) /\
              forall k, k ∈ fst <$> omap F l -> k ∈ fst <$> l).
    { induction l as [|[k q] l IH]; intros Hnd.
      - split; [constructor|]. intros k Hk. by apply elem_of_nil in Hk.
      - rewrite fmap_cons in Hnd. apply NoDup_cons in Hnd as [Hk Hnd].
        destruct (IH Hnd) as [IH1 IH2]. cbn [omap list_omap].
        destruct (F (k, q)) as [y|] eqn:HF.
        + assert (Hy : fst y = k).
          { unfold F in HF. cbn [fst] in HF. destruct (f (k, q)); [|done].
            by injection HF as <-. }
          rewrite fmap_cons, Hy. split.
          * apply NoDup_cons. split; [|done]. intros Hc. apply Hk. by apply IH2.
          * intros k' Hk'. rewrite fmap_cons.
            apply elem_of_cons in Hk' as [->|Hk']; [left|right; by apply IH2].
        + split; [done|]. intros k' Hk'. rewrite fmap_cons. right. by apply IH2. }
    apply Hkeys, NoDup_fst_map_to_list.
  - intros id. rewrite list_elem_of_fmap. split.
    + intros ([id' row] & -> & Hin). cbn [fst].
      apply Hrow in Hin as (warehouse & Hw & Hin & _). split; [by eexists|done].
    + intros [[warehouse Hw] Hin].
      exists (id, WarehouseInventoryStat.mk (Warehouse.Name warehouse)
                    (wrap64 (warehouseTotal (stocks st) id))).
      split; [done|]. apply Hrow. by exists warehouse.
  - apply Forall2_fmap, Forall2_same_length_lookup_2; [done|].
    intros i [id row] [id' row'] H1 H2. rewrite H1 in H2. injection H2 as <- <-.
    cbn [fst snd]. apply list_elem_of_lookup_2 in H1.
    apply Hrow in H1 as (warehouse & Hw & _ & ->). by exists warehouse.
  - exact Hord.
Qed.

End Inventory.

Lemma salesReport_warehouseInventory_witness :
  exists ids : list Z,
    NoDup ids /\
    Forall2 (fun id row =>
               exists warehouse,
                 warehouses shop !! id = Some warehouse /\
                 row = WarehouseInventoryStat.mk (Warehouse.Name warehouse)
                         (wrap64 (warehouseTotal (stocks shop) id)))
            ids
            (SalesReportResponse.WarehouseInventory
               (generateSalesReport (runtimeWith true) exampleHost shop)).
Proof.
  destruct (salesReport_warehouseInventory (runtimeWith true) (runtimeWith_ok true)
              exampleHost exampleHost_ok shop)
    as (ids & Hnd & _ & Hrows & _).
  exists ids. split; [exact Hnd|exact Hrows].
Defined.

(** ** The catalogue pages *)

Lemma productDetail_fields rt sv user p :
  ProductDetailResponseWithFavorite.ID (productDetail rt sv user p) = Product.ID p /\
  ProductDetailResponseWithFavorite.Category (productDetail rt sv user p)
  = Product.Category p /\
  ProductDetailResponseWithFavorite.IsFavorite (productDetail rt sv user p)
  = match user with
    | Some u => isProductInWishlist (wishlists sv) (User.ID u) (Product.ID p)
    | None => false
    end.
Proof. unfold productDetail. by destruct (getProductStock rt (store sv) (Product.ID p)). Qed.

(** The products that the loop of [getProductsHandler] keeps. *)
Lemma listed_products h (m : gmap Z Product.t) (category : string) :
  host_ok h -> products_wf m ->
  let kept := snd <$> filter (fun kv : Z * Product.t =>
                                category = EmptyString \/ Product.Category (snd kv) = category)
                             (range_products h m) in
  NoDup (Product.ID <$> kept) /\
  forall p, p ∈ kept <->
    m !! Product.ID p = Some p /\ (category = EmptyString \/ Product.Category p = category).
Proof.
  intros Hh Hwf kept.
  assert (Hrange : range_products h m ≡ₚ map_to_list m).
  { destruct Hh as (_ & Hp & _). apply Hp. }
  assert (Hin : forall p, p ∈ kept <->
            m !! Product.ID p = Some p /\
            (category = EmptyString \/ Product.Category p = category)).
  { intros p. unfold kept. rewrite list_elem_of_fmap. split.
    - intros ([k q] & -> & Hkq). apply list_elem_of_filter in Hkq as [Hc Hkq].
      rewrite Hrange in Hkq. apply elem_of_map_to_list in Hkq.
      cbn [snd] in *. by rewrite (Hwf _ _ Hkq).
    - intros [Hp Hc]. exists (Product.ID p, p). split; [done|].
      apply list_elem_of_filter. split; [done|].
      rewrite Hrange. by apply elem_of_map_to_list. }
  split; [|done].
  assert (Hids : Product.ID <$> kept
                 = fst <$> filter (fun kv : Z * Product.t =>
                                     category = EmptyString \/
                                     Product.Category (snd kv) = category)
                                  (range_products h m)).
  { unfold kept. rewrite <- list_fmap_compose. apply Forall_fmap_ext_1, Forall_forall.
    intros [k q] Hkq. apply list_elem_of_filter in Hkq as [_ Hkq].
    rewrite Hrange in Hkq. apply elem_of_map_to_list in Hkq.
    cbn. by apply Hwf in Hkq. }
  rewrite Hids.
  eapply (sublist_NoDup _ (fst <$> range_products h m)).
  - rewrite Hrange. apply NoDup_fst_map_to_list.
  - apply fmap_sublist, sublist_filter.
Qed.

(** The row that [getProductStock] makes of a stock line, if any. *)
Lemma getProductStock_rows (st : Store) p (l : list (string * Stock.t)) :
  let row := fun kv : string * Stock.t =>
    if (Stock.ProductID (snd kv) =? p) && (0 <? Stock.Quantity (snd kv)) then
      (fun warehouse => StockWarehouse.mk (Warehouse.Name warehouse)
                                          (Stock.Quantity (snd kv)))
        <$> warehouses st !! Stock.WarehouseID (snd kv)
    else None in
  forall acc,
    foldl (fun (acc : Z * list StockWarehouse.t) (kv : string * Stock.t) =>
             let stock := snd kv in
             if (Stock.ProductID stock =? p) && (0 <? Stock.Quantity stock) then
               match warehouses st !! Stock.WarehouseID stock with
               | Some warehouse =>
                   (add64 (fst acc) (Stock.Quantity stock),
                    snd acc ++ [StockWarehouse.mk (Warehouse.Name warehouse)
                                                  (Stock.Quantity stock)])
               | None => acc
               end
             else acc) acc l
    = (foldl add64 (fst acc) (StockWarehouse.Quantity <$> omap row l),
       snd acc ++ omap row l).
Proof.
  intros row. induction l as [|kv l IH]; intros acc.
  - cbn. rewrite app_nil_r. by destruct acc.
  - cbn [foldl omap list_omap]. rewrite IH. clear IH.
    assert (Hrow : row kv
                   = if (Stock.ProductID (snd kv) =? p) && (0 <? Stock.Quantity (snd kv))
                     then (fun warehouse =>
                             StockWarehouse.mk (Warehouse.Name warehouse)
                                               (Stock.Quantity (snd kv)))
                            <$> warehouses st !! Stock.WarehouseID (snd kv)
                     else None) by done.
    rewrite Hrow. clear Hrow. cbv zeta.
    destruct ((Stock.ProductID (snd kv) =? p) && (0 <? Stock.Quantity (snd kv))); [|done].
    destruct (warehouses st !! Stock.WarehouseID (snd kv)) as [warehouse|]; [|done].
    cbn. by rewrite <- app_assoc.
Qed.

(** The total of [getProductStock] does not depend on the order of the
    range over the stocks, and the breakdown only by its order. *)
Lemma getProductStock_order rt rt' st p :
  runtime_ok rt -> runtime_ok rt' ->
  fst (getProductStock rt st p) = fst (getProductStock rt' st p) /\
  snd (getProductStock rt st p) ≡ₚ snd (getProductStock rt' st p).
Proof.
  intros [Hr _] [Hr' _]. unfold getProductStock.
  rewrite !getProductStock_rows. cbn [fst snd app].
  set (row := fun kv : string * Stock.t => _).
  assert (Hperm : omap row (range_stocks rt (stocks st))
                  ≡ₚ omap row (range_stocks rt' (stocks st))).
  { apply omap_Permutation. by rewrite Hr, Hr'. }
  split; [|done].
  rewrite !foldl_add64 by apply int_ok_0. f_equal. f_equal.
  apply sumZ_perm. by rewrite Hperm.
Qed.

(** X24.  The list of products and the page of one product agree, whatever
    the order of the ranges.  For a catalogue in which every product sits
    under its own ID, [getProductsHandler] answers 200 with one entry for
    each product of the category asked for (for every product when no
    category is given) and no other; [getProductHandler] answers, for the
    ID of an entry and with the same credentials, 200 with the same name,
    price, category, total stock and favourite mark, and a stock breakdown
    with the same rows; an ID that is not in the catalogue gets 404; and
    without a session no entry is marked as a favourite. *)
Theorem getProductsHandler_catalogue rt rt' h sv category authorization :
  runtime_ok rt -> runtime_ok rt' -> host_ok h -> products_wf (products (store sv)) ->
  exists entries,
    getProductsHandler rt h sv "GET" category authorization = Json 200 entries /\
    NoDup (ProductDetailResponseWithFavorite.ID <$> entries) /\
    (forall id, id ∈ ProductDetailResponseWithFavorite.ID <$> entries <->
       exists product, products (store sv) !! id = Some product /\
                       (category = EmptyString \/ Product.Category product = category)) /\
    (forall e, e ∈ entries ->
       (category <> EmptyString ->
        ProductDetailResponseWithFavorite.Category e = category) /\
       exists e',
         getProductHandler rt' sv "GET" authorization
           (Some (ProductDetailResponseWithFavorite.ID e)) = Json 200 e' /\
         ProductDetailResponseWithFavorite.ID e' = ProductDetailResponseWithFavorite.ID e /\
         ProductDetailResponseWithFavorite.Name e'
         = ProductDetailResponseWithFavorite.Name e /\
         ProductDetailResponseWithFavorite.Price e'
         = ProductDetailResponseWithFavorite.Price e /\
         ProductDetailResponseWithFavorite.Category e'
         = ProductDetailResponseWithFavorite.Category e /\
         ProductDetailResponseWithFavorite.TotalStock e'
         = ProductDetailResponseWithFavorite.TotalStock e /\
         ProductDetailResponseWithFavorite.StockDetail e'
         ≡ₚ ProductDetailResponseWithFavorite.StockDetail e /\
         ProductDetailResponseWithFavorite.IsFavorite e'
         = ProductDetailResponseWithFavorite.IsFavorite e) /\
    (forall id, products (store sv) !! id = None ->
       getProductHandler rt' sv "GET" authorization (Some id)
       = Failure 404 "Product not found") /\
    (authUser sv authorization = None ->
     forall e, e ∈ entries -> ProductDetailResponseWithFavorite.IsFavorite e = false).
Proof.
  intros Hrt Hrt' Hh Hwf.
  destruct (listed_products h (products (store sv)) category Hh Hwf) as [Hnd Hin].
  unfold getProductsHandler, getProductHandler. cbn [String.eqb Ascii.eqb Bool.eqb negb].
  set (kept := snd <$> filter _ (range_products h (products (store sv)))) in *.
  clearbody kept.
  set (user := authUser sv authorization).
  assert (Hids : ProductDetailResponseWithFavorite.ID <$> (productDetail rt sv user <$> kept)
                 = Product.ID <$> kept).
  { rewrite <- list_fmap_compose. apply Forall_fmap_ext_1, Forall_forall.
    intros p _. cbn. apply productDetail_fields. }
  eexists. split; [reflexivity|]. rewrite Hids. split; [done|]. split; [|split; [|split]].
  - intros id. rewrite list_elem_of_fmap. split.
    + intros (p & -> & Hp). apply Hin in Hp as [Hp Hc]. by exists p.
    + intros (p & Hp & Hc). exists p. rewrite <- (Hwf _ _ Hp) in Hp |- *.
      split; [done|]. by apply Hin.
  - intros e He. apply list_elem_of_fmap in He as (p & -> & Hp).
    apply Hin in Hp as [Hp Hc].
    destruct (productDetail_fields rt sv user p) as (HID & Hcat & _).
    rewrite HID, Hcat, Hp. split; [intros Hne; by destruct Hc|].
    exists (productDetail rt' sv user p). split; [done|].
    destruct (getProductStock_order rt' rt (store sv) (Product.ID p) Hrt' Hrt)
      as [Htot Hrows].
    unfold productDetail.
    destruct (getProductStock rt (store sv) (Product.ID p)) as [total rows].
    destruct (getProductStock rt' (store sv) (Product.ID p)) as [total' rows'].
    cbn [fst snd] in Htot, Hrows. cbn. by rewrite Htot, Hrows.
  - intros id Hnone. by rewrite Hnone.
  - intros Hanon e He. apply list_elem_of_fmap in He as (p & -> & _).
    destruct (productDetail_fields rt sv user p) as (_ & _ & ->).
    subst user. by rewrite Hanon.
Qed.

Lemma getProductsHandler_catalogue_witness :
  exists entries,
    getProductsHandler (runtimeWith true) exampleHost (initServer "hash:admin123")
      "GET" EmptyString EmptyString = Json 200 entries /\
    NoDup (ProductDetailResponseWithFavorite.ID <$> entries).
Proof.
  destruct (getProductsHandler_catalogue (runtimeWith true) (runtimeReversed true) exampleHost
              (initServer "hash:admin123") EmptyString EmptyString
              (runtimeWith_ok true) (runtimeReversed_ok true) exampleHost_ok)
    as (entries & H & Hnd & _).
  { apply (bool_decide_unpack _). vm_compute. exact I. }
  exists entries. split; [exact H|exact Hnd].
Defined.

(** ** The wishlist pages *)

Lemma isProductInWishlist_false (w : gmap string Wishlist.t) u p :
  isProductInWishlist w u p = false <-> w !! wishlistKey u p = None.
Proof.
  unfold isProductInWishlist. destruct (w !! wishlistKey u p); split; done.
Qed.

Lemma setWishlists_same sv : setWishlists sv (wishlists sv) = sv.
Proof. by destruct sv. Qed.

Lemma authUser_setWishlists sv w authorization :
  authUser (setWishlists sv w) authorization = authUser sv authorization.
Proof. done. Qed.

(** What the two handlers answer, and what they change. *)
Lemma wishlistHandlers_run sv method authorization pathID :
  let added := addToWishlistHandler sv method authorization pathID in
  let removed := removeFromWishlistHandler sv method authorization pathID in
  (match fst added with
   | Json status id =>
       status = 201 /\ pathID = Some id /\ method = "POST" /\
       exists user,
         authUser sv authorization = Some user /\
         is_Some (products (store sv) !! id) /\
         isProductInWishlist (wishlists sv) (User.ID user) id = false /\
         snd added = setWishlists sv (snd (addToWishlist (wishlists sv) (User.ID user) id))
   | Failure status _ => status ∈ [400; 401; 404; 405; 409] /\ snd added = sv
   end) /\
  (match fst removed with
   | Json status id =>
       status = 200 /\ pathID = Some id /\ method = "DELETE" /\
       exists user,
         authUser sv authorization = Some user /\
         isProductInWishlist (wishlists sv) (User.ID user) id = true /\
         snd removed
         = setWishlists sv (snd (removeFromWishlist (wishlists sv) (User.ID user) id))
   | Failure status _ => status ∈ [400; 401; 404; 405] /\ snd removed = sv
   end).
Proof.
  intros added removed. subst added removed. split.
  - unfold addToWishlistHandler.
    destruct (String.eqb_spec method "POST") as [Hm|Hm]; cbn [negb fst snd];
      [|split; [listed|done]].
    destruct (authUser sv authorization) as [user|]; cbn [fst snd]; [|split; [listed|done]].
    destruct pathID as [id|]; cbn [fst snd]; [|split; [listed|done]].
    destruct (products (store sv) !! id) as [product|] eqn:Hp; cbn [fst snd];
      [|split; [listed|done]].
    unfold addToWishlist, isProductInWishlist. cbv zeta.
    destruct (wishlists sv !! wishlistKey (User.ID user) id) eqn:Hk; cbn [fst snd].
    + split; [listed|]. apply setWishlists_same.
    + repeat (split; [done|]). exists user. split; [done|]. split; [by eexists|].
      by rewrite Hk.
  - unfold removeFromWishlistHandler.
    destruct (String.eqb_spec method "DELETE") as [Hm|Hm]; cbn [negb fst snd];
      [|split; [listed|done]].
    destruct (authUser sv authorization) as [user|]; cbn [fst snd]; [|split; [listed|done]].
    destruct pathID as [id|]; cbn [fst snd]; [|split; [listed|done]].
    unfold removeFromWishlist, isProductInWishlist. cbv zeta.
    destruct (wishlists sv !! wishlistKey (User.ID user) id) eqn:Hk; cbn [fst snd].
    + repeat (split; [done|]). exists user. split; [done|]. by rewrite Hk.
    + split; [listed|]. apply setWishlists_same.
Qed.

(** X25.  The wishlist pages change favourites and nothing else.
    [addToWishlistHandler] answers 201 only to a POST of a session user for
    a product of the catalogue that is not yet on the user's wishlist, and
    [removeFromWishlistHandler] answers 200 only to a DELETE of a session
    user for a product that is on it; every other request gets 400, 401,
    404, 405 or 409 and changes nothing.  After a 201 the product page
    shows the product as a favourite of that user, a second POST gets 409,
    and a DELETE gets 200 and puts the server back as it was before the
    POST.  The favourites of other users, the store, the sessions and the
    counters never change. *)
Theorem wishlist_pages rt sv method authorization pathID :
  products_wf (products (store sv)) ->
  let added := addToWishlistHandler sv method authorization pathID in
  let removed := removeFromWishlistHandler sv method authorization pathID in
  (forall r, r = snd added \/ r = snd removed ->
     store r = store sv /\ sessions r = sessions sv /\ usersByName r = usersByName sv /\
     nextProductID r = nextProductID sv /\ nextUserID r = nextUserID sv /\
     tokenCounter r = tokenCounter sv) /\
  (match fst added with
   | Json status id =>
       status = 201 /\ pathID = Some id /\ method = "POST" /\
       exists user product e,
         authUser sv authorization = Some user /\
         products (store sv) !! id = Some product /\
         isProductInWishlist (wishlists sv) (User.ID user) id = false /\
         getProductHandler rt (snd added) "GET" authorization pathID = Json 200 e /\
         ProductDetailResponseWithFavorite.IsFavorite e = true /\
         (forall u p, (u, p) <> (User.ID user, id) ->
            isProductInWishlist (wishlists (snd added)) u p
            = isProductInWishlist (wishlists sv) u p) /\
         addToWishlistHandler (snd added) "POST" authorization pathID
         = (Failure 409 "Product already in wishlist", snd added) /\
         removeFromWishlistHandler (snd added) "DELETE" authorization pathID
         = (Json 200 id, sv)
   | Failure status _ => status ∈ [400; 401; 404; 405; 409] /\ snd added = sv
   end) /\
  (match fst removed with
   | Json status id =>
       status = 200 /\ pathID = Some id /\ method = "DELETE" /\
       exists user,
         authUser sv authorization = Some user /\
         isProductInWishlist (wishlists sv) (User.ID user) id = true /\
         isProductInWishlist (wishlists (snd removed)) (User.ID user) id = false /\
         (forall u p, (u, p) <> (User.ID user, id) ->
            isProductInWishlist (wishlists (snd removed)) u p
            = isProductInWishlist (wishlists sv) u p) /\
         fst (removeFromWishlistHandler (snd removed) "DELETE" authorization pathID)
         = Failure 404 "Product not in wishlist"
   | Failure status _ => status ∈ [400; 401; 404; 405] /\ snd removed = sv
   end).
Proof.
  intros Hwf added removed.
  destruct (wishlistHandlers_run sv method authorization pathID) as [Hadd Hrem].
  cbv zeta in Hadd, Hrem. fold added in Hadd. fold removed in Hrem.
  split; [|split].
  - assert (Hset : forall w, let r := setWishlists sv w in
              store r = store sv /\ sessions r = sessions sv /\
              usersByName r = usersByName sv /\ nextProductID r = nextProductID sv /\
              nextUserID r = nextUserID sv /\ tokenCounter r = tokenCounter sv) by done.
    intros r [-> | ->].
    + destruct (fst added) as [status msg|status id].
      * destruct Hadd as [_ ->]. done.
      * destruct Hadd as (_ & _ & _ & user & _ & _ & _ & ->). apply Hset.
    + destruct (fst removed) as [status msg|status id].
      * destruct Hrem as [_ ->]. done.
      * destruct Hrem as (_ & _ & _ & user & _ & _ & ->). apply Hset.
  - clear Hrem. destruct (fst added) as [status msg|status id]; [done|].
    destruct Hadd as (-> & -> & -> & user & Hu & [product Hp] & Habsent & Hsv).
    repeat (split; [done|]). rewrite Hsv. clear Hsv.
    pose proof (Hwf _ _ Hp) as Hid.
    apply isProductInWishlist_false in Habsent.
    set (key := wishlistKey (User.ID user) id) in *.
    assert (Hw : snd (addToWishlist (wishlists sv) (User.ID user) id)
                 = <[key := Wishlist.mk (User.ID user) id]> (wishlists sv)).
    { unfold addToWishlist. fold key. by rewrite Habsent. }
    rewrite Hw.
    exists user, product, (productDetail rt (setWishlists sv (<[key := Wishlist.mk (User.ID user) id]> (wishlists sv))) (Some user) product).
    split; [done|]. split; [done|]. split; [by apply isProductInWishlist_false|].
    split; [|split; [|split; [|split]]].
    + unfold getProductHandler. cbn [String.eqb Ascii.eqb Bool.eqb negb].
      rewrite authUser_setWishlists, Hu.
      change (store (setWishlists sv _)) with (store sv). by rewrite Hp.
    + destruct (productDetail_fields rt
                  (setWishlists sv (<[key := Wishlist.mk (User.ID user) id]> (wishlists sv)))
                  (Some user) product) as (_ & _ & ->).
      rewrite Hid. apply isProductInWishlist_lookup. cbn [wishlists setWishlists].
      fold key. by rewrite lookup_insert_eq.
    + intros u p Hne. cbn [wishlists setWishlists]. unfold isProductInWishlist.
      rewrite lookup_insert_ne; [done|].
      intros Hk. unfold key in Hk. apply wishlistKey_inj in Hk as [<- <-]. done.
    + unfold addToWishlistHandler. cbn [String.eqb Ascii.eqb Bool.eqb negb].
      rewrite authUser_setWishlists, Hu.
      change (store (setWishlists sv _)) with (store sv). rewrite Hp.
      unfold addToWishlist. cbn [wishlists setWishlists]. fold key.
      rewrite lookup_insert_eq. by destruct sv.
    + unfold removeFromWishlistHandler. cbn [String.eqb Ascii.eqb Bool.eqb negb].
      rewrite authUser_setWishlists, Hu.
      unfold removeFromWishlist. cbn [wishlists setWishlists]. fold key.
      rewrite lookup_insert_eq, delete_insert_eq, delete_id by done.
      unfold setWishlists. cbn. by destruct sv.
  - clear Hadd. destruct (fst removed) as [status msg|status id]; [done|].
    destruct Hrem as (-> & -> & -> & user & Hu & Hthere & Hsv).
    repeat (split; [done|]). rewrite Hsv. clear Hsv.
    apply isProductInWishlist_lookup in Hthere as [x Hx].
    set (key := wishlistKey (User.ID user) id) in *.
    assert (Hw : snd (removeFromWishlist (wishlists sv) (User.ID user) id)
                 = delete key (wishlists sv)).
    { unfold removeFromWishlist. fold key. by rewrite Hx. }
    rewrite Hw. exists user.
    split; [done|]. split; [apply isProductInWishlist_lookup; by eexists|].
    split; [|split].
    + apply isProductInWishlist_false. cbn [wishlists setWishlists]. fold key.
      apply lookup_delete_eq.
    + intros u p Hne. cbn [wishlists setWishlists]. unfold isProductInWishlist.
      rewrite lookup_delete_ne; [done|].
      intros Hk. unfold key in Hk. apply wishlistKey_inj in Hk as [<- <-]. done.
    + unfold removeFromWishlistHandler. cbn [String.eqb Ascii.eqb Bool.eqb negb].
      rewrite authUser_setWishlists, Hu.
      unfold removeFromWishlist. cbn [wishlists setWishlists]. fold key.
      by rewrite lookup_delete_eq.
Qed.

Lemma wishlist_pages_witness :
  removeFromWishlistHandler
    (snd (addToWishlistHandler adminServer "POST" adminAuthorization (Some 1)))
    "DELETE" adminAuthorization (Some 1)
  = (Json 200 1, adminServer).
Proof.
  destruct (wishlist_pages (runtimeWith true) adminServer "POST" adminAuthorization (Some 1))
    as (_ & H & _).
  { apply (bool_decide_unpack _). vm_compute. exact I. }
  assert (E : fst (addToWishlistHandler adminServer "POST" adminAuthorization (Some 1))
              = Json 201 1) by (vm_compute; reflexivity).
  rewrite E in H.
  destruct H as (_ & _ & _ & user & product & e & _ & _ & _ & _ & _ & _ & _ & H).
  exact H.
Defined.

(** ** What a checkout keeps of stock lines and users *)

Lemma lines_kept_refl s : lines_kept s s.
Proof. intros k x Hk. by exists x. Qed.

Lemma lines_kept_trans s1 s2 s3 : lines_kept s1 s2 -> lines_kept s2 s3 -> lines_kept s1 s3.
Proof.
  intros H12 H23 k x3 Hk. destruct (H23 k x3 Hk) as (x2 & Hk2 & Hp & Hw).
  destruct (H12 k x2 Hk2) as (x1 & Hk1 & Hp' & Hw'). exists x1.
  split; [done|]. split; congruence.
Qed.

Lemma decrement_lines p wq s : lines_kept s (decrement p wq s).
Proof.
  unfold decrement. cbv zeta. destruct (s !! stockKey p (fst wq)) as [x|] eqn:Hx.
  - intros k x' Hk. destruct (decide (k = stockKey p (fst wq))) as [->|Hne].
    + rewrite lookup_insert_eq in Hk. injection Hk as <-. by exists x.
    + rewrite lookup_insert_ne in Hk by done. by exists x'.
  - apply lines_kept_refl.
Qed.

Lemma commit_lines p (l : list (Z * Z)) : forall s, lines_kept s (commit p l s).
Proof.
  induction l as [|wq l IH]; intros s; [apply lines_kept_refl|].
  change (commit p (wq :: l) s) with (commit p l (decrement p wq s)).
  eapply lines_kept_trans; [apply decrement_lines|apply IH].
Qed.

Lemma allocateStock_lines rt s p q : lines_kept s (snd (allocateStock rt s p q)).
Proof.
  unfold allocateStock. destruct (allocate_loop _ _ _) as [allocations remaining].
  destruct (remaining =? 0); cbn [snd]; [apply commit_lines|apply lines_kept_refl].
Qed.

Lemma allocateItems_lines rt (items : list OrderItem.t) :
  forall s, lines_kept s (snd (allocateItems rt s items)).
Proof.
  induction items as [|item rest IH]; intros s; [apply lines_kept_refl|].
  cbn [allocateItems].
  pose proof (allocateStock_lines rt s (OrderItem.ProductID item) (OrderItem.Quantity item))
    as H1.
  destruct (allocateStock rt s _ _) as [[ok plan] s1]. cbn [snd] in H1.
  destruct ok; [|done]. eapply lines_kept_trans; [exact H1|apply IH].
Qed.

Lemma accounts_kept_refl st : accounts_kept st st.
Proof. done. Qed.

Lemma accounts_kept_trans st1 st2 st3 :
  accounts_kept st1 st2 -> accounts_kept st2 st3 -> accounts_kept st1 st3.
Proof. intros H12 H23 id. by rewrite H23, H12. Qed.

Lemma insert_account (m : gmap Z User.t) uid user user' :
  m !! uid = Some user -> account user' = account user ->
  forall id, account <$> <[uid := user']> m !! id = account <$> m !! id.
Proof.
  intros Hu Ha id. destruct (decide (id = uid)) as [->|Hne].
  - rewrite lookup_insert_eq, Hu. cbn. by rewrite Ha.
  - by rewrite lookup_insert_ne.
Qed.

Lemma recordPoints_accounts st uid user b h :
  users st !! uid = Some user ->
  accounts_kept st (recordPoints st uid (User.setCurrentPoints user b) h).
Proof. intros Hu id. cbn [users recordPoints]. by apply (insert_account _ _ user). Qed.

Lemma usePoints_accounts now st uid oid a :
  accounts_kept st (snd (usePoints now st uid oid a)).
Proof.
  unfold usePoints. destruct (users st !! uid) as [user|] eqn:Hu; [|done].
  destruct (_ <=? _); [|done]. by apply recordPoints_accounts.
Qed.

Lemma addPoints_accounts now st uid oid a : accounts_kept st (addPoints now st uid oid a).
Proof.
  unfold addPoints. destruct (users st !! uid) as [user|] eqn:Hu; [|done].
  by apply recordPoints_accounts.
Qed.

Lemma rollbackPoints_accounts now st uid oid a :
  accounts_kept st (rollbackPoints now st uid oid a).
Proof.
  unfold rollbackPoints. destruct (users st !! uid) as [user|] eqn:Hu; [|done].
  by apply recordPoints_accounts.
Qed.

Lemma updateUserPurchaseAmountAndRank_accounts st uid a :
  accounts_kept st (updateUserPurchaseAmountAndRank st uid a).
Proof.
  unfold updateUserPurchaseAmountAndRank.
  destruct (users st !! uid) as [user|] eqn:Hu; [|done].
  intros id. cbn [users setUsers]. by apply (insert_account _ _ user).
Qed.

Lemma setStocks_accounts st s : accounts_kept st (setStocks st s).
Proof. done. Qed.

Lemma saveOrder_accounts st o : accounts_kept st (saveOrder st o).
Proof. done. Qed.

Ltac accounts :=
  repeat match goal with
         | |- accounts_kept ?a ?a => apply accounts_kept_refl
         | |- accounts_kept _ (saveOrder _ _) =>
             eapply accounts_kept_trans; [|apply saveOrder_accounts]
         | |- accounts_kept _ (updateUserPurchaseAmountAndRank _ _ _) =>
             eapply accounts_kept_trans; [|apply updateUserPurchaseAmountAndRank_accounts]
         | |- accounts_kept _ (if ?b then _ else _) => destruct b
         | |- accounts_kept _ (addPoints _ _ _ _ _) =>
             eapply accounts_kept_trans; [|apply addPoints_accounts]
         | |- accounts_kept _ (rollbackPoints _ _ _ _ _) =>
             eapply accounts_kept_trans; [|apply rollbackPoints_accounts]
         | |- accounts_kept _ (setStocks _ _) =>
             eapply accounts_kept_trans; [|apply setStocks_accounts]
         | |- accounts_kept _ _ => assumption
         end.

Lemma settleOrder_accounts rt st uid user req coupon subtotal :
  accounts_kept st (snd (settleOrder rt st uid user req coupon subtotal)).
Proof.
  unfold settleOrder.
  set (p := computePricing _ _ _ _). clearbody p.
  set (payment := ProcessPayment rt _ _). clearbody payment.
  assert (H1 : accounts_kept st
                 (snd (if 0 <? UsePoints req
                       then usePoints (time_Now rt 0) st uid (nextOrderID st) (UsePoints req)
                       else (false, st)))).
  { destruct (0 <? UsePoints req); [apply usePoints_accounts|done]. }
  destruct (if 0 <? UsePoints req then _ else _) as [pointsUsed st1]. cbn [snd] in H1.
  destruct ((0 <? UsePoints req) && negb pointsUsed); [done|].
  destruct (PaymentResult.Success payment).
  - destruct (allocateItems rt (stocks st1) (Items req)) as [all s2].
    destruct (negb all); cbn [snd]; accounts.
  - cbn [snd]. accounts.
Qed.

Lemma createOrderHandler_accounts rt st r :
  accounts_kept st (snd (createOrderHandler rt st r)).
Proof.
  destruct (createOrderHandler_run rt st r)
    as [[-> _]|(uid & user & req & coupon & subtotal & Hv)]; [done|].
  rewrite (createOrderHandler_validated _ _ _ _ _ _ _ _ Hv).
  apply settleOrder_accounts.
Qed.

(** ** The invariant of the server, request by request *)

Ltac open_ok H :=
  destruct H as [Hswf Hsnn Hsref Hpwf Hpbelow HnextP Hwh Hcp Huwf Hubelow HnextU Huidx
                 Hbyname Hadmin Hadminacc Hsess Hiss Htcb Hord HnextO Hwwf Hwref].

Lemma server_ok_mono n m sv : server_ok n sv -> n <= m -> server_ok m sv.
Proof. intros Hok Hnm. open_ok Hok. constructor; try done; lia. Qed.

Lemma initServer_ok adminPass : server_ok 0 (initServer adminPass).
Proof.
  constructor; cbn [store initServer nextProductID nextUserID tokenCounter sessions
                    wishlists usersByName];
    first [ lia | reflexivity | apply map_Forall_empty | apply initStore_stocks_wf
          | apply (bool_decide_unpack _); vm_compute; exact I ].
Qed.

(** The session user is a user of the store, under its own ID. *)
Lemma authUser_stored sv authorization user :
  users_wf (users (store sv)) -> authUser sv authorization = Some user ->
  users (store sv) !! User.ID user = Some user.
Proof.
  intros Hwf. unfold authUser. destruct (getAuthUser sv authorization) as [uid|]; [|done].
  intros Hu. by rewrite (Hwf _ _ Hu).
Qed.

Lemma addToWishlistHandler_ok n sv method authorization pathID :
  server_ok n sv ->
  server_ok n (snd (addToWishlistHandler sv method authorization pathID)).
Proof.
  intros Hok.
  destruct (wishlistHandlers_run sv method authorization pathID) as [Hadd _].
  cbv zeta in Hadd.
  destruct (fst (addToWishlistHandler sv method authorization pathID)) as [status msg|status id].
  { destruct Hadd as [_ ->]. done. }
  destruct Hadd as (_ & _ & _ & user & Hu & Hp & Habsent & ->).
  apply authUser_stored in Hu; [|apply Hok].
  apply isProductInWishlist_false in Habsent.
  open_ok Hok. constructor; cbn [store setWishlists wishlists sessions usersByName
                                  nextProductID nextUserID tokenCounter]; try done.
  - by apply addToWishlist_wf.
  - unfold addToWishlist. rewrite Habsent. cbn [snd].
    apply map_Forall_insert_2; [|done]. cbn. split; [by eexists|done].
Qed.

Lemma removeFromWishlistHandler_ok n sv method authorization pathID :
  server_ok n sv ->
  server_ok n (snd (removeFromWishlistHandler sv method authorization pathID)).
Proof.
  intros Hok.
  destruct (wishlistHandlers_run sv method authorization pathID) as [_ Hrem].
  cbv zeta in Hrem.
  destruct (fst (removeFromWishlistHandler sv method authorization pathID))
    as [status msg|status id].
  { destruct Hrem as [_ ->]. done. }
  destruct Hrem as (_ & _ & _ & user & Hu & Hthere & ->).
  apply isProductInWishlist_lookup in Hthere as [x Hx].
  open_ok Hok. constructor; cbn [store setWishlists wishlists sessions usersByName
                                  nextProductID nextUserID tokenCounter]; try done.
  - by apply removeFromWishlist_wf.
  - unfold removeFromWishlist. rewrite Hx. cbn [snd]. by apply map_Forall_delete.
Qed.

Lemma loginHandler_ok n h sv method body :
  server_ok n sv -> 0 <= n < 2 ^ 62 ->
  server_ok (n + 1) (snd (loginHandler h sv method body)).
Proof.
  intros Hok Hn. unfold loginHandler.
  destruct (negb (String.eqb method "POST")); [by apply (server_ok_mono n); [|lia]|].
  destruct body as [req|]; [|by apply (server_ok_mono n); [|lia]].
  destruct (usersByName sv !! Credentials.Username req) as [uid|];
    [|by apply (server_ok_mono n); [|lia]].
  destruct (users (store sv) !! uid) as [user|] eqn:Hu;
    [|by apply (server_ok_mono n); [|lia]].
  destruct (negb (bcrypt_CompareHashAndPassword h _ _));
    [by apply (server_ok_mono n); [|lia]|].
  assert (Htc : int_ok (tokenCounter sv + 1)).
  { destruct Hok. unfold int_ok. lia. }
  pose proof (next_token_issued h sv uid (ok_sessions_issued _ _ Hok) Htc) as Hnext.
  unfold generateToken in *. cbn [fst snd] in *.
  open_ok Hok. constructor; cbn [store setSessions setTokenCounter wishlists sessions
                                  usersByName nextProductID nextUserID tokenCounter];
    try done; try lia.
  - apply map_Forall_insert_2; [by eexists|done].
  - rewrite add64_exact by done. lia.
Qed.

Lemma insert_is_Some {A : Type} (m : gmap Z A) i x k :
  is_Some (m !! k) -> is_Some (<[i := x]> m !! k).
Proof.
  intros Hk. destruct (decide (k = i)) as [->|Hne].
  - rewrite lookup_insert_eq. by eexists.
  - by rewrite lookup_insert_ne.
Qed.

Lemma registerHandler_ok n h sv method body :
  server_ok n sv -> 0 <= n < 2 ^ 62 ->
  server_ok (n + 1) (snd (registerHandler h sv method body)).
Proof.
  intros Hok Hn. unfold registerHandler.
  destruct (negb (String.eqb method "POST")); [by apply (server_ok_mono n); [|lia]|].
  destruct body as [req|]; [|by apply (server_ok_mono n); [|lia]].
  destruct (_ || _); [by apply (server_ok_mono n); [|lia]|].
  destruct (usersByName sv !! Credentials.Username req) as [uid|] eqn:Hname;
    [by apply (server_ok_mono n); [|lia]|].
  destruct (bcrypt_GenerateFromPassword h (Credentials.Password req)) as [hash|];
    [|by apply (server_ok_mono n); [|lia]].
  cbv zeta. unfold generateToken. cbn [fst snd User.ID User.Username].
  set (name := Credentials.Username req) in *.
  set (new := nextUserID sv) in *.
  set (user := User.mk new name hash false EmptyString 0 0 "Normal").
  set (token := tokenString _ _ _).
  assert (Hnew : add64 new 1 = new + 1).
  { apply add64_exact. destruct Hok. unfold int_ok. subst new. lia. }
  assert (Htc : add64 (tokenCounter sv) 1 = tokenCounter sv + 1).
  { apply add64_exact. destruct Hok. unfold int_ok. lia. }
  assert (Hfresh : users (store sv) !! new = None).
  { destruct (users (store sv) !! new) eqn:E; [|done].
    apply (ok_users_below _ _ Hok) in E. lia. }
  open_ok Hok.
  constructor; cbn [store setStore setUsers setSessions setTokenCounter wishlists sessions
                    usersByName nextProductID nextUserID tokenCounter
                    stocks products warehouses coupons users orders nextOrderID];
    try done; try lia.
  - (* users_wf *)
    apply map_Forall_insert_2; [done|]. by apply map_Forall_insert_2.
  - (* below *)
    rewrite Hnew. apply map_Forall_insert_2; [subst new; lia|].
    apply map_Forall_insert_2; [subst new; lia|].
    eapply map_Forall_impl; [exact Hubelow|]. cbn. intros. subst new. lia.
  - (* indexed *)
    rewrite insert_insert_eq. apply map_Forall_insert_2.
    + cbn. apply lookup_insert_eq.
    + intros id u Hu. cbn. pose proof (Huidx id u Hu) as Hidx. cbn in Hidx.
      rewrite lookup_insert_ne; [done|]. intros Heq. rewrite <- Heq in Hidx. congruence.
  - (* usersByName *)
    rewrite insert_insert_eq. apply map_Forall_insert_2.
    + by rewrite lookup_insert_eq.
    + intros name' id Hid. cbn. pose proof (Hbyname name' id Hid) as Hu. cbn in Hu.
      rewrite lookup_insert_ne; [done|]. intros <-. by rewrite Hfresh in Hu.
  - (* admin *)
    rewrite insert_insert_eq. apply map_Forall_insert_2; [done|]. done.
  - (* the administrator *)
    rewrite !lookup_insert_ne by (subst new; lia). done.
  - (* sessions *)
    apply map_Forall_insert_2.
    + rewrite lookup_insert_eq. by eexists.
    + eapply map_Forall_impl; [exact Hsess|]. cbn. intros _ id Hid.
      by do 2 apply insert_is_Some.
  - (* issued *)
    unfold sessions_issued. subst token.
    cbn [sessions tokenCounter nextUserID setStore setSessions setTokenCounter].
    rewrite Htc. apply map_Forall_insert_2.
    + eexists _, _, _. split; [reflexivity|lia].
    + eapply map_Forall_impl; [exact Hiss|]. cbn.
      intros t _ (a & u & c & -> & Hc). exists a, u, c. split; [done|lia].
  - (* orders *)
    eapply map_Forall_impl; [exact Hord|]. cbn.
    intros id o (H1 & H2 & H3 & H4). repeat split; try done; try lia.
    by do 2 apply insert_is_Some.
  - (* wishlists *)
    eapply map_Forall_impl; [exact Hwref|]. cbn.
    intros k x [H1 H2]. split; [|done]. by do 2 apply insert_is_Some.
Qed.

Lemma createProductHandler_ok n rt sv method authorization body :
  server_ok n sv -> 0 <= n < 2 ^ 62 ->
  (forall req, body = Some req -> int_ok (ProductRequest.InitialStock req)) ->
  server_ok (n + 1) (snd (createProductHandler rt sv method authorization body)).
Proof.
  intros Hok Hn Hint.
  destruct (createProductHandler_run rt sv method authorization body)
    as [(status & message & -> & _)|(user & req & _ & _ & _ & Hb & _ & _ & Hi & _ & H)].
  { by apply (server_ok_mono n); [|lia]. }
  cbv zeta in H. rewrite H. clear H. cbn [snd].
  specialize (Hint req Hb).
  set (new := nextProductID sv) in *.
  set (init := ProductRequest.InitialStock req) in *.
  set (product := Product.mk new _ _ _).
  assert (Hnew : add64 new 1 = new + 1).
  { apply add64_exact. destruct Hok. unfold int_ok. subst new. lia. }
  assert (Hw1 : is_Some (warehouses (store sv) !! 1)).
  { rewrite (ok_warehouses _ _ Hok). by eexists. }
  open_ok Hok.
  constructor; cbn [store setStocks setProducts wishlists sessions
                    usersByName nextProductID nextUserID tokenCounter
                    stocks products warehouses coupons users orders nextOrderID];
    try done; try lia.
  - (* stocks_wf *)
    destruct (0 <? init); [|done]. by apply map_Forall_insert_2.
  - (* nonneg *)
    destruct (0 <? init); [|done]. by apply map_Forall_insert_2.
  - (* refer *)
    assert (Hold : map_Forall
                     (fun (_ : string) (x : Stock.t) =>
                        is_Some (warehouses (store sv) !! Stock.WarehouseID x) /\
                        is_Some (<[new := product]> (products (store sv))
                                   !! Stock.ProductID x))
                     (stocks (store sv))).
    { eapply map_Forall_impl; [exact Hsref|]. cbn. intros k x [H1 H2].
      split; [done|]. by apply insert_is_Some. }
    destruct (0 <? init); [|done]. apply map_Forall_insert_2; [|done].
    cbn. split; [done|]. rewrite lookup_insert_eq. by eexists.
  - (* products_wf *)
    by apply map_Forall_insert_2.
  - (* below *)
    rewrite Hnew. apply map_Forall_insert_2; [subst new; lia|].
    eapply map_Forall_impl; [exact Hpbelow|]. cbn. intros. subst new. lia.
  - (* orders *)
    eapply map_Forall_impl; [exact Hord|]. cbn.
    intros id o (H1 & H2 & H3 & H4). repeat split; try done; try lia.
    eapply Forall_impl; [exact H4|]. cbn. intros item. apply insert_is_Some.
  - (* wishlists *)
    eapply map_Forall_impl; [exact Hwref|]. cbn.
    intros k x [H1 H2]. split; [done|]. by apply insert_is_Some.
Qed.

Lemma accounts_kept_lookup st st' id u' :
  accounts_kept st st' -> users st' !! id = Some u' ->
  exists u, users st !! id = Some u /\ account u' = account u.
Proof.
  intros Hk Hu. specialize (Hk id). rewrite Hu in Hk.
  destruct (users st !! id) as [u|]; [|done]. exists u. split; [done|].
  by apply (inj Some) in Hk.
Qed.

Lemma accounts_kept_is_Some st st' id :
  accounts_kept st st' -> is_Some (users st !! id) -> is_Some (users st' !! id).
Proof.
  intros Hk [u Hu]. specialize (Hk id). rewrite Hu in Hk.
  destruct (users st' !! id); [by eexists|done].
Qed.

(** What a checkout does to the store, whatever its outcome. *)
Lemma createOrderHandler_step rt st r :
  runtime_ok rt -> stocks_wf (stocks st) -> stocks_nonneg (stocks st) ->
  let st' := snd (createOrderHandler rt st r) in
  products st' = products st /\ warehouses st' = warehouses st /\
  coupons st' = coupons st /\ accounts_kept st st' /\
  stocks_wf (stocks st') /\ stocks_nonneg (stocks st') /\
  lines_kept (stocks st) (stocks st') /\
  ((orders st' = orders st /\ nextOrderID st' = nextOrderID st) \/
   exists o,
     orders st' = <[nextOrderID st := o]> (orders st) /\
     nextOrderID st' = add64 (nextOrderID st) 1 /\
     Order.ID o = nextOrderID st /\ is_Some (users st !! Order.UserID o) /\
     Forall (fun item => is_Some (products st !! OrderItem.ProductID item))
            (Order.Items o)).
Proof.
  intros Hrt Hwf Hnn st'.
  pose proof (createOrderHandler_accounts rt st r) as Hacc. fold st' in Hacc.
  subst st'.
  destruct (createOrderHandler_run rt st r)
    as [[-> _]|(uid & user & req & coupon & subtotal & Hv)].
  { repeat (split; [done|]). split; [apply lines_kept_refl|]. by left. }
  rewrite (createOrderHandler_validated _ _ _ _ _ _ _ _ Hv) in *.
  destruct Hv as (_ & _ & Hu & _ & _ & Hp & _ & Hitems).
  destruct (settleOrder_run rt st uid user req coupon subtotal Hu Hp)
    as (_ & Hs & Ho & Hn & Hpr & Hw & Hc).
  pose proof (checkItems_covered _ _ _ _ _ _ Hitems) as Hcov.
  rewrite Hs, Hpr, Hw, Hc.
  repeat (split; [done|]).
  assert (Hq : Forall (fun it => 0 < OrderItem.Quantity it /\ int_ok (OrderItem.Quantity it))
                      (Items req)).
  { eapply Forall_impl; [exact Hcov|]. intros it (? & ? & _). done. }
  destruct (allocateItems_invariant rt Hrt (Items req) (stocks st) Hwf Hnn Hq) as [Hwf' Hnn'].
  split; [by destruct (PaymentResult.Success _)|].
  split; [by destruct (PaymentResult.Success _)|].
  split.
  { destruct (PaymentResult.Success _); [apply allocateItems_lines|apply lines_kept_refl]. }
  right. eexists. split; [exact Ho|]. split; [exact Hn|].
  cbn [orderOf Order.ID Order.UserID Order.Items]. split; [done|]. split; [by eexists|].
  eapply Forall_impl; [exact Hcov|]. intros it (_ & _ & product & Hprod & _). by eexists.
Qed.

Lemma placeOrder_ok n rt sv method authorization body :
  server_ok n sv -> 0 <= n < 2 ^ 62 -> runtime_ok rt ->
  server_ok (n + 1) (snd (placeOrder rt sv method authorization body)).
Proof.
  intros Hok Hn Hrt. unfold placeOrder. cbn [snd].
  set (r := mkRequest _ _ _).
  destruct (createOrderHandler_step rt (store sv) r Hrt (ok_stocks_wf _ _ Hok)
              (ok_stocks_nonneg _ _ Hok))
    as (Hpr & Hw & Hc & Hacc & Hwf' & Hnn' & Hlines & Horders).
  set (st' := snd (createOrderHandler rt (store sv) r)) in *. clearbody st'.
  open_ok Hok.
  assert (Hsome : forall id, is_Some (users (store sv) !! id) -> is_Some (users st' !! id)).
  { intros id. by apply accounts_kept_is_Some. }
  constructor; cbn [store setStore wishlists sessions usersByName nextProductID nextUserID
                    tokenCounter]; rewrite ?Hpr, ?Hw, ?Hc; try done; try lia.
  - (* refer *)
    intros k x' Hk. destruct (Hlines k x' Hk) as (x & Hx & -> & ->). by apply (Hsref k x).
  - (* users_wf *)
    intros id u' Hu'. destruct (accounts_kept_lookup _ _ _ _ Hacc Hu') as (u & Hu & Ha).
    cbn. injection Ha as -> _ _ _ _. by apply (Huwf id u).
  - (* below *)
    intros id u' Hu'. destruct (accounts_kept_lookup _ _ _ _ Hacc Hu') as (u & Hu & _).
    by apply (Hubelow id u).
  - (* indexed *)
    intros id u' Hu'. destruct (accounts_kept_lookup _ _ _ _ Hacc Hu') as (u & Hu & Ha).
    cbn. injection Ha as _ -> _ _ _. by apply (Huidx id u).
  - (* usersByName *)
    intros name id Hid. cbn. specialize (Hbyname name id Hid). cbn in Hbyname.
    destruct (users (store sv) !! id) as [u|] eqn:Hu; [|done].
    destruct (accounts_kept_is_Some _ _ id Hacc) as [u' Hu']; [by eexists|].
    destruct (accounts_kept_lookup _ _ _ _ Hacc Hu') as (u0 & Hu0 & Ha).
    rewrite Hu'. cbn in *. injection Ha as _ -> _ _ _. congruence.
  - (* admin *)
    intros id u' Hu'. destruct (accounts_kept_lookup _ _ _ _ Hacc Hu') as (u & Hu & Ha).
    cbn. injection Ha as _ _ _ -> _. by apply (Hadmin id u).
  - (* the administrator *)
    destruct (users (store sv) !! 1) as [u|] eqn:Hu; [|done].
    destruct (accounts_kept_is_Some _ _ 1 Hacc) as [u' Hu']; [by eexists|].
    destruct (accounts_kept_lookup _ _ _ _ Hacc Hu') as (u0 & Hu0 & Ha).
    rewrite Hu'. cbn in *. injection Ha as _ -> _ -> _. congruence.
  - (* sessions *)
    eapply map_Forall_impl; [exact Hsess|]. cbn. intros _ id. apply Hsome.
  - (* orders *)
    destruct Horders as [[-> ->]|(o & -> & -> & Hid & Huser & Hitems)].
    + eapply map_Forall_impl; [exact Hord|]. cbn.
      intros id o (H1 & H2 & H3 & H4). repeat split; try done; try lia. by apply Hsome.
    + rewrite add64_exact by (unfold int_ok; lia).
      apply map_Forall_insert_2.
      * repeat split; try done; try lia. by apply Hsome.
      * eapply map_Forall_impl; [exact Hord|]. cbn.
        intros id o' (H1 & H2 & H3 & H4). repeat split; try done; try lia. by apply Hsome.
  - (* nextOrderID *)
    destruct Horders as [[_ ->]|(o & _ & -> & _)]; [lia|].
    rewrite add64_exact by (unfold int_ok; lia). lia.
  - (* wishlists *)
    eapply map_Forall_impl; [exact Hwref|]. cbn.
    intros k x [H1 H2]. split; [by apply Hsome|done].
Qed.

(** One request, whatever it is. *)
Lemma mainHandler_ok n rt h sv r :
  server_ok n sv -> 0 <= n < 2 ^ 62 -> runtime_ok rt -> request_ok r ->
  server_ok (n + 1) (snd (mainHandler rt h sv r)).
Proof.
  intros Hok Hn Hrt (_ & Hproduct & _).
  assert (Hsame : server_ok (n + 1) sv) by (apply (server_ok_mono n); [done|lia]).
  unfold mainHandler. cbv zeta.
  destruct (route (HttpRequest.Path r) (HttpRequest.Method r)); cbn [snd]; try done.
  - pose proof (createProductHandler_ok n rt sv (HttpRequest.Method r)
                  (HttpRequest.Authorization r) (HttpRequest.productRequest r) Hok Hn) as H.
    destruct (createProductHandler _ _ _ _ _) as [reply sv']. apply H.
    intros req Hreq. by apply Hproduct.
  - pose proof (registerHandler_ok n h sv (HttpRequest.Method r)
                  (HttpRequest.credentials r) Hok Hn) as H.
    by destruct (registerHandler _ _ _ _) as [reply sv'].
  - pose proof (loginHandler_ok n h sv (HttpRequest.Method r)
                  (HttpRequest.credentials r) Hok Hn) as H.
    by destruct (loginHandler _ _ _ _) as [reply sv'].
  - pose proof (placeOrder_ok n rt sv (HttpRequest.Method r) (HttpRequest.Authorization r)
                  (HttpRequest.orderRequest r) Hok Hn Hrt) as H.
    by destruct (placeOrder _ _ _ _ _) as [resp sv'].
  - pose proof (addToWishlistHandler_ok n sv (HttpRequest.Method r)
                  (HttpRequest.Authorization r) (HttpRequest.pathID r) Hok) as H.
    destruct (addToWishlistHandler _ _ _ _) as [reply sv'].
    apply (server_ok_mono n); [done|lia].
  - pose proof (removeFromWishlistHandler_ok n sv (HttpRequest.Method r)
                  (HttpRequest.Authorization r) (HttpRequest.pathID r) Hok) as H.
    destruct (removeFromWishlistHandler _ _ _ _) as [reply sv'].
    apply (server_ok_mono n); [done|lia].
Qed.

Lemma serve_ok (steps : list (Runtime * Host * HttpRequest.t)) :
  forall n sv,
    server_ok n sv -> 0 <= n -> Forall step_ok steps ->
    n + Z.of_nat (length steps) < 2 ^ 62 ->
    server_ok (n + Z.of_nat (length steps)) (serve sv steps).
Proof.
  induction steps as [|[[rt h] r] steps IH]; intros n sv Hok Hn Hsteps Hlen.
  - cbn. by rewrite Z.add_0_r.
  - apply Forall_cons in Hsteps as [[Hrt Hr] Hsteps]. cbn [fst snd] in Hrt, Hr.
    cbn [length] in *. unfold serve. cbn [foldl fst snd].
    replace (n + Z.of_nat (S (length steps))) with (n + 1 + Z.of_nat (length steps)) by lia.
    apply IH; [|lia|done|lia]. apply mainHandler_ok; [done|lia|done|done].
Qed.

(** X26.  The server keeps its state consistent, whatever is asked of it.
    After any sequence of fewer than 2^62 requests to the server that
    [init] builds (any paths, methods, headers and bodies; any order of the
    ranges, any answers of bcrypt, the clock and the payment gateway) the
    invariant [server_ok] holds: every stock line sits under the key of its
    product and warehouse, holds a quantity >= 0 and refers to a product
    and a warehouse that exist; products, users and orders sit under their
    own IDs, below the counters; the name index and the users mirror each
    other, so that user names are unique; every session token belongs to a
    user that exists and was issued by [generateToken]; no user but the
    administrator of [init] is an administrator; every order belongs to a
    user and names products that exist; every wishlist entry names a user
    and a product that exist; warehouses and coupons are those of
    [init]. *)
Theorem serve_keeps_server_ok adminPass (steps : list (Runtime * Host * HttpRequest.t)) :
  Forall step_ok steps -> Z.of_nat (length steps) < 2 ^ 62 ->
  let sv := serve (initServer adminPass) steps in
  server_ok (Z.of_nat (length steps)) sv /\
  (forall authorization user,
     authUser sv authorization = Some user ->
     users (store sv) !! User.ID user = Some user /\
     usersByName sv !! User.Username user = Some (User.ID user) /\
     (User.IsAdmin user = true -> User.ID user = 1 /\ User.Username user = "admin")).
Proof.
  intros Hsteps Hlen sv.
  assert (Hok : server_ok (Z.of_nat (length steps)) sv).
  { pose proof (serve_ok steps 0 (initServer adminPass) (initServer_ok adminPass)) as H.
    rewrite Z.add_0_l in H. apply H; [lia|done|lia]. }
  split; [done|]. intros authorization user Hauth.
  pose proof (authUser_stored sv authorization user (ok_users_wf _ _ Hok) Hauth) as Hu.
  split; [done|]. split; [by apply (ok_users_indexed _ _ Hok _ _ Hu)|].
  intros Hadmin. pose proof (ok_admin _ _ Hok _ _ Hu Hadmin) as Hid. split; [done|].
  pose proof (ok_admin_account _ _ Hok) as Hacc. rewrite <- Hid, Hu in Hacc.
  cbn in Hacc. congruence.
Qed.

Lemma serve_keeps_server_ok_witness :
  server_ok 1
    (serve (initServer "hash:admin123")
       [(runtimeWith true, exampleHost,
         HttpRequest.mk "POST" "/register" EmptyString EmptyString None
           (Some (Credentials.mk "alice" "secret")) None None)]).
Proof.
  destruct (serve_keeps_server_ok "hash:admin123"
              [(runtimeWith true, exampleHost,
                HttpRequest.mk "POST" "/register" EmptyString EmptyString None
                  (Some (Credentials.mk "alice" "secret")) None None)])
    as [H _].
  - apply Forall_cons. split; [|apply Forall_nil_2].
    split; [apply runtimeWith_ok|]. cbn [snd].
    split; [|split]; intros x Hx; discriminate Hx.
  - cbn. lia.
  - exact H.
Defined.

(** ** The router *)

Lemma route_method path method m :
  routeMethod (route path method) = Some m -> method = m.
Proof.
  unfold route.
  destruct (String.eqb method "GET") eqn:Hget;
    destruct (String.eqb method "POST") eqn:Hpost;
    destruct (String.eqb method "DELETE") eqn:Hdel;
    rewrite ?andb_true_r, ?andb_false_r;
    repeat match goal with
           | |- context [if ?c then _ else _] => destruct c
           end;
    cbn [routeMethod]; intros [= <-]; by apply String.eqb_eq.
Qed.

(** A checkout that is asked for by POST. *)
Lemma createOrderHandler_post rt st r :
  Method r = "POST" ->
  (snd (createOrderHandler rt st r) = st /\
   statusCode (fst (createOrderHandler rt st r)) ∈ [400; 401; 404]) \/
  statusCode (fst (createOrderHandler rt st r)) ∈ [201; 402; 409].
Proof.
  intros Hm. unfold createOrderHandler. rewrite Hm.
  cbn [String.eqb Ascii.eqb Bool.eqb negb].
  destruct (Auth r) as [uid|]; [|left; split; [done|cbn; listed]].
  destruct (users st !! uid) as [user|] eqn:Hu; [|left; split; [done|cbn; listed]].
  destruct (Body r) as [req|]; [|left; split; [done|cbn; listed]].
  destruct (length (Items req) =? 0)%nat; [left; split; [done|cbn; listed]|].
  destruct (Z.ltb_spec (UsePoints req) 0); [left; split; [done|cbn; listed]|].
  destruct (Z.ltb_spec (User.CurrentPoints user) (UsePoints req));
    [left; split; [done|cbn; listed]|].
  destruct (lookupCoupon st (CouponCode req)) as [e|coupon] eqn:Hc.
  { apply lookupCoupon_error in Hc as ->. left; split; [done|cbn; listed]. }
  destruct (checkItems rt st (Items req) 0 0) as [e|subtotal] eqn:Hs.
  { left. split; [done|]. cbn [fst].
    destruct (checkItems_status _ _ _ _ _ _ Hs) as [-> | ->]; listed. }
  right.
  destruct (settleOrder_run rt st uid user req coupon subtotal Hu) as (-> & _); [lia|].
  destruct (PaymentResult.Success _); [destruct (fst (allocateItems _ _ _))|]; listed.
Qed.

Lemma setStore_same sv : setStore sv (store sv) = sv.
Proof. by destruct sv. Qed.

(** The case analysis of a handler that has been called with its method. *)
Ltac answer :=
  cbn [fst snd replyStatus routeStatuses routeMethod];
  split; [listed|];
  split; [intros Hin; first [reflexivity | exfalso; listed]|];
  first [reflexivity | discriminate].

Ltac cases :=
  repeat match goal with
         | |- context [match ?x with _ => _ end] =>
             lazymatch x with
             | context [match _ with _ => _ end] => fail
             | _ => destruct x
             end
         end.

(** What a case of the [switch] answers, and whether it changes the
    state. *)
Lemma mainHandler_route rt h sv r :
  let x := route (HttpRequest.Path r) (HttpRequest.Method r) in
  fst (mainHandler rt h sv r) ∈ routeStatuses x /\
  (fst (mainHandler rt h sv r) ∈ [400; 401; 403; 404; 500] ->
   snd (mainHandler rt h sv r) = sv) /\
  (routeMethod x = Some "GET" -> snd (mainHandler rt h sv r) = sv).
Proof.
  intros x. subst x.
  pose proof (route_method (HttpRequest.Path r) (HttpRequest.Method r)) as Hm.
  unfold mainHandler. cbv zeta.
  destruct (route (HttpRequest.Path r) (HttpRequest.Method r));
    cbn [routeMethod] in Hm; try rewrite (Hm _ eq_refl); clear Hm.
  - (* GetProducts *)
    unfold getProductsHandler. cbn [String.eqb Ascii.eqb Bool.eqb negb]. answer.
  - (* CreateProduct *)
    unfold createProductHandler. cbn [String.eqb Ascii.eqb Bool.eqb negb]. cases; answer.
  - (* GetProduct *)
    unfold getProductHandler. cbn [String.eqb Ascii.eqb Bool.eqb negb]. cases; answer.
  - (* Register *)
    unfold registerHandler, generateToken. cbn [String.eqb Ascii.eqb Bool.eqb negb].
    cases; answer.
  - (* Login *)
    unfold loginHandler, generateToken. cbn [String.eqb Ascii.eqb Bool.eqb negb].
    cases; answer.
  - (* CreateOrder *)
    unfold placeOrder.
    set (q := mkRequest "POST" _ _).
    destruct (createOrderHandler_post rt (store sv) q eq_refl) as [[Hst Hcode]|Hcode].
    + rewrite Hst, setStore_same. answer.
    + cbn [fst snd routeStatuses routeMethod].
      split; [listed|]. split; [intros Hin; exfalso; listed|discriminate].
  - (* GetOrders *)
    unfold getOrdersHandler. cbn [String.eqb Ascii.eqb Bool.eqb negb]. cases; answer.
  - (* GetSalesReport *)
    unfold getSalesReportHandler. cbn [String.eqb Ascii.eqb Bool.eqb negb]. cases; answer.
  - (* AddToWishlist *)
    unfold addToWishlistHandler, addToWishlist. cbn [String.eqb Ascii.eqb Bool.eqb negb].
    cases; try rewrite setWishlists_same; answer.
  - (* RemoveFromWishlist *)
    unfold removeFromWishlistHandler, removeFromWishlist.
    cbn [String.eqb Ascii.eqb Bool.eqb negb].
    cases; try rewrite setWishlists_same; answer.
  - (* GetRecommendations *)
    unfold getRecommendationsHandler. cbn [String.eqb Ascii.eqb Bool.eqb negb].
    cases; answer.
  - (* GetUserInfo *)
    unfold getUserInfoHandler. cbn [String.eqb Ascii.eqb Bool.eqb negb]. cases; answer.
  - (* NotFound *) answer.
Qed.

(** X27.  Behind the router no handler answers 405.  [mainHandler] calls a
    handler only with the method that the handler accepts, so the answer
    is one of the status codes of the table [routeStatuses] of the case,
    never 405 "Method not allowed"; a path and method that no case matches
    get 404 and change nothing.  A request that is answered 400, 401, 403,
    404 or 500 leaves the whole state of the server as it was, and so does
    every GET. *)
Theorem mainHandler_statuses rt h sv r :
  let x := route (HttpRequest.Path r) (HttpRequest.Method r) in
  let status := fst (mainHandler rt h sv r) in
  status ∈ routeStatuses x /\ status <> 405 /\
  (status ∈ [400; 401; 403; 404; 500] -> snd (mainHandler rt h sv r) = sv) /\
  (HttpRequest.Method r = "GET" -> snd (mainHandler rt h sv r) = sv) /\
  (x = NotFound -> mainHandler rt h sv r = (404, sv)).
Proof.
  intros x status.
  destruct (mainHandler_route rt h sv r) as (Hin & Herr & Hget).
  fold x in Hin, Hget. fold status in Hin, Herr.
  split; [done|]. split; [|split; [done|split]].
  - intros H405. rewrite H405 in Hin. destruct x; cbn [routeStatuses] in Hin; listed.
  - intros Hm.
    pose proof (route_method (HttpRequest.Path r) (HttpRequest.Method r)) as Hroute.
    fold x in Hroute. unfold mainHandler in *. cbv zeta in *. fold x in Hget |- *.
    rewrite Hm in Hroute.
    destruct x; cbn [routeMethod] in *; try (by apply Hget);
      try (specialize (Hroute _ eq_refl); discriminate Hroute); done.
  - intros Hx. unfold mainHandler. cbv zeta. fold x. by rewrite Hx.
Qed.

(** ** Sessions and passwords *)

(** A request keeps the account of every user there is. *)
Lemma mainHandler_accounts n rt h sv r uid u :
  server_ok n sv ->
  users (store sv) !! uid = Some u ->
  exists u', users (store (snd (mainHandler rt h sv r))) !! uid = Some u' /\
             account u' = account u.
Proof.
  intros Hok Hu. unfold mainHandler. cbv zeta.
  destruct (route (HttpRequest.Path r) (HttpRequest.Method r)); cbn [snd];
    try (by exists u).
  - (* CreateProduct *)
    destruct (createProductHandler_run rt sv (HttpRequest.Method r)
                (HttpRequest.Authorization r) (HttpRequest.productRequest r))
      as [(status & message & -> & _)|(user & req & _ & _ & _ & _ & _ & _ & _ & _ & H)].
    + by exists u.
    + cbv zeta in H. rewrite H. cbn [snd store]. by exists u.
  - (* Register *)
    unfold registerHandler, generateToken.
    destruct (negb (String.eqb (HttpRequest.Method r) "POST")); [by exists u|].
    destruct (HttpRequest.credentials r) as [req|]; [|by exists u].
    destruct (_ || _); [by exists u|].
    destruct (usersByName sv !! Credentials.Username req); [by exists u|].
    destruct (bcrypt_GenerateFromPassword h (Credentials.Password req)); [|by exists u].
    cbn [snd store setStore setSessions setTokenCounter setUsers users User.ID].
    assert (Hne : nextUserID sv <> uid).
    { pose proof (ok_users_below _ _ Hok _ _ Hu) as Hb. cbn in Hb. lia. }
    exists u. by rewrite !lookup_insert_ne.
  - (* Login *)
    unfold loginHandler, generateToken.
    destruct (negb (String.eqb (HttpRequest.Method r) "POST")); [by exists u|].
    destruct (HttpRequest.credentials r) as [req|]; [|by exists u].
    destruct (usersByName sv !! Credentials.Username req) as [uid0|]; [|by exists u].
    destruct (users (store sv) !! uid0); [|by exists u].
    destruct (negb _); by exists u.
  - (* CreateOrder *)
    unfold placeOrder. cbn [snd store setStore].
    set (q := mkRequest _ _ _).
    pose proof (createOrderHandler_accounts rt (store sv) q) as Hacc.
    destruct (accounts_kept_is_Some _ _ uid Hacc) as [u' Hu']; [by eexists|].
    exists u'. split; [done|].
    destruct (accounts_kept_lookup _ _ _ _ Hacc Hu') as (u0 & Hu0 & Ha). congruence.
  - (* AddToWishlist *)
    destruct (wishlistHandlers_run sv (HttpRequest.Method r) (HttpRequest.Authorization r)
                (HttpRequest.pathID r)) as [Hadd _].
    cbv zeta in Hadd. destruct (addToWishlistHandler _ _ _ _) as [reply sv'].
    cbn [fst snd] in *. destruct reply as [status msg|status id].
    + destruct Hadd as [_ ->]. by exists u.
    + destruct Hadd as (_ & _ & _ & user & _ & _ & _ & ->). by exists u.
  - (* RemoveFromWishlist *)
    destruct (wishlistHandlers_run sv (HttpRequest.Method r) (HttpRequest.Authorization r)
                (HttpRequest.pathID r)) as [_ Hrem].
    cbv zeta in Hrem. destruct (removeFromWishlistHandler _ _ _ _) as [reply sv'].
    cbn [fst snd] in *. destruct reply as [status msg|status id].
    + destruct Hrem as [_ ->]. by exists u.
    + destruct Hrem as (_ & _ & _ & user & _ & _ & ->). by exists u.
Qed.

(** A session that a request leaves was there before, or the request
    opened it. *)
Lemma mainHandler_session n rt h sv r t uid user' :
  server_ok n sv ->
  sessions (snd (mainHandler rt h sv r)) !! t = Some uid ->
  users (store (snd (mainHandler rt h sv r))) !! uid = Some user' ->
  sessions sv !! t = Some uid \/
  opened (User.Username user') (User.PasswordHash user') (rt, h, r).
Proof.
  intros Hok. unfold opened, mainHandler. cbv zeta. cbn [fst snd].
  destruct (route (HttpRequest.Path r) (HttpRequest.Method r)) eqn:Hroute; cbn [snd];
    try (by left).
  - (* CreateProduct *)
    destruct (createProductHandler_run rt sv (HttpRequest.Method r)
                (HttpRequest.Authorization r) (HttpRequest.productRequest r))
      as [(status & message & -> & _)|(user & req & _ & _ & _ & _ & _ & _ & _ & _ & H)].
    + by left.
    + cbv zeta in H. rewrite H. cbn [snd sessions]. by left.
  - (* Register *)
    unfold registerHandler, generateToken.
    destruct (negb (String.eqb (HttpRequest.Method r) "POST")); [by left|].
    destruct (HttpRequest.credentials r) as [req|]; [|by left].
    destruct (_ || _); [by left|].
    destruct (usersByName sv !! Credentials.Username req); [by left|].
    destruct (bcrypt_GenerateFromPassword h (Credentials.Password req)) as [hash|] eqn:Hhash;
      [|by left].
    cbn [snd store setStore setSessions setTokenCounter setUsers users sessions User.ID
         fst].
    set (token := tokenString _ _ _).
    destruct (decide (t = token)) as [->|Hne].
    + rewrite lookup_insert_eq. intros [= <-]. rewrite lookup_insert_eq. intros [= <-].
      right. exists req. cbn. split; [done|]. split; [done|]. left. done.
    + rewrite lookup_insert_ne by done. by left.
  - (* Login *)
    unfold loginHandler, generateToken.
    destruct (negb (String.eqb (HttpRequest.Method r) "POST")); [by left|].
    destruct (HttpRequest.credentials r) as [req|]; [|by left].
    destruct (usersByName sv !! Credentials.Username req) as [uid0|] eqn:Hname; [|by left].
    destruct (users (store sv) !! uid0) as [user|] eqn:Hu; [|by left].
    destruct (bcrypt_CompareHashAndPassword h (User.PasswordHash user)
                (Credentials.Password req)) eqn:Hpw; cbn [negb]; [|by left].
    cbn [snd store setSessions setTokenCounter sessions fst].
    set (token := tokenString _ _ _).
    destruct (decide (t = token)) as [->|Hne].
    + rewrite lookup_insert_eq. intros [= <-]. rewrite Hu. intros [= <-].
      right. exists req. split; [done|]. split; [|right; done].
      pose proof (ok_usersByName _ _ Hok _ _ Hname) as Hn. cbn in Hn. rewrite Hu in Hn.
      cbn in Hn. congruence.
    + rewrite lookup_insert_ne by done. by left.
  - (* AddToWishlist *)
    destruct (wishlistHandlers_run sv (HttpRequest.Method r) (HttpRequest.Authorization r)
                (HttpRequest.pathID r)) as [Hadd _].
    cbv zeta in Hadd. destruct (addToWishlistHandler _ _ _ _) as [reply sv'].
    cbn [fst snd] in *. destruct reply as [status msg|status id].
    + destruct Hadd as [_ ->]. by left.
    + destruct Hadd as (_ & _ & _ & user & _ & _ & _ & ->). by left.
  - (* RemoveFromWishlist *)
    destruct (wishlistHandlers_run sv (HttpRequest.Method r) (HttpRequest.Authorization r)
                (HttpRequest.pathID r)) as [_ Hrem].
    cbv zeta in Hrem. destruct (removeFromWishlistHandler _ _ _ _) as [reply sv'].
    cbn [fst snd] in *. destruct reply as [status msg|status id].
    + destruct Hrem as [_ ->]. by left.
    + destruct Hrem as (_ & _ & _ & user & _ & _ & ->). by left.
Qed.

Lemma serve_accounts (steps : list (Runtime * Host * HttpRequest.t)) :
  forall n sv uid u,
    server_ok n sv -> 0 <= n -> Forall step_ok steps ->
    n + Z.of_nat (length steps) < 2 ^ 62 ->
    users (store sv) !! uid = Some u ->
    exists u', users (store (serve sv steps)) !! uid = Some u' /\ account u' = account u.
Proof.
  induction steps as [|[[rt h] r] steps IH]; intros n sv uid u Hok Hn Hsteps Hlen Hu.
  - by exists u.
  - apply Forall_cons in Hsteps as [[Hrt Hr] Hsteps]. cbn [fst snd] in Hrt, Hr.
    cbn [length] in Hlen. unfold serve. cbn [foldl fst snd].
    destruct (mainHandler_accounts n rt h sv r uid u Hok Hu) as (u1 & Hu1 & Ha1).
    destruct (IH (n + 1) (snd (mainHandler rt h sv r)) uid u1) as (u' & Hu' & Ha');
      [apply mainHandler_ok; [done|lia|done|done]|lia|done|lia|done|].
    exists u'. split; [done|]. congruence.
Qed.

Lemma serve_sessions (steps : list (Runtime * Host * HttpRequest.t)) :
  forall n sv t uid user,
    server_ok n sv -> 0 <= n -> Forall step_ok steps ->
    n + Z.of_nat (length steps) < 2 ^ 62 ->
    sessions (serve sv steps) !! t = Some uid ->
    users (store (serve sv steps)) !! uid = Some user ->
    sessions sv !! t = Some uid \/
    Exists (opened (User.Username user) (User.PasswordHash user)) steps.
Proof.
  induction steps as [|[[rt h] r] steps IH];
    intros n sv t uid user Hok Hn Hsteps Hlen Ht Huser.
  - by left.
  - apply Forall_cons in Hsteps as [[Hrt Hr] Hsteps]. cbn [fst snd] in Hrt, Hr.
    cbn [length] in Hlen. unfold serve in Ht, Huser. cbn [foldl fst snd] in Ht, Huser.
    set (sv1 := snd (mainHandler rt h sv r)) in *.
    assert (Hok1 : server_ok (n + 1) sv1) by (apply mainHandler_ok; [done|lia|done|done]).
    destruct (IH (n + 1) sv1 t uid user Hok1) as [Ht1|Hlater]; [lia|done|lia|done|done| |].
    + destruct (ok_sessions _ _ Hok1 _ _ Ht1) as [user1 Hu1].
      destruct (serve_accounts steps (n + 1) sv1 uid user1 Hok1) as (u' & Hu' & Ha);
        [lia|done|lia|done|].
      unfold serve in Hu'. rewrite Huser in Hu'. injection Hu' as <-.
      injection Ha as _ Hname Hhash _ _.
      destruct (mainHandler_session n rt h sv r t uid user1 Hok Ht1 Hu1) as [H0|Hopen].
      * by left.
      * right. apply Exists_cons_hd. by rewrite Hname, Hhash.
    + right. by apply Exists_cons_tl.
Qed.

(** X28.  No session without the password.  After any sequence of fewer than
    2^62 requests to the server that [init] builds, every session token
    resolves to a user that exists, and one of the requests was a
    registration or a login under the name of that user with a password of
    which bcrypt made the hash the user has, or which bcrypt accepts
    against that hash.  For the administrator of [init] the name is
    "admin" and the hash is the one [init] stored: no request changes it. *)
Theorem sessions_need_password adminPass (steps : list (Runtime * Host * HttpRequest.t)) :
  Forall step_ok steps -> Z.of_nat (length steps) < 2 ^ 62 ->
  let sv := serve (initServer adminPass) steps in
  forall t uid,
    sessions sv !! t = Some uid ->
    exists user,
      users (store sv) !! uid = Some user /\
      Exists (opened (User.Username user) (User.PasswordHash user)) steps /\
      (uid = 1 -> User.Username user = "admin" /\ User.PasswordHash user = adminPass /\
                  User.IsAdmin user = true).
Proof.
  intros Hsteps Hlen sv t uid Ht.
  pose proof (initServer_ok adminPass) as Hinit.
  assert (Hok : server_ok (Z.of_nat (length steps)) sv).
  { pose proof (serve_ok steps 0 (initServer adminPass) Hinit) as H.
    rewrite Z.add_0_l in H. apply H; [lia|done|lia]. }
  destruct (ok_sessions _ _ Hok _ _ Ht) as [user Hu]. exists user. split; [done|].
  split.
  - destruct (serve_sessions steps 0 (initServer adminPass) t uid user Hinit)
      as [H0|Hopen]; [lia|done|lia|done|done| |done].
    cbn in H0. by rewrite lookup_empty in H0.
  - intros ->.
    destruct (serve_accounts steps 0 (initServer adminPass) 1
                (User.mk 1 "admin" adminPass true EmptyString 0 0 "Normal") Hinit)
      as (u' & Hu' & Ha); [lia|done|lia|reflexivity|].
    fold sv in Hu'. rewrite Hu in Hu'. injection Hu' as <-.
    by injection Ha as _ -> -> -> _.
Qed.

Lemma sessions_need_password_witness :
  exists user,
    users (store (serve (initServer "hash:admin123")
                    [(runtimeWith true, exampleHost,
                      HttpRequest.mk "POST" "/register" EmptyString EmptyString None
                        (Some (Credentials.mk "alice" "secret")) None None)]))
      !! 2 = Some user /\
    User.Username user = "alice".
Proof.
  destruct (sessions_need_password "hash:admin123"
              [(runtimeWith true, exampleHost,
                HttpRequest.mk "POST" "/register" EmptyString EmptyString None
                  (Some (Credentials.mk "alice" "secret")) None None)])
    with (t := tokenString 1700000000 3 1) (uid := 2)
    as (user & Hu & _ & _).
  - apply Forall_cons. split; [|apply Forall_nil_2].
    split; [apply runtimeWith_ok|]. cbn [snd].
    split; [|split]; intros x Hx; discriminate Hx.
  - cbn. lia.
  - vm_compute. reflexivity.
  - exists user. split; [exact Hu|].
    assert (E : users (store (serve (initServer "hash:admin123")
                    [(runtimeWith true, exampleHost,
                      HttpRequest.mk "POST" "/register" EmptyString EmptyString None
                        (Some (Credentials.mk "alice" "secret")) None None)]))
                  !! 2
                = Some (User.mk 2 "alice" "hash:secret" false (tokenString 1700000000 3 1)
                                0 0 "Normal")) by (vm_compute; reflexivity).
    rewrite E in Hu. injection Hu as <-. reflexivity.
Defined.

(** ** Nothing is lost *)

Lemma lines_stay_refl s : lines_stay s s.
Proof. intros k x Hk. by exists x. Qed.

Lemma lines_stay_trans s1 s2 s3 : lines_stay s1 s2 -> lines_stay s2 s3 -> lines_stay s1 s3.
Proof.
  intros H12 H23 k x1 Hk. destruct (H12 k x1 Hk) as (x2 & Hk2 & Hp & Hw).
  destruct (H23 k x2 Hk2) as (x3 & Hk3 & Hp' & Hw'). exists x3.
  split; [done|]. split; congruence.
Qed.

Lemma decrement_stays p wq s : lines_stay s (decrement p wq s).
Proof.
  unfold decrement. cbv zeta. destruct (s !! stockKey p (fst wq)) as [y|] eqn:Hy.
  - intros k x Hk. destruct (decide (k = stockKey p (fst wq))) as [->|Hne].
    + rewrite lookup_insert_eq. eexists. split; [done|]. rewrite Hy in Hk.
      injection Hk as <-. done.
    + rewrite lookup_insert_ne by done. by exists x.
  - apply lines_stay_refl.
Qed.

Lemma commit_stays p (l : list (Z * Z)) : forall s, lines_stay s (commit p l s).
Proof.
  induction l as [|wq l IH]; intros s; [apply lines_stay_refl|].
  change (commit p (wq :: l) s) with (commit p l (decrement p wq s)).
  eapply lines_stay_trans; [apply decrement_stays|apply IH].
Qed.

Lemma allocateStock_stays rt s p q : lines_stay s (snd (allocateStock rt s p q)).
Proof.
  unfold allocateStock. destruct (allocate_loop _ _ _) as [allocations remaining].
  destruct (remaining =? 0); cbn [snd]; [apply commit_stays|apply lines_stay_refl].
Qed.

Lemma allocateItems_stays rt (items : list OrderItem.t) :
  forall s, lines_stay s (snd (allocateItems rt s items)).
Proof.
  induction items as [|item rest IH]; intros s; [apply lines_stay_refl|].
  cbn [allocateItems].
  pose proof (allocateStock_stays rt s (OrderItem.ProductID item) (OrderItem.Quantity item))
    as H1.
  destruct (allocateStock rt s _ _) as [[ok plan] s1]. cbn [snd] in H1.
  destruct ok; [|done]. eapply lines_stay_trans; [exact H1|apply IH].
Qed.

Lemma grown_refl sv : grown sv sv.
Proof.
  repeat split; try done; try lia.
  - intros id u Hu. by exists u.
  - apply lines_stay_refl.
Qed.

Lemma grown_trans sv1 sv2 sv3 : grown sv1 sv2 -> grown sv2 sv3 -> grown sv1 sv3.
Proof.
  intros (Hp & Ho & Hu & Hn & Hs & Hl & H1 & H2 & H3 & H4)
         (Hp' & Ho' & Hu' & Hn' & Hs' & Hl' & H1' & H2' & H3' & H4').
  repeat split; try lia; eauto.
  - intros id u Hid. destruct (Hu id u Hid) as (u2 & Hid2 & Ha).
    destruct (Hu' id u2 Hid2) as (u3 & Hid3 & Ha'). exists u3. split; [done|]. congruence.
  - by eapply lines_stay_trans.
Qed.

(** What a checkout leaves in place. *)
Lemma placeOrder_grown n rt sv method authorization body :
  server_ok n sv -> 0 <= n < 2 ^ 62 ->
  grown sv (snd (placeOrder rt sv method authorization body)).
Proof.
  intros Hok Hn. unfold placeOrder. cbv zeta. cbn [snd].
  set (r := mkRequest _ _ _).
  pose proof (createOrderHandler_accounts rt (store sv) r) as Hacc.
  assert (Hrest :
    products (snd (createOrderHandler rt (store sv) r)) = products (store sv) /\
    lines_stay (stocks (store sv)) (stocks (snd (createOrderHandler rt (store sv) r))) /\
    ((orders (snd (createOrderHandler rt (store sv) r)) = orders (store sv) /\
      nextOrderID (snd (createOrderHandler rt (store sv) r)) = nextOrderID (store sv)) \/
     exists o,
       orders (snd (createOrderHandler rt (store sv) r))
       = <[nextOrderID (store sv) := o]> (orders (store sv)) /\
       nextOrderID (snd (createOrderHandler rt (store sv) r))
       = add64 (nextOrderID (store sv)) 1)).
  { destruct (createOrderHandler_run rt (store sv) r)
      as [[-> _]|(uid & user & req & coupon & subtotal & Hv)].
    { split; [done|]. split; [apply lines_stay_refl|by left]. }
    rewrite (createOrderHandler_validated _ _ _ _ _ _ _ _ Hv).
    destruct Hv as (_ & _ & Hu & _ & _ & Hp & _ & _).
    destruct (settleOrder_run rt (store sv) uid user req coupon subtotal Hu Hp)
      as (_ & Hs & Ho & Hnext & Hpr & _).
    rewrite Hs, Hpr. split; [done|]. split.
    - destruct (PaymentResult.Success _); [apply allocateItems_stays|apply lines_stay_refl].
    - right. eexists. split; [exact Ho|exact Hnext]. }
  set (st' := snd (createOrderHandler rt (store sv) r)) in *. clearbody st'.
  destruct Hrest as (Hpr & Hlines & Horders).
  pose proof (ok_nextOrderID _ _ Hok) as Hnext.
  pose proof (ok_orders _ _ Hok) as Hord.
  unfold grown. cbn [store setStore sessions usersByName nextProductID nextUserID tokenCounter].
  rewrite Hpr. split; [done|]. split; [|split; [|split; [done|split; [done|split; [done|]]]]].
  - intros id o Hid. destruct Horders as [[-> _]|(o' & -> & _)]; [done|].
    rewrite lookup_insert_ne; [done|]. intros <-.
    destruct (Hord _ _ Hid) as (_ & Hlt & _). lia.
  - intros id u Hu. destruct (accounts_kept_is_Some _ _ id Hacc) as [u' Hu']; [by eexists|].
    exists u'. split; [done|].
    destruct (accounts_kept_lookup _ _ _ _ Hacc Hu') as (u0 & Hu0 & Ha). congruence.
  - split; [lia|]. split; [lia|]. split; [|lia].
    destruct Horders as [[_ ->]|(o' & _ & ->)]; [lia|].
    rewrite add64_exact by (unfold int_ok; lia). lia.
Qed.

Lemma createProductHandler_grown n rt sv method authorization body :
  server_ok n sv -> 0 <= n < 2 ^ 62 ->
  grown sv (snd (createProductHandler rt sv method authorization body)).
Proof.
  intros Hok Hn.
  destruct (createProductHandler_run rt sv method authorization body)
    as [(status & message & -> & _)|(user & req & _ & _ & _ & _ & _ & _ & _ & _ & H)].
  { apply grown_refl. }
  cbv zeta in H. rewrite H. clear H. cbn [snd].
  set (new := nextProductID sv) in *.
  assert (Hnew : add64 new 1 = new + 1).
  { apply add64_exact. pose proof (ok_nextProductID _ _ Hok). unfold int_ok. subst new. lia. }
  assert (Hfresh : products (store sv) !! new = None).
  { destruct (products (store sv) !! new) eqn:E; [|done].
    apply (ok_products_below _ _ Hok) in E. lia. }
  unfold grown.
  cbn [store setStocks setProducts sessions usersByName nextProductID nextUserID
       tokenCounter stocks products users orders nextOrderID].
  split; [|split; [done|split; [|split; [done|split; [done|split]]]]].
  - intros id p Hid. rewrite lookup_insert_ne; [done|]. intros <-. congruence.
  - intros id u Hu. by exists u.
  - destruct (0 <? ProductRequest.InitialStock req); [|apply lines_stay_refl].
    intros k x Hk. rewrite lookup_insert_ne; [by exists x|]. intros <-.
    destruct (ok_stocks_wf _ _ Hok _ _ Hk) as [Hkey _].
    apply format_pair_inj in Hkey as [Hp _].
    destruct (ok_stocks_refer _ _ Hok _ _ Hk) as [_ [p Hprod]].
    rewrite <- Hp in Hprod. congruence.
  - lia.
Qed.

Lemma registerHandler_grown n h sv method body :
  server_ok n sv -> 0 <= n < 2 ^ 62 ->
  grown sv (snd (registerHandler h sv method body)).
Proof.
  intros Hok Hn. unfold registerHandler.
  destruct (negb (String.eqb method "POST")); [apply grown_refl|].
  destruct body as [req|]; [|apply grown_refl].
  destruct (_ || _); [apply grown_refl|].
  destruct (usersByName sv !! Credentials.Username req) as [uid|] eqn:Hname;
    [apply grown_refl|].
  destruct (bcrypt_GenerateFromPassword h (Credentials.Password req)) as [hash|];
    [|apply grown_refl].
  cbv zeta.
  set (sv1 := mkServer _ _ (sessions sv) (wishlists sv) (nextProductID sv) _
                       (tokenCounter sv)).
  assert (Htc : int_ok (tokenCounter sv + 1)).
  { pose proof (ok_tokenCounter _ _ Hok). unfold int_ok. lia. }
  pose proof (next_token_fresh h sv1 (ok_sessions_issued _ _ Hok) Htc) as Htoken.
  destruct (generateToken h sv1) as [token sv2] eqn:Hgen.
  unfold generateToken in Hgen. injection Hgen as <- <-.
  cbn [fst sessions] in Htoken. cbn [snd User.ID User.Username].
  set (new := nextUserID sv) in *.
  assert (Hnew : add64 new 1 = new + 1).
  { apply add64_exact. pose proof (ok_nextUserID _ _ Hok). unfold int_ok. subst new. lia. }
  assert (Hfresh : users (store sv) !! new = None).
  { destruct (users (store sv) !! new) eqn:E; [|done].
    apply (ok_users_below _ _ Hok) in E. lia. }
  unfold grown, sv1.
  cbn [store setStore setUsers setSessions setTokenCounter sessions usersByName
       nextProductID nextUserID tokenCounter stocks products users orders nextOrderID].
  split; [done|]. split; [done|]. split; [|split; [|split; [|split]]].
  - intros id u Hu. exists u.
    assert (Hne : new <> id) by (intros E; rewrite E in Hfresh; congruence).
    by rewrite !lookup_insert_ne.
  - intros name id Hid.
    assert (Hne : Credentials.Username req <> name)
      by (intros E; rewrite E in Hname; congruence).
    by rewrite lookup_insert_ne.
  - intros t id Hid. rewrite lookup_insert_ne; [done|]. intros <-.
    unfold sv1 in Htoken. cbn [sessions nextUserID tokenCounter] in Htoken. congruence.
  - apply lines_stay_refl.
  - pose proof (add64_exact (tokenCounter sv) 1 Htc). lia.
Qed.

Lemma loginHandler_grown n h sv method body :
  server_ok n sv -> 0 <= n < 2 ^ 62 ->
  grown sv (snd (loginHandler h sv method body)).
Proof.
  intros Hok Hn. unfold loginHandler.
  destruct (negb (String.eqb method "POST")); [apply grown_refl|].
  destruct body as [req|]; [|apply grown_refl].
  destruct (usersByName sv !! Credentials.Username req) as [uid|]; [|apply grown_refl].
  destruct (users (store sv) !! uid) as [user|]; [|apply grown_refl].
  destruct (negb _); [apply grown_refl|].
  assert (Htc : int_ok (tokenCounter sv + 1)).
  { pose proof (ok_tokenCounter _ _ Hok). unfold int_ok. lia. }
  pose proof (next_token_fresh h sv (ok_sessions_issued _ _ Hok) Htc) as Htoken.
  unfold generateToken in *. cbn [fst snd] in *.
  unfold grown.
  cbn [store setSessions setTokenCounter sessions usersByName
       nextProductID nextUserID tokenCounter].
  split; [done|]. split; [done|]. split; [|split; [done|split; [|split]]].
  - intros id u Hu. by exists u.
  - intros t id Hid. rewrite lookup_insert_ne; [done|]. intros <-. congruence.
  - apply lines_stay_refl.
  - rewrite add64_exact by done. lia.
Qed.

(** One request, whatever it is. *)
Lemma mainHandler_grown n rt h sv r :
  server_ok n sv -> 0 <= n < 2 ^ 62 -> grown sv (snd (mainHandler rt h sv r)).
Proof.
  intros Hok Hn. unfold mainHandler. cbv zeta.
  destruct (route (HttpRequest.Path r) (HttpRequest.Method r)); cbn [snd];
    try apply grown_refl.
  - pose proof (createProductHandler_grown n rt sv (HttpRequest.Method r)
                  (HttpRequest.Authorization r) (HttpRequest.productRequest r) Hok Hn) as H.
    by destruct (createProductHandler _ _ _ _ _) as [reply sv'].
  - pose proof (registerHandler_grown n h sv (HttpRequest.Method r)
                  (HttpRequest.credentials r) Hok Hn) as H.
    by destruct (registerHandler _ _ _ _) as [reply sv'].
  - pose proof (loginHandler_grown n h sv (HttpRequest.Method r)
                  (HttpRequest.credentials r) Hok Hn) as H.
    by destruct (loginHandler _ _ _ _) as [reply sv'].
  - pose proof (placeOrder_grown n rt sv (HttpRequest.Method r) (HttpRequest.Authorization r)
                  (HttpRequest.orderRequest r) Hok Hn) as H.
    by destruct (placeOrder _ _ _ _ _) as [resp sv'].
  - destruct (wishlistHandlers_run sv (HttpRequest.Method r) (HttpRequest.Authorization r)
                (HttpRequest.pathID r)) as [Hadd _].
    cbv zeta in Hadd. destruct (addToWishlistHandler _ _ _ _) as [reply sv'].
    cbn [fst snd] in *. destruct reply as [status msg|status id].
    + destruct Hadd as [_ ->]. apply grown_refl.
    + destruct Hadd as (_ & _ & _ & user & _ & _ & _ & ->). exact (grown_refl sv).
  - destruct (wishlistHandlers_run sv (HttpRequest.Method r) (HttpRequest.Authorization r)
                (HttpRequest.pathID r)) as [_ Hrem].
    cbv zeta in Hrem. destruct (removeFromWishlistHandler _ _ _ _) as [reply sv'].
    cbn [fst snd] in *. destruct reply as [status msg|status id].
    + destruct Hrem as [_ ->]. apply grown_refl.
    + destruct Hrem as (_ & _ & _ & user & _ & _ & ->). exact (grown_refl sv).
Qed.

Lemma serve_grown (steps : list (Runtime * Host * HttpRequest.t)) :
  forall n sv,
    server_ok n sv -> 0 <= n -> Forall step_ok steps ->
    n + Z.of_nat (length steps) < 2 ^ 62 ->
    grown sv (serve sv steps).
Proof.
  induction steps as [|[[rt h] r] steps IH]; intros n sv Hok Hn Hsteps Hlen.
  - apply grown_refl.
  - apply Forall_cons in Hsteps as [[Hrt Hr] Hsteps]. cbn [fst snd] in Hrt, Hr.
    cbn [length] in Hlen. unfold serve. cbn [foldl fst snd].
    eapply grown_trans; [apply (mainHandler_grown n); [done|lia]|].
    apply (IH (n + 1)); [|lia|done|lia]. apply mainHandler_ok; [done|lia|done|done].
Qed.

(** X29.  Nothing is lost.  What there is after some requests to the server
    that [init] builds is still there after any further requests (fewer
    than 2^62 in all): every product and every order as it was, every user
    with the same ID, name, password hash, administrator flag and token,
    every entry of the name index, every session with the user it resolves
    to, and every stock line under its key with its product and warehouse;
    and no counter has gone down.  So no ID, no user name and no session
    token is ever given out twice. *)
Theorem serve_only_grows adminPass (steps more : list (Runtime * Host * HttpRequest.t)) :
  Forall step_ok (steps ++ more) -> Z.of_nat (length (steps ++ more)) < 2 ^ 62 ->
  grown (serve (initServer adminPass) steps) (serve (initServer adminPass) (steps ++ more)).
Proof.
  intros Hsteps Hlen. apply Forall_app in Hsteps as [Hsteps Hmore].
  rewrite length_app, Nat2Z.inj_add in Hlen.
  unfold serve at 2. rewrite foldl_app. fold (serve (initServer adminPass) steps).
  apply (serve_grown more (Z.of_nat (length steps))); [|lia|done|lia].
  pose proof (serve_ok steps 0 (initServer adminPass) (initServer_ok adminPass)) as H.
  rewrite Z.add_0_l in H. apply H; [lia|done|lia].
Qed.

Lemma serve_only_grows_witness :
  grown (initServer "hash:admin123")
    (serve (initServer "hash:admin123")
       [(runtimeWith true, exampleHost,
         HttpRequest.mk "POST" "/register" EmptyString EmptyString None
           (Some (Credentials.mk "alice" "secret")) None None)]).
Proof.
  apply (serve_only_grows "hash:admin123" []
           [(runtimeWith true, exampleHost,
             HttpRequest.mk "POST" "/register" EmptyString EmptyString None
               (Some (Credentials.mk "alice" "secret")) None None)]).
  - apply Forall_cons. split; [|apply Forall_nil_2].
    split; [apply runtimeWith_ok|]. cbn [snd].
    split; [|split]; intros x Hx; discriminate Hx.
  - cbn. lia.
Defined.

(** ** A completed order on the other pages *)

(** The summary of the report, by the orders of the store. *)
Lemma salesSummary_counts rt h st :
  host_ok h ->
  let all := snd <$> map_to_list (orders st) in
  let summary := SalesReportResponse.SalesSummary (generateSalesReport rt h st) in
  SalesSummary.TotalOrders summary = wrap64 (Z.of_nat (length (filter completed all))) /\
  SalesSummary.TotalRevenue summary
  = wrap64 (sumZ (Order.TotalPrice <$> filter completed all)).
Proof.
  intros Hh all summary. subst summary. unfold generateSalesReport.
  cbn [SalesReportResponse.SalesSummary SalesSummary.TotalOrders SalesSummary.TotalRevenue].
  fold emptyTally.
  destruct (tally_fold (snd <$> range_orders h (orders st)) emptyTally)
    as (Hrev & Hdone & _).
  cbn [totalRevenue completedOrders emptyTally] in Hrev, Hdone.
  rewrite Hrev, Hdone. split.
  - by apply count_wrapped.
  - rewrite foldl_add64 by apply int_ok_0. rewrite Z.add_0_l. f_equal.
    apply sumZ_perm. by rewrite (range_orders_perm h Hh st).
Qed.

(** What a checkout that answers 201 has done. *)
Lemma settleOrder_created rt st uid user req coupon subtotal order tx points rank st' :
  users st !! uid = Some user -> 0 <= UsePoints req <= User.CurrentPoints user ->
  settleOrder rt st uid user req coupon subtotal = (Created order tx points rank, st') ->
  let p := computePricing subtotal (User.MemberRank user) coupon (UsePoints req) in
  order = orderOf rt st uid req p "completed" /\
  orders st' = <[nextOrderID st := order]> (orders st) /\
  exists u', users st' !! uid = Some u' /\ points = User.CurrentPoints u' /\
             rank = User.MemberRank u' /\ account u' = account user.
Proof.
  intros Hu Hpts Hrun p.
  pose proof (settleOrder_accounts rt st uid user req coupon subtotal) as Hacc.
  rewrite Hrun in Hacc. cbn [snd] in Hacc.
  destruct (accounts_kept_is_Some _ _ uid Hacc) as [u' Hu']; [by eexists|].
  destruct (accounts_kept_lookup _ _ _ _ Hacc Hu') as (u0 & Hu0 & Ha).
  assert (u0 = user) as -> by congruence. clear Hu0 Hacc.
  assert (Ho : orders st' = <[nextOrderID st := orderOf rt st uid req p "completed"]>
                              (orders st)).
  { destruct (settleOrder_run rt st uid user req coupon subtotal Hu Hpts)
      as (Hcode & _ & Ho & _).
    rewrite Hrun in Hcode, Ho. cbn [fst snd statusCode] in Hcode, Ho. fold p in Hcode, Ho.
    destruct (PaymentResult.Success _); [|discriminate Hcode].
    destruct (fst (allocateItems rt (stocks st) (Items req))); [|discriminate Hcode].
    exact Ho. }
  unfold settleOrder in Hrun. fold p in Hrun. clearbody p.
  destruct (pointsTaken rt st uid user req Hu Hpts) as (st1 & Hpt & _).
  rewrite Hpt in Hrun. clear Hpt.
  assert (H0 : (0 <? UsePoints req) && negb (0 <? UsePoints req) = false)
    by (by destruct (0 <? UsePoints req)).
  rewrite H0 in Hrun. clear H0.
  destruct (PaymentResult.Success _); [|discriminate Hrun].
  destruct (allocateItems rt (stocks st1) (Items req)) as [all s2].
  destruct all; cbn [negb] in Hrun; [|discriminate Hrun].
  injection Hrun as Horder _ Hpoints Hrank Hst.
  assert (Hord : order = orderOf rt st uid req p "completed") by (by rewrite <- Horder).
  split; [done|]. split; [by rewrite Hord|].
  exists u'. split; [done|]. rewrite <- Hst, saveOrder_users in Hu'.
  rewrite Hu' in Hpoints, Hrank. cbn [default] in Hpoints, Hrank. done.
Qed.

(** X30.  A completed order shows on the other pages.  When the server is in
    a consistent state and a checkout is answered 201, the account page of
    the buyer ([getUserInfoHandler], same credentials) shows the points and
    the rank that the answer to the checkout reported, for the same user;
    the order is stored as completed under an ID that was not in use; and
    the summary of the sales report counts one order more and the total of
    the order more than before (as [int]s), whatever the order of the
    ranges. *)
Theorem completed_order_is_reported n rt rt' h sv method authorization body
    order tx points rank sv' :
  server_ok n sv -> host_ok h ->
  placeOrder rt sv method authorization body = (Created order tx points rank, sv') ->
  (exists user info,
     authUser sv authorization = Some user /\
     getUserInfoHandler sv' "GET" authorization = Json 200 info /\
     UserInfoResponse.ID info = User.ID user /\
     UserInfoResponse.Username info = User.Username user /\
     UserInfoResponse.IsAdmin info = User.IsAdmin user /\
     UserInfoResponse.CurrentPoints info = points /\
     UserInfoResponse.Rank info = rank /\
     Order.UserID order = User.ID user) /\
  Order.Status order = "completed" /\
  orders (store sv) !! Order.ID order = None /\
  orders (store sv') !! Order.ID order = Some order /\
  let before := SalesReportResponse.SalesSummary (generateSalesReport rt' h (store sv)) in
  let after := SalesReportResponse.SalesSummary (generateSalesReport rt' h (store sv')) in
  SalesSummary.TotalOrders after = add64 (SalesSummary.TotalOrders before) 1 /\
  SalesSummary.TotalRevenue after
  = add64 (SalesSummary.TotalRevenue before) (Order.TotalPrice order).
Proof.
  intros Hok Hh Hrun. unfold placeOrder in Hrun. cbv zeta in Hrun.
  set (q := mkRequest method (getAuthUser sv authorization) body) in Hrun.
  injection Hrun as Hreply Hsv.
  destruct (createOrderHandler_run rt (store sv) q)
    as [[_ Hcode]|(uid & user & req & coupon & subtotal & Hv)].
  { rewrite Hreply in Hcode. cbn [statusCode] in Hcode. exfalso. listed. }
  pose proof (createOrderHandler_validated _ _ _ _ _ _ _ _ Hv) as Hsettle.
  destruct Hv as (_ & Hauth & Hu & _ & _ & Hp & _ & _). cbn [Auth q] in Hauth.
  assert (Hrun : settleOrder rt (store sv) uid user req coupon subtotal
                 = (Created order tx points rank, store sv')).
  { rewrite <- Hsettle, <- Hsv. cbn [store setStore].
    rewrite <- Hreply. by destruct (createOrderHandler rt (store sv) q). }
  clear Hsettle Hreply.
  destruct (settleOrder_created _ _ _ _ _ _ _ _ _ _ _ _ Hu Hp Hrun)
    as (Horder & Horders & u' & Hu' & Hpoints & Hrank & Ha).
  set (p := computePricing _ _ _ _) in *. clearbody p.
  assert (Hid : Order.ID order = nextOrderID (store sv)) by (by rewrite Horder).
  assert (Hfresh : orders (store sv) !! nextOrderID (store sv) = None).
  { destruct (orders (store sv) !! nextOrderID (store sv)) eqn:E; [|done].
    destruct (ok_orders _ _ Hok _ _ E) as (_ & Hlt & _). lia. }
  assert (Hcompleted : completed order) by (by rewrite Horder).
  split; [|split; [done|split; [by rewrite Hid|split; [by rewrite Horders, Hid, lookup_insert_eq|]]]].
  - exists user, (UserInfoResponse.mk (User.ID u') (User.Username u') (User.IsAdmin u')
                    (User.MemberRank u') (User.TotalSpentAmount u') (User.CurrentPoints u')).
    assert (Hauth' : authUser sv authorization = Some user).
    { unfold authUser. by rewrite Hauth. }
    split; [done|]. split.
    + assert (Hsess : sessions sv' = sessions sv) by (by rewrite <- Hsv).
      assert (Hauth2 : authUser sv' authorization = Some u').
      { unfold authUser.
        replace (getAuthUser sv' authorization) with (getAuthUser sv authorization)
          by (unfold getAuthUser; by rewrite Hsess).
        by rewrite Hauth. }
      unfold getUserInfoHandler. cbn [String.eqb Ascii.eqb Bool.eqb negb].
      by rewrite Hauth2.
    + injection Ha as -> -> _ -> _. cbn. repeat (split; [done|]).
      rewrite Horder. cbn. symmetry. by apply (ok_users_wf _ _ Hok).
  - intros before after. subst before after.
    destruct (salesSummary_counts rt' h (store sv) Hh) as [-> ->].
    destruct (salesSummary_counts rt' h (store sv') Hh) as [-> ->].
    assert (Hperm : snd <$> map_to_list (orders (store sv'))
                    ≡ₚ order :: (snd <$> map_to_list (orders (store sv)))).
    { rewrite Horders, map_to_list_insert by done. done. }
    assert (Hfilter : filter completed (snd <$> map_to_list (orders (store sv')))
                      ≡ₚ order :: filter completed (snd <$> map_to_list (orders (store sv)))).
    { rewrite Hperm. by rewrite filter_cons_True. }
    rewrite (Permutation_length Hfilter).
    rewrite (sumZ_perm _ _ (fmap_Permutation Order.TotalPrice _ _ Hfilter)).
    rewrite fmap_cons, sumZ_cons. cbn [length]. unfold add64.
    rewrite !wrap64_add_l. split; f_equal; lia.
Qed.

Lemma completed_order_is_reported_witness :
  let sv := serve (initServer "hash:admin123")
              [(runtimeWith true, exampleHost,
                HttpRequest.mk "POST" "/register" EmptyString EmptyString None
                  (Some (Credentials.mk "alice" "secret")) None None)] in
  exists order tx points rank sv',
    placeOrder (runtimeWith true) sv "POST" ("Bearer " +:+ tokenString 1700000000 3 1)
      (Some (mkOrderRequest [OrderItem.mk 2 1] noCoupon 0))
    = (Created order tx points rank, sv') /\
    Order.Status order = "completed" /\
    orders (store sv') !! Order.ID order = Some order.
Proof.
  intros sv.
  assert (Hok : server_ok (0 + Z.of_nat 1) sv).
  { apply (serve_ok [(runtimeWith true, exampleHost,
                      HttpRequest.mk "POST" "/register" EmptyString EmptyString None
                        (Some (Credentials.mk "alice" "secret")) None None)]
             0 (initServer "hash:admin123") (initServer_ok _)); [lia| |cbn; lia].
    apply Forall_cons. split; [|apply Forall_nil_2].
    split; [apply runtimeWith_ok|]. cbn [snd].
    split; [|split]; intros x Hx; discriminate Hx. }
  assert (Hrun : exists order tx points rank sv',
            placeOrder (runtimeWith true) sv "POST"
              ("Bearer " +:+ tokenString 1700000000 3 1)
              (Some (mkOrderRequest [OrderItem.mk 2 1] noCoupon 0))
            = (Created order tx points rank, sv')).
  { vm_compute. eexists _, _, _, _, _. reflexivity. }
  destruct Hrun as (order & tx & points & rank & sv' & Hrun).
  destruct (completed_order_is_reported _ (runtimeWith true) (runtimeWith true) exampleHost
              sv "POST" _ _ order tx points rank sv' Hok exampleHost_ok Hrun)
    as (_ & Hstatus & _ & Hstored & _).
  exists order, tx, points, rank, sv'. split; [exact Hrun|]. split; [exact Hstatus|exact Hstored].
Defined.
